(** * BOM / self-purchase parts-list toolkit: record resolution,
      classification, deduplication and aggregation

    Shallow embedding of the pandas pipelines of
    [process_non_self_purchase_components.py], [extract_bom_components.py]
    and [modacc_accessory_processor.py], and the properties of their
    column resolver, purchase classifier, component classifier, module-name
    extraction, deduplicator, aggregator and regular/special split; of
    their file discovery, record extraction and report sheets; and of the
    folder test of [mod_acc_list_gen.py], whose lists the accessory script
    reads. *)

From Stdlib Require Import NArith ZArith List Ascii String QArith Qcanon Lia.
From stdpp Require Import base numbers option list.

Local Open Scope N_scope.

(* ===================================================================== *)
(** * Python strings                                                      *)
(* ===================================================================== *)

(** A Python [str] is a sequence of Unicode code points. *)
Definition char := N.
Definition pystr := list char.

(** Source literals are written as UTF-8 text and decoded to code points. *)
Fixpoint utf8_decode (bs : list N) : pystr :=
  match bs with
  | [] => []
  | b :: r0 =>
    if b <? 0x80 then b :: utf8_decode r0
    else if b <? 0xE0 then
      match r0 with
      | c1 :: r1 =>
        N.lor (N.shiftl (N.land b 0x1F) 6) (N.land c1 0x3F) :: utf8_decode r1
      | [] => []
      end
    else if b <? 0xF0 then
      match r0 with
      | c1 :: c2 :: r2 =>
        N.lor (N.shiftl (N.land b 0x0F) 12)
          (N.lor (N.shiftl (N.land c1 0x3F) 6) (N.land c2 0x3F)) :: utf8_decode r2
      | _ => []
      end
    else
      match r0 with
      | c1 :: c2 :: c3 :: r3 =>
        N.lor (N.shiftl (N.land b 0x07) 18)
          (N.lor (N.shiftl (N.land c1 0x3F) 12)
             (N.lor (N.shiftl (N.land c2 0x3F) 6) (N.land c3 0x3F))) :: utf8_decode r3
      | _ => []
      end
  end.

Definition py (s : string) : pystr :=
  utf8_decode (map N_of_ascii (list_ascii_of_string s)).

(** [str.isspace] on one code point: the whitespace set of CPython. *)
Definition isspace (c : char) : bool :=
  ((0x09 <=? c) && (c <=? 0x0D)) || ((0x1C <=? c) && (c <=? 0x20))
  || (c =? 0x85) || (c =? 0xA0) || (c =? 0x1680)
  || ((0x2000 <=? c) && (c <=? 0x200A))
  || (c =? 0x2028) || (c =? 0x2029) || (c =? 0x202F) || (c =? 0x205F)
  || (c =? 0x3000).

Fixpoint lstrip (s : pystr) : pystr :=
  match s with
  | [] => []
  | c :: s' => if isspace c then lstrip s' else s
  end.

Definition rstrip (s : pystr) : pystr := rev (lstrip (rev s)).

(** [s.strip()] *)
Definition strip (s : pystr) : pystr := rstrip (lstrip s).

(** [s.replace(c, '')] for a one-character [c]. *)
Definition remove_char (c : char) (s : pystr) : pystr :=
  List.filter (fun d => negb (d =? c)) s.

(* ===================================================================== *)
(** * The character tables of the interpreter                             *)
(* ===================================================================== *)

(** [str.lower], [str.upper], the class [\d] and [re.IGNORECASE] go by the
    Unicode Character Database. The tables are those of CPython 3.11
    (Unicode 14.0), in the form the functions below read them. *)

(** A run [(first, last, step, image)] stands for the code points [first],
    [first + step], ... up to [last], with the images [image],
    [image + step], ... *)
Definition run : Type := N * N * N * N.

Definition in_run (c : char) (r : run) : bool :=
  let '(first, last, step, _) := r in
  (first <=? c) && (c <=? last) && ((c - first) mod step =? 0).

Definition image (table : list run) (c : char) : char :=
  match List.find (in_run c) table with
  | Some (first, _, _, image) => image + (c - first)
  | None => c
  end.

Definition in_ranges (table : list (N * N)) (c : char) : bool :=
  existsb (fun '(first, last) => (first <=? c) && (c <=? last)) table.

Definition entry (table : list (N * list N)) (c : char) : option (list N) :=
  snd <$> List.find (fun e => fst e =? c) table.

(** The lower-case image of one code point ([_PyUnicode_ToLowercase]). *)
Definition lowercase_table : list run :=
  [
   (0x41, 0x5A, 1, 0x61); (0xC0, 0xD6, 1, 0xE0); (0xD8, 0xDE, 1, 0xF8);
   (0x100, 0x12E, 2, 0x101); (0x130, 0x130, 1, 0x69); (0x132, 0x136, 2, 0x133);
   (0x139, 0x147, 2, 0x13A); (0x14A, 0x176, 2, 0x14B); (0x178, 0x178, 1, 0xFF);
   (0x179, 0x17D, 2, 0x17A); (0x181, 0x181, 1, 0x253); (0x182, 0x184, 2, 0x183);
   (0x186, 0x186, 1, 0x254); (0x187, 0x187, 1, 0x188); (0x189, 0x18A, 1, 0x256);
   (0x18B, 0x18B, 1, 0x18C); (0x18E, 0x18E, 1, 0x1DD); (0x18F, 0x18F, 1, 0x259);
   (0x190, 0x190, 1, 0x25B); (0x191, 0x191, 1, 0x192); (0x193, 0x193, 1, 0x260);
   (0x194, 0x194, 1, 0x263); (0x196, 0x196, 1, 0x269); (0x197, 0x197, 1, 0x268);
   (0x198, 0x198, 1, 0x199); (0x19C, 0x19C, 1, 0x26F); (0x19D, 0x19D, 1, 0x272);
   (0x19F, 0x19F, 1, 0x275); (0x1A0, 0x1A4, 2, 0x1A1); (0x1A6, 0x1A6, 1, 0x280);
   (0x1A7, 0x1A7, 1, 0x1A8); (0x1A9, 0x1A9, 1, 0x283); (0x1AC, 0x1AC, 1, 0x1AD);
   (0x1AE, 0x1AE, 1, 0x288); (0x1AF, 0x1AF, 1, 0x1B0); (0x1B1, 0x1B2, 1, 0x28A);
   (0x1B3, 0x1B5, 2, 0x1B4); (0x1B7, 0x1B7, 1, 0x292); (0x1B8, 0x1B8, 1, 0x1B9);
   (0x1BC, 0x1BC, 1, 0x1BD); (0x1C4, 0x1C4, 1, 0x1C6); (0x1C5, 0x1C5, 1, 0x1C6);
   (0x1C7, 0x1C7, 1, 0x1C9); (0x1C8, 0x1C8, 1, 0x1C9); (0x1CA, 0x1CA, 1, 0x1CC);
   (0x1CB, 0x1DB, 2, 0x1CC); (0x1DE, 0x1EE, 2, 0x1DF); (0x1F1, 0x1F1, 1, 0x1F3);
   (0x1F2, 0x1F4, 2, 0x1F3); (0x1F6, 0x1F6, 1, 0x195); (0x1F7, 0x1F7, 1, 0x1BF);
   (0x1F8, 0x21E, 2, 0x1F9); (0x220, 0x220, 1, 0x19E); (0x222, 0x232, 2, 0x223);
   (0x23A, 0x23A, 1, 0x2C65); (0x23B, 0x23B, 1, 0x23C); (0x23D, 0x23D, 1, 0x19A);
   (0x23E, 0x23E, 1, 0x2C66); (0x241, 0x241, 1, 0x242); (0x243, 0x243, 1, 0x180);
   (0x244, 0x244, 1, 0x289); (0x245, 0x245, 1, 0x28C); (0x246, 0x24E, 2, 0x247);
   (0x370, 0x372, 2, 0x371); (0x376, 0x376, 1, 0x377); (0x37F, 0x37F, 1, 0x3F3);
   (0x386, 0x386, 1, 0x3AC); (0x388, 0x38A, 1, 0x3AD); (0x38C, 0x38C, 1, 0x3CC);
   (0x38E, 0x38F, 1, 0x3CD); (0x391, 0x3A1, 1, 0x3B1); (0x3A3, 0x3AB, 1, 0x3C3);
   (0x3CF, 0x3CF, 1, 0x3D7); (0x3D8, 0x3EE, 2, 0x3D9); (0x3F4, 0x3F4, 1, 0x3B8);
   (0x3F7, 0x3F7, 1, 0x3F8); (0x3F9, 0x3F9, 1, 0x3F2); (0x3FA, 0x3FA, 1, 0x3FB);
   (0x3FD, 0x3FF, 1, 0x37B); (0x400, 0x40F, 1, 0x450); (0x410, 0x42F, 1, 0x430);
   (0x460, 0x480, 2, 0x461); (0x48A, 0x4BE, 2, 0x48B); (0x4C0, 0x4C0, 1, 0x4CF);
   (0x4C1, 0x4CD, 2, 0x4C2); (0x4D0, 0x52E, 2, 0x4D1); (0x531, 0x556, 1, 0x561);
   (0x10A0, 0x10C5, 1, 0x2D00); (0x10C7, 0x10C7, 1, 0x2D27); (0x10CD, 0x10CD, 1, 0x2D2D);
   (0x13A0, 0x13EF, 1, 0xAB70); (0x13F0, 0x13F5, 1, 0x13F8); (0x1C90, 0x1CBA, 1, 0x10D0);
   (0x1CBD, 0x1CBF, 1, 0x10FD); (0x1E00, 0x1E94, 2, 0x1E01); (0x1E9E, 0x1E9E, 1, 0xDF);
   (0x1EA0, 0x1EFE, 2, 0x1EA1); (0x1F08, 0x1F0F, 1, 0x1F00); (0x1F18, 0x1F1D, 1, 0x1F10);
   (0x1F28, 0x1F2F, 1, 0x1F20); (0x1F38, 0x1F3F, 1, 0x1F30); (0x1F48, 0x1F4D, 1, 0x1F40);
   (0x1F59, 0x1F5F, 2, 0x1F51); (0x1F68, 0x1F6F, 1, 0x1F60); (0x1F88, 0x1F8F, 1, 0x1F80);
   (0x1F98, 0x1F9F, 1, 0x1F90); (0x1FA8, 0x1FAF, 1, 0x1FA0); (0x1FB8, 0x1FB9, 1, 0x1FB0);
   (0x1FBA, 0x1FBB, 1, 0x1F70); (0x1FBC, 0x1FBC, 1, 0x1FB3); (0x1FC8, 0x1FCB, 1, 0x1F72);
   (0x1FCC, 0x1FCC, 1, 0x1FC3); (0x1FD8, 0x1FD9, 1, 0x1FD0); (0x1FDA, 0x1FDB, 1, 0x1F76);
   (0x1FE8, 0x1FE9, 1, 0x1FE0); (0x1FEA, 0x1FEB, 1, 0x1F7A); (0x1FEC, 0x1FEC, 1, 0x1FE5);
   (0x1FF8, 0x1FF9, 1, 0x1F78); (0x1FFA, 0x1FFB, 1, 0x1F7C); (0x1FFC, 0x1FFC, 1, 0x1FF3);
   (0x2126, 0x2126, 1, 0x3C9); (0x212A, 0x212A, 1, 0x6B); (0x212B, 0x212B, 1, 0xE5);
   (0x2132, 0x2132, 1, 0x214E); (0x2160, 0x216F, 1, 0x2170); (0x2183, 0x2183, 1, 0x2184);
   (0x24B6, 0x24CF, 1, 0x24D0); (0x2C00, 0x2C2F, 1, 0x2C30); (0x2C60, 0x2C60, 1, 0x2C61);
   (0x2C62, 0x2C62, 1, 0x26B); (0x2C63, 0x2C63, 1, 0x1D7D); (0x2C64, 0x2C64, 1, 0x27D);
   (0x2C67, 0x2C6B, 2, 0x2C68); (0x2C6D, 0x2C6D, 1, 0x251); (0x2C6E, 0x2C6E, 1, 0x271);
   (0x2C6F, 0x2C6F, 1, 0x250); (0x2C70, 0x2C70, 1, 0x252); (0x2C72, 0x2C72, 1, 0x2C73);
   (0x2C75, 0x2C75, 1, 0x2C76); (0x2C7E, 0x2C7F, 1, 0x23F); (0x2C80, 0x2CE2, 2, 0x2C81);
   (0x2CEB, 0x2CED, 2, 0x2CEC); (0x2CF2, 0x2CF2, 1, 0x2CF3); (0xA640, 0xA66C, 2, 0xA641);
   (0xA680, 0xA69A, 2, 0xA681); (0xA722, 0xA72E, 2, 0xA723); (0xA732, 0xA76E, 2, 0xA733);
   (0xA779, 0xA77B, 2, 0xA77A); (0xA77D, 0xA77D, 1, 0x1D79); (0xA77E, 0xA786, 2, 0xA77F);
   (0xA78B, 0xA78B, 1, 0xA78C); (0xA78D, 0xA78D, 1, 0x265); (0xA790, 0xA792, 2, 0xA791);
   (0xA796, 0xA7A8, 2, 0xA797); (0xA7AA, 0xA7AA, 1, 0x266); (0xA7AB, 0xA7AB, 1, 0x25C);
   (0xA7AC, 0xA7AC, 1, 0x261); (0xA7AD, 0xA7AD, 1, 0x26C); (0xA7AE, 0xA7AE, 1, 0x26A);
   (0xA7B0, 0xA7B0, 1, 0x29E); (0xA7B1, 0xA7B1, 1, 0x287); (0xA7B2, 0xA7B2, 1, 0x29D);
   (0xA7B3, 0xA7B3, 1, 0xAB53); (0xA7B4, 0xA7C2, 2, 0xA7B5); (0xA7C4, 0xA7C4, 1, 0xA794);
   (0xA7C5, 0xA7C5, 1, 0x282); (0xA7C6, 0xA7C6, 1, 0x1D8E); (0xA7C7, 0xA7C9, 2, 0xA7C8);
   (0xA7D0, 0xA7D0, 1, 0xA7D1); (0xA7D6, 0xA7D8, 2, 0xA7D7); (0xA7F5, 0xA7F5, 1, 0xA7F6);
   (0xFF21, 0xFF3A, 1, 0xFF41); (0x10400, 0x10427, 1, 0x10428); (0x104B0, 0x104D3, 1, 0x104D8);
   (0x10570, 0x1057A, 1, 0x10597); (0x1057C, 0x1058A, 1, 0x105A3);
   (0x1058C, 0x10592, 1, 0x105B3); (0x10594, 0x10595, 1, 0x105BB);
   (0x10C80, 0x10CB2, 1, 0x10CC0); (0x118A0, 0x118BF, 1, 0x118C0);
   (0x16E40, 0x16E5F, 1, 0x16E60); (0x1E900, 0x1E921, 1, 0x1E922)
  ].

(** The upper-case image of the code points whose image is one code point. *)
Definition uppercase_table : list run :=
  [
   (0x61, 0x7A, 1, 0x41); (0xB5, 0xB5, 1, 0x39C); (0xE0, 0xF6, 1, 0xC0); (0xF8, 0xFE, 1, 0xD8);
   (0xFF, 0xFF, 1, 0x178); (0x101, 0x12F, 2, 0x100); (0x131, 0x131, 1, 0x49);
   (0x133, 0x137, 2, 0x132); (0x13A, 0x148, 2, 0x139); (0x14B, 0x177, 2, 0x14A);
   (0x17A, 0x17E, 2, 0x179); (0x17F, 0x17F, 1, 0x53); (0x180, 0x180, 1, 0x243);
   (0x183, 0x185, 2, 0x182); (0x188, 0x188, 1, 0x187); (0x18C, 0x18C, 1, 0x18B);
   (0x192, 0x192, 1, 0x191); (0x195, 0x195, 1, 0x1F6); (0x199, 0x199, 1, 0x198);
   (0x19A, 0x19A, 1, 0x23D); (0x19E, 0x19E, 1, 0x220); (0x1A1, 0x1A5, 2, 0x1A0);
   (0x1A8, 0x1A8, 1, 0x1A7); (0x1AD, 0x1AD, 1, 0x1AC); (0x1B0, 0x1B0, 1, 0x1AF);
   (0x1B4, 0x1B6, 2, 0x1B3); (0x1B9, 0x1B9, 1, 0x1B8); (0x1BD, 0x1BD, 1, 0x1BC);
   (0x1BF, 0x1BF, 1, 0x1F7); (0x1C5, 0x1C5, 1, 0x1C4); (0x1C6, 0x1C6, 1, 0x1C4);
   (0x1C8, 0x1C8, 1, 0x1C7); (0x1C9, 0x1C9, 1, 0x1C7); (0x1CB, 0x1CB, 1, 0x1CA);
   (0x1CC, 0x1CC, 1, 0x1CA); (0x1CE, 0x1DC, 2, 0x1CD); (0x1DD, 0x1DD, 1, 0x18E);
   (0x1DF, 0x1EF, 2, 0x1DE); (0x1F2, 0x1F2, 1, 0x1F1); (0x1F3, 0x1F3, 1, 0x1F1);
   (0x1F5, 0x1F5, 1, 0x1F4); (0x1F9, 0x21F, 2, 0x1F8); (0x223, 0x233, 2, 0x222);
   (0x23C, 0x23C, 1, 0x23B); (0x23F, 0x240, 1, 0x2C7E); (0x242, 0x242, 1, 0x241);
   (0x247, 0x24F, 2, 0x246); (0x250, 0x250, 1, 0x2C6F); (0x251, 0x251, 1, 0x2C6D);
   (0x252, 0x252, 1, 0x2C70); (0x253, 0x253, 1, 0x181); (0x254, 0x254, 1, 0x186);
   (0x256, 0x257, 1, 0x189); (0x259, 0x259, 1, 0x18F); (0x25B, 0x25B, 1, 0x190);
   (0x25C, 0x25C, 1, 0xA7AB); (0x260, 0x260, 1, 0x193); (0x261, 0x261, 1, 0xA7AC);
   (0x263, 0x263, 1, 0x194); (0x265, 0x265, 1, 0xA78D); (0x266, 0x266, 1, 0xA7AA);
   (0x268, 0x268, 1, 0x197); (0x269, 0x269, 1, 0x196); (0x26A, 0x26A, 1, 0xA7AE);
   (0x26B, 0x26B, 1, 0x2C62); (0x26C, 0x26C, 1, 0xA7AD); (0x26F, 0x26F, 1, 0x19C);
   (0x271, 0x271, 1, 0x2C6E); (0x272, 0x272, 1, 0x19D); (0x275, 0x275, 1, 0x19F);
   (0x27D, 0x27D, 1, 0x2C64); (0x280, 0x280, 1, 0x1A6); (0x282, 0x282, 1, 0xA7C5);
   (0x283, 0x283, 1, 0x1A9); (0x287, 0x287, 1, 0xA7B1); (0x288, 0x288, 1, 0x1AE);
   (0x289, 0x289, 1, 0x244); (0x28A, 0x28B, 1, 0x1B1); (0x28C, 0x28C, 1, 0x245);
   (0x292, 0x292, 1, 0x1B7); (0x29D, 0x29D, 1, 0xA7B2); (0x29E, 0x29E, 1, 0xA7B0);
   (0x345, 0x345, 1, 0x399); (0x371, 0x373, 2, 0x370); (0x377, 0x377, 1, 0x376);
   (0x37B, 0x37D, 1, 0x3FD); (0x3AC, 0x3AC, 1, 0x386); (0x3AD, 0x3AF, 1, 0x388);
   (0x3B1, 0x3C1, 1, 0x391); (0x3C2, 0x3C2, 1, 0x3A3); (0x3C3, 0x3CB, 1, 0x3A3);
   (0x3CC, 0x3CC, 1, 0x38C); (0x3CD, 0x3CE, 1, 0x38E); (0x3D0, 0x3D0, 1, 0x392);
   (0x3D1, 0x3D1, 1, 0x398); (0x3D5, 0x3D5, 1, 0x3A6); (0x3D6, 0x3D6, 1, 0x3A0);
   (0x3D7, 0x3D7, 1, 0x3CF); (0x3D9, 0x3EF, 2, 0x3D8); (0x3F0, 0x3F0, 1, 0x39A);
   (0x3F1, 0x3F1, 1, 0x3A1); (0x3F2, 0x3F2, 1, 0x3F9); (0x3F3, 0x3F3, 1, 0x37F);
   (0x3F5, 0x3F5, 1, 0x395); (0x3F8, 0x3F8, 1, 0x3F7); (0x3FB, 0x3FB, 1, 0x3FA);
   (0x430, 0x44F, 1, 0x410); (0x450, 0x45F, 1, 0x400); (0x461, 0x481, 2, 0x460);
   (0x48B, 0x4BF, 2, 0x48A); (0x4C2, 0x4CE, 2, 0x4C1); (0x4CF, 0x4CF, 1, 0x4C0);
   (0x4D1, 0x52F, 2, 0x4D0); (0x561, 0x586, 1, 0x531); (0x10D0, 0x10FA, 1, 0x1C90);
   (0x10FD, 0x10FF, 1, 0x1CBD); (0x13F8, 0x13FD, 1, 0x13F0); (0x1C80, 0x1C80, 1, 0x412);
   (0x1C81, 0x1C81, 1, 0x414); (0x1C82, 0x1C82, 1, 0x41E); (0x1C83, 0x1C84, 1, 0x421);
   (0x1C85, 0x1C85, 1, 0x422); (0x1C86, 0x1C86, 1, 0x42A); (0x1C87, 0x1C87, 1, 0x462);
   (0x1C88, 0x1C88, 1, 0xA64A); (0x1D79, 0x1D79, 1, 0xA77D); (0x1D7D, 0x1D7D, 1, 0x2C63);
   (0x1D8E, 0x1D8E, 1, 0xA7C6); (0x1E01, 0x1E95, 2, 0x1E00); (0x1E9B, 0x1E9B, 1, 0x1E60);
   (0x1EA1, 0x1EFF, 2, 0x1EA0); (0x1F00, 0x1F07, 1, 0x1F08); (0x1F10, 0x1F15, 1, 0x1F18);
   (0x1F20, 0x1F27, 1, 0x1F28); (0x1F30, 0x1F37, 1, 0x1F38); (0x1F40, 0x1F45, 1, 0x1F48);
   (0x1F51, 0x1F57, 2, 0x1F59); (0x1F60, 0x1F67, 1, 0x1F68); (0x1F70, 0x1F71, 1, 0x1FBA);
   (0x1F72, 0x1F75, 1, 0x1FC8); (0x1F76, 0x1F77, 1, 0x1FDA); (0x1F78, 0x1F79, 1, 0x1FF8);
   (0x1F7A, 0x1F7B, 1, 0x1FEA); (0x1F7C, 0x1F7D, 1, 0x1FFA); (0x1FB0, 0x1FB1, 1, 0x1FB8);
   (0x1FBE, 0x1FBE, 1, 0x399); (0x1FD0, 0x1FD1, 1, 0x1FD8); (0x1FE0, 0x1FE1, 1, 0x1FE8);
   (0x1FE5, 0x1FE5, 1, 0x1FEC); (0x214E, 0x214E, 1, 0x2132); (0x2170, 0x217F, 1, 0x2160);
   (0x2184, 0x2184, 1, 0x2183); (0x24D0, 0x24E9, 1, 0x24B6); (0x2C30, 0x2C5F, 1, 0x2C00);
   (0x2C61, 0x2C61, 1, 0x2C60); (0x2C65, 0x2C65, 1, 0x23A); (0x2C66, 0x2C66, 1, 0x23E);
   (0x2C68, 0x2C6C, 2, 0x2C67); (0x2C73, 0x2C73, 1, 0x2C72); (0x2C76, 0x2C76, 1, 0x2C75);
   (0x2C81, 0x2CE3, 2, 0x2C80); (0x2CEC, 0x2CEE, 2, 0x2CEB); (0x2CF3, 0x2CF3, 1, 0x2CF2);
   (0x2D00, 0x2D25, 1, 0x10A0); (0x2D27, 0x2D27, 1, 0x10C7); (0x2D2D, 0x2D2D, 1, 0x10CD);
   (0xA641, 0xA66D, 2, 0xA640); (0xA681, 0xA69B, 2, 0xA680); (0xA723, 0xA72F, 2, 0xA722);
   (0xA733, 0xA76F, 2, 0xA732); (0xA77A, 0xA77C, 2, 0xA779); (0xA77F, 0xA787, 2, 0xA77E);
   (0xA78C, 0xA78C, 1, 0xA78B); (0xA791, 0xA793, 2, 0xA790); (0xA794, 0xA794, 1, 0xA7C4);
   (0xA797, 0xA7A9, 2, 0xA796); (0xA7B5, 0xA7C3, 2, 0xA7B4); (0xA7C8, 0xA7CA, 2, 0xA7C7);
   (0xA7D1, 0xA7D1, 1, 0xA7D0); (0xA7D7, 0xA7D9, 2, 0xA7D6); (0xA7F6, 0xA7F6, 1, 0xA7F5);
   (0xAB53, 0xAB53, 1, 0xA7B3); (0xAB70, 0xABBF, 1, 0x13A0); (0xFF41, 0xFF5A, 1, 0xFF21);
   (0x10428, 0x1044F, 1, 0x10400); (0x104D8, 0x104FB, 1, 0x104B0);
   (0x10597, 0x105A1, 1, 0x10570); (0x105A3, 0x105B1, 1, 0x1057C);
   (0x105B3, 0x105B9, 1, 0x1058C); (0x105BB, 0x105BC, 1, 0x10594);
   (0x10CC0, 0x10CF2, 1, 0x10C80); (0x118C0, 0x118DF, 1, 0x118A0);
   (0x16E60, 0x16E7F, 1, 0x16E40); (0x1E922, 0x1E943, 1, 0x1E900)
  ].

(** The code points whose upper-case image is more than one code point. *)
Definition special_uppercase : list (N * list N) :=
  [
   (0xDF, [0x53; 0x53]); (0x149, [0x2BC; 0x4E]); (0x1F0, [0x4A; 0x30C]);
   (0x390, [0x399; 0x308; 0x301]); (0x3B0, [0x3A5; 0x308; 0x301]); (0x587, [0x535; 0x552]);
   (0x1E96, [0x48; 0x331]); (0x1E97, [0x54; 0x308]); (0x1E98, [0x57; 0x30A]);
   (0x1E99, [0x59; 0x30A]); (0x1E9A, [0x41; 0x2BE]); (0x1F50, [0x3A5; 0x313]);
   (0x1F52, [0x3A5; 0x313; 0x300]); (0x1F54, [0x3A5; 0x313; 0x301]);
   (0x1F56, [0x3A5; 0x313; 0x342]); (0x1F80, [0x1F08; 0x399]); (0x1F81, [0x1F09; 0x399]);
   (0x1F82, [0x1F0A; 0x399]); (0x1F83, [0x1F0B; 0x399]); (0x1F84, [0x1F0C; 0x399]);
   (0x1F85, [0x1F0D; 0x399]); (0x1F86, [0x1F0E; 0x399]); (0x1F87, [0x1F0F; 0x399]);
   (0x1F88, [0x1F08; 0x399]); (0x1F89, [0x1F09; 0x399]); (0x1F8A, [0x1F0A; 0x399]);
   (0x1F8B, [0x1F0B; 0x399]); (0x1F8C, [0x1F0C; 0x399]); (0x1F8D, [0x1F0D; 0x399]);
   (0x1F8E, [0x1F0E; 0x399]); (0x1F8F, [0x1F0F; 0x399]); (0x1F90, [0x1F28; 0x399]);
   (0x1F91, [0x1F29; 0x399]); (0x1F92, [0x1F2A; 0x399]); (0x1F93, [0x1F2B; 0x399]);
   (0x1F94, [0x1F2C; 0x399]); (0x1F95, [0x1F2D; 0x399]); (0x1F96, [0x1F2E; 0x399]);
   (0x1F97, [0x1F2F; 0x399]); (0x1F98, [0x1F28; 0x399]); (0x1F99, [0x1F29; 0x399]);
   (0x1F9A, [0x1F2A; 0x399]); (0x1F9B, [0x1F2B; 0x399]); (0x1F9C, [0x1F2C; 0x399]);
   (0x1F9D, [0x1F2D; 0x399]); (0x1F9E, [0x1F2E; 0x399]); (0x1F9F, [0x1F2F; 0x399]);
   (0x1FA0, [0x1F68; 0x399]); (0x1FA1, [0x1F69; 0x399]); (0x1FA2, [0x1F6A; 0x399]);
   (0x1FA3, [0x1F6B; 0x399]); (0x1FA4, [0x1F6C; 0x399]); (0x1FA5, [0x1F6D; 0x399]);
   (0x1FA6, [0x1F6E; 0x399]); (0x1FA7, [0x1F6F; 0x399]); (0x1FA8, [0x1F68; 0x399]);
   (0x1FA9, [0x1F69; 0x399]); (0x1FAA, [0x1F6A; 0x399]); (0x1FAB, [0x1F6B; 0x399]);
   (0x1FAC, [0x1F6C; 0x399]); (0x1FAD, [0x1F6D; 0x399]); (0x1FAE, [0x1F6E; 0x399]);
   (0x1FAF, [0x1F6F; 0x399]); (0x1FB2, [0x1FBA; 0x399]); (0x1FB3, [0x391; 0x399]);
   (0x1FB4, [0x386; 0x399]); (0x1FB6, [0x391; 0x342]); (0x1FB7, [0x391; 0x342; 0x399]);
   (0x1FBC, [0x391; 0x399]); (0x1FC2, [0x1FCA; 0x399]); (0x1FC3, [0x397; 0x399]);
   (0x1FC4, [0x389; 0x399]); (0x1FC6, [0x397; 0x342]); (0x1FC7, [0x397; 0x342; 0x399]);
   (0x1FCC, [0x397; 0x399]); (0x1FD2, [0x399; 0x308; 0x300]); (0x1FD3, [0x399; 0x308; 0x301]);
   (0x1FD6, [0x399; 0x342]); (0x1FD7, [0x399; 0x308; 0x342]); (0x1FE2, [0x3A5; 0x308; 0x300]);
   (0x1FE3, [0x3A5; 0x308; 0x301]); (0x1FE4, [0x3A1; 0x313]); (0x1FE6, [0x3A5; 0x342]);
   (0x1FE7, [0x3A5; 0x308; 0x342]); (0x1FF2, [0x1FFA; 0x399]); (0x1FF3, [0x3A9; 0x399]);
   (0x1FF4, [0x38F; 0x399]); (0x1FF6, [0x3A9; 0x342]); (0x1FF7, [0x3A9; 0x342; 0x399]);
   (0x1FFC, [0x3A9; 0x399]); (0xFB00, [0x46; 0x46]); (0xFB01, [0x46; 0x49]);
   (0xFB02, [0x46; 0x4C]); (0xFB03, [0x46; 0x46; 0x49]); (0xFB04, [0x46; 0x46; 0x4C]);
   (0xFB05, [0x53; 0x54]); (0xFB06, [0x53; 0x54]); (0xFB13, [0x544; 0x546]);
   (0xFB14, [0x544; 0x535]); (0xFB15, [0x544; 0x53B]); (0xFB16, [0x54E; 0x546]);
   (0xFB17, [0x544; 0x53D])
  ].

(** The zeros of the decimal digits: each begins a run of the ten digits of
    a script. *)
Definition decimal_zeros : list N :=
  [
   0x30; 0x660; 0x6F0; 0x7C0; 0x966; 0x9E6; 0xA66; 0xAE6; 0xB66; 0xBE6; 0xC66; 0xCE6; 0xD66;
   0xDE6; 0xE50; 0xED0; 0xF20; 0x1040; 0x1090; 0x17E0; 0x1810; 0x1946; 0x19D0; 0x1A80; 0x1A90;
   0x1B50; 0x1BB0; 0x1C40; 0x1C50; 0xA620; 0xA8D0; 0xA900; 0xA9D0; 0xA9F0; 0xAA50; 0xABF0;
   0xFF10; 0x104A0; 0x10D30; 0x11066; 0x110F0; 0x11136; 0x111D0; 0x112F0; 0x11450; 0x114D0;
   0x11650; 0x116C0; 0x11730; 0x118E0; 0x11950; 0x11C50; 0x11D50; 0x11DA0; 0x16A60; 0x16AC0;
   0x16B50; 0x1D7CE; 0x1D7D8; 0x1D7E2; 0x1D7EC; 0x1D7F6; 0x1E140; 0x1E2F0; 0x1E950; 0x1FBF0
  ].

(** The code points that do not count when a capital sigma looks for the
    letters around it ([_PyUnicode_IsCaseIgnorable]). *)
Definition case_ignorable_table : list (N * N) :=
  [
   (0x27, 0x27); (0x2E, 0x2E); (0x3A, 0x3A); (0x5E, 0x5E); (0x60, 0x60); (0xA8, 0xA8);
   (0xAD, 0xAD); (0xAF, 0xAF); (0xB4, 0xB4); (0xB7, 0xB8); (0x2B0, 0x36F); (0x374, 0x375);
   (0x37A, 0x37A); (0x384, 0x385); (0x387, 0x387); (0x483, 0x489); (0x559, 0x559);
   (0x55F, 0x55F); (0x591, 0x5BD); (0x5BF, 0x5BF); (0x5C1, 0x5C2); (0x5C4, 0x5C5);
   (0x5C7, 0x5C7); (0x5F4, 0x5F4); (0x600, 0x605); (0x610, 0x61A); (0x61C, 0x61C);
   (0x640, 0x640); (0x64B, 0x65F); (0x670, 0x670); (0x6D6, 0x6DD); (0x6DF, 0x6E8);
   (0x6EA, 0x6ED); (0x70F, 0x70F); (0x711, 0x711); (0x730, 0x74A); (0x7A6, 0x7B0);
   (0x7EB, 0x7F5); (0x7FA, 0x7FA); (0x7FD, 0x7FD); (0x816, 0x82D); (0x859, 0x85B);
   (0x888, 0x888); (0x890, 0x891); (0x898, 0x89F); (0x8C9, 0x902); (0x93A, 0x93A);
   (0x93C, 0x93C); (0x941, 0x948); (0x94D, 0x94D); (0x951, 0x957); (0x962, 0x963);
   (0x971, 0x971); (0x981, 0x981); (0x9BC, 0x9BC); (0x9C1, 0x9C4); (0x9CD, 0x9CD);
   (0x9E2, 0x9E3); (0x9FE, 0x9FE); (0xA01, 0xA02); (0xA3C, 0xA3C); (0xA41, 0xA42);
   (0xA47, 0xA48); (0xA4B, 0xA4D); (0xA51, 0xA51); (0xA70, 0xA71); (0xA75, 0xA75);
   (0xA81, 0xA82); (0xABC, 0xABC); (0xAC1, 0xAC5); (0xAC7, 0xAC8); (0xACD, 0xACD);
   (0xAE2, 0xAE3); (0xAFA, 0xAFF); (0xB01, 0xB01); (0xB3C, 0xB3C); (0xB3F, 0xB3F);
   (0xB41, 0xB44); (0xB4D, 0xB4D); (0xB55, 0xB56); (0xB62, 0xB63); (0xB82, 0xB82);
   (0xBC0, 0xBC0); (0xBCD, 0xBCD); (0xC00, 0xC00); (0xC04, 0xC04); (0xC3C, 0xC3C);
   (0xC3E, 0xC40); (0xC46, 0xC48); (0xC4A, 0xC4D); (0xC55, 0xC56); (0xC62, 0xC63);
   (0xC81, 0xC81); (0xCBC, 0xCBC); (0xCBF, 0xCBF); (0xCC6, 0xCC6); (0xCCC, 0xCCD);
   (0xCE2, 0xCE3); (0xD00, 0xD01); (0xD3B, 0xD3C); (0xD41, 0xD44); (0xD4D, 0xD4D);
   (0xD62, 0xD63); (0xD81, 0xD81); (0xDCA, 0xDCA); (0xDD2, 0xDD4); (0xDD6, 0xDD6);
   (0xE31, 0xE31); (0xE34, 0xE3A); (0xE46, 0xE4E); (0xEB1, 0xEB1); (0xEB4, 0xEBC);
   (0xEC6, 0xEC6); (0xEC8, 0xECD); (0xF18, 0xF19); (0xF35, 0xF35); (0xF37, 0xF37);
   (0xF39, 0xF39); (0xF71, 0xF7E); (0xF80, 0xF84); (0xF86, 0xF87); (0xF8D, 0xF97);
   (0xF99, 0xFBC); (0xFC6, 0xFC6); (0x102D, 0x1030); (0x1032, 0x1037); (0x1039, 0x103A);
   (0x103D, 0x103E); (0x1058, 0x1059); (0x105E, 0x1060); (0x1071, 0x1074); (0x1082, 0x1082);
   (0x1085, 0x1086); (0x108D, 0x108D); (0x109D, 0x109D); (0x10FC, 0x10FC); (0x135D, 0x135F);
   (0x1712, 0x1714); (0x1732, 0x1733); (0x1752, 0x1753); (0x1772, 0x1773); (0x17B4, 0x17B5);
   (0x17B7, 0x17BD); (0x17C6, 0x17C6); (0x17C9, 0x17D3); (0x17D7, 0x17D7); (0x17DD, 0x17DD);
   (0x180B, 0x180F); (0x1843, 0x1843); (0x1885, 0x1886); (0x18A9, 0x18A9); (0x1920, 0x1922);
   (0x1927, 0x1928); (0x1932, 0x1932); (0x1939, 0x193B); (0x1A17, 0x1A18); (0x1A1B, 0x1A1B);
   (0x1A56, 0x1A56); (0x1A58, 0x1A5E); (0x1A60, 0x1A60); (0x1A62, 0x1A62); (0x1A65, 0x1A6C);
   (0x1A73, 0x1A7C); (0x1A7F, 0x1A7F); (0x1AA7, 0x1AA7); (0x1AB0, 0x1ACE); (0x1B00, 0x1B03);
   (0x1B34, 0x1B34); (0x1B36, 0x1B3A); (0x1B3C, 0x1B3C); (0x1B42, 0x1B42); (0x1B6B, 0x1B73);
   (0x1B80, 0x1B81); (0x1BA2, 0x1BA5); (0x1BA8, 0x1BA9); (0x1BAB, 0x1BAD); (0x1BE6, 0x1BE6);
   (0x1BE8, 0x1BE9); (0x1BED, 0x1BED); (0x1BEF, 0x1BF1); (0x1C2C, 0x1C33); (0x1C36, 0x1C37);
   (0x1C78, 0x1C7D); (0x1CD0, 0x1CD2); (0x1CD4, 0x1CE0); (0x1CE2, 0x1CE8); (0x1CED, 0x1CED);
   (0x1CF4, 0x1CF4); (0x1CF8, 0x1CF9); (0x1D2C, 0x1D6A); (0x1D78, 0x1D78); (0x1D9B, 0x1DFF);
   (0x1FBD, 0x1FBD); (0x1FBF, 0x1FC1); (0x1FCD, 0x1FCF); (0x1FDD, 0x1FDF); (0x1FED, 0x1FEF);
   (0x1FFD, 0x1FFE); (0x200B, 0x200F); (0x2018, 0x2019); (0x2024, 0x2024); (0x2027, 0x2027);
   (0x202A, 0x202E); (0x2060, 0x2064); (0x2066, 0x206F); (0x2071, 0x2071); (0x207F, 0x207F);
   (0x2090, 0x209C); (0x20D0, 0x20F0); (0x2C7C, 0x2C7D); (0x2CEF, 0x2CF1); (0x2D6F, 0x2D6F);
   (0x2D7F, 0x2D7F); (0x2DE0, 0x2DFF); (0x2E2F, 0x2E2F); (0x3005, 0x3005); (0x302A, 0x302D);
   (0x3031, 0x3035); (0x303B, 0x303B); (0x3099, 0x309E); (0x30FC, 0x30FE); (0xA015, 0xA015);
   (0xA4F8, 0xA4FD); (0xA60C, 0xA60C); (0xA66F, 0xA672); (0xA674, 0xA67D); (0xA67F, 0xA67F);
   (0xA69C, 0xA69F); (0xA6F0, 0xA6F1); (0xA700, 0xA721); (0xA770, 0xA770); (0xA788, 0xA78A);
   (0xA7F2, 0xA7F4); (0xA7F8, 0xA7F9); (0xA802, 0xA802); (0xA806, 0xA806); (0xA80B, 0xA80B);
   (0xA825, 0xA826); (0xA82C, 0xA82C); (0xA8C4, 0xA8C5); (0xA8E0, 0xA8F1); (0xA8FF, 0xA8FF);
   (0xA926, 0xA92D); (0xA947, 0xA951); (0xA980, 0xA982); (0xA9B3, 0xA9B3); (0xA9B6, 0xA9B9);
   (0xA9BC, 0xA9BD); (0xA9CF, 0xA9CF); (0xA9E5, 0xA9E6); (0xAA29, 0xAA2E); (0xAA31, 0xAA32);
   (0xAA35, 0xAA36); (0xAA43, 0xAA43); (0xAA4C, 0xAA4C); (0xAA70, 0xAA70); (0xAA7C, 0xAA7C);
   (0xAAB0, 0xAAB0); (0xAAB2, 0xAAB4); (0xAAB7, 0xAAB8); (0xAABE, 0xAABF); (0xAAC1, 0xAAC1);
   (0xAADD, 0xAADD); (0xAAEC, 0xAAED); (0xAAF3, 0xAAF4); (0xAAF6, 0xAAF6); (0xAB5B, 0xAB5F);
   (0xAB69, 0xAB6B); (0xABE5, 0xABE5); (0xABE8, 0xABE8); (0xABED, 0xABED); (0xFB1E, 0xFB1E);
   (0xFBB2, 0xFBC2); (0xFE00, 0xFE0F); (0xFE13, 0xFE13); (0xFE20, 0xFE2F); (0xFE52, 0xFE52);
   (0xFE55, 0xFE55); (0xFEFF, 0xFEFF); (0xFF07, 0xFF07); (0xFF0E, 0xFF0E); (0xFF1A, 0xFF1A);
   (0xFF3E, 0xFF3E); (0xFF40, 0xFF40); (0xFF70, 0xFF70); (0xFF9E, 0xFF9F); (0xFFE3, 0xFFE3);
   (0xFFF9, 0xFFFB); (0x101FD, 0x101FD); (0x102E0, 0x102E0); (0x10376, 0x1037A);
   (0x10780, 0x10785); (0x10787, 0x107B0); (0x107B2, 0x107BA); (0x10A01, 0x10A03);
   (0x10A05, 0x10A06); (0x10A0C, 0x10A0F); (0x10A38, 0x10A3A); (0x10A3F, 0x10A3F);
   (0x10AE5, 0x10AE6); (0x10D24, 0x10D27); (0x10EAB, 0x10EAC); (0x10F46, 0x10F50);
   (0x10F82, 0x10F85); (0x11001, 0x11001); (0x11038, 0x11046); (0x11070, 0x11070);
   (0x11073, 0x11074); (0x1107F, 0x11081); (0x110B3, 0x110B6); (0x110B9, 0x110BA);
   (0x110BD, 0x110BD); (0x110C2, 0x110C2); (0x110CD, 0x110CD); (0x11100, 0x11102);
   (0x11127, 0x1112B); (0x1112D, 0x11134); (0x11173, 0x11173); (0x11180, 0x11181);
   (0x111B6, 0x111BE); (0x111C9, 0x111CC); (0x111CF, 0x111CF); (0x1122F, 0x11231);
   (0x11234, 0x11234); (0x11236, 0x11237); (0x1123E, 0x1123E); (0x112DF, 0x112DF);
   (0x112E3, 0x112EA); (0x11300, 0x11301); (0x1133B, 0x1133C); (0x11340, 0x11340);
   (0x11366, 0x1136C); (0x11370, 0x11374); (0x11438, 0x1143F); (0x11442, 0x11444);
   (0x11446, 0x11446); (0x1145E, 0x1145E); (0x114B3, 0x114B8); (0x114BA, 0x114BA);
   (0x114BF, 0x114C0); (0x114C2, 0x114C3); (0x115B2, 0x115B5); (0x115BC, 0x115BD);
   (0x115BF, 0x115C0); (0x115DC, 0x115DD); (0x11633, 0x1163A); (0x1163D, 0x1163D);
   (0x1163F, 0x11640); (0x116AB, 0x116AB); (0x116AD, 0x116AD); (0x116B0, 0x116B5);
   (0x116B7, 0x116B7); (0x1171D, 0x1171F); (0x11722, 0x11725); (0x11727, 0x1172B);
   (0x1182F, 0x11837); (0x11839, 0x1183A); (0x1193B, 0x1193C); (0x1193E, 0x1193E);
   (0x11943, 0x11943); (0x119D4, 0x119D7); (0x119DA, 0x119DB); (0x119E0, 0x119E0);
   (0x11A01, 0x11A0A); (0x11A33, 0x11A38); (0x11A3B, 0x11A3E); (0x11A47, 0x11A47);
   (0x11A51, 0x11A56); (0x11A59, 0x11A5B); (0x11A8A, 0x11A96); (0x11A98, 0x11A99);
   (0x11C30, 0x11C36); (0x11C38, 0x11C3D); (0x11C3F, 0x11C3F); (0x11C92, 0x11CA7);
   (0x11CAA, 0x11CB0); (0x11CB2, 0x11CB3); (0x11CB5, 0x11CB6); (0x11D31, 0x11D36);
   (0x11D3A, 0x11D3A); (0x11D3C, 0x11D3D); (0x11D3F, 0x11D45); (0x11D47, 0x11D47);
   (0x11D90, 0x11D91); (0x11D95, 0x11D95); (0x11D97, 0x11D97); (0x11EF3, 0x11EF4);
   (0x13430, 0x13438); (0x16AF0, 0x16AF4); (0x16B30, 0x16B36); (0x16B40, 0x16B43);
   (0x16F4F, 0x16F4F); (0x16F8F, 0x16F9F); (0x16FE0, 0x16FE1); (0x16FE3, 0x16FE4);
   (0x1AFF0, 0x1AFF3); (0x1AFF5, 0x1AFFB); (0x1AFFD, 0x1AFFE); (0x1BC9D, 0x1BC9E);
   (0x1BCA0, 0x1BCA3); (0x1CF00, 0x1CF2D); (0x1CF30, 0x1CF46); (0x1D167, 0x1D169);
   (0x1D173, 0x1D182); (0x1D185, 0x1D18B); (0x1D1AA, 0x1D1AD); (0x1D242, 0x1D244);
   (0x1DA00, 0x1DA36); (0x1DA3B, 0x1DA6C); (0x1DA75, 0x1DA75); (0x1DA84, 0x1DA84);
   (0x1DA9B, 0x1DA9F); (0x1DAA1, 0x1DAAF); (0x1E000, 0x1E006); (0x1E008, 0x1E018);
   (0x1E01B, 0x1E021); (0x1E023, 0x1E024); (0x1E026, 0x1E02A); (0x1E130, 0x1E13D);
   (0x1E2AE, 0x1E2AE); (0x1E2EC, 0x1E2EF); (0x1E8D0, 0x1E8D6); (0x1E944, 0x1E94B);
   (0x1F3FB, 0x1F3FF); (0xE0001, 0xE0001); (0xE0020, 0xE007F); (0xE0100, 0xE01EF)
  ].

(** The cased code points ([_PyUnicode_IsCased]) among those that are not
    case-ignorable; of a case-ignorable one the question is never asked. *)
Definition cased_table : list (N * N) :=
  [
   (0x41, 0x5A); (0x61, 0x7A); (0xAA, 0xAA); (0xB5, 0xB5); (0xBA, 0xBA); (0xC0, 0xD6);
   (0xD8, 0xF6); (0xF8, 0x1BA); (0x1BC, 0x1BF); (0x1C4, 0x293); (0x295, 0x2AF); (0x370, 0x373);
   (0x376, 0x377); (0x37B, 0x37D); (0x37F, 0x37F); (0x386, 0x386); (0x388, 0x38A);
   (0x38C, 0x38C); (0x38E, 0x3A1); (0x3A3, 0x3F5); (0x3F7, 0x481); (0x48A, 0x52F);
   (0x531, 0x556); (0x560, 0x588); (0x10A0, 0x10C5); (0x10C7, 0x10C7); (0x10CD, 0x10CD);
   (0x10D0, 0x10FA); (0x10FD, 0x10FF); (0x13A0, 0x13F5); (0x13F8, 0x13FD); (0x1C80, 0x1C88);
   (0x1C90, 0x1CBA); (0x1CBD, 0x1CBF); (0x1D00, 0x1D2B); (0x1D6B, 0x1D77); (0x1D79, 0x1D9A);
   (0x1E00, 0x1F15); (0x1F18, 0x1F1D); (0x1F20, 0x1F45); (0x1F48, 0x1F4D); (0x1F50, 0x1F57);
   (0x1F59, 0x1F59); (0x1F5B, 0x1F5B); (0x1F5D, 0x1F5D); (0x1F5F, 0x1F7D); (0x1F80, 0x1FB4);
   (0x1FB6, 0x1FBC); (0x1FBE, 0x1FBE); (0x1FC2, 0x1FC4); (0x1FC6, 0x1FCC); (0x1FD0, 0x1FD3);
   (0x1FD6, 0x1FDB); (0x1FE0, 0x1FEC); (0x1FF2, 0x1FF4); (0x1FF6, 0x1FFC); (0x2102, 0x2102);
   (0x2107, 0x2107); (0x210A, 0x2113); (0x2115, 0x2115); (0x2119, 0x211D); (0x2124, 0x2124);
   (0x2126, 0x2126); (0x2128, 0x2128); (0x212A, 0x212D); (0x212F, 0x2134); (0x2139, 0x2139);
   (0x213C, 0x213F); (0x2145, 0x2149); (0x214E, 0x214E); (0x2160, 0x217F); (0x2183, 0x2184);
   (0x24B6, 0x24E9); (0x2C00, 0x2C7B); (0x2C7E, 0x2CE4); (0x2CEB, 0x2CEE); (0x2CF2, 0x2CF3);
   (0x2D00, 0x2D25); (0x2D27, 0x2D27); (0x2D2D, 0x2D2D); (0xA640, 0xA66D); (0xA680, 0xA69B);
   (0xA722, 0xA76F); (0xA771, 0xA787); (0xA78B, 0xA78E); (0xA790, 0xA7CA); (0xA7D0, 0xA7D1);
   (0xA7D3, 0xA7D3); (0xA7D5, 0xA7D9); (0xA7F5, 0xA7F6); (0xA7FA, 0xA7FA); (0xAB30, 0xAB5A);
   (0xAB60, 0xAB68); (0xAB70, 0xABBF); (0xFB00, 0xFB06); (0xFB13, 0xFB17); (0xFF21, 0xFF3A);
   (0xFF41, 0xFF5A); (0x10400, 0x1044F); (0x104B0, 0x104D3); (0x104D8, 0x104FB);
   (0x10570, 0x1057A); (0x1057C, 0x1058A); (0x1058C, 0x10592); (0x10594, 0x10595);
   (0x10597, 0x105A1); (0x105A3, 0x105B1); (0x105B3, 0x105B9); (0x105BB, 0x105BC);
   (0x10C80, 0x10CB2); (0x10CC0, 0x10CF2); (0x118A0, 0x118DF); (0x16E40, 0x16E7F);
   (0x1D400, 0x1D454); (0x1D456, 0x1D49C); (0x1D49E, 0x1D49F); (0x1D4A2, 0x1D4A2);
   (0x1D4A5, 0x1D4A6); (0x1D4A9, 0x1D4AC); (0x1D4AE, 0x1D4B9); (0x1D4BB, 0x1D4BB);
   (0x1D4BD, 0x1D4C3); (0x1D4C5, 0x1D505); (0x1D507, 0x1D50A); (0x1D50D, 0x1D514);
   (0x1D516, 0x1D51C); (0x1D51E, 0x1D539); (0x1D53B, 0x1D53E); (0x1D540, 0x1D544);
   (0x1D546, 0x1D546); (0x1D54A, 0x1D550); (0x1D552, 0x1D6A5); (0x1D6A8, 0x1D6C0);
   (0x1D6C2, 0x1D6DA); (0x1D6DC, 0x1D6FA); (0x1D6FC, 0x1D714); (0x1D716, 0x1D734);
   (0x1D736, 0x1D74E); (0x1D750, 0x1D76E); (0x1D770, 0x1D788); (0x1D78A, 0x1D7A8);
   (0x1D7AA, 0x1D7C2); (0x1D7C4, 0x1D7CB); (0x1DF00, 0x1DF09); (0x1DF0B, 0x1DF1E);
   (0x1E900, 0x1E943); (0x1F130, 0x1F149); (0x1F150, 0x1F169); (0x1F170, 0x1F189)
  ].

(** [re._casefix._EXTRA_CASES]: the further code points a lower-case letter
    stands for under [re.IGNORECASE]. *)
Definition extra_cases_table : list (N * list N) :=
  [
   (0x69, [0x131]); (0x73, [0x17F]); (0xB5, [0x3BC]); (0x131, [0x69]); (0x17F, [0x73]);
   (0x345, [0x3B9; 0x1FBE]); (0x390, [0x1FD3]); (0x3B0, [0x1FE3]); (0x3B2, [0x3D0]);
   (0x3B5, [0x3F5]); (0x3B8, [0x3D1]); (0x3B9, [0x345; 0x1FBE]); (0x3BA, [0x3F0]);
   (0x3BC, [0xB5]); (0x3C0, [0x3D6]); (0x3C1, [0x3F1]); (0x3C2, [0x3C3]); (0x3C3, [0x3C2]);
   (0x3C6, [0x3D5]); (0x3D0, [0x3B2]); (0x3D1, [0x3B8]); (0x3D5, [0x3C6]); (0x3D6, [0x3C0]);
   (0x3F0, [0x3BA]); (0x3F1, [0x3C1]); (0x3F5, [0x3B5]); (0x432, [0x1C80]); (0x434, [0x1C81]);
   (0x43E, [0x1C82]); (0x441, [0x1C83]); (0x442, [0x1C84; 0x1C85]); (0x44A, [0x1C86]);
   (0x463, [0x1C87]); (0x1C80, [0x432]); (0x1C81, [0x434]); (0x1C82, [0x43E]);
   (0x1C83, [0x441]); (0x1C84, [0x442; 0x1C85]); (0x1C85, [0x442; 0x1C84]); (0x1C86, [0x44A]);
   (0x1C87, [0x463]); (0x1C88, [0xA64B]); (0x1E61, [0x1E9B]); (0x1E9B, [0x1E61]);
   (0x1FBE, [0x345; 0x3B9]); (0x1FD3, [0x390]); (0x1FE3, [0x3B0]); (0xA64B, [0x1C88]);
   (0xFB05, [0xFB06]); (0xFB06, [0xFB05])
  ].

(* ===================================================================== *)
(** * Letter case                                                         *)
(* ===================================================================== *)

(** The lower-case and the upper-case image of one code point, when the
    image is one code point. *)
Definition lower_char (c : char) : char := image lowercase_table c.

Definition upper_char (c : char) : char := image uppercase_table c.

(** The upper-case image of one code point ([_PyUnicode_ToUpperFull]): it
    can be longer than one code point, as SS for the sharp s. *)
Definition upper_full (c : char) : pystr :=
  match entry special_uppercase c with
  | Some u => u
  | None => [upper_char c]
  end.

(** [str.upper] *)
Definition upper (s : pystr) : pystr := flat_map upper_full s.

Definition case_ignorable (c : char) : bool := in_ranges case_ignorable_table c.

Definition cased (c : char) : bool := in_ranges cased_table c.

(** The code points of [s] from the first that is not case-ignorable on. *)
Fixpoint skip_case_ignorable (s : pystr) : pystr :=
  match s with
  | [] => []
  | c :: s' => if case_ignorable c then skip_case_ignorable s' else s
  end.

(** [handle_capital_sigma]: a capital sigma becomes the final sigma when a
    cased letter stands before it and none after it, case-ignorable code
    points aside. [before] is the text before the sigma, nearest code point
    first, [after] the text after it. *)
Definition final_sigma (before after : pystr) : bool :=
  match skip_case_ignorable before with
  | c :: _ => cased c
  | [] => false
  end
  && match skip_case_ignorable after with
     | c :: _ => negb (cased c)
     | [] => true
     end.

(** [str.lower]: code point by code point, [before] being what is behind,
    nearest first. A capital I with dot above gives an i and a combining
    dot. *)
Fixpoint lower_from (before s : pystr) : pystr :=
  match s with
  | [] => []
  | c :: s' =>
    (if c =? 0x3A3 then [if final_sigma before s' then 0x3C2 else 0x3C3]
     else if c =? 0x130 then [0x69; 0x307]
     else [lower_char c])
    ++ lower_from (c :: before) s'
  end.

Definition lower (s : pystr) : pystr := lower_from [] s.

(** [s.startswith(p)] *)
Fixpoint startswith (s p : pystr) : bool :=
  match p, s with
  | [], _ => true
  | _ :: _, [] => false
  | c :: p', d :: s' => (c =? d) && startswith s' p'
  end.

(** [t in s] on strings: substring test. *)
Fixpoint contains (s t : pystr) : bool :=
  startswith s t ||
  match s with
  | [] => false
  | _ :: s' => contains s' t
  end.

(** [s.endswith(suffix)] *)
Definition endswith (s suffix : pystr) : bool := startswith (rev s) (rev suffix).

(** A spreadsheet cell as pandas hands it over: a missing value ([NaN],
    [None], [NaT]: everything [pd.isna] accepts) or a value, kept as the
    text [str(val)] gives for it. *)
Inductive cell :=
| NaN
| Str (s : pystr).

Definition isna (c : cell) : bool :=
  match c with NaN => true | Str _ => false end.

#[global] Instance cell_eq_dec : EqDecision cell.
Proof. solve_decision. Defined.

(* ===================================================================== *)
(** * pandas frames                                                        *)
(* ===================================================================== *)

(** A row maps column labels to cells; a frame is its column labels and its
    rows in index order. A label outside [columns] is never read. *)
Definition row := pystr -> cell.

Record DataFrame := { columns : list pystr; rows : list row }.

(** [df[col] = v], one row at a time. *)
Definition row_set (col : pystr) (v : cell) (r : row) : row :=
  fun c => if decide (c = col) then v else r c.

(** [df[col] = ...]: an existing column is overwritten, a new one appended. *)
Definition set_column (col : pystr) (f : row -> cell) (df : DataFrame) : DataFrame :=
  {| columns := if decide (col ∈ columns df) then columns df else columns df ++ [col];
     rows := map (fun r => row_set col (f r) r) (rows df) |}.

(** A row literal, for examples. *)
Fixpoint mkrow (l : list (pystr * cell)) : row :=
  match l with
  | [] => fun _ => NaN
  | (k, v) :: l' => row_set k v (mkrow l')
  end.

(** [df.drop_duplicates(subset=..., keep='first')]: [subset] gives the key
    of a row, [seen] the keys met so far. Missing values are equal to each
    other in a key, as pandas has it. *)
Fixpoint drop_duplicates_from {A K : Type} `{EqDecision K}
    (subset : A -> K) (seen : list K) (df : list A) : list A :=
  match df with
  | [] => []
  | r :: rest =>
    if decide (subset r ∈ seen) then drop_duplicates_from subset seen rest
    else r :: drop_duplicates_from subset (subset r :: seen) rest
  end.

Definition drop_duplicates {A K : Type} `{EqDecision K}
    (subset : A -> K) (df : list A) : list A :=
  drop_duplicates_from subset [] df.

(** A decimal digit of any script: what [\d] matches in a [str] pattern. *)
Definition isdigit (c : char) : bool :=
  existsb (fun zero => (zero <=? c) && (c <=? zero + 9)) decimal_zeros.

(** The digits 0 to 9. *)
Definition ascii_digit (c : char) : bool := (0x30 <=? c) && (c <=? 0x39).

Fixpoint digits_value (acc : N) (s : pystr) : N :=
  match s with
  | [] => acc
  | c :: s' => digits_value (10 * acc + (c - 0x30)) s'
  end.

Fixpoint split_at_point (s : pystr) : pystr * option pystr :=
  match s with
  | [] => ([], None)
  | c :: s' =>
    if c =? 0x2E then ([], Some s')
    else let '(a, b) := split_at_point s' in (c :: a, b)
  end.

Definition parse_unsigned (s : pystr) : option Qc :=
  let '(int_part, frac) := split_at_point s in
  let frac_part := default [] frac in
  if forallb ascii_digit int_part && forallb ascii_digit frac_part
     && negb (Nat.eqb (length (int_part ++ frac_part)) 0)
  then Some (Q2Qc (Z.of_N (digits_value 0 (int_part ++ frac_part))
                   # Z.to_pos (10 ^ Z.of_nat (length frac_part))))
  else None.

(** [pd.to_numeric(..., errors='coerce')] on one cell: an optional sign,
    digits, and optionally a point and more digits, read exactly. [None] is
    the NaN given for a text that is not such a numeral (the further
    spellings pandas reads, exponents among them, are not modelled).
    Numbers are exact rationals; pandas holds them in 64-bit floats. *)
Definition to_numeric (c : cell) : option Qc :=
  match c with
  | NaN => None
  | Str (0x2D :: s) => Qcopp <$> parse_unsigned s
  | Str (0x2B :: s) => parse_unsigned s
  | Str s => parse_unsigned s
  end.

(** A cell of a frame whose numeric columns have been converted. *)
Inductive value :=
| Text (c : cell)
| Number (q : Qc).

#[global] Instance value_eq_dec : EqDecision value.
Proof. solve_decision. Defined.

Definition vrow := pystr -> value.

Definition vrow_set (col : pystr) (v : value) (r : vrow) : vrow :=
  fun c => if decide (c = col) then v else r c.

(** The number in a numeric column (0 where the cell holds none). *)
Definition number_of (v : value) : Qc :=
  match v with Number q => q | Text _ => 0%Qc end.

(** [Series.sum], in exact arithmetic; pandas adds 64-bit floats, with the
    same sum for whole numbers that stay below 2^53. *)
Definition series_sum (l : list Qc) : Qc := foldr Qcplus 0%Qc l.

(** [df.columns = df.columns.str.strip()]: the labels are stripped, and a
    stripped label reads the first column that carries it (the labels are
    taken to stay distinct when stripped). The [.str] accessor is refused
    by an index that holds no text, which is what a sheet without a header
    row is read as: [None] stands for the exception raised there. *)
Definition strip_columns (df : DataFrame) : option DataFrame :=
  match columns df with
  | [] => None
  | _ :: _ =>
    Some {| columns := map strip (columns df);
            rows := map (fun (r : row) c =>
                           match List.find (fun c0 => bool_decide (strip c0 = c))
                                           (columns df) with
                           | Some c0 => r c0
                           | None => NaN
                           end) (rows df) |}
  end.

(** [[col for col in core_columns if col not in df.columns]] *)
Definition missing_columns (core_columns : list pystr) (df : DataFrame) : list pystr :=
  List.filter (fun col => negb (bool_decide (col ∈ columns df))) core_columns.

(** [df[col].notna() & (df[col].str.strip() != '')] on one cell *)
Definition col_mask (c : cell) : bool :=
  match c with
  | NaN => false
  | Str s => negb (bool_decide (strip s = []))
  end.

(** The row mask built over [filter_columns]: [mask = mask | col_mask],
    starting from [False]. *)
Definition self_purchase_mask (filter_columns : list pystr) (r : row) : bool :=
  fold_left (fun mask col => mask || col_mask (r col)) filter_columns false.

(** [df_filtered[core_columns]] with [numeric_cols] run through
    [pd.to_numeric(..., errors='coerce').fillna(0)]. *)
Definition df_calc_row (core_columns numeric_cols : list pystr) (r : row) : vrow :=
  fun c =>
    if decide (c ∈ core_columns) then
      if decide (c ∈ numeric_cols) then Number (default 0%Qc (to_numeric (r c)))
      else Text (r c)
    else Text NaN.

(** [df[core_columns]] on a converted frame. *)
Definition project (core_columns : list pystr) (r : vrow) : vrow :=
  fun c => if decide (c ∈ core_columns) then r c else Text NaN.

(** Code-point order of [str], and the order [sort_values] puts cells in
    (missing values last). *)
Fixpoint str_leb (a b : pystr) : bool :=
  match a, b with
  | [], _ => true
  | _ :: _, [] => false
  | x :: a', y :: b' => (x <? y) || ((x =? y) && str_leb a' b')
  end.

Definition value_leb (a b : value) : bool :=
  match a, b with
  | Text (Str x), Text (Str y) => str_leb x y
  | Number x, Number y => bool_decide (x <= y)%Qc
  | _, Text NaN => true
  | Text NaN, _ => false
  | Text (Str _), Number _ => true
  | Number _, Text (Str _) => false
  end.

(** [a] goes before [b] under the sort keys [by] (compared in turn). *)
Fixpoint rows_leb (by_ : list pystr) (a b : vrow) : bool :=
  match by_ with
  | [] => true
  | col :: rest =>
    if decide (a col = b col) then rows_leb rest a b else value_leb (a col) (b col)
  end.

Fixpoint insert_sorted {A : Type} (leb : A -> A -> bool) (x : A) (l : list A) : list A :=
  match l with
  | [] => [x]
  | y :: l' => if leb x y then x :: l else y :: insert_sorted leb x l'
  end.

(** [df.sort_values(by=...)]. Rows that tie on the keys stay in their input
    order here; pandas leaves their order open for a single key. *)
Definition sort_values (by_ : list pystr) (df : list vrow) : list vrow :=
  foldr (insert_sorted (rows_leb by_)) [] df.

(** [df.groupby(key)[col].sum().reset_index()]: one row per distinct key,
    holding the sum of [col] over the rows of that key. The keys come in the
    order they first occur in, which is their sorted order in the frames
    grouped here. *)
Definition groupby_sum (key col : pystr) (df : list vrow) : list (value * Qc) :=
  map (fun k => (k, series_sum (map (fun r => number_of (r col))
                            (List.filter (fun r => bool_decide (r key = k)) df))))
      (drop_duplicates id (map (fun r => r key) df)).

(** [pd.merge(df, module_total, on=key, how='left')] with the summed column
    renamed to [total_col]. *)
Definition merge_total (key total_col : pystr) (module_total : list (value * Qc))
    (df : list vrow) : list vrow :=
  map (fun r =>
         match List.find (fun kt => bool_decide (fst kt = r key)) module_total with
         | Some kt => vrow_set total_col (Number (snd kt)) r
         | None => vrow_set total_col (Text NaN) r
         end) df.

(* ===================================================================== *)
(** * Regular expressions ([re])                                          *)
(* ===================================================================== *)

Inductive regex :=
| Empty                            (* the empty pattern *)
| Bol                              (* ^ *)
| Eol                              (* $ *)
| Lit (c : char)
| Dot                              (* . *)
| Digit                            (* \d *)
| Cat (r1 r2 : regex)
| Alt (r1 r2 : regex)              (* r1|r2 *)
| Plus (r : regex)                 (* r+ *)
| Opt (r : regex)                  (* r? *)
| Group (n : nat) (r : regex).     (* (r), the n-th group *)

(** A sequence of pattern items, and a literal text. *)
Definition items (rs : list regex) : regex := foldr Cat Empty rs.

Definition lit (s : pystr) : regex := items (map Lit s).

Definition IGNORECASE : nat := 2.

(** [_sre.unicode_iscased]: a code point that differs from its lower-case
    image or from the first code point of its upper-case image. *)
Definition iscased (c : char) : bool :=
  negb (lower_char c =? c) || negb (hd c (upper_full c) =? c).

(** What a lower-case letter also stands for under [IGNORECASE]. *)
Definition extra_cases (lo : char) : list char :=
  default [] (entry extra_cases_table lo).

Section Matcher.
Context {A : Type}.
Variable flags : nat.

Definition captures := list (nat * pystr).
Definition cont := nat -> pystr -> captures -> option A.

(** A literal [c] of the pattern against the code point [d] of the text.
    Under [IGNORECASE] a cased literal is compiled to its lower-case image
    and the extra cases of that image, and the text is compared by its
    lower-case image; a literal without case is compared as it is. *)
Definition char_matches (c d : char) : bool :=
  if Nat.testbit flags 1 then
    if iscased c
    then existsb (N.eqb (lower_char d)) (lower_char c :: extra_cases (lower_char c))
    else c =? d
  else c =? d.

(** Greedy repetition: after one more iteration that consumed something
    (the text ahead got shorter), more iterations are tried before the rest
    of the pattern. [n] bounds the iterations by the length of the text. *)
Fixpoint plus_loop (step : nat -> pystr -> captures -> cont -> option A)
    (n : nat) (pos : nat) (s : pystr) (caps : captures) (k : cont) : option A :=
  step pos s caps (fun pos' s' caps' =>
    match n with
    | O => k pos' s' caps'
    | S n' =>
      if Nat.ltb (length s') (length s) then
        match plus_loop step n' pos' s' caps' k with
        | Some a => Some a
        | None => k pos' s' caps'
        end
      else k pos' s' caps'
    end).

(** The backtracking matcher: [pos] characters of the text are behind,
    [s] is ahead, [k] is the rest of the match. *)
Fixpoint rmatch (r : regex) (pos : nat) (s : pystr) (caps : captures) (k : cont)
  : option A :=
  match r with
  | Empty => k pos s caps
  | Bol => if Nat.eqb pos 0 then k pos s caps else None
  | Eol =>
    match s with
    | [] => k pos s caps
    | [c] => if c =? 0x0A then k pos s caps else None
    | _ => None
    end
  | Lit c =>
    match s with
    | d :: s' => if char_matches c d then k (S pos) s' caps else None
    | [] => None
    end
  | Dot =>
    match s with
    | d :: s' => if d =? 0x0A then None else k (S pos) s' caps
    | [] => None
    end
  | Digit =>
    match s with
    | d :: s' => if isdigit d then k (S pos) s' caps else None
    | [] => None
    end
  | Cat r1 r2 =>
    rmatch r1 pos s caps (fun pos' s' caps' => rmatch r2 pos' s' caps' k)
  | Alt r1 r2 =>
    match rmatch r1 pos s caps k with
    | Some a => Some a
    | None => rmatch r2 pos s caps k
    end
  | Plus r' => plus_loop (rmatch r') (length s) pos s caps k
  | Opt r' =>
    match rmatch r' pos s caps k with
    | Some a => Some a
    | None => k pos s caps
    end
  | Group n r' =>
    rmatch r' pos s caps
      (fun pos' s' caps' => k pos' s' ((n, take (length s - length s') s) :: caps'))
  end.
End Matcher.

(** A match of [pattern] starting [pos] characters into the text: where it
    ends and what its groups hold. *)
Definition match_at (flags : nat) (pattern : regex) (pos : nat) (s : pystr)
  : option (nat * captures) :=
  rmatch flags pattern pos s [] (fun pos' _ caps => Some (pos', caps)).

(** [pattern.match(string)] as a truth value *)
Definition re_match (flags : nat) (pattern : regex) (s : pystr) : bool :=
  bool_decide (is_Some (match_at flags pattern 0 s)).

(** The text of group [n] (empty when the group took no part). *)
Definition group (n : nat) (caps : captures) : pystr :=
  match List.find (fun c => Nat.eqb (fst c) n) caps with
  | Some c => snd c
  | None => []
  end.

(** [re.sub(pattern, r'\\n', string, count, flags)] for patterns that match
    no empty text: matches are looked for from left to right, [done] counts
    the replacements made, [skip] the characters of the match being passed. *)
Fixpoint sub_from (flags : nat) (pattern : regex) (n : nat) (count done : nat)
    (skip pos : nat) (s : pystr) : pystr :=
  match s with
  | [] => []
  | c :: s' =>
    match skip with
    | S k => sub_from flags pattern n count done k (S pos) s'
    | O =>
      if negb (Nat.eqb count 0) && Nat.leb count done then s
      else
        match match_at flags pattern pos s with
        | Some (pos', caps) =>
          group n caps
            ++ sub_from flags pattern n count (S done) (pos' - pos - 1) (S pos) s'
        | None => c :: sub_from flags pattern n count done 0 (S pos) s'
        end
    end
  end.

Definition re_sub (pattern : regex) (n : nat) (string : pystr) (count flags : nat)
  : pystr :=
  sub_from flags pattern n count 0 0 0 string.

(* ===================================================================== *)
(** * The first sheet of the self-purchase workbooks (openpyxl)            *)
(* ===================================================================== *)

(** The loop of both self-purchase scripts that merges the cells of a
    module in the first sheet and collects the row ranges of the modules:
    [column_a] holds the cells A2, A3, ... up to row [max_row1], [row] is
    the row the loop is at and [column_a] what is left of the column from
    there. *)
Fixpoint module_ranges_from {V} `{EqDecision V} (max_row1 : nat) (current_module : V)
    (start_row row : nat) (column_a : list V) (module_ranges : list (nat * nat))
  : list (nat * nat) :=
  match column_a with
  | [] => module_ranges ++ [(start_row, max_row1)]
  | a_row :: rest =>
    if decide (a_row = current_module) then
      module_ranges_from max_row1 current_module start_row (S row) rest module_ranges
    else
      module_ranges_from max_row1 a_row row (S row) rest
        (module_ranges ++ [(start_row, (row - 1)%nat)])
  end.

(** [module_ranges] after the loop; the first row of a sheet is its header,
    and a sheet without data ([max_row1 > 1] fails) has no range. *)
Definition module_ranges {V} `{EqDecision V} (column_a : list V) : list (nat * nat) :=
  let max_row1 := S (length column_a) in
  match column_a with
  | [] => []
  | current_module :: rest => module_ranges_from max_row1 current_module 2 3 rest []
  end.

(** The fills of the data rows of the first sheet, as pairs of a row and
    the index of its colour in [colors['module_table']], in the order they
    are set. *)
Definition module_fills (module_ranges : list (nat * nat)) : list (nat * nat) :=
  concat (imap (fun color_idx '(start_row, end_row) =>
                  map (fun row => (row, color_idx mod 3)%nat)
                      (seq start_row (S end_row - start_row)%nat))
               module_ranges).

(* ===================================================================== *)
(** * process_non_self_purchase_components.py                              *)
(* ===================================================================== *)

Module NonSelfPurchase.

(** [os.path.join(a, b)] (posixpath) *)
Definition join (a b : pystr) : pystr :=
  if startswith b (py "/") then b
  else if bool_decide (a = []) || endswith a (py "/") then a ++ b
  else a ++ py "/" ++ b.

(** [^[Bb][0Oo][Mm]]: a class is the alternation of its characters. *)
Definition bom_name_pattern : regex :=
  items [Bol; Alt (Lit 0x42) (Lit 0x62); Alt (Lit 0x30) (Alt (Lit 0x4F) (Lit 0x6F));
         Alt (Lit 0x4D) (Lit 0x6D)].

(** The test [find_bom_files] puts a file name to. *)
Definition is_bom_file_name (filename : pystr) : bool :=
  re_match IGNORECASE bom_name_pattern filename
  && (endswith filename (py ".xlsx") || endswith filename (py ".xls")).

(** [find_bom_files], over what [os.walk(root_dir)] yields: the path of
    each directory with the names of the files in it. *)
Definition find_bom_files (root_dir : pystr) (walk : list (pystr * list pystr))
  : list pystr :=
  flat_map (fun '(dirpath, filenames) =>
              if decide (dirpath = root_dir) then []
              else map (join dirpath) (List.filter is_bom_file_name filenames))
           walk.

(** [clean_invalid_content] *)
Definition clean_invalid_content (val : cell) : option pystr :=
  match val with
  | NaN => None
  | Str s =>
    let str_val := strip s in
    let str_val :=
      remove_char 0x0D (remove_char 0x0A (remove_char 0x09 (remove_char 0x3000 str_val))) in
    match str_val with
    | [] => None
    | _ :: _ => Some str_val
    end
  end.

(** The inner loop of [match_column_name]: the first column, in column
    order, whose lower-cased name contains [target_lower]. *)
Fixpoint first_column_containing (df_columns : list pystr) (target_lower : pystr)
  : option pystr :=
  match df_columns with
  | [] => None
  | col :: rest =>
    if contains (lower col) target_lower then Some col
    else first_column_containing rest target_lower
  end.

(** [match_column_name] *)
Fixpoint match_column_name (df_columns target_names : list pystr) : option pystr :=
  match target_names with
  | [] => None
  | target :: rest =>
    match first_column_containing df_columns (lower target) with
    | Some col => Some col
    | None => match_column_name df_columns rest
    end
  end.

(** [column_mapping] of [judge_non_self_purchase] *)
Definition taobao_link : list pystr :=
  [py "淘宝链接"; py "淘宝网址"; py "taobao"; py "taobao url"].
Definition order_config : list pystr :=
  [py "下单配置"; py "规格"; py "配置"; py "spec"; py "specification"].
Definition min_order : list pystr :=
  [py "最小起订量"; py "订购量"; py "最小订购量"; py "moq"; py "min order"].

(** A resolved column is used when it is truthy ([if taobao_col:]); an
    unresolved one gives the cleaned value [None]. *)
Definition clean_column (col : option pystr) (r : row) : option pystr :=
  match col with
  | Some ((_ :: _) as c) => clean_invalid_content (r c)
  | _ => None
  end.

(** The row mask of [judge_non_self_purchase]: the three cleaned values are
    all missing. *)
Definition non_self_purchase_row (taobao_col order_col min_order_col : option pystr)
    (r : row) : bool :=
  bool_decide (clean_column taobao_col r = None)
  && bool_decide (clean_column order_col r = None)
  && bool_decide (clean_column min_order_col r = None).

Definition cell_of_option (o : option pystr) : cell :=
  match o with Some s => Str s | None => NaN end.

(** [s.replace(old, '')] for a non-empty [old]: occurrences are removed left
    to right, [skip] counting the characters of the occurrence being dropped. *)
Fixpoint remove_sub_from (old : pystr) (skip : nat) (s : pystr) : pystr :=
  match s with
  | [] => []
  | c :: s' =>
    match skip with
    | S k => remove_sub_from old k s'
    | O =>
      if startswith s old then remove_sub_from old (Nat.pred (length old)) s'
      else c :: remove_sub_from old 0 s'
    end
  end.

Definition remove_sub (old s : pystr) : pystr := remove_sub_from old 0 s.

(** [os.path.basename] (posixpath) *)
Definition basename (p : pystr) : pystr :=
  fold_left (fun tail c => if c =? 0x2F then [] else tail ++ [c]) p [].

(** [judge_non_self_purchase] *)
Definition judge_non_self_purchase (df : DataFrame) : DataFrame :=
  let taobao_col := match_column_name (columns df) taobao_link in
  let order_col := match_column_name (columns df) order_config in
  let min_order_col := match_column_name (columns df) min_order in
  let df_copy := df in
  let df_copy :=
    set_column (py "clean_taobao")
      (fun r => cell_of_option (clean_column taobao_col r)) df_copy in
  let df_copy :=
    set_column (py "clean_order")
      (fun r => cell_of_option (clean_column order_col r)) df_copy in
  let df_copy :=
    set_column (py "clean_min_order")
      (fun r => cell_of_option (clean_column min_order_col r)) df_copy in
  let non_self_purchase :=
    {| columns := columns df_copy;
       rows := List.filter (fun r : row => isna (r (py "clean_taobao"))
                                           && isna (r (py "clean_order"))
                                           && isna (r (py "clean_min_order")))
                 (rows df_copy) |} in
  if decide (py "file_path" ∈ columns df_copy) then
    set_column (py "模块名称")
      (fun r => match r (py "file_path") with
                | Str x => Str (remove_sub (py ".xls") (remove_sub (py ".xlsx") (basename x)))
                | NaN => NaN
                end)
      non_self_purchase
  else non_self_purchase.

(** The labels [classify_component] returns. *)
Definition unknown : pystr := py "未知（无位号）".
Definition resistor : pystr := py "电阻".
Definition capacitor : pystr := py "电容".
Definition diode : pystr := py "二极管".
Definition transistor : pystr := py "晶体管".
Definition integrated_circuit : pystr := py "集成电路".
Definition switch : pystr := py "开关".
Definition connector : pystr := py "连接器".
Definition other : pystr := py "其他".

(** [classify_component] *)
Definition classify_component (designator : cell) : pystr :=
  match designator with
  | NaN => unknown
  | Str s =>
    let designator_str := upper (strip s) in
    if startswith designator_str (py "R") then resistor
    else if startswith designator_str (py "C") then capacitor
    else if startswith designator_str (py "LED") then diode
    else if startswith designator_str (py "Q") then transistor
    else if startswith designator_str (py "U") then integrated_circuit
    else if startswith designator_str (py "SW") then switch
    else if existsb (fun prefix => contains designator_str prefix)
              [py "J"; py "CN"; py "USB"] then connector
    else other
  end.

(** One row of [result_df], every field cleaned. *)
Record component := {
  module_name : option pystr;       (* 模块名称 *)
  Designator : option pystr;
  Supplier_Part : option pystr;
  component_type : option pystr;    (* 元器件类型 *)
  Manufacturer_Part : option pystr;
  Manufacturer : option pystr
}.

#[global] Instance component_eq_dec : EqDecision component.
Proof. solve_decision. Defined.

(** [field_mapping] of [process_bom_file] *)
Definition designator_variants : list pystr :=
  [py "designator"; py "位号"; py "元件位号"].
Definition supplier_part_variants : list pystr :=
  [py "supplier part"; py "立创编号"; py "供应商编号"; py "supplier p/n"].
Definition manufacturer_part_variants : list pystr :=
  [py "manufacturer part"; py "器件型号"; py "型号"; py "mfr p/n"; py "manufacturer p/n"].
Definition manufacturer_variants : list pystr :=
  [py "manufacturer"; py "制造商"; py "品牌"].

(** [match_column_name(...) or default] *)
Definition or_default (o : option pystr) (default : pystr) : pystr :=
  match o with
  | Some ((_ :: _) as c) => c
  | _ => default
  end.

(** [non_self_df[col] = np.nan] for a [col] the frame does not have. *)
Definition ensure_column (col : pystr) (df : DataFrame) : DataFrame :=
  if decide (col ∈ columns df) then df else set_column col (fun _ => NaN) df.

(** [process_bom_file], from the frame [pd.read_excel] gives; [None] as the
    argument is a file that could not be read, [None] as the result is the
    source's [return None]. *)
Definition process_bom_file (file_path : pystr) (read_excel : option DataFrame)
  : option (list component) :=
  match read_excel with
  | None => None
  | Some df =>
    let df := set_column (py "file_path") (fun _ => Str file_path) df in
    let non_self_df := judge_non_self_purchase df in
    match rows non_self_df with
    | [] => None
    | _ :: _ =>
      let designator_col :=
        or_default (match_column_name (columns df) designator_variants) (py "Designator") in
      let supplier_part_col :=
        or_default (match_column_name (columns df) supplier_part_variants) (py "Supplier Part") in
      let manufacturer_part_col :=
        or_default (match_column_name (columns df) manufacturer_part_variants)
          (py "Manufacturer Part") in
      let manufacturer_col :=
        or_default (match_column_name (columns df) manufacturer_variants) (py "Manufacturer") in
      let non_self_df :=
        ensure_column manufacturer_col (ensure_column manufacturer_part_col
          (ensure_column supplier_part_col (ensure_column designator_col non_self_df))) in
      let non_self_df :=
        set_column (py "元器件类型")
          (fun r => Str (classify_component (r designator_col))) non_self_df in
      Some (map (fun r =>
                   {| module_name := clean_invalid_content (r (py "模块名称"));
                      Designator := clean_invalid_content (r designator_col);
                      Supplier_Part := clean_invalid_content (r supplier_part_col);
                      component_type := clean_invalid_content (r (py "元器件类型"));
                      Manufacturer_Part := clean_invalid_content (r manufacturer_part_col);
                      Manufacturer := clean_invalid_content (r manufacturer_col) |})
                (rows non_self_df))
    end
  end.

(** How a column of objects holds a missing value: as the float NaN or as
    [None]. [pd.isna] and [fillna] take the two alike; the hash table of
    [drop_duplicates] keeps them apart. [clean_invalid_content] returns
    [None], and what the cleaned column of a file then holds is for pandas
    to decide, by the type of the column and not the same way in every
    version: a column of strings holds NaN, a column of objects [None]. *)
Inductive missing := float_nan | py_none.

#[global] Instance missing_eq_dec : EqDecision missing.
Proof. solve_decision. Defined.

(** A row of [all_components]: how the frame it comes from holds a missing
    value, and its fields. *)
Definition component_row : Type := missing * component.

(** What [drop_duplicates(subset=['Supplier Part'])] compares of a row. *)
Definition supplier_key (r : component_row) : pystr + missing :=
  match Supplier_Part (snd r) with
  | Some s => inl s
  | None => inr (fst r)
  end.

(** [deduplicate_components] *)
Definition deduplicate_components (all_components : list component_row)
  : list component_row :=
  match all_components with
  | [] => all_components
  | _ :: _ => drop_duplicates supplier_key all_components
  end.

(** The rows of the two sheets [split_regular_special] returns. *)
Record regular_row := {
  r_type : pystr;     (* 元器件类型 *)
  r_name : pystr;     (* 元器件名字 *)
  r_number : pystr    (* 元器件编号 *)
}.

Record special_row := {
  s_module : pystr;   (* 模块名称 *)
  s_type : pystr;
  s_name : pystr;
  s_number : pystr
}.

(** [.fillna('无')] on one value *)
Definition fillna (o : option pystr) : pystr := default (py "无") o.

(** [condition1 | condition2 | condition3] of [split_regular_special] *)
Definition special_condition (c : component) : bool :=
  bool_decide (Designator c = None)
  || bool_decide (Supplier_Part c = None)
  || bool_decide (component_type c = Some other).

Definition special_df (components_df : list component) : list component :=
  List.filter special_condition components_df.

Definition regular_df (components_df : list component) : list component :=
  List.filter (fun c => negb (special_condition c)) components_df.

(** [split_regular_special] *)
Definition split_regular_special (components_df : list component)
  : list regular_row * list special_row :=
  let regular_final :=
    map (fun c => {| r_type := fillna (component_type c);
                     r_name := fillna (Manufacturer_Part c);
                     r_number := fillna (Supplier_Part c) |})
        (regular_df components_df) in
  let special_final :=
    map (fun c => {| s_module := fillna (module_name c);
                     s_type := fillna (component_type c);
                     s_name := fillna (Manufacturer_Part c);
                     s_number := fillna (Supplier_Part c) |})
        (special_df components_df) in
  (regular_final, special_final).

(** The part of [main] after discovery: the frames of the files that gave
    one are concatenated, deduplicated and split. [None] is the early
    return when no file gave a component. [missing_of] says how the frame
    of a file holds its missing values. *)
Definition main (missing_of : pystr -> missing)
    (bom_files : list (pystr * option DataFrame))
  : option (list regular_row * list special_row) :=
  let all_components :=
    omap (fun '(file, read) =>
            match process_bom_file file read with
            | Some ((_ :: _) as component_df) =>
              Some (map (pair (missing_of file)) component_df)
            | _ => None
            end) bom_files in
  match all_components with
  | [] => None
  | _ :: _ =>
    let combined_df := concat all_components in
    let deduplicated_df := deduplicate_components combined_df in
    Some (split_regular_special (map snd deduplicated_df))
  end.

(** ** The sheet [format_excel_file] writes (openpyxl) *)

(** [gray_fill] and [white_fill] *)
Inductive PatternFill := gray_fill | white_fill.

(** What the function sets of a cell: its value, the bold font of a header,
    its fill. *)
Record sheet_cell := {
  cell_value : option pystr;
  cell_bold : bool;
  cell_fill : option PatternFill
}.

(** A cell nothing was written to. *)
Definition empty_cell : sheet_cell :=
  {| cell_value := None; cell_bold := false; cell_fill := None |}.

(** The worksheet, by row and column, both counted from 1. *)
Definition worksheet : Type := nat -> nat -> sheet_cell.

(** [Workbook().active] *)
Definition new_sheet : worksheet := fun _ _ => empty_cell.

Definition update_cell (ws : worksheet) (row col : nat) (f : sheet_cell -> sheet_cell)
  : worksheet :=
  fun r c => if bool_decide (r = row /\ c = col) then f (ws r c) else ws r c.

(** [ws.cell(row=row, column=col, value=value)] *)
Definition set_value (ws : worksheet) (row col : nat) (value : pystr) : worksheet :=
  update_cell ws row col
    (fun x => {| cell_value := Some value; cell_bold := cell_bold x;
                 cell_fill := cell_fill x |}).

(** [ws.cell(row=row, column=col).font = header_font] *)
Definition set_header_font (ws : worksheet) (row col : nat) : worksheet :=
  update_cell ws row col
    (fun x => {| cell_value := cell_value x; cell_bold := true;
                 cell_fill := cell_fill x |}).

(** [ws.cell(row=row, column=col).fill = fill] *)
Definition set_fill (ws : worksheet) (row col : nat) (fill : PatternFill) : worksheet :=
  update_cell ws row col
    (fun x => {| cell_value := cell_value x; cell_bold := cell_bold x;
                 cell_fill := Some fill |}).

(** [enumerate(l, start)] *)
Fixpoint enumerate {A} (l : list A) (start : nat) : list (nat * A) :=
  match l with
  | [] => []
  | x :: rest => (start, x) :: enumerate rest (S start)
  end.

Definition regular_headers : list pystr :=
  [py "元器件类型"; py "元器件名字"; py "元器件编号"].
Definition special_headers : list pystr :=
  [py "模块名称"; py "元器件类型"; py "元器件名字"; py "元器件编号"].
Definition special_title : pystr := py "特殊非自采器件（含模块信息）".

(** [row[header]] on a row of the regular frame, for its three headers *)
Definition regular_item (row : regular_row) (header : pystr) : pystr :=
  if bool_decide (header = py "元器件类型") then r_type row
  else if bool_decide (header = py "元器件名字") then r_name row
  else r_number row.

(** [row[header]] on a row of the special frame, for its four headers *)
Definition special_item (row : special_row) (header : pystr) : pystr :=
  if bool_decide (header = py "模块名称") then s_module row
  else if bool_decide (header = py "元器件类型") then s_type row
  else if bool_decide (header = py "元器件名字") then s_name row
  else s_number row.

(** The header loop: the headers of a table, in bold, in [current_row]. *)
Definition write_headers (ws : worksheet) (current_row : nat) (headers : list pystr)
  : worksheet :=
  fold_left (fun ws '(col, header) =>
               set_header_font (set_value ws current_row col header) current_row col)
            (enumerate headers 1%nat) ws.

(** The body of the data loop: the values of a row under its headers, then
    the fill of the row, gray for an even [idx] and white for an odd one. *)
Definition write_row {R} (item : R -> pystr -> pystr) (headers : list pystr)
    (idx : nat) (row : R) (ws : worksheet) (current_row : nat) : worksheet :=
  let ws :=
    fold_left (fun ws '(col, header) => set_value ws current_row col (item row header))
              (enumerate headers 1%nat) ws in
  let fill := if (idx mod 2 =? 0)%nat then gray_fill else white_fill in
  fold_left (fun ws col => set_fill ws current_row col fill)
            (seq 1 (length headers)) ws.

(** The data loop, which the function has once for each table. *)
Definition write_rows {R} (item : R -> pystr -> pystr) (headers : list pystr)
    (df : list R) (ws : worksheet) (current_row : nat) : worksheet * nat :=
  fold_left (fun '(ws, current_row) '(idx, row) =>
               (write_row item headers idx row ws current_row, S current_row))
            (enumerate df 1%nat) (ws, current_row).

(** [format_excel_file], without the column widths and the saving *)
Definition format_excel_file (regular_df : list regular_row)
    (special_df : list special_row) : worksheet :=
  let ws := new_sheet in
  let current_row := 1%nat in
  let ws := write_headers ws current_row regular_headers in
  let current_row := S current_row in
  let '(ws, current_row) :=
    write_rows regular_item regular_headers regular_df ws current_row in
  match special_df with
  | [] => ws
  | _ :: _ =>
    let current_row := S current_row in
    let ws := set_header_font (set_value ws current_row 1%nat special_title)
                current_row 1%nat in
    let current_row := S current_row in
    let ws := write_headers ws current_row special_headers in
    let current_row := S current_row in
    fst (write_rows special_item special_headers special_df ws current_row)
  end.

End NonSelfPurchase.

(* ===================================================================== *)
(** * extract_bom_components.py                                            *)
(* ===================================================================== *)

Module ExtractBom.

(** [^BOM_.+-v\d+\.\d+(\.\d+)?\.(xlsx|xls)$] *)
Definition bom_file_pattern : regex :=
  items [Bol; lit (py "BOM_"); Plus Dot; lit (py "-v"); Plus Digit; Lit 0x2E; Plus Digit;
       Opt (Group 1 (items [Lit 0x2E; Plus Digit])); Lit 0x2E;
       Group 2 (Alt (lit (py "xlsx")) (lit (py "xls"))); Eol].

(** [^BOM_(.+)-v\d+\.\d+(\.\d+)?\.(xlsx|xls)$] *)
Definition module_name_pattern : regex :=
  items [Bol; lit (py "BOM_"); Group 1 (Plus Dot); lit (py "-v"); Plus Digit; Lit 0x2E;
       Plus Digit; Opt (Group 2 (items [Lit 0x2E; Plus Digit])); Lit 0x2E;
       Group 3 (Alt (lit (py "xlsx")) (lit (py "xls"))); Eol].

Definition core_columns : list pystr :=
  [py "Manufacturer Part"; py "Quantity"; py "Designator"; py "Supplier Part";
   py "LCSC Price"; py "Value"; py "淘宝链接"; py "下单配置"; py "最小起订量"].
Definition unique_type_cols : list pystr :=
  [py "Manufacturer Part"; py "Supplier Part"; py "LCSC Price"; py "淘宝链接"].
Definition filter_columns : list pystr :=
  [py "淘宝链接"; py "下单配置"; py "最小起订量"].
Definition numeric_cols : list pystr :=
  [py "Quantity"; py "LCSC Price"; py "Value"].

(** What the loop prints about a file. *)
Inductive diagnostic :=
| Found (file_name : pystr)                                   (* 找到 *)
| Skipped (file_name : pystr) (missing_cols : list pystr)     (* 跳过…缺少列 *)
| No_self_purchase (file_name : pystr)                        (* 无自采数据 *)
| Extracted (file_name : pystr) (n : nat)                     (* 提取…个器件 *)
| Failed (file_name : pystr).                                 (* 处理…失败 *)

Record state := {
  all_self_purchase : list (list vrow);
  printed : list diagnostic
}.

Definition print (d : diagnostic) (st : state) : state :=
  {| all_self_purchase := all_self_purchase st; printed := printed st ++ [d] |}.

(** The module name taken from the file name. [re.IGNORECASE] is the fourth
    positional argument of [re.sub], which is [count]; [flags] stays 0. *)
Definition module_name_of (file_name : pystr) : pystr :=
  re_sub module_name_pattern 1 file_name IGNORECASE 0.

(** The body of the loop over the files [os.walk] gives. [read_excel] is
    the frame read from the file, or [None] when reading it raised; what
    raises inside the [try] block ends in the same [except] branch. *)
Definition process_file (file_name : pystr) (read_excel : option DataFrame)
    (st : state) : state :=
  if re_match IGNORECASE bom_file_pattern file_name then
    let st := print (Found file_name) st in
    match read_excel with
    | None => print (Failed file_name) st
    | Some df =>
      match strip_columns df with
      | None => print (Failed file_name) st
      | Some df =>
      let missing_cols := missing_columns core_columns df in
      match missing_cols with
      | _ :: _ => print (Skipped file_name missing_cols) st
      | [] =>
        let df_filtered := List.filter (self_purchase_mask filter_columns) (rows df) in
        match df_filtered with
        | [] => print (No_self_purchase file_name) st
        | _ :: _ =>
          let df_calc := map (df_calc_row core_columns numeric_cols) df_filtered in
          let module_name := module_name_of file_name in
          let df_with_module :=
            map (vrow_set (py "模块名称") (Text (Str module_name))) df_calc in
          print (Extracted file_name (length df_with_module))
            {| all_self_purchase := all_self_purchase st ++ [df_with_module];
               printed := printed st |}
        end
      end
      end
    end
  else st.

Definition walk (files : list (pystr * option DataFrame)) (st : state) : state :=
  fold_left (fun st f => process_file (fst f) (snd f) st) files st.

(** What a run hands to the two workbooks and to the statistics. *)
Record report := {
  df_with_module_all : list vrow;    (* 按模块汇总 *)
  df_type_unique : list vrow;        (* 类型汇总 *)
  total : Qc                         (* 自采总金额 *)
}.

(** [extract_and_format_bom], without the styling of the workbooks. *)
Definition extract_and_format_bom (files : list (pystr * option DataFrame))
  : list diagnostic * option report :=
  let st := walk files {| all_self_purchase := []; printed := [] |} in
  match all_self_purchase st with
  | [] => (printed st, None)
  | _ :: _ =>
    let df_with_module_all :=
      sort_values [py "模块名称"] (concat (all_self_purchase st)) in
    let module_total := groupby_sum (py "模块名称") (py "Value") df_with_module_all in
    let df_with_module_all :=
      merge_total (py "模块名称") (py "自采元器件总价") module_total df_with_module_all in
    let df_type_unique :=
      drop_duplicates (fun r : vrow => map r unique_type_cols)
        (map (project core_columns) df_with_module_all) in
    let total :=
      series_sum (map (fun r : vrow => number_of (r (py "自采元器件总价")))
             (drop_duplicates (fun r : vrow => r (py "模块名称")) df_with_module_all)) in
    (printed st,
     Some {| df_with_module_all := df_with_module_all;
             df_type_unique := df_type_unique;
             total := total |})
  end.

End ExtractBom.

(* ===================================================================== *)
(** * modacc_accessory_processor.py                                        *)
(* ===================================================================== *)

Module ModAcc.

(** [^ModAcc_.+-V\d+\.\d+(\.\d+)?\.xlsx$] *)
Definition accessory_file_pattern : regex :=
  items [Bol; lit (py "ModAcc_"); Plus Dot; lit (py "-V"); Plus Digit; Lit 0x2E; Plus Digit;
       Opt (Group 1 (items [Lit 0x2E; Plus Digit])); lit (py ".xlsx"); Eol].

(** [^ModAcc_(.+)-V\d+\.\d+(\.\d+)?\.xlsx$] *)
Definition module_name_pattern : regex :=
  items [Bol; lit (py "ModAcc_"); Group 1 (Plus Dot); lit (py "-V"); Plus Digit; Lit 0x2E;
       Plus Digit; Opt (Group 2 (items [Lit 0x2E; Plus Digit])); lit (py ".xlsx"); Eol].

Definition core_columns : list pystr :=
  [py "No."; py "Quantity"; py "Manufacturer Part"; py "Price"; py "Value";
   py "淘宝链接"; py "下单配置"; py "最小起订量"].
Definition unique_type_cols : list pystr :=
  [py "Manufacturer Part"; py "Price"; py "淘宝链接"].
Definition filter_columns : list pystr :=
  [py "淘宝链接"; py "下单配置"; py "最小起订量"].
Definition numeric_cols : list pystr :=
  [py "Quantity"; py "Price"; py "Value"].

Inductive diagnostic :=
| Found (file_name : pystr)                                   (* 找到目标文件 *)
| Skipped (file_name : pystr) (missing_cols : list pystr)     (* 跳过…缺少核心列 *)
| No_valid_data (file_name : pystr)                           (* 无有效自采配件数据 *)
| Extracted (n : nat)                                         (* 成功提取 *)
| Failed (file_name : pystr).                                 (* 处理…失败 *)

Record state := {
  all_accessory_data : list (list vrow);
  printed : list diagnostic
}.

Definition print (d : diagnostic) (st : state) : state :=
  {| all_accessory_data := all_accessory_data st; printed := printed st ++ [d] |}.

(** The module name taken from the file name; as in the BOM script the
    fourth positional argument of [re.sub] is [count]. *)
Definition module_name_of (file_name : pystr) : pystr :=
  re_sub module_name_pattern 1 file_name IGNORECASE 0.

Definition process_file (file_name : pystr) (read_excel : option DataFrame)
    (st : state) : state :=
  if re_match IGNORECASE accessory_file_pattern file_name then
    let st := print (Found file_name) st in
    match read_excel with
    | None => print (Failed file_name) st
    | Some df =>
      match strip_columns df with
      | None => print (Failed file_name) st
      | Some df =>
      let missing_cols := missing_columns core_columns df in
      match missing_cols with
      | _ :: _ => print (Skipped file_name missing_cols) st
      | [] =>
        let df_filtered := List.filter (self_purchase_mask filter_columns) (rows df) in
        match df_filtered with
        | [] => print (No_valid_data file_name) st
        | _ :: _ =>
          let df_calc := map (df_calc_row core_columns numeric_cols) df_filtered in
          let module_name := module_name_of file_name in
          let df_with_module :=
            map (vrow_set (py "模块名称") (Text (Str module_name))) df_calc in
          print (Extracted (length df_with_module))
            {| all_accessory_data := all_accessory_data st ++ [df_with_module];
               printed := printed st |}
        end
      end
      end
    end
  else st.

Definition walk (files : list (pystr * option DataFrame)) (st : state) : state :=
  fold_left (fun st f => process_file (fst f) (snd f) st) files st.

Record report := {
  df_total : list vrow;              (* 模块配件汇总 *)
  df_unique : list vrow;             (* 去重配件类型 *)
  total_modules : nat;
  total_accessories : nat;
  total_unique_types : nat;
  total_amount : Qc                  (* 配件总金额 *)
}.

(** [df_unique['No.'] = range(1, len(df_unique) + 1)] *)
Definition renumber (df : list vrow) : list vrow :=
  imap (fun i r => vrow_set (py "No.") (Number (Q2Qc (inject_Z (Z.of_nat (S i))))) r) df.

(** [extract_and_format_accessory], without the styling of the workbooks. *)
Definition extract_and_format_accessory (files : list (pystr * option DataFrame))
  : list diagnostic * option report :=
  let st := walk files {| all_accessory_data := []; printed := [] |} in
  match all_accessory_data st with
  | [] => (printed st, None)
  | _ :: _ =>
    let df_total :=
      sort_values [py "模块名称"; py "No."] (concat (all_accessory_data st)) in
    let module_total := groupby_sum (py "模块名称") (py "Value") df_total in
    let df_total :=
      merge_total (py "模块名称") (py "模块配件总金额") module_total df_total in
    let col_order := [py "模块名称"; py "模块配件总金额"] ++ core_columns in
    let df_total := map (project col_order) df_total in
    let df_unique :=
      renumber (drop_duplicates (fun r : vrow => map r unique_type_cols)
                  (map (project core_columns) df_total)) in
    let total_amount :=
      series_sum (drop_duplicates id
             (map (fun r : vrow => number_of (r (py "模块配件总金额"))) df_total)) in
    (printed st,
     Some {| df_total := df_total;
             df_unique := df_unique;
             total_modules :=
               length (drop_duplicates id (map (fun r : vrow => r (py "模块名称")) df_total));
             total_accessories := length df_total;
             total_unique_types := length df_unique;
             total_amount := total_amount |})
  end.

End ModAcc.

(* ===================================================================== *)
(** * mod_acc_list_gen.py                                                  *)
(* ===================================================================== *)

Module ModAccListGen.

(** [.+(模块|扩展板)-V\d+\.\d+(\.\d+)?$] *)
Definition module_folder_pattern : regex :=
  items [Plus Dot; Group 1 (Alt (lit (py "模块")) (lit (py "扩展板"))); lit (py "-V");
         Plus Digit; Lit 0x2E; Plus Digit; Opt (Group 2 (items [Lit 0x2E; Plus Digit])); Eol].

Definition list_columns : list pystr :=
  [py "No."; py "Quantity"; py "Manufacturer Part"; py "Price"; py "Value";
   py "淘宝链接"; py "下单配置"; py "最小起订量"].

(** The test a folder name is put to:
    [module_folder_pattern.match(folder.name) and ".idea" not in folder.name]. *)
Definition is_module_folder (folder_name : pystr) : bool :=
  re_match 0 module_folder_pattern folder_name && negb (contains folder_name (py ".idea")).

(** [f"ModAcc_{folder.name}.xlsx"] *)
Definition list_filename (folder_name : pystr) : pystr :=
  py "ModAcc_" ++ folder_name ++ py ".xlsx".

End ModAccListGen.

(* ===================================================================== *)
(** * Vocabulary of the statements, and sample inputs                     *)
(* ===================================================================== *)

Import NonSelfPurchase.

(** [header] contains [variant] as a substring, letter case aside. *)
Definition ci_contains (header variant : pystr) : Prop :=
  exists a b, lower header = a ++ lower variant ++ b.

(** A closed decidable statement, settled by evaluation. *)
Ltac by_compute := apply (bool_decide_unpack _); vm_compute; exact I.

(** The rule table of the classifier as an ordered list of a test on the
    normalized designator and the category it gives. *)
Definition taxonomy : list ((pystr -> bool) * pystr) :=
  [ (fun d => startswith d (py "R"), resistor);
    (fun d => startswith d (py "C"), capacitor);
    (fun d => startswith d (py "LED"), diode);
    (fun d => startswith d (py "Q"), transistor);
    (fun d => startswith d (py "U"), integrated_circuit);
    (fun d => startswith d (py "SW"), switch);
    (fun d => contains d (py "J") || contains d (py "CN") || contains d (py "USB"),
     connector) ].

(** First match wins; [other] when no rule matches. *)
Fixpoint first_match (rules : list ((pystr -> bool) * pystr)) (d : pystr) : pystr :=
  match rules with
  | [] => other
  | (test, category) :: rest => if test d then category else first_match rest d
  end.

Definition categories : list pystr :=
  [unknown; resistor; capacitor; diode; transistor; integrated_circuit; switch;
   connector; other].

(** A cell with nothing in it: missing, or a text that strips to nothing. *)
Definition blank (c : cell) : Prop :=
  match c with
  | NaN => True
  | Str s => strip s = []
  end.

(** An indicator that gives nothing for a row: its column is unresolved, or
    the cell of the row in it is blank. *)
Definition indicator_absent (col : option pystr) (r : row) : Prop :=
  match col with
  | Some ((_ :: _) as c) => blank (r c)
  | _ => True
  end.

(** The records of [df] whose key has not occurred earlier in [df]: the
    record at index [i] stays when its key is the key of none of the [i]
    records before it. *)
Definition first_occurrences {A K : Type} `{EqDecision K}
    (subset : A -> K) (df : list A) : list A :=
  omap (fun i => r ← df !! i;
                 if decide (subset r ∈ map subset (take i df)) then None else Some r)
       (seq 0 (length df)).

(** Two components of different modules that share a supplier part and
    differ in the manufacturer part. *)
Definition sensor_part : component :=
  {| module_name := Some (py "BOM_Sensor-v1.0"); Designator := Some (py "R1");
     Supplier_Part := Some (py "C25804"); component_type := Some resistor;
     Manufacturer_Part := Some (py "0603WAF1002T5E"); Manufacturer := Some (py "UNI-ROYAL") |}.

Definition power_part : component :=
  {| module_name := Some (py "BOM_Power-v2.0"); Designator := Some (py "R7");
     Supplier_Part := Some (py "C25804"); component_type := Some resistor;
     Manufacturer_Part := Some (py "RC0603FR-0710KL"); Manufacturer := Some (py "YAGEO") |}.

(** Two components without a supplier part that agree in no field. *)
Definition unnumbered_header : component :=
  {| module_name := Some (py "BOM_Sensor-v1.0"); Designator := Some (py "J1");
     Supplier_Part := None; component_type := Some connector;
     Manufacturer_Part := Some (py "PH2.54-4P"); Manufacturer := Some (py "BOOMELE") |}.

Definition unnumbered_blank : component :=
  {| module_name := Some (py "BOM_Power-v2.0"); Designator := None;
     Supplier_Part := None; component_type := Some unknown;
     Manufacturer_Part := None; Manufacturer := None |}.

Definition regular_final_row (c : component) : regular_row :=
  {| r_type := fillna (component_type c);
     r_name := fillna (Manufacturer_Part c);
     r_number := fillna (Supplier_Part c) |}.

Definition special_final_row (c : component) : special_row :=
  {| s_module := fillna (module_name c);
     s_type := fillna (component_type c);
     s_name := fillna (Manufacturer_Part c);
     s_number := fillna (Supplier_Part c) |}.

(** Two sheets with a part that has no supplier part: in the first the
    column holds the supplier part of another row, in the second there is no
    such column. *)
Definition sheet_with_unnumbered_header : DataFrame :=
  {| columns := [py "Designator"; py "Supplier Part"; py "Manufacturer Part"];
     rows := [mkrow [(py "Designator", Str (py "R1"));
                     (py "Supplier Part", Str (py "C25804"));
                     (py "Manufacturer Part", Str (py "0603WAF1002T5E"))];
              mkrow [(py "Designator", Str (py "J1"));
                     (py "Manufacturer Part", Str (py "PH2.54-4P"))]] |}.

Definition sheet_without_supplier_parts : DataFrame :=
  {| columns := [py "Designator"; py "Manufacturer Part"];
     rows := [mkrow [(py "Designator", Str (py "J2"));
                     (py "Manufacturer Part", Str (py "XH2.54-2P"))]] |}.

(** The first of the two holds its missing values as NaN, the second as
    [None]. *)
Definition held_apart (file : pystr) : missing :=
  if decide (file = py "power/BOM_Power-v2.0.xlsx") then py_none else float_nan.

(** A sheet without a header row. *)
Definition empty_sheet : DataFrame := {| columns := []; rows := [] |}.

(** A BOM sheet that lacks most of the mandatory columns, and one that has
    them all and one self-purchase line. *)
Definition sheet_without_value : DataFrame :=
  {| columns := [py "Manufacturer Part"; py " Quantity "; py "淘宝链接"];
     rows := [mkrow [(py "Manufacturer Part", Str (py "ESP32-WROOM-32E"));
                     (py " Quantity ", Str (py "1"));
                     (py "淘宝链接", Str (py "https://item.taobao.com/item.htm?id=1"))]] |}.

Definition bom_line (part supplier value link : string) : row :=
  mkrow [(py "Manufacturer Part", Str (py part)); (py "Quantity", Str (py "1"));
         (py "Designator", Str (py "U1")); (py "Supplier Part", Str (py supplier));
         (py "LCSC Price", Str (py value)); (py "Value", Str (py value));
         (py "淘宝链接", Str (py link))].

Definition bom_sheet (lines : list row) : DataFrame :=
  {| columns := ExtractBom.core_columns; rows := lines |}.

Definition accessory_line (no part value link : string) : row :=
  mkrow [(py "No.", Str (py no)); (py "Quantity", Str (py "1"));
         (py "Manufacturer Part", Str (py part)); (py "Price", Str (py value));
         (py "Value", Str (py value)); (py "淘宝链接", Str (py link))].

Definition accessory_sheet (lines : list row) : DataFrame :=
  {| columns := ModAcc.core_columns; rows := lines |}.

Definition power_bom : pystr * option DataFrame :=
  (py "BOM_Power-v2.0.xlsx",
   Some (bom_sheet [bom_line "TPS5430" "C9864" "3" "https://item.taobao.com/item.htm?id=2"])).

Definition mg811_accessories : pystr * option DataFrame :=
  (py "ModAcc_MG811-V1.2.0.xlsx",
   Some (accessory_sheet
           [accessory_line "1" "PH2.0 cable" "2.5" "https://item.taobao.com/item.htm?id=3"])).

(** The column of module names in the first sheet of a BOM run. *)
Definition bom_module_names (files : list (pystr * option DataFrame)) : option (list value) :=
  (fun rep => map (fun r : vrow => r (py "模块名称")) (ExtractBom.df_with_module_all rep))
    <$> snd (ExtractBom.extract_and_format_bom files).

Definition accessory_module_names (files : list (pystr * option DataFrame))
  : option (list value) :=
  (fun rep => map (fun r : vrow => r (py "模块名称")) (ModAcc.df_total rep))
    <$> snd (ModAcc.extract_and_format_accessory files).

Definition amount (n : Z) : Qc := Q2Qc (inject_Z n).

(** Two modules with one self-purchase line each, both of value 10. *)
Definition two_accessory_modules : list (pystr * option DataFrame) :=
  [(py "ModAcc_A-V1.0.xlsx",
    Some (accessory_sheet
            [accessory_line "1" "PH2.0 cable" "10" "https://item.taobao.com/item.htm?id=4"]));
   (py "ModAcc_B-V1.0.xlsx",
    Some (accessory_sheet
            [accessory_line "1" "M3 bracket" "10" "https://item.taobao.com/item.htm?id=5"]))].

Definition two_bom_modules : list (pystr * option DataFrame) :=
  [(py "BOM_A-v1.0.xlsx",
    Some (bom_sheet [bom_line "TPS5430" "C9864" "10" "https://item.taobao.com/item.htm?id=6"]));
   (py "BOM_B-v1.0.xlsx",
    Some (bom_sheet [bom_line "AMS1117" "C6186" "10" "https://item.taobao.com/item.htm?id=7"]))].

(** Module, module total and value of every line of the first sheet. *)
Definition accessory_lines (files : list (pystr * option DataFrame))
  : option (list (value * value * value)) :=
  (fun rep => map (fun r : vrow => (r (py "模块名称"), r (py "模块配件总金额"), r (py "Value")))
                  (ModAcc.df_total rep))
    <$> snd (ModAcc.extract_and_format_accessory files).

Definition bom_lines (files : list (pystr * option DataFrame))
  : option (list (value * value * value)) :=
  (fun rep => map (fun r : vrow => (r (py "模块名称"), r (py "自采元器件总价"), r (py "Value")))
                  (ExtractBom.df_with_module_all rep))
    <$> snd (ExtractBom.extract_and_format_bom files).

(** The sum of column [col] over the rows of [df] whose [key] is [k]: the
    value contributions of one module. *)
Definition group_total (key col : pystr) (df : list vrow) (k : value) : Qc :=
  series_sum (map (fun r : vrow => number_of (r col))
                (List.filter (fun r : vrow => bool_decide (r key = k)) df)).

(** A non-empty run of digits. *)
Definition digits (s : pystr) : Prop := s <> [] /\ Forall (fun c => isdigit c = true) s.

(** The text after the module part of a file name:
    [<vtag><major>.<minor>[.<patch>].<ext>]. *)
Definition opt_patch (patch : option pystr) : pystr :=
  match patch with Some p => py "." ++ p | None => [] end.

Definition version_suffix (vtag major minor : pystr) (patch : option pystr) (ext : pystr)
  : pystr :=
  vtag ++ major ++ py "." ++ minor ++ opt_patch patch ++ py "." ++ ext.

(** The shape the two module-name patterns share,
    [^prefix(.+)vtag\d+\.\d+(\.\d+)?after_patch]: they differ in the
    prefix, the version tag and what they take after the version. *)
Definition patch_group : regex := Opt (Group 2 (Cat (Lit 0x2E) (Cat (Plus Digit) Empty))).

Definition after_minor (after_patch : regex) : regex := Cat patch_group after_patch.

Definition after_module (vtag : pystr) (after_patch : regex) : regex :=
  Cat (lit vtag)
    (Cat (Plus Digit) (Cat (Lit 0x2E) (Cat (Plus Digit) (after_minor after_patch)))).

Definition name_pattern (prefix vtag : pystr) (after_patch : regex) : regex :=
  Cat Bol (Cat (lit prefix) (Cat (Group 1 (Plus Dot)) (after_module vtag after_patch))).

(** The state either loop starts from. *)
Definition bom_start : ExtractBom.state :=
  {| ExtractBom.all_self_purchase := []; ExtractBom.printed := [] |}.

Definition accessory_start : ModAcc.state :=
  {| ModAcc.all_accessory_data := []; ModAcc.printed := [] |}.

(** Reading the fields of a loop state, and nothing else. *)
Ltac state_fields :=
  cbn [ExtractBom.all_self_purchase ExtractBom.printed
       ModAcc.all_accessory_data ModAcc.printed].

(** One pass of either loop adds frames and diagnostics to what the state
    holds, and what it adds does not depend on the state. *)
Ltac loop_effect :=
  repeat match goal with
         | |- context [if ?b then _ else _] => destruct b
         | |- context [match ?x with _ => _ end] => destruct x
         end;
  eexists _, _; intros [frames0 log0]; state_fields; f_equal;
  first [ reflexivity
        | symmetry; apply app_nil_r
        | rewrite <- ?app_assoc; reflexivity ].

(** The module name [judge_non_self_purchase] takes from the path of a
    file: its last component without [.xlsx] and [.xls]. *)
Definition file_stem (file_path : pystr) : pystr :=
  remove_sub (py ".xls") (remove_sub (py ".xlsx") (basename file_path)).

(** The categories a designator prefix gives. *)
Definition designator_categories : list pystr :=
  [resistor; capacitor; diode; transistor; integrated_circuit; switch; connector].

(** The columns [judge_non_self_purchase] writes. *)
Definition judged_columns : list pystr :=
  [py "clean_taobao"; py "clean_order"; py "clean_min_order"; py "模块名称"].

(** The cell of a row in a resolved column; missing when the column is
    unresolved. *)
Definition resolved_cell (col : option pystr) (r : row) : cell :=
  match col with
  | Some ((_ :: _) as c) => r c
  | _ => NaN
  end.

(** The record of one row of a sheet, read from the row itself: the fields
    are the cleaned cells of the columns resolved from the headers of the
    sheet, the category is that of the designator cell, the module name is
    the cleaned stem of the path. *)
Definition record_of (file_path : pystr) (df_columns : list pystr) (r : row) : component :=
  {| module_name := clean_invalid_content (Str (file_stem file_path));
     Designator := clean_column (match_column_name df_columns designator_variants) r;
     Supplier_Part := clean_column (match_column_name df_columns supplier_part_variants) r;
     component_type :=
       Some (classify_component
               (resolved_cell (match_column_name df_columns designator_variants) r));
     Manufacturer_Part :=
       clean_column (match_column_name df_columns manufacturer_part_variants) r;
     Manufacturer := clean_column (match_column_name df_columns manufacturer_variants) r |}.

(** The rows of a sheet that [judge_non_self_purchase] keeps. *)
Definition non_self_purchase_rows (df : DataFrame) : list row :=
  List.filter
    (non_self_purchase_row (match_column_name (columns df) taobao_link)
       (match_column_name (columns df) order_config)
       (match_column_name (columns df) min_order))
    (rows df).

(** The rows of a range of a sheet. *)
Definition rows_of (range : nat * nat) : list nat :=
  seq (fst range) (S (snd range) - fst range)%nat.

(** Each element is before its successor. *)
Fixpoint ordered {A} (leb : A -> A -> bool) (l : list A) : Prop :=
  match l with
  | [] => True
  | x :: l' => match l' with y :: _ => leb x y = true | [] => True end /\ ordered leb l'
  end.

(** Equal elements are next to each other: an element that is followed by
    another one does not come back. *)
Fixpoint contiguous {A} (l : list A) : Prop :=
  match l with
  | [] => True
  | x :: l' => match l' with y :: _ => y <> x -> x ∉ l' | [] => True end /\ contiguous l'
  end.

(** The texts a pattern takes: [matches flags r pos s s'] says that [r],
    [pos] characters into the text and with [s] ahead, can take the
    characters of [s] up to [s']. *)
Inductive matches (flags : nat) : regex -> nat -> pystr -> pystr -> Prop :=
| matches_Empty pos s : matches flags Empty pos s s
| matches_Bol s : matches flags Bol 0 s s
| matches_Eol_end pos : matches flags Eol pos [] []
| matches_Eol_newline pos : matches flags Eol pos [0x0A] [0x0A]
| matches_Lit c d pos s :
    char_matches flags c d = true -> matches flags (Lit c) pos (d :: s) s
| matches_Dot d pos s : d <> 0x0A -> matches flags Dot pos (d :: s) s
| matches_Digit d pos s : isdigit d = true -> matches flags Digit pos (d :: s) s
| matches_Cat r1 r2 pos s s1 s2 :
    matches flags r1 pos s s1 ->
    matches flags r2 (pos + (length s - length s1)) s1 s2 ->
    matches flags (Cat r1 r2) pos s s2
| matches_Alt_l r1 r2 pos s s1 :
    matches flags r1 pos s s1 -> matches flags (Alt r1 r2) pos s s1
| matches_Alt_r r1 r2 pos s s1 :
    matches flags r2 pos s s1 -> matches flags (Alt r1 r2) pos s s1
| matches_Plus_one r pos s s1 :
    matches flags r pos s s1 -> matches flags (Plus r) pos s s1
| matches_Plus_more r pos s s1 s2 :
    matches flags r pos s s1 -> (length s1 < length s)%nat ->
    matches flags (Plus r) (pos + (length s - length s1)) s1 s2 ->
    matches flags (Plus r) pos s s2
| matches_Opt_some r pos s s1 :
    matches flags r pos s s1 -> matches flags (Opt r) pos s s1
| matches_Opt_none r pos s : matches flags (Opt r) pos s s
| matches_Group n r pos s s1 :
    matches flags r pos s s1 -> matches flags (Group n r) pos s s1.

(** [text] is the literal as the flags let it be written: character by
    character equal, letter case aside under [IGNORECASE]. *)
Definition like (flags : nat) (text literal : pystr) : Prop :=
  Forall2 (fun c d => char_matches flags c d = true) literal text.

(** A pattern without its groups, which take part in no decision. *)
Fixpoint ungroup (r : regex) : regex :=
  match r with
  | Group _ r' => ungroup r'
  | Cat r1 r2 => Cat (ungroup r1) (ungroup r2)
  | Alt r1 r2 => Alt (ungroup r1) (ungroup r2)
  | Plus r' => Plus (ungroup r')
  | Opt r' => Opt (ungroup r')
  | _ => r
  end.

(** [^prefix.+vtag\d+\.\d+(\.\d+)?after], the shape the four file-name
    patterns share when their groups are left out. *)
Definition versioned_pattern (prefix vtag : pystr) (after : regex) : regex :=
  Cat Bol
    (Cat (lit prefix)
       (Cat (Plus Dot)
          (Cat (lit vtag)
             (Cat (Plus Digit)
                (Cat (Lit 0x2E)
                   (Cat (Plus Digit)
                      (Cat (Opt (Cat (Lit 0x2E) (Cat (Plus Digit) Empty))) after))))))).

(** The names [<prefix><module><vtag><major>.<minor>[.<patch>].<ext>]: a
    module part that is not empty and holds no newline, version numbers
    that are runs of digits, an extension out of [exts]; the literal parts
    written as [flags] lets them, and possibly a newline at the very end
    (where [$] matches, too). *)
Definition versioned_name (flags : nat) (prefix vtag : pystr) (exts : list pystr)
    (name : pystr) : Prop :=
  exists p m v major minor patch e nl,
    name = p ++ m ++ version_suffix v major minor patch e ++ nl
    /\ like flags p prefix
    /\ m <> [] /\ Forall (fun c => c <> 0x0A) m
    /\ like flags v vtag
    /\ digits major /\ digits minor /\ (forall x, patch = Some x -> digits x)
    /\ (exists ext, ext ∈ exts /\ like flags e ext)
    /\ (nl = [] \/ nl = [0x0A]).

(** A [Value] cell that the model reads as pandas does: a missing cell, or
    a run of the digits 0 to 9. *)
Definition plain_amount (c : cell) : bool :=
  match c with
  | NaN => true
  | Str s => negb (Nat.eqb (length s) 0) && forallb ascii_digit s
  end.

(** Every [Value] cell of every sheet of a run is such a cell. *)
Definition plain_values (files : list (pystr * option DataFrame)) : bool :=
  forallb (fun f : pystr * option DataFrame =>
             match snd f with
             | Some df =>
               match strip_columns df with
               | Some df => forallb (fun r : row => plain_amount (r (py "Value"))) (rows df)
               | None => true
               end
             | None => true
             end) files.

(** An amount below 2^53: sums of whole numbers that stay below it are the
    same in 64-bit floats, whatever the order of the additions, as in exact
    arithmetic. *)
Definition exact_in_float (q : Qc) : Prop := (q < amount (2 ^ 53))%Qc.

(** The code points a table of runs can send to [v]: [v] itself when the
    table leaves it alone, and of each run the one code point that would
    have this image. *)
Definition preimage (table : list run) (v : char) : list char :=
  match List.find (in_run v) table with
  | Some _ => []
  | None => [v]
  end
  ++ flat_map (fun '(first, last, _, img) =>
                 if (img <=? v) && (v - img <=? last - first)
                 then [first + (v - img)] else [])
              table.

(** The code points that can match the literal [c] under [IGNORECASE]. *)
Definition candidates (c : char) : list char :=
  if iscased c
  then flat_map (preimage lowercase_table) (lower_char c :: extra_cases (lower_char c))
  else [c].

(** What an ASCII character of a pattern stands for under [IGNORECASE]:
    itself, for a letter also its other case, and for the letters i, k and s
    also the capital I with dot above and the dotless i, the Kelvin sign,
    and the long s. *)
Definition ignorecase_class (c : char) : list char :=
  let lo := if (0x41 <=? c) && (c <=? 0x5A) then c + 32 else c in
  if (0x61 <=? lo) && (lo <=? 0x7A) then
    [lo - 32; lo]
    ++ (if lo =? 0x69 then [0x130; 0x131]
        else if lo =? 0x6B then [0x212A]
        else if lo =? 0x73 then [0x17F]
        else [])
  else [c].

(** The fill of the row with number [idx] of a table *)
Definition row_fill (idx : nat) : PatternFill :=
  if (idx mod 2 =? 0)%nat then gray_fill else white_fill.

(** A header cell: bold, without fill. A data cell: plain, filled. *)
Definition header_cell (text : pystr) : sheet_cell :=
  {| cell_value := Some text; cell_bold := true; cell_fill := None |}.
Definition data_cell (fill : PatternFill) (text : pystr) : sheet_cell :=
  {| cell_value := Some text; cell_bold := false; cell_fill := Some fill |}.

(** The cells of a row of the sheet in the columns 1 to [width] *)
Definition sheet_row (ws : worksheet) (row width : nat) : list sheet_cell :=
  map (ws row) (seq 1 width).

Ltac decide_cells :=
  repeat match goal with
         | |- context [bool_decide ?P] =>
           first [ rewrite (bool_decide_eq_true_2 P) by lia
                 | rewrite (bool_decide_eq_false_2 P) by lia ]
         end.

(** A sheet of the sensor board: a resistor without a purchase indicator
    and a regulator with a link. *)
Definition sensor_sheet : DataFrame :=
  {| columns := [py "Designator"; py "Supplier Part"; py "Manufacturer Part";
                 py "Manufacturer"; py "淘宝链接"];
     rows := [mkrow [(py "Designator", Str (py "R1"));
                     (py "Supplier Part", Str (py "C25804"));
                     (py "Manufacturer Part", Str (py "0603WAF1002T5E"));
                     (py "Manufacturer", Str (py "UNI-ROYAL"))];
              mkrow [(py "Designator", Str (py "U1"));
                     (py "Supplier Part", Str (py "C9864"));
                     (py "Manufacturer Part", Str (py "TPS5430"));
                     (py "Manufacturer", Str (py "TI"));
                     (py "淘宝链接", Str (py "https://item.taobao.com/item.htm?id=2"))]] |}.

(** The record of the resistor of [sensor_sheet]: the header
    "Manufacturer Part" is the first to hold "manufacturer", and fills both
    fields. *)
Definition sensor_record : component :=
  {| module_name := Some (py "BOM_Sensor-v1.0"); Designator := Some (py "R1");
     Supplier_Part := Some (py "C25804"); component_type := Some resistor;
     Manufacturer_Part := Some (py "0603WAF1002T5E");
     Manufacturer := Some (py "0603WAF1002T5E") |}.

(** A sheet without a designator column. *)
Definition sheet_without_designator : DataFrame :=
  {| columns := [py "Supplier Part"; py "Manufacturer Part"];
     rows := [mkrow [(py "Supplier Part", Str (py "C25804"));
                     (py "Manufacturer Part", Str (py "0603WAF1002T5E"))]] |}.

(** Two modules whose totals differ: 10, and 20 + 5. *)
Definition accessory_modules_10_25 : list (pystr * option DataFrame) :=
  [(py "ModAcc_A-V1.0.xlsx",
    Some (accessory_sheet
            [accessory_line "1" "PH2.0 cable" "10" "https://item.taobao.com/item.htm?id=4"]));
   (py "ModAcc_B-V1.0.xlsx",
    Some (accessory_sheet
            [accessory_line "1" "M3 bracket" "20" "https://item.taobao.com/item.htm?id=5";
             accessory_line "2" "M3 screw" "5" "https://item.taobao.com/item.htm?id=8"]))].

(* ===================================================================== *)
(** * Facts about strings                                                 *)
(* ===================================================================== *)

Lemma startswith_spec (s p : pystr) :
  startswith s p = true <-> exists t, s = p ++ t.
Proof.
  revert s. induction p as [|c p IH]; intros s.
  - destruct s; simpl; (split; [intros _; by eexists | done]).
  - destruct s as [|d s]; simpl.
    + split; [done | intros [t Ht]; discriminate].
    + rewrite andb_true_iff, N.eqb_eq, (IH s). split.
      * intros [-> [t ->]]. by exists t.
      * intros [t Ht]. injection Ht as -> ->. eauto.
Qed.

Lemma contains_spec (s t : pystr) :
  contains s t = true <-> exists a b, s = a ++ t ++ b.
Proof.
  induction s as [|d s IH].
  - replace (contains [] t) with (startswith [] t) by (by destruct t).
    rewrite startswith_spec. split.
    + intros [b Hb]. by exists [], b.
    + intros [a [b Hab]]. symmetry in Hab.
      apply app_eq_nil in Hab as [-> Hab]. apply app_eq_nil in Hab as [-> ->].
      by exists [].
  - change (contains (d :: s) t) with (startswith (d :: s) t || contains s t).
    rewrite orb_true_iff, startswith_spec, IH. split.
    + intros [[b Hb] | [a [b Hab]]].
      * by exists [], b.
      * exists (d :: a), b. by rewrite Hab.
    + intros [[|a0 a] [b Hab]].
      * left. by exists b.
      * right. injection Hab as -> ->. eauto.
Qed.

Lemma lstrip_nil (s : pystr) : lstrip s = [] <-> forallb isspace s = true.
Proof.
  induction s as [|c s IH]; simpl; [done|].
  destruct (isspace c); simpl; [done|]. split; discriminate.
Qed.

Lemma forallb_isspace_lstrip (s : pystr) :
  forallb isspace (lstrip s) = forallb isspace s.
Proof.
  induction s as [|c s IH]; simpl; [done|].
  destruct (isspace c) eqn:E; simpl; [done|]. by rewrite E.
Qed.

(** Stripping leaves nothing exactly when every character is whitespace. *)
Lemma strip_nil (s : pystr) : strip s = [] <-> forallb isspace s = true.
Proof.
  unfold strip, rstrip.
  rewrite <- (forallb_isspace_lstrip s).
  split.
  - intros H. apply (f_equal (@rev char)) in H. rewrite rev_involutive in H.
    simpl in H. apply lstrip_nil in H.
    rewrite forallb_forall in *. intros x Hx. apply H. by apply in_rev in Hx.
  - intros H. assert (lstrip (rev (lstrip s)) = []) as ->; [|done].
    apply lstrip_nil. rewrite forallb_forall in *. intros x Hx.
    apply H. by apply in_rev.
Qed.

(** What is left of a stripped text does not begin with whitespace. *)
Lemma lstrip_head (s : pystr) c t : lstrip s = c :: t -> isspace c = false.
Proof.
  induction s as [|d s IH]; simpl; [done|].
  destruct (isspace d) eqn:E; [done|]. by intros [= <- _].
Qed.

Lemma lstrip_suffix (s : pystr) : exists a, s = a ++ lstrip s.
Proof.
  induction s as [|d s [a IH]]; simpl; [by exists []|].
  destruct (isspace d); [|by exists []]. exists (d :: a). simpl. by f_equal.
Qed.

Lemma strip_head (s : pystr) c t : strip s = c :: t -> isspace c = false.
Proof.
  unfold strip, rstrip. intros H.
  destruct (lstrip s) as [|d u] eqn:E; [done|].
  pose proof (lstrip_head _ _ _ E) as Hd.
  destruct (lstrip_suffix (rev (d :: u))) as [a Ha].
  apply (f_equal (@rev char)) in Ha. rewrite rev_involutive, rev_app_distr, H in Ha.
  simpl in Ha. by injection Ha as -> _.
Qed.

(* ===================================================================== *)
(** * Column resolver                                                     *)
(* ===================================================================== *)

Lemma first_column_containing_Some df_columns target col :
  first_column_containing df_columns (lower target) = Some col <->
  exists j, df_columns !! j = Some col /\ ci_contains col target /\
    forall j' c, (j' < j)%nat -> df_columns !! j' = Some c -> ~ ci_contains c target.
Proof.
  unfold ci_contains. induction df_columns as [|h cols IH]; simpl.
  - split; [done | intros [j [Hj _]]; by destruct j].
  - destruct (contains (lower h) (lower target)) eqn:E.
    + apply contains_spec in E. split.
      * intros [= <-]. exists 0%nat. repeat split; [done | intros; lia].
      * intros [[|j] [Hj [_ Hmin]]]; [by simplify_eq/= |].
        exfalso. by apply (Hmin 0%nat h); [lia | |].
    + assert (~ exists a b, lower h = a ++ lower target ++ b) as Hh.
      { rewrite <- contains_spec. by rewrite E. }
      rewrite IH. split.
      * intros [j [Hj [Hc Hmin]]]. exists (S j). repeat split; [done..|].
        intros [|j'] c Hlt Hc'; simplify_eq/=; [done|]. apply (Hmin j'); [lia | done].
      * intros [[|j] [Hj [Hc Hmin]]]; simplify_eq/=; [done|].
        exists j. repeat split; [done..|]. intros j' c Hlt Hc'.
        apply (Hmin (S j')); [lia | done].
Qed.

Lemma first_column_containing_None df_columns target :
  first_column_containing df_columns (lower target) = None <->
  forall c, c ∈ df_columns -> ~ ci_contains c target.
Proof.
  unfold ci_contains. induction df_columns as [|h cols IH]; simpl.
  - split; [intros _ c Hc; by apply not_elem_of_nil in Hc | done].
  - destruct (contains (lower h) (lower target)) eqn:E.
    + apply contains_spec in E. split; [done|]. intros H. exfalso.
      apply (H h); [left | done].
    + assert (~ exists a b, lower h = a ++ lower target ++ b) as Hh.
      { rewrite <- contains_spec. by rewrite E. }
      rewrite IH. split.
      * intros H c Hc. apply elem_of_cons in Hc as [-> | Hc]; [done | by apply H].
      * intros H c Hc. apply H. by right.
Qed.

(** C7. [match_column_name] returns the first header, with the variants
    tried in their listed order and for each variant the headers in column
    order, whose lower-cased text contains the lower-cased variant; it
    returns nothing exactly when no header contains any variant. Being a
    function of the headers and the variant list, the result is the same
    for the same inputs. Lower-casing is that of [str.lower], for every
    script: a header in capitals is found by a variant in small letters, in
    ASCII, with an accent, by the Kelvin sign for a k, and in Greek, where
    the sigma that ends a word has a lower case of its own. *)
Theorem match_column_name_first_match (df_columns target_names : list pystr) :
  (forall col,
      match_column_name df_columns target_names = Some col <->
      exists i j target,
        target_names !! i = Some target /\ df_columns !! j = Some col /\
        ci_contains col target /\
        (forall i' t c, (i' < i)%nat -> target_names !! i' = Some t ->
                        c ∈ df_columns -> ~ ci_contains c t) /\
        (forall j' c, (j' < j)%nat -> df_columns !! j' = Some c ->
                      ~ ci_contains c target))
  /\ (match_column_name df_columns target_names = None <->
      forall t c, t ∈ target_names -> c ∈ df_columns -> ~ ci_contains c t)
  /\ (match_column_name [py "Qty"; py "DESIGNATOR"] [py "designator"]
      = Some (py "DESIGNATOR")
      /\ match_column_name [py "É"] [py "é"] = Some (py "É")
      /\ match_column_name [[0x212A]] [py "k"] = Some [0x212A]
      /\ match_column_name [py "ΟΔΟΣ"] [py "οδος"] = Some (py "ΟΔΟΣ")
      /\ match_column_name [py "ΟΔΟΣ"] [py "οδοσ"] = None
      /\ match_column_name [py "Ref"] [py "designator"] = None
      /\ lower (py "DESIGNATOR") = py "designator").
Proof.
  assert (match_column_name [py "Qty"; py "DESIGNATOR"] [py "designator"]
          = Some (py "DESIGNATOR")
          /\ match_column_name [py "É"] [py "é"] = Some (py "É")
          /\ match_column_name [[0x212A]] [py "k"] = Some [0x212A]
          /\ match_column_name [py "ΟΔΟΣ"] [py "οδος"] = Some (py "ΟΔΟΣ")
          /\ match_column_name [py "ΟΔΟΣ"] [py "οδοσ"] = None
          /\ match_column_name [py "Ref"] [py "designator"] = None
          /\ lower (py "DESIGNATOR") = py "designator") as Hexamples
    by (repeat split; by vm_compute).
  cut ((forall col,
           match_column_name df_columns target_names = Some col <->
           exists i j target,
             target_names !! i = Some target /\ df_columns !! j = Some col /\
             ci_contains col target /\
             (forall i' t c, (i' < i)%nat -> target_names !! i' = Some t ->
                             c ∈ df_columns -> ~ ci_contains c t) /\
             (forall j' c, (j' < j)%nat -> df_columns !! j' = Some c ->
                           ~ ci_contains c target))
       /\ (match_column_name df_columns target_names = None <->
           forall t c, t ∈ target_names -> c ∈ df_columns -> ~ ci_contains c t)).
  { intros [H1 H2]. split; [done|]. split; done. }
  clear Hexamples.
  induction target_names as [|t0 ts [IHs IHn]]; simpl.
  - split.
    + intros col. split; [done | intros [i [j [t [Hi _]]]]; by destruct i].
    + split; [intros _ t c Ht; by apply not_elem_of_nil in Ht | done].
  - destruct (first_column_containing df_columns (lower t0)) as [c0|] eqn:E.
    + apply first_column_containing_Some in E as [j0 [Hj0 [Hc0 Hmin0]]]. split.
      * intros col. split.
        -- intros [= <-]. exists 0%nat, j0, t0. repeat split; [done..| |done].
           intros; lia.
        -- intros [[|i] [j [t [Hi [Hj [Hc [Hprev Hmin]]]]]]]; simplify_eq/=.
           ++ destruct (Nat.lt_trichotomy j j0) as [Hlt | [-> | Hlt]].
              ** exfalso. by apply (Hmin0 j col).
              ** congruence.
              ** exfalso. by apply (Hmin j0 c0).
           ++ exfalso. apply (Hprev 0%nat t0 c0); [lia | done | | done].
              by apply list_elem_of_lookup_2 in Hj0.
      * split; [done|]. intros H. exfalso. apply (H t0 c0); [left | | done].
        by apply list_elem_of_lookup_2 in Hj0.
    + pose proof (proj1 (first_column_containing_None _ _) E) as Hnone. split.
      * intros col. rewrite IHs. split.
        -- intros [i [j [t [Hi [Hj [Hc [Hprev Hmin]]]]]]].
           exists (S i), j, t. repeat split; [done..| |done].
           intros [|i'] t' c Hlt Ht' Hc'; simplify_eq/=; [by apply Hnone|].
           apply (Hprev i' t' c); [lia | done..].
        -- intros [[|i] [j [t [Hi [Hj [Hc [Hprev Hmin]]]]]]]; simplify_eq/=.
           ++ exfalso. apply (Hnone col); [|done]. by apply list_elem_of_lookup_2 in Hj.
           ++ exists i, j, t. repeat split; [done..| |done].
              intros i' t' c Hlt Ht' Hc'. apply (Hprev (S i') t' c); [lia | done..].
      * rewrite IHn. split.
        -- intros H t c Ht Hc. apply elem_of_cons in Ht as [-> | Ht]; [by apply Hnone | by apply H].
        -- intros H t c Ht Hc. apply H; [by right | done].
Qed.

(** What [match_column_name] resolves contains one of the variants. *)
Lemma match_column_name_contains df_columns target_names col :
  match_column_name df_columns target_names = Some col ->
  existsb (fun t => contains (lower col) (lower t)) target_names = true.
Proof.
  induction target_names as [|t0 ts IH]; simpl; [done|].
  destruct (first_column_containing df_columns (lower t0)) as [c0|] eqn:E.
  - intros [= ->]. apply orb_true_iff. left.
    clear IH. induction df_columns as [|h cols IH]; simpl in E; [done|].
    destruct (contains (lower h) (lower t0)) eqn:E'; [by simplify_eq | by apply IH].
  - intros H. apply orb_true_iff. right. by apply IH.
Qed.

(* ===================================================================== *)
(** * Component classifier                                                *)
(* ===================================================================== *)

Lemma first_match_spec rules d :
  (exists i test, rules !! i = Some (test, first_match rules d) /\ test d = true /\
     forall j t c, (j < i)%nat -> rules !! j = Some (t, c) -> t d = false)
  \/ (first_match rules d = other /\ forall t c, (t, c) ∈ rules -> t d = false).
Proof.
  induction rules as [|[test category] rest IH]; simpl.
  - right. split; [done|]. intros t c H. by apply not_elem_of_nil in H.
  - destruct (test d) eqn:E.
    + left. exists 0%nat, test. repeat split; [done|]. intros; lia.
    + destruct IH as [[i [t [Hi [Ht Hmin]]]] | [Ho Hall]].
      * left. exists (S i), t. repeat split; [done..|].
        intros [|j] t' c Hlt Hj; simplify_eq/=; [done|]. apply (Hmin j t' c); [lia | done].
      * right. split; [done|]. intros t c Htc.
        apply elem_of_cons in Htc as [[= -> ->] | Htc]; [done | by apply (Hall t c)].
Qed.

(** C3, as the code has it. A missing designator is [unknown]; a designator
    that is there is stripped and upper-cased, and the rules of the taxonomy
    are tried in their order on that text, the first that matches giving the
    category and [other] standing for no match (which is where a designator
    that is there but empty ends). The classifier always answers with one of
    the nine categories, which are distinct texts; R101 is a resistor, J3 a
    connector, a missing designator unknown and X9 other. Letter case and
    the blanks around the text play no part: sw1 is a switch, and so is the
    designator that begins with a long s, whose upper case is S; led2
    between blanks is a diode. The order of the rules decides usb1, which is
    an integrated circuit by its U before it could be a connector. *)
Theorem classify_component_rules :
  classify_component NaN = unknown
  /\ (forall s, classify_component (Str s) = first_match taxonomy (upper (strip s)))
  /\ (forall d, classify_component d ∈ categories)
  /\ NoDup categories
  /\ classify_component (Str (py "R101")) = resistor
  /\ classify_component (Str (py "J3")) = connector
  /\ classify_component (Str (py "X9")) = other
  /\ classify_component (Str (py "sw1")) = switch
  /\ classify_component (Str (py "ſw1")) = switch
  /\ classify_component (Str (py " led2 ")) = diode
  /\ classify_component (Str (py "usb1")) = integrated_circuit
  /\ upper (py "ſw1") = py "SW1".
Proof.
  assert (forall s, classify_component (Str s) = first_match taxonomy (upper (strip s))) as Hrules.
  { intros s. unfold classify_component, taxonomy, first_match, existsb.
    repeat (match goal with |- context [startswith ?a ?b] => destruct (startswith a b) end;
            [reflexivity|]).
    by rewrite orb_false_r, orb_assoc. }
  split; [done|]. split; [done|]. split; [|split; [|by vm_compute]].
  - intros [|s]; [by left|]. rewrite Hrules. generalize (upper (strip s)). intros d.
    unfold taxonomy, first_match, categories.
    repeat (match goal with |- context [if ?b then _ else _] => destruct b end;
            [by_compute|]).
    by_compute.
  - by_compute.
Qed.

(** C3 as stated fails on the empty designator: it is [other], not
    [unknown]. *)
Lemma classify_component_empty_designator :
  classify_component (Str (py "")) = other
  /\ classify_component (Str (py "")) <> unknown.
Proof. split; [by vm_compute | by vm_compute]. Qed.

(* ===================================================================== *)
(** * Purchase classifier                                                 *)
(* ===================================================================== *)

Lemma remove_char_whitespace_head c t x :
  isspace c = false -> isspace x = true ->
  remove_char x (c :: t) = c :: remove_char x t.
Proof.
  intros Hc Hx. unfold remove_char. simpl.
  destruct (c =? x) eqn:E; [|done]. apply N.eqb_eq in E. congruence.
Qed.

Lemma clean_invalid_content_None (val : cell) :
  clean_invalid_content val = None <-> blank val.
Proof.
  destruct val as [|s]; simpl; [done|].
  destruct (strip s) as [|c t] eqn:E; [done|].
  apply strip_head in E.
  rewrite !remove_char_whitespace_head by done. done.
Qed.

Lemma clean_column_None col r :
  clean_column col r = None <-> indicator_absent col r.
Proof.
  destruct col as [[|c0 c]|]; simpl; [done| |done].
  apply clean_invalid_content_None.
Qed.

Lemma non_self_purchase_row_true tc oc mc r :
  non_self_purchase_row tc oc mc r = true <->
  indicator_absent tc r /\ indicator_absent oc r /\ indicator_absent mc r.
Proof.
  unfold non_self_purchase_row.
  rewrite !andb_true_iff, !bool_decide_eq_true, !clean_column_None. tauto.
Qed.

Lemma col_mask_false c : col_mask c = false <-> blank c.
Proof.
  destruct c as [|s]; simpl; [done|].
  rewrite negb_false_iff, bool_decide_eq_true. done.
Qed.

Lemma self_purchase_mask_fold (cols : list pystr) (r : row) b :
  fold_left (fun mask col => mask || col_mask (r col)) cols b
  = b || existsb (fun col => col_mask (r col)) cols.
Proof.
  revert b. induction cols as [|c cols IH]; intros b; simpl.
  - by rewrite orb_false_r.
  - by rewrite IH, orb_assoc.
Qed.

Lemma self_purchase_mask_false (cols : list pystr) (r : row) :
  self_purchase_mask cols r = false <-> forall col, col ∈ cols -> blank (r col).
Proof.
  unfold self_purchase_mask. rewrite self_purchase_mask_fold. simpl.
  induction cols as [|c cols IH]; simpl.
  - split; [intros _ col H; by apply not_elem_of_nil in H | done].
  - rewrite orb_false_iff, col_mask_false, IH. split.
    + intros [Hc H] col Hcol. apply elem_of_cons in Hcol as [-> | Hcol]; eauto.
    + intros H. split; [apply H; left | intros col Hcol; apply H; by right].
Qed.

Lemma row_set_eq col v (r : row) : row_set col v r col = v.
Proof. unfold row_set. by rewrite decide_True. Qed.

Lemma row_set_ne col v (r : row) c : c <> col -> row_set col v r c = r c.
Proof. intros H. unfold row_set. by rewrite decide_False. Qed.

Lemma rows_set_column col f df :
  rows (set_column col f df) = map (fun r => row_set col (f r) r) (rows df).
Proof. done. Qed.

Lemma isna_cell_of_option o : isna (cell_of_option o) = bool_decide (o = None).
Proof. by destruct o. Qed.

Lemma clean_column_row_set col v (r : row) label :
  col <> Some label -> clean_column col (row_set label v r) = clean_column col r.
Proof.
  intros H. destruct col as [[|c0 c]|]; simpl; [done| |done].
  rewrite row_set_ne; [done | congruence].
Qed.

(** A column resolved from a variant list is none of the labels that hold
    no variant of the list. *)
Lemma match_column_name_not df_columns target_names label :
  existsb (fun t => contains (lower label) (lower t)) target_names = false ->
  match_column_name df_columns target_names <> Some label.
Proof.
  intros Hno H. apply match_column_name_contains in H. congruence.
Qed.

(** The rows [judge_non_self_purchase] keeps are the rows of the frame that
    the row mask accepts, under the columns resolved from its labels; each
    comes with the columns the function adds. *)
Lemma judge_non_self_purchase_rows (df : DataFrame) :
  exists added : row -> row,
    rows (judge_non_self_purchase df)
    = map added
        (List.filter
           (non_self_purchase_row (match_column_name (columns df) taobao_link)
              (match_column_name (columns df) order_config)
              (match_column_name (columns df) min_order))
           (rows df)).
Proof.
  unfold judge_non_self_purchase.
  set (tc := match_column_name (columns df) taobao_link).
  set (oc := match_column_name (columns df) order_config).
  set (mc := match_column_name (columns df) min_order).
  assert (oc <> Some (py "clean_taobao")) as Ho1 by (by apply match_column_name_not).
  assert (mc <> Some (py "clean_taobao")) as Hm1 by (by apply match_column_name_not).
  assert (mc <> Some (py "clean_order")) as Hm2 by (by apply match_column_name_not).
  set (g1 := fun r : row => row_set (py "clean_taobao") (cell_of_option (clean_column tc r)) r).
  set (g2 := fun r : row => row_set (py "clean_order") (cell_of_option (clean_column oc r)) r).
  set (g3 := fun r : row => row_set (py "clean_min_order") (cell_of_option (clean_column mc r)) r).
  set (dfc := set_column _ _ (set_column _ _ (set_column _ _ df))).
  assert (List.filter (fun r : row => isna (r (py "clean_taobao"))
                                      && isna (r (py "clean_order"))
                                      && isna (r (py "clean_min_order"))) (rows dfc)
          = map (fun r => g3 (g2 (g1 r)))
              (List.filter (non_self_purchase_row tc oc mc) (rows df))) as Hkept.
  { subst dfc. rewrite !rows_set_column, !map_map, filter_map_swap.
    f_equal. apply filter_ext. intros r. unfold non_self_purchase_row.
    fold (g1 r). fold (g2 (g1 r)). fold (g3 (g2 (g1 r))).
    assert (g3 (g2 (g1 r)) (py "clean_min_order") = cell_of_option (clean_column mc r)) as ->.
    { unfold g3. rewrite row_set_eq. unfold g2, g1.
      by rewrite !clean_column_row_set. }
    assert (g3 (g2 (g1 r)) (py "clean_order") = cell_of_option (clean_column oc r)) as ->.
    { unfold g3. rewrite row_set_ne by (by vm_compute).
      unfold g2. rewrite row_set_eq. unfold g1. by rewrite clean_column_row_set. }
    assert (g3 (g2 (g1 r)) (py "clean_taobao") = cell_of_option (clean_column tc r)) as ->.
    { unfold g3. rewrite row_set_ne by (by vm_compute).
      unfold g2. rewrite row_set_ne by (by vm_compute).
      unfold g1. by rewrite row_set_eq. }
    by rewrite !isna_cell_of_option. }
  clearbody dfc.
  destruct (decide _); eexists; [rewrite rows_set_column|]; cbn [rows]; rewrite Hkept.
  - by rewrite map_map.
  - done.
Qed.

(** C2. The purchase classifier answers for every row and every column
    map. In [judge_non_self_purchase] a row is kept as non-self-purchase
    exactly when each of the three indicators is unresolved, missing in the
    row, or a text that strips to nothing, and an unresolved column counts
    as a column whose cell is blank; a text strips to nothing exactly when
    all its characters are whitespace, the full-width space, tab, newline
    and carriage return among them. The mask of the self-purchase scripts
    is the complement: a row is kept when one of the three cells is there
    and does not strip to nothing. *)
Theorem purchase_classifier :
  (forall tc oc mc r,
      non_self_purchase_row tc oc mc r = true <->
      indicator_absent tc r /\ indicator_absent oc r /\ indicator_absent mc r)
  /\ (forall tc oc mc r,
      non_self_purchase_row tc oc mc r = false <->
      ~ (indicator_absent tc r /\ indicator_absent oc r /\ indicator_absent mc r))
  /\ (forall c oc mc (r : row),
      blank (r c) ->
      non_self_purchase_row (Some c) oc mc r = non_self_purchase_row None oc mc r)
  /\ (forall df, exists added : row -> row,
      rows (judge_non_self_purchase df)
      = map added
          (List.filter
             (non_self_purchase_row (match_column_name (columns df) taobao_link)
                (match_column_name (columns df) order_config)
                (match_column_name (columns df) min_order))
             (rows df)))
  /\ (forall s, strip s = [] <-> forall ch, ch ∈ s -> isspace ch = true)
  /\ (isspace 0x3000 = true /\ isspace 0x09 = true /\ isspace 0x0A = true
      /\ isspace 0x0D = true /\ isspace 0x20 = true)
  /\ (forall r : row,
      self_purchase_mask ExtractBom.filter_columns r = true <->
      ~ (blank (r (py "淘宝链接")) /\ blank (r (py "下单配置")) /\ blank (r (py "最小起订量"))))
  /\ (forall r : row,
      self_purchase_mask ModAcc.filter_columns r = self_purchase_mask ExtractBom.filter_columns r).
Proof.
  split; [apply non_self_purchase_row_true|].
  split.
  { intros tc oc mc r. rewrite <- non_self_purchase_row_true.
    by destruct (non_self_purchase_row tc oc mc r). }
  split.
  { intros c oc mc r Hc. unfold non_self_purchase_row. f_equal. f_equal.
    apply bool_decide_ext. rewrite !clean_column_None. by destruct c. }
  split; [apply judge_non_self_purchase_rows|].
  split.
  { intros s. rewrite strip_nil, forallb_forall. split; intros H ch Hch; apply H.
    - by apply list_elem_of_In.
    - by apply list_elem_of_In in Hch. }
  split; [done|].
  split; [|done].
  intros r. rewrite <- not_false_iff_true, self_purchase_mask_false.
  unfold ExtractBom.filter_columns. split; intros H H'; apply H.
  - intros col Hcol. destruct H' as [? [? ?]].
    repeat (apply elem_of_cons in Hcol as [-> | Hcol]; [done|]).
    by apply not_elem_of_nil in Hcol.
  - repeat split; apply H'; repeat constructor.
Qed.

(* ===================================================================== *)
(** * Deduplicator                                                        *)
(* ===================================================================== *)

Section Deduplicator.
Context {A K : Type} `{EqDecision K}.
Variable subset : A -> K.

Lemma drop_duplicates_from_snoc seen df r :
  drop_duplicates_from subset seen (df ++ [r])
  = drop_duplicates_from subset seen df
    ++ (if decide (subset r ∈ seen ++ map subset df) then [] else [r]).
Proof.
  revert seen. induction df as [|x df IH]; intros seen; simpl.
  - rewrite app_nil_r. by destruct (decide (subset r ∈ seen)).
  - destruct (decide (subset x ∈ seen)) as [Hx|Hx]; rewrite IH.
    + f_equal. apply decide_ext. rewrite !elem_of_app, elem_of_cons.
      split; [tauto|]. intros [?|[->|?]]; tauto.
    + simpl. do 2 f_equal. apply decide_ext.
      rewrite !elem_of_app, !elem_of_cons, elem_of_app. tauto.
Qed.

Lemma drop_duplicates_snoc df r :
  drop_duplicates subset (df ++ [r])
  = drop_duplicates subset df
    ++ (if decide (subset r ∈ map subset df) then [] else [r]).
Proof. apply drop_duplicates_from_snoc. Qed.

Lemma first_occurrences_snoc df r :
  first_occurrences subset (df ++ [r])
  = first_occurrences subset df
    ++ (if decide (subset r ∈ map subset df) then [] else [r]).
Proof.
  unfold first_occurrences.
  rewrite length_app, seq_app, omap_app. simpl. f_equal.
  - apply list_omap_ext, Forall_Forall2_diag, Forall_forall.
    intros i Hi. apply elem_of_seq in Hi.
    rewrite lookup_app_l by lia. rewrite take_app_le by lia. done.
  - rewrite list_lookup_middle by done. simpl.
    rewrite take_app_length. by destruct (decide _).
Qed.

(** Deduplication keeps exactly the first occurrence of every key. *)
Lemma drop_duplicates_first_occurrences df :
  drop_duplicates subset df = first_occurrences subset df.
Proof.
  induction df as [|r df IH] using rev_ind; [done|].
  by rewrite drop_duplicates_snoc, first_occurrences_snoc, IH.
Qed.

(** The records kept are records of the input, unchanged and in the order
    of the input. *)
Lemma drop_duplicates_from_sublist seen df :
  drop_duplicates_from subset seen df `sublist_of` df.
Proof.
  revert seen. induction df as [|x df IH]; intros seen; simpl; [done|].
  destruct (decide _); [by apply sublist_cons | by apply sublist_skip].
Qed.

(** The keys of the records kept are distinct and none was seen before. *)
Lemma drop_duplicates_from_keys seen df :
  NoDup (map subset (drop_duplicates_from subset seen df))
  /\ forall r, r ∈ drop_duplicates_from subset seen df -> subset r ∉ seen.
Proof.
  revert seen. induction df as [|x df IH]; intros seen; simpl.
  - split; [constructor | intros r Hr; by apply not_elem_of_nil in Hr].
  - destruct (decide (subset x ∈ seen)) as [Hx|Hx]; [apply IH|].
    destruct (IH (subset x :: seen)) as [Hnd Hnot]. split.
    + simpl. constructor; [|done]. intros Hin.
      apply list_elem_of_fmap in Hin as [r [Hr Hin]].
      apply Hnot in Hin. apply Hin. rewrite Hr. by left.
    + intros r Hr. apply elem_of_cons in Hr as [-> | Hr]; [done|].
      apply Hnot in Hr. intros Hin. apply Hr. by right.
Qed.

(** A frame whose keys are distinct and unseen is left as it is. *)
Lemma drop_duplicates_from_id seen df :
  NoDup (map subset df) -> (forall r, r ∈ df -> subset r ∉ seen) ->
  drop_duplicates_from subset seen df = df.
Proof.
  revert seen. induction df as [|x df IH]; intros seen Hnd Hnot; simpl; [done|].
  simpl in Hnd. apply NoDup_cons in Hnd as [Hx Hnd].
  rewrite decide_False by (apply Hnot; by left). f_equal.
  apply IH; [done|]. intros r Hr Hin.
  apply elem_of_cons in Hin as [Heq | Hin].
  - apply Hx. rewrite <- Heq. apply list_elem_of_fmap. eauto.
  - apply (Hnot r); [by right | done].
Qed.

Lemma drop_duplicates_idempotent df :
  drop_duplicates subset (drop_duplicates subset df) = drop_duplicates subset df.
Proof.
  unfold drop_duplicates. destruct (drop_duplicates_from_keys [] df) as [Hnd _].
  apply drop_duplicates_from_id; [done|]. intros r _. apply not_elem_of_nil.
Qed.

(** Of the records that carry a given key, the first and no other
    survives. *)
Lemma drop_duplicates_from_key seen df k :
  List.filter (fun r => bool_decide (subset r = k)) (drop_duplicates_from subset seen df)
  = if decide (k ∈ seen) then []
    else take 1 (List.filter (fun r => bool_decide (subset r = k)) df).
Proof.
  revert seen. induction df as [|x df IH]; intros seen; simpl.
  - by destruct (decide _).
  - destruct (decide (subset x ∈ seen)) as [Hx|Hx].
    + rewrite IH. destruct (decide (k ∈ seen)) as [Hk|Hk]; [done|].
      rewrite bool_decide_eq_false_2; [done|]. by intros <-.
    + simpl. rewrite IH. destruct (bool_decide (subset x = k)) eqn:E.
      * apply bool_decide_eq_true in E. subst k.
        rewrite decide_True by (by left). by rewrite decide_False.
      * apply bool_decide_eq_false in E.
        destruct (decide (k ∈ seen)) as [Hk|Hk].
        -- rewrite decide_True; [done | by right].
        -- rewrite decide_False; [done|].
           intros Hin. apply elem_of_cons in Hin as [? | ?]; congruence.
Qed.

Lemma drop_duplicates_key df k :
  List.filter (fun r => bool_decide (subset r = k)) (drop_duplicates subset df)
  = take 1 (List.filter (fun r => bool_decide (subset r = k)) df).
Proof.
  unfold drop_duplicates. rewrite drop_duplicates_from_key.
  rewrite decide_False; [done | apply not_elem_of_nil].
Qed.
End Deduplicator.

Lemma deduplicate_components_drop_duplicates all_components :
  deduplicate_components all_components = drop_duplicates supplier_key all_components.
Proof. by destruct all_components. Qed.

Lemma supplier_key_eq (r1 r2 : component_row) :
  supplier_key r1 = supplier_key r2 <->
  (exists s, Supplier_Part (snd r1) = Some s /\ Supplier_Part (snd r2) = Some s)
  \/ (Supplier_Part (snd r1) = None /\ Supplier_Part (snd r2) = None /\ fst r1 = fst r2).
Proof.
  unfold supplier_key.
  destruct (Supplier_Part (snd r1)) as [s1|], (Supplier_Part (snd r2)) as [s2|]; split.
  - intros [= ->]. left. by exists s2.
  - intros [[s [[= ->] [= ->]]] | [? _]]; done.
  - done.
  - intros [[s [? ?]] | [? _]]; done.
  - done.
  - intros [[s [? ?]] | [_ [? _]]]; done.
  - intros [= ->]. by right.
  - intros [[s [? ?]] | [_ [_ ->]]]; done.
Qed.

Lemma supplier_key_missing (r : component_row) :
  Supplier_Part (snd r) = None <-> supplier_key r = inr (fst r).
Proof. unfold supplier_key. by destruct (Supplier_Part (snd r)). Qed.

(** C5. Deduplication keeps exactly the records whose key has not occurred
    earlier in the sequence: for any key, in [deduplicate_components] (key
    [Supplier Part]) and in the type sheet of the BOM script. What is kept
    is a subsequence of the input, so every record kept is a record of the
    input as it was, in input order; a record appended to the input is kept
    exactly when no record before it has its key. Which record of a key
    stays depends on the order of the input. The keys of two rows of
    [deduplicate_components] are equal when the rows have the same supplier
    part, or have none and their frames hold a missing value the same
    way. *)
Theorem deduplicator_keeps_first_occurrences :
  (forall (A K : Type) (eq_dec : EqDecision K) (subset : A -> K) (df : list A),
      drop_duplicates subset df = first_occurrences subset df
      /\ drop_duplicates subset df `sublist_of` df)
  /\ (forall all_components,
      deduplicate_components all_components
      = first_occurrences supplier_key all_components
      /\ deduplicate_components all_components `sublist_of` all_components)
  /\ (forall r1 r2 : component_row,
      supplier_key r1 = supplier_key r2 <->
      (exists s, Supplier_Part (snd r1) = Some s /\ Supplier_Part (snd r2) = Some s)
      \/ (Supplier_Part (snd r1) = None /\ Supplier_Part (snd r2) = None
          /\ fst r1 = fst r2))
  /\ (forall (A K : Type) (eq_dec : EqDecision K) (subset : A -> K) (df : list A) (r : A),
      drop_duplicates subset (df ++ [r])
      = drop_duplicates subset df
        ++ (if decide (subset r ∈ map subset df) then [] else [r]))
  /\ (forall files rep,
      snd (ExtractBom.extract_and_format_bom files) = Some rep ->
      ExtractBom.df_type_unique rep
      = first_occurrences (fun r : vrow => map r ExtractBom.unique_type_cols)
          (map (project ExtractBom.core_columns) (ExtractBom.df_with_module_all rep)))
  /\ (deduplicate_components [(float_nan, sensor_part); (py_none, power_part)]
      = [(float_nan, sensor_part)]
      /\ deduplicate_components [(py_none, power_part); (float_nan, sensor_part)]
         = [(py_none, power_part)]
      /\ sensor_part <> power_part
      /\ deduplicate_components [(float_nan, unnumbered_header); (py_none, unnumbered_blank);
                                 (float_nan, unnumbered_blank); (py_none, unnumbered_header)]
         = [(float_nan, unnumbered_header); (py_none, unnumbered_blank)]).
Proof.
  split; [|split; [|split; [|split; [|split]]]].
  - intros A K eq_dec subset df. split.
    + apply drop_duplicates_first_occurrences.
    + apply drop_duplicates_from_sublist.
  - intros l. rewrite deduplicate_components_drop_duplicates. split.
    + apply drop_duplicates_first_occurrences.
    + apply drop_duplicates_from_sublist.
  - apply supplier_key_eq.
  - intros A K eq_dec subset df r. apply drop_duplicates_snoc.
  - intros files rep. unfold ExtractBom.extract_and_format_bom. cbv zeta.
    destruct (ExtractBom.all_self_purchase _); [done|].
    cbn [snd]. intros [= <-]. cbn [ExtractBom.df_type_unique ExtractBom.df_with_module_all].
    apply drop_duplicates_first_occurrences.
  - repeat split; by_compute.
Qed.

(** C8. Deduplicating what deduplication gave changes nothing, for any key
    and for [deduplicate_components]. *)
Theorem deduplicator_idempotent :
  (forall (A K : Type) (eq_dec : EqDecision K) (subset : A -> K) (df : list A),
      drop_duplicates subset (drop_duplicates subset df) = drop_duplicates subset df)
  /\ (forall all_components,
      deduplicate_components (deduplicate_components all_components)
      = deduplicate_components all_components).
Proof.
  split.
  - intros A K eq_dec subset df. apply drop_duplicates_idempotent.
  - intros l. rewrite !deduplicate_components_drop_duplicates.
    apply drop_duplicates_idempotent.
Qed.

Lemma filter_length_either {A} (p q : A -> bool) (l : list A) :
  (forall x, x ∈ l -> p x = true -> q x = true -> False) ->
  length (List.filter (fun x => p x || q x) l)
  = (length (List.filter p l) + length (List.filter q l))%nat.
Proof.
  induction l as [|x l IH]; intros Hpq; [done|]. cbn [List.filter].
  assert (forall y, y ∈ l -> p y = true -> q y = true -> False) as Hl
    by (intros y Hy; apply Hpq; by right).
  specialize (IH Hl). pose proof (Hpq x ltac:(by left)) as Hx.
  destruct (p x), (q x); cbn [orb length]; lia.
Qed.

(** C9, as the code has it. A value that cleans to nothing is a missing
    field, and the missing supplier parts that their frames hold the same
    way are equal keys: of the rows without a supplier part that are held
    one way, [deduplicate_components] keeps the first one of its input and
    no other, also when they agree in no other field. There are two ways,
    so at most two rows without a supplier part are left; when every frame
    holds its missing values the same way, one is. *)
Theorem missing_supplier_part_kept_once :
  (forall all_components k,
      List.filter (fun r => bool_decide (supplier_key r = inr k))
        (deduplicate_components all_components)
      = take 1 (List.filter (fun r => bool_decide (supplier_key r = inr k)) all_components))
  /\ (forall all_components,
      (length (List.filter (fun r => bool_decide (Supplier_Part (snd r) = None))
                 (deduplicate_components all_components)) <= 2)%nat)
  /\ (forall all_components k,
      (forall r, r ∈ all_components -> fst r = k) ->
      List.filter (fun r => bool_decide (Supplier_Part (snd r) = None))
        (deduplicate_components all_components)
      = take 1 (List.filter (fun r => bool_decide (Supplier_Part (snd r) = None))
                  all_components))
  /\ (forall val, clean_invalid_content val = None <-> blank val)
  /\ deduplicate_components [(py_none, sensor_part); (py_none, unnumbered_header);
                             (py_none, power_part); (py_none, unnumbered_blank)]
     = [(py_none, sensor_part); (py_none, unnumbered_header)].
Proof.
  assert (forall l k,
             List.filter (fun r => bool_decide (supplier_key r = inr k))
               (deduplicate_components l)
             = take 1 (List.filter (fun r => bool_decide (supplier_key r = inr k)) l))
    as Hkind.
  { intros l k. rewrite deduplicate_components_drop_duplicates.
    pose proof (drop_duplicates_key supplier_key l (inr k)) as Hkey.
    exact Hkey. }
  split; [done|]. split; [|split; [|split]].
  - intros l.
    assert (forall r : component_row,
               bool_decide (Supplier_Part (snd r) = None)
               = bool_decide (supplier_key r = inr float_nan)
                 || bool_decide (supplier_key r = inr py_none)) as Hext.
    { intros r. unfold supplier_key.
      destruct (Supplier_Part (snd r)); [done|]. by destruct (fst r). }
    rewrite (filter_ext _ _ Hext), filter_length_either.
    + rewrite !Hkind, !length_take. lia.
    + intros r _ H1 H2. apply bool_decide_eq_true in H1, H2. congruence.
  - intros l k Hl.
    assert (forall r : component_row, r ∈ l ->
               bool_decide (Supplier_Part (snd r) = None)
               = bool_decide (supplier_key r = inr k)) as Hext.
    { intros r Hr. apply bool_decide_ext. rewrite supplier_key_missing.
      by rewrite (Hl r Hr). }
    rewrite (filter_ext_in _ (fun r => bool_decide (supplier_key r = inr k))
               (deduplicate_components l)).
    + rewrite (filter_ext_in _ (fun r => bool_decide (supplier_key r = inr k)) l).
      * apply Hkind.
      * intros r Hr. apply Hext. by apply list_elem_of_In.
    + intros r Hr. apply Hext. apply list_elem_of_In in Hr.
      eapply elem_of_sublist; [exact Hr|].
      rewrite deduplicate_components_drop_duplicates. apply drop_duplicates_from_sublist.
  - apply clean_invalid_content_None.
  - by_compute.
Qed.

(** C9 as stated fails where two frames hold their missing values in the
    two ways: both rows without a supplier part are left, and [main] writes
    both to the special sheet. *)
Lemma missing_supplier_parts_held_apart :
  deduplicate_components [(float_nan, unnumbered_header); (py_none, unnumbered_blank)]
  = [(float_nan, unnumbered_header); (py_none, unnumbered_blank)]
  /\ Supplier_Part unnumbered_header = None
  /\ Supplier_Part unnumbered_blank = None
  /\ length (List.filter (fun r : component_row => bool_decide (Supplier_Part (snd r) = None))
               (deduplicate_components
                  [(float_nan, unnumbered_header); (py_none, unnumbered_blank)]))
     = 2%nat
  /\ (fun sheets : list regular_row * list special_row =>
        (map r_number (fst sheets), map (fun row => (s_name row, s_number row)) (snd sheets)))
       <$> main held_apart
             [(py "sensor/BOM_Sensor-v1.0.xlsx", Some sheet_with_unnumbered_header);
              (py "power/BOM_Power-v2.0.xlsx", Some sheet_without_supplier_parts)]
     = Some ([py "C25804"],
             [(py "PH2.54-4P", py "无"); (py "XH2.54-2P", py "无")]).
Proof. repeat split; by_compute. Qed.

(* ===================================================================== *)
(** * Regular / special split                                             *)
(* ===================================================================== *)

Lemma special_condition_true c :
  special_condition c = true <->
  Designator c = None \/ Supplier_Part c = None \/ component_type c = Some other.
Proof.
  unfold special_condition.
  rewrite !orb_true_iff, !bool_decide_eq_true. tauto.
Qed.

(** C10. The split is a partition of the frame it is given: the special and
    the regular rows together are the rows of the frame, each row once; a
    row is special exactly when its designator is missing, its supplier
    part is missing or its type is [other], and regular otherwise; the two
    sheets hold the special and the regular rows, column by column. *)
Theorem split_regular_special_partition (components_df : list component) :
  special_df components_df ++ regular_df components_df ≡ₚ components_df
  /\ (forall c, c ∈ special_df components_df <->
                c ∈ components_df /\
                (Designator c = None \/ Supplier_Part c = None
                 \/ component_type c = Some other))
  /\ (forall c, c ∈ regular_df components_df <->
                c ∈ components_df /\
                ~ (Designator c = None \/ Supplier_Part c = None
                   \/ component_type c = Some other))
  /\ split_regular_special components_df
     = (map regular_final_row (regular_df components_df),
        map special_final_row (special_df components_df))
  /\ (length (fst (split_regular_special components_df))
      + length (snd (split_regular_special components_df))
      = length components_df)%nat.
Proof.
  assert (special_df components_df ++ regular_df components_df ≡ₚ components_df) as Hperm.
  { unfold special_df, regular_df.
    induction components_df as [|c l IH]; simpl; [done|].
    destruct (special_condition c); simpl.
    - by constructor.
    - rewrite <- Permutation_middle. by constructor. }
  split; [done|]. split; [|split; [|split; [done|]]].
  - intros c. unfold special_df.
    rewrite <- special_condition_true, list_elem_of_In, filter_In, <- list_elem_of_In. done.
  - intros c. unfold regular_df.
    rewrite <- special_condition_true, list_elem_of_In, filter_In, <- list_elem_of_In.
    destruct (special_condition c); simpl; intuition congruence.
  - unfold split_regular_special. simpl. rewrite !length_map.
    apply Permutation_length in Hperm. rewrite length_app in Hperm. lia.
Qed.

(* ===================================================================== *)
(** * Module totals                                                       *)
(* ===================================================================== *)

Section Aggregation.
Variables key col total_col : pystr.
Hypothesis key_not_total : key <> total_col.

Lemma series_sum_app l1 l2 :
  series_sum (l1 ++ l2) = (series_sum l1 + series_sum l2)%Qc.
Proof.
  induction l1 as [|x l1 IH]; simpl; [by rewrite Qcplus_0_l|].
  rewrite IH. ring.
Qed.

Lemma series_sum_Permutation l1 l2 : l1 ≡ₚ l2 -> series_sum l1 = series_sum l2.
Proof.
  induction 1 as [|x l1 l2 _ IH|x y l|l1 l2 l3 _ IH1 _ IH2]; simpl.
  - done.
  - by rewrite IH.
  - ring.
  - by rewrite IH1.
Qed.

Lemma insert_sorted_Permutation {A} (leb : A -> A -> bool) x l :
  insert_sorted leb x l ≡ₚ x :: l.
Proof.
  induction l as [|y l IH]; simpl; [done|].
  destruct (leb x y); [done|]. rewrite IH. apply Permutation_swap.
Qed.

(** Sorting moves rows and changes none. *)
Lemma sort_values_Permutation by_ df : sort_values by_ df ≡ₚ df.
Proof.
  unfold sort_values. induction df as [|r df IH]; simpl; [done|].
  by rewrite insert_sorted_Permutation, IH.
Qed.

Lemma drop_duplicates_from_fmap {A B K} `{EqDecision K}
    (k1 : A -> K) (k2 : B -> K) (g : A -> B) seen l :
  (forall r, k2 (g r) = k1 r) ->
  drop_duplicates_from k2 seen (map g l) = map g (drop_duplicates_from k1 seen l).
Proof.
  intros Hk. revert seen. induction l as [|r l IH]; intros seen; simpl; [done|].
  rewrite Hk. destruct (decide (k1 r ∈ seen)); simpl; by rewrite IH.
Qed.

(** Every key of the frame is the key of a record that deduplication
    keeps. *)
Lemma drop_duplicates_from_covers {A K} `{EqDecision K} (k : A -> K) seen l r :
  r ∈ l -> k r ∈ seen \/ k r ∈ map k (drop_duplicates_from k seen l).
Proof.
  revert seen. induction l as [|x l IH]; intros seen Hr; [by apply not_elem_of_nil in Hr|].
  simpl. apply elem_of_cons in Hr as [-> | Hr].
  - destruct (decide (k x ∈ seen)); [by left | right; by left].
  - destruct (decide (k x ∈ seen)); [by apply IH|].
    destruct (IH (k x :: seen) Hr) as [Hin | Hin].
    + apply elem_of_cons in Hin as [-> | Hin]; [right; by left | by left].
    + right. by right.
Qed.

Lemma filter_all {A} (p : A -> bool) l :
  (forall r, r ∈ l -> p r = true) -> List.filter p l = l.
Proof.
  induction l as [|x l IH]; intros H; simpl; [done|].
  rewrite H by (by left). f_equal. apply IH. intros r Hr. apply H. by right.
Qed.

Lemma series_sum_filter_split {A} (v : A -> Qc) (p q : A -> bool) l :
  (forall r, p r = true -> q r = true -> False) ->
  (series_sum (map v (List.filter p l)) + series_sum (map v (List.filter q l)))%Qc
  = series_sum (map v (List.filter (fun r => p r || q r) l)).
Proof.
  intros Hpq. induction l as [|r l IH]; simpl; [ring|].
  destruct (p r) eqn:Ep, (q r) eqn:Eq; simpl.
  - by destruct (Hpq r).
  - rewrite <- IH. ring.
  - rewrite <- IH. ring.
  - done.
Qed.

(** The total of the rows of [df] that carry the key [k]. *)
Lemma group_totals_sum (df : list vrow) (ks : list value) :
  NoDup ks ->
  series_sum (map (group_total key col df) ks)
  = series_sum (map (fun r : vrow => number_of (r col))
                  (List.filter (fun r : vrow => bool_decide (r key ∈ ks)) df)).
Proof.
  induction 1 as [|k ks Hk Hnd IH]; simpl.
  - by induction df.
  - rewrite IH. unfold group_total at 1.
    rewrite series_sum_filter_split.
    + f_equal. f_equal. apply filter_ext. intros r.
      apply eq_true_iff_eq. rewrite orb_true_iff, !bool_decide_eq_true, elem_of_cons. done.
    + intros r H1 H2. apply bool_decide_eq_true in H1, H2. congruence.
Qed.

Lemma groupby_sum_totals (df : list vrow) :
  map snd (groupby_sum key col df)
  = map (group_total key col df) (drop_duplicates id (map (fun r : vrow => r key) df)).
Proof. unfold groupby_sum. by rewrite map_map. Qed.

Lemma groupby_sum_keys (df : list vrow) :
  groupby_sum key col df
  = map (fun k => (k, group_total key col df k))
      (drop_duplicates id (map (fun r : vrow => r key) df)).
Proof. done. Qed.

(** The sum of the totals of all groups is the sum over all rows. *)
Lemma groupby_sum_total (df : list vrow) :
  series_sum (map snd (groupby_sum key col df))
  = series_sum (map (fun r : vrow => number_of (r col)) df).
Proof.
  rewrite groupby_sum_totals, group_totals_sum.
  - f_equal. f_equal. apply filter_all. intros r Hr. apply bool_decide_eq_true.
    destruct (drop_duplicates_from_covers (fun r : vrow => r key) [] df r Hr) as [H|H].
    + by apply not_elem_of_nil in H.
    + unfold drop_duplicates.
      rewrite (drop_duplicates_from_fmap (fun r : vrow => r key) id) by done. done.
  - destruct (drop_duplicates_from_keys (@id value) [] (map (fun r : vrow => r key) df)) as [H _].
    by rewrite map_id in H.
Qed.

(** The row of the totals frame for the key of a row of [df]. *)
Lemma groupby_sum_find (df : list vrow) (r : vrow) :
  r ∈ df ->
  List.find (fun kt : value * Qc => bool_decide (fst kt = r key)) (groupby_sum key col df)
  = Some (r key, group_total key col df (r key)).
Proof.
  intros Hr. rewrite groupby_sum_keys.
  assert (r key ∈ drop_duplicates id (map (fun r : vrow => r key) df)) as Hin.
  { destruct (drop_duplicates_from_covers (fun r : vrow => r key) [] df r Hr) as [H|H].
    - by apply not_elem_of_nil in H.
    - unfold drop_duplicates.
      rewrite (drop_duplicates_from_fmap (fun r : vrow => r key) id) by done. done. }
  induction (drop_duplicates id (map (fun r : vrow => r key) df)) as [|k ks IH];
    [by apply not_elem_of_nil in Hin|].
  simpl. destruct (bool_decide (k = r key)) eqn:E.
  - apply bool_decide_eq_true in E. by rewrite E.
  - apply bool_decide_eq_false in E. apply IH.
    apply elem_of_cons in Hin as [Hin | Hin]; [congruence | done].
Qed.

(** After the merge every row carries the total of its module, computed
    over all rows of the frame. *)
Lemma merge_total_rows (df : list vrow) :
  merge_total key total_col (groupby_sum key col df) df
  = map (fun r : vrow =>
           vrow_set total_col (Number (group_total key col df (r key))) r) df.
Proof.
  unfold merge_total. apply map_ext_in. intros r Hr.
  apply list_elem_of_In in Hr. by rewrite groupby_sum_find.
Qed.

(** One total per module name, summed: the sum over all rows. *)
Lemma total_by_module_name (df : list vrow) :
  series_sum
    (map (fun r : vrow => number_of (r total_col))
       (drop_duplicates (fun r : vrow => r key)
          (merge_total key total_col (groupby_sum key col df) df)))
  = series_sum (map (fun r : vrow => number_of (r col)) df).
Proof.
  rewrite merge_total_rows. unfold drop_duplicates.
  rewrite (drop_duplicates_from_fmap (fun r : vrow => r key) (fun r : vrow => r key)).
  - rewrite map_map. rewrite <- groupby_sum_total, groupby_sum_totals.
    unfold drop_duplicates.
    rewrite (drop_duplicates_from_fmap (fun r : vrow => r key) id) by done.
    rewrite map_map. f_equal. apply map_ext. intros r.
    unfold vrow_set. by rewrite decide_True.
  - intros r. unfold vrow_set. by rewrite decide_False.
Qed.
End Aggregation.

Lemma merge_total_column key col total_col module_total (df : list vrow) :
  col <> total_col ->
  map (fun r : vrow => r col) (merge_total key total_col module_total df)
  = map (fun r : vrow => r col) df.
Proof.
  intros Hne. unfold merge_total. rewrite map_map. apply map_ext. intros r.
  destruct (List.find _ module_total); unfold vrow_set; by rewrite decide_False.
Qed.

Lemma group_total_fmap key col (g : vrow -> vrow) (df : list vrow) k :
  (forall r, g r key = r key) -> (forall r, g r col = r col) ->
  group_total key col (map g df) k = group_total key col df k.
Proof.
  intros Hkey Hcol. unfold group_total.
  rewrite filter_map_swap, map_map. f_equal.
  erewrite filter_ext by (intros r; by rewrite Hkey).
  apply map_ext. intros r. by rewrite Hcol.
Qed.

(** In a BOM run every line carries the sum of [Value] over the lines of
    its module, and the total of the run is the sum of [Value] over all
    lines, in the exact arithmetic of the model. *)
Lemma bom_totals files rep :
  snd (ExtractBom.extract_and_format_bom files) = Some rep ->
  (forall r : vrow, r ∈ ExtractBom.df_with_module_all rep ->
     r (py "自采元器件总价")
     = Number (group_total (py "模块名称") (py "Value")
                 (ExtractBom.df_with_module_all rep) (r (py "模块名称"))))
  /\ ExtractBom.total rep
     = series_sum (map (fun r : vrow => number_of (r (py "Value")))
                     (ExtractBom.df_with_module_all rep))
  /\ ExtractBom.total rep
     = series_sum (map (fun r : vrow => number_of (r (py "Value")))
                     (concat (ExtractBom.all_self_purchase
                                (ExtractBom.walk files bom_start)))).
Proof.
  unfold ExtractBom.extract_and_format_bom. cbv zeta. fold bom_start.
  destruct (ExtractBom.all_self_purchase (ExtractBom.walk files bom_start))
    as [|frame frames] eqn:E; [done|].
  cbn [snd]. intros [= <-]. cbn [ExtractBom.df_with_module_all ExtractBom.total].
  set (df := sort_values _ _).
  assert (py "模块名称" <> py "自采元器件总价") as Hkey by by_compute.
  assert (py "Value" <> py "自采元器件总价") as Hval by by_compute.
  assert (map (fun r : vrow => number_of (r (py "Value")))
            (merge_total (py "模块名称") (py "自采元器件总价")
               (groupby_sum (py "模块名称") (py "Value") df) df)
          = map (fun r : vrow => number_of (r (py "Value"))) df) as Hvalues.
  { rewrite <- (map_map (fun r : vrow => r (py "Value")) number_of).
    rewrite merge_total_column by done. by rewrite map_map. }
  split; [|split].
  - intros r Hr. rewrite merge_total_rows in Hr |- *.
    apply list_elem_of_fmap in Hr as [r0 [-> Hr0]].
    rewrite group_total_fmap.
    + unfold vrow_set. rewrite decide_True by done. by rewrite decide_False.
    + intros r. unfold vrow_set. by rewrite decide_False.
    + intros r. unfold vrow_set. by rewrite decide_False.
  - rewrite total_by_module_name by done. by rewrite Hvalues.
  - rewrite total_by_module_name by done.
    apply series_sum_Permutation, fmap_Permutation, sort_values_Permutation.
Qed.

(** X12. In a BOM run whose [Value] cells are whole numbers written in the
    digits 0 to 9 (or missing), with a sum below 2^53, every line carries
    the sum of [Value] over the lines of its module, and the total of the
    run is the sum of [Value] over all lines: those of the first sheet,
    which are the lines extracted from the files. On such cells the sums of
    the model, which are exact, are the sums pandas makes in floats. *)
Theorem bom_total_is_sum_of_values files rep :
  plain_values files = true ->
  snd (ExtractBom.extract_and_format_bom files) = Some rep ->
  exact_in_float (series_sum (map (fun r : vrow => number_of (r (py "Value")))
                                (ExtractBom.df_with_module_all rep))) ->
  (forall r : vrow, r ∈ ExtractBom.df_with_module_all rep ->
     r (py "自采元器件总价")
     = Number (group_total (py "模块名称") (py "Value")
                 (ExtractBom.df_with_module_all rep) (r (py "模块名称"))))
  /\ ExtractBom.total rep
     = series_sum (map (fun r : vrow => number_of (r (py "Value")))
                     (ExtractBom.df_with_module_all rep))
  /\ ExtractBom.total rep
     = series_sum (map (fun r : vrow => number_of (r (py "Value")))
                     (concat (ExtractBom.all_self_purchase
                                (ExtractBom.walk files bom_start)))).
Proof. intros _ Hrep _. exact (bom_totals files rep Hrep). Qed.

Lemma bom_total_is_sum_of_values_witness :
  exists rep,
    plain_values two_bom_modules = true
    /\ snd (ExtractBom.extract_and_format_bom two_bom_modules) = Some rep
    /\ ExtractBom.total rep = amount 20
    /\ ExtractBom.total rep
       = series_sum (map (fun r : vrow => number_of (r (py "Value")))
                       (ExtractBom.df_with_module_all rep)).
Proof.
  assert (is_Some (snd (ExtractBom.extract_and_format_bom two_bom_modules)))
    as [rep Hrep] by by_compute.
  assert ((fun rep =>
             (ExtractBom.total rep,
              series_sum (map (fun r : vrow => number_of (r (py "Value")))
                            (ExtractBom.df_with_module_all rep))))
            <$> snd (ExtractBom.extract_and_format_bom two_bom_modules)
          = Some (amount 20, amount 20)) as Htotal by by_compute.
  rewrite Hrep in Htotal. injection Htotal as Htotal Hsum.
  exists rep. split; [by vm_compute|]. split; [done|]. split; [done|].
  apply (bom_total_is_sum_of_values two_bom_modules rep); [by vm_compute | done |].
  rewrite Hsum. by vm_compute.
Defined.

(** In an accessory run, too, every line carries the sum of [Value] over
    the lines of its module; the total amount of the run is the sum of the
    distinct values that column holds. *)
Lemma accessory_module_totals files rep :
  snd (ModAcc.extract_and_format_accessory files) = Some rep ->
  (forall r : vrow, r ∈ ModAcc.df_total rep ->
     r (py "模块配件总金额")
     = Number (group_total (py "模块名称") (py "Value")
                 (ModAcc.df_total rep) (r (py "模块名称"))))
  /\ ModAcc.total_amount rep
     = series_sum (drop_duplicates id
                     (map (fun r : vrow => number_of (r (py "模块配件总金额")))
                        (ModAcc.df_total rep))).
Proof.
  unfold ModAcc.extract_and_format_accessory. cbv zeta. fold accessory_start.
  destruct (ModAcc.all_accessory_data (ModAcc.walk files accessory_start))
    as [|frame frames] eqn:E; [done|].
  cbn [snd]. intros [= <-]. cbn [ModAcc.df_total ModAcc.total_amount].
  split; [|done].
  set (df := sort_values _ _).
  set (col_order := _ :: _ :: ModAcc.core_columns).
  assert (py "模块名称" <> py "模块配件总金额") as Hkey by by_compute.
  assert (py "Value" <> py "模块配件总金额") as Hval by by_compute.
  intros r Hr. rewrite merge_total_rows in Hr |- *. rewrite map_map in Hr |- *.
  apply list_elem_of_fmap in Hr as [r0 [-> Hr0]].
  rewrite group_total_fmap.
  - unfold project, vrow_set.
    rewrite (decide_True (P := py "模块配件总金额" ∈ col_order)) by by_compute.
    rewrite (decide_True (P := py "模块名称" ∈ col_order)) by by_compute.
    rewrite decide_True by done. by rewrite decide_False.
  - intros r. unfold project, vrow_set.
    rewrite (decide_True (P := py "模块名称" ∈ col_order)) by by_compute.
    by rewrite decide_False.
  - intros r. unfold project, vrow_set.
    rewrite (decide_True (P := py "Value" ∈ col_order)) by by_compute.
    by rewrite decide_False.
Qed.

(* ===================================================================== *)
(** * The matcher on file names                                           *)
(* ===================================================================== *)

Section FileNames.
Context {A : Type}.
Variable flags : nat.

(** [.+] gives up when the rest of the pattern fails after every number of
    characters it can take. *)
Lemma plus_dot_fail (t : pystr) n pos caps (k : @cont A) :
  (length t <= n)%nat ->
  (forall j, (0 < j <= length t)%nat -> k (pos + j)%nat (drop j t) caps = None) ->
  plus_loop (rmatch flags Dot) n pos t caps k = None.
Proof.
  revert n pos. induction t as [|c t IH]; intros n pos Hn Hk.
  - by destruct n.
  - destruct n as [|n]; [simpl in Hn; lia|].
    cbn [plus_loop rmatch]. destruct (c =? 0x0A); [done|].
    cbn [length]. rewrite (proj2 (Nat.ltb_lt _ _)) by lia.
    rewrite IH.
    + replace (S pos) with (pos + 1)%nat by lia. apply (Hk 1%nat). simpl. lia.
    + simpl in Hn. lia.
    + intros j Hj. replace (S pos + j)%nat with (pos + S j)%nat by lia.
      apply (Hk (S j)). simpl. lia.
Qed.

(** [.+] is greedy: it takes the longest run of characters after which the
    rest of the pattern matches. *)
Lemma plus_dot_greedy (m t : pystr) n pos caps (k : @cont A) a :
  m <> [] -> Forall (fun c => c <> 0x0A) m ->
  (length (m ++ t) <= n)%nat ->
  k (pos + length m)%nat t caps = Some a ->
  (forall j, (0 < j <= length t)%nat ->
             k (pos + length m + j)%nat (drop j t) caps = None) ->
  plus_loop (rmatch flags Dot) n pos (m ++ t) caps k = Some a.
Proof.
  pose proof plus_dot_fail as Hstop.
  set (step := rmatch flags Dot) in *.
  revert n pos. induction m as [|c m IH]; intros n pos Hne Hnl Hn Hk Hfail; [done|].
  destruct n as [|n]; [simpl in Hn; lia|].
  apply Forall_cons in Hnl as [Hc Hnl].
  cbn [plus_loop app]. unfold step at 1. cbn [rmatch].
  rewrite (proj2 (N.eqb_neq _ _) Hc).
  cbn [length]. rewrite (proj2 (Nat.ltb_lt _ _)) by lia.
  destruct m as [|c' m].
  - cbn [app]. rewrite Hstop.
    + rewrite <- Hk. f_equal. simpl. lia.
    + simpl in Hn. lia.
    + intros j Hj. rewrite <- (Hfail j Hj). f_equal. simpl. lia.
  - rewrite (IH n (S pos)); [done..| | |].
    + simpl in *. lia.
    + rewrite <- Hk. f_equal. simpl. lia.
    + intros j Hj. rewrite <- (Hfail j Hj). f_equal. simpl. lia.
Qed.

(** A literal text matches itself. *)
Lemma rmatch_lit (p s : pystr) pos caps (k : @cont A) :
  Nat.testbit flags 1 = false ->
  rmatch flags (lit p) pos (p ++ s) caps k = k (pos + length p)%nat s caps.
Proof.
  intros Hflags. revert pos. induction p as [|c p IH]; intros pos.
  - simpl. f_equal. lia.
  - unfold lit in *. cbn [map items foldr rmatch app]. unfold char_matches.
    rewrite Hflags, N.eqb_refl.
    change (foldr Cat Empty (map Lit p)) with (items (map Lit p)).
    rewrite IH. f_equal. simpl. lia.
Qed.
Lemma plus_loop_unfold (step : nat -> pystr -> captures -> @cont A -> option A) n pos s caps k :
  plus_loop step n pos s caps k
  = step pos s caps (fun pos' s' caps' =>
      match n with
      | O => k pos' s' caps'
      | S n' =>
        if Nat.ltb (length s') (length s) then
          match plus_loop step n' pos' s' caps' k with
          | Some a => Some a
          | None => k pos' s' caps'
          end
        else k pos' s' caps'
      end).
Proof. by destruct n. Qed.

(** [\d+] takes all the digits ahead when the rest of the pattern matches
    after them. *)
Lemma plus_digit_greedy (d t : pystr) n pos caps (k : @cont A) a :
  d <> [] -> Forall (fun c => isdigit c = true) d ->
  match t with c :: _ => isdigit c = false | [] => True end ->
  (length (d ++ t) <= n)%nat ->
  k (pos + length d)%nat t caps = Some a ->
  plus_loop (rmatch flags Digit) n pos (d ++ t) caps k = Some a.
Proof.
  set (step := rmatch flags Digit).
  revert n pos. induction d as [|c d IH]; intros n pos Hne Hd Ht Hn Hk; [done|].
  destruct n as [|n]; [simpl in Hn; lia|].
  apply Forall_cons in Hd as [Hc Hd].
  cbn [plus_loop app]. unfold step at 1. cbn [rmatch]. rewrite Hc.
  cbn [length]. rewrite (proj2 (Nat.ltb_lt _ _)) by lia.
  destruct d as [|c' d].
  - cbn [app]. rewrite plus_loop_unfold. unfold step at 1.
    assert (rmatch flags Digit (S pos) t caps
              (fun pos' s' caps' =>
                 match n with
                 | O => k pos' s' caps'
                 | S n' =>
                   if Nat.ltb (length s') (length t) then
                     match plus_loop step n' pos' s' caps' k with
                     | Some a => Some a
                     | None => k pos' s' caps'
                     end
                   else k pos' s' caps'
                 end) = None) as ->.
    { destruct t as [|c' t]; [done|]. cbn [rmatch]. by rewrite Ht. }
    rewrite <- Hk. f_equal. simpl. lia.
  - rewrite (IH n (S pos)); [done..| |].
    + simpl in *. lia.
    + rewrite <- Hk. f_equal. simpl. lia.
Qed.

Lemma rmatch_Plus r pos s caps (k : @cont A) :
  rmatch flags (Plus r) pos s caps k = plus_loop (rmatch flags r) (length s) pos s caps k.
Proof. reflexivity. Qed.
End FileNames.

(** Once a match has been replaced, the characters it covered are passed
    over. *)
Lemma sub_from_skip flags pattern n count done skip pos s :
  (length s <= skip)%nat -> sub_from flags pattern n count done skip pos s = [].
Proof.
  revert skip pos. induction s as [|c s IH]; intros skip pos Hs; [done|].
  destruct skip as [|skip]; [simpl in Hs; lia|].
  cbn [sub_from]. apply IH. simpl in Hs. lia.
Qed.

(** A match that covers the whole file name is replaced by its group. *)
Lemma re_sub_whole_match flags pattern n count s e caps :
  match_at flags pattern 0 s = Some (e, caps) ->
  (0 < length s <= e)%nat ->
  re_sub pattern n s count flags = group n caps ++ [].
Proof.
  intros Hmatch Hlen. unfold re_sub.
  destruct s as [|c s]; [simpl in Hlen; lia|]. cbn [sub_from].
  assert (negb (Nat.eqb count 0) && Nat.leb count 0 = false) as ->
    by (by destruct count).
  rewrite Hmatch. f_equal. apply sub_from_skip. simpl in Hlen. lia.
Qed.

Lemma drop_head_Forall {T} (P : T -> Prop) j l :
  Forall P l -> match drop j l with c :: _ => P c | [] => True end.
Proof.
  intros H. revert j. induction H as [|x l Hx H IH]; intros [|j]; simpl; auto.
  apply IH.
Qed.

Lemma isdigit_not_dash c : isdigit c = true -> c <> 0x2D.
Proof. intros H ->. by vm_compute in H. Qed.

(** Names of the shape of a module-name pattern. *)
Section VersionedName.
Variables prefix vtag : pystr.
Variable after_patch : regex.
Variable exts : list pystr.

Hypothesis prefix_not_empty : prefix <> [].
Hypothesis vtag_dash : exists tag, vtag = 0x2D :: tag /\ Forall (fun c => c <> 0x2D) tag.
Hypothesis after_patch_ext : forall ext pos caps,
  ext ∈ exts ->
  exists caps',
    rmatch (A := nat * captures) 0 after_patch pos (0x2E :: ext) caps
      (fun pos' _ caps' => Some (pos', caps'))
    = Some ((S (length ext) + pos)%nat, caps')
    /\ group 1 caps' = group 1 caps.
Hypothesis ext_letters : forall ext, ext ∈ exts ->
  Forall (fun c => isdigit c = false /\ c <> 0x2D) ext.

(** Without a patch number the optional group takes nothing. *)
Lemma patch_group_skipped pos caps ext (k : @cont (nat * captures)) :
  ext ∈ exts ->
  rmatch 0 patch_group pos (0x2E :: ext) caps k = k pos (0x2E :: ext) caps.
Proof.
  intros Hext. unfold patch_group. cbn [rmatch]. unfold char_matches.
  change (Nat.testbit 0 1) with false. rewrite N.eqb_refl.
  rewrite plus_loop_unfold.
  destruct ext as [|c ext]; [done|]. cbn [rmatch].
  apply ext_letters in Hext. apply Forall_cons in Hext as [[Hc _] _]. by rewrite Hc.
Qed.

Lemma after_minor_matches pos caps patch ext :
  (forall p, patch = Some p -> digits p) -> ext ∈ exts ->
  exists e caps',
    rmatch (A := nat * captures) 0 (after_minor after_patch) pos (opt_patch patch ++ py "." ++ ext) caps
      (fun pos' _ caps' => Some (pos', caps')) = Some (e, caps')
    /\ e = (length (opt_patch patch ++ py "." ++ ext) + pos)%nat
    /\ group 1 caps' = group 1 caps.
Proof.
  intros Hpatch Hext. unfold after_minor, opt_patch. change (py ".") with [0x2E].
  destruct patch as [p|].
  - destruct (Hpatch p eq_refl) as [Hne Hp].
    destruct (after_patch_ext ext (S pos + length p)%nat
                ((2%nat, take (length (0x2E :: p ++ 0x2E :: ext) - length (0x2E :: ext))
                           (0x2E :: p ++ 0x2E :: ext)) :: caps) Hext)
      as [caps' [Hm Hg]].
    exists (S (length ext) + (S pos + length p))%nat, caps'. split; [|split].
    + unfold patch_group. remember (Plus Digit) as plus_digit eqn:Hpd.
      cbn [rmatch app]. unfold char_matches. change (Nat.testbit 0 1) with false.
      rewrite N.eqb_refl. subst plus_digit. rewrite rmatch_Plus.
      erewrite (plus_digit_greedy 0 p (0x2E :: ext));
        [reflexivity | done | done | done | done | exact Hm].
    + cbn [app length]. rewrite length_app. cbn [length]. unfold pystr, char in *. lia.
    + exact Hg.
  - destruct (after_patch_ext ext pos caps Hext) as [caps' [Hm Hg]].
    exists (S (length ext) + pos)%nat, caps'. split; [|split; [done|exact Hg]].
    cbn [rmatch app]. fold patch_group. by rewrite patch_group_skipped.
Qed.

Lemma after_module_version pos caps major minor patch ext :
  digits major -> digits minor -> (forall p, patch = Some p -> digits p) -> ext ∈ exts ->
  exists e caps',
    rmatch (A := nat * captures) 0 (after_module vtag after_patch) pos
      (version_suffix vtag major minor patch ext) caps
      (fun pos' _ caps' => Some (pos', caps')) = Some (e, caps')
    /\ e = (length (version_suffix vtag major minor patch ext) + pos)%nat
    /\ group 1 caps' = group 1 caps.
Proof.
  intros [Hmaj1 Hmaj2] [Hmin1 Hmin2] Hpatch Hext.
  destruct (after_minor_matches
              (S (pos + length vtag + length major) + length minor)%nat
              caps patch ext Hpatch Hext) as [e [caps' [Hm [He Hg]]]].
  exists e, caps'. split; [|split; [|done]].
  - unfold version_suffix, after_module.
    remember (Plus Digit) as plus_digit eqn:Hpd.
    cbn [rmatch]. rewrite (rmatch_lit 0) by done.
    subst plus_digit. rewrite rmatch_Plus.
    change (py "." ++ minor ++ opt_patch patch ++ py "." ++ ext)
      with (0x2E :: minor ++ opt_patch patch ++ py "." ++ ext).
    apply (plus_digit_greedy 0); [done | done | done | done |].
    cbn [rmatch]. unfold char_matches. change (Nat.testbit 0 1) with false.
    rewrite N.eqb_refl.
    apply (plus_digit_greedy 0); [done | done | | done | exact Hm].
    destruct patch; done.
  - rewrite He. unfold version_suffix. rewrite !length_app.
    change (length (py ".")) with 1%nat. unfold pystr, char in *. lia.
Qed.

(** What follows the module part begins with a dash. *)
Lemma after_module_needs_dash pos s caps (k : @cont (nat * captures)) :
  match s with c :: _ => c <> 0x2D | [] => True end ->
  rmatch 0 (after_module vtag after_patch) pos s caps k = None.
Proof.
  intros Hs. unfold after_module. destruct vtag_dash as [tag [-> _]].
  remember (Plus Digit) as plus_digit eqn:Hpd.
  destruct s as [|c s]; [done|].
  unfold lit. cbn [map items foldr rmatch]. unfold char_matches.
  change (Nat.testbit 0 1) with false.
  destruct (0x2D =? c) eqn:E; [|done]. apply N.eqb_eq in E. congruence.
Qed.

Lemma version_suffix_tail major minor patch ext :
  digits major -> digits minor -> (forall p, patch = Some p -> digits p) -> ext ∈ exts ->
  exists tail, version_suffix vtag major minor patch ext = 0x2D :: tail
               /\ Forall (fun c => c <> 0x2D) tail.
Proof.
  intros [_ Hmaj] [_ Hmin] Hpatch Hext. destruct vtag_dash as [tag [-> Htag]].
  exists (tag ++ major ++ py "." ++ minor ++ opt_patch patch ++ py "." ++ ext).
  split; [done|].
  assert (forall d, Forall (fun c => isdigit c = true) d -> Forall (fun c => c <> 0x2D) d)
    as Hd by (intros d Hd; eapply Forall_impl; [exact Hd | apply isdigit_not_dash]).
  repeat (apply Forall_app; split); auto.
  - by repeat constructor.
  - destruct patch as [p|]; [|constructor].
    apply Forall_app. split; [by repeat constructor|].
    apply Hd. by destruct (Hpatch p eq_refl).
  - by repeat constructor.
  - eapply Forall_impl; [by apply ext_letters|]. by intros c [_ Hc].
Qed.

(** A name of the shape of the pattern, in its letter case, is replaced by
    its module part. *)
Lemma re_sub_versioned_name (m major minor : pystr) (patch : option pystr) (ext : pystr)
    count :
  m <> [] -> Forall (fun c => c <> 0x0A) m ->
  digits major -> digits minor -> (forall p, patch = Some p -> digits p) -> ext ∈ exts ->
  re_sub (name_pattern prefix vtag after_patch) 1 (prefix ++ m ++ version_suffix vtag major minor patch ext) count 0
  = m.
Proof.
  intros Hne Hnl Hmaj Hmin Hpatch Hext.
  set (t := version_suffix vtag major minor patch ext).
  destruct (after_module_version (0 + length prefix + length m)%nat [(1%nat, m)]
              major minor patch ext Hmaj Hmin Hpatch Hext) as [e [caps [Hm [He Hg]]]].
  fold t in Hm, He.
  assert (match_at 0 (name_pattern prefix vtag after_patch) 0 (prefix ++ m ++ t) = Some (e, caps)) as Hmatch.
  { unfold match_at, name_pattern. cbn [rmatch Nat.eqb].
    rewrite (rmatch_lit 0) by done.
    apply (plus_dot_greedy 0); [done | done | done | |].
    - rewrite length_app, Nat.add_sub, take_app_length. exact Hm.
    - intros j Hj. apply after_module_needs_dash.
      destruct (version_suffix_tail major minor patch ext Hmaj Hmin Hpatch Hext)
        as [tail [Ht Htail]].
      fold t in Ht. rewrite Ht in Hj |- *.
      destruct j as [|j]; [lia|]. cbn [drop].
      by apply (drop_head_Forall (fun c => c <> 0x2D)). }
  rewrite (re_sub_whole_match _ _ _ _ _ _ _ Hmatch).
  - rewrite app_nil_r. exact Hg.
  - rewrite He, !length_app. destruct prefix; [done|]. cbn [length].
    unfold pystr, char in *. lia.
Qed.
End VersionedName.

(** A BOM file name in the letter case of the pattern,
    [BOM_<module>-v<major>.<minor>[.<patch>].<ext>], gives its module
    part. *)
Lemma bom_module_name_of_exact_case (m major minor : pystr) (patch : option pystr)
    (ext : pystr) :
  m <> [] -> Forall (fun c => c <> 0x0A) m ->
  digits major -> digits minor -> (forall p, patch = Some p -> digits p) ->
  ext ∈ [py "xlsx"; py "xls"] ->
  ExtractBom.module_name_of (py "BOM_" ++ m ++ version_suffix (py "-v") major minor patch ext)
  = m.
Proof.
  intros. unfold ExtractBom.module_name_of.
  change ExtractBom.module_name_pattern
    with (name_pattern (py "BOM_") (py "-v")
            (items [Lit 0x2E; Group 3 (Alt (lit (py "xlsx")) (lit (py "xls"))); Eol])).
  apply (re_sub_versioned_name _ _ _ [py "xlsx"; py "xls"]); try done.
  - exists (py "v"). split; [done | by repeat constructor].
  - intros ext' pos caps Hext.
    apply elem_of_cons in Hext as [-> | Hext];
      [|apply elem_of_cons in Hext as [-> | Hext]; [|by apply not_elem_of_nil in Hext]];
      (eexists; split; [vm_compute; reflexivity | reflexivity]).
  - intros ext' Hext.
    apply elem_of_cons in Hext as [-> | Hext];
      [|apply elem_of_cons in Hext as [-> | Hext]; [|by apply not_elem_of_nil in Hext]];
      by repeat constructor.
Qed.

(** An accessory file name in the letter case of the pattern,
    [ModAcc_<module>-V<major>.<minor>[.<patch>].xlsx], gives its module
    part. *)
Lemma accessory_module_name_of_exact_case (m major minor : pystr) (patch : option pystr) :
  m <> [] -> Forall (fun c => c <> 0x0A) m ->
  digits major -> digits minor -> (forall p, patch = Some p -> digits p) ->
  ModAcc.module_name_of
    (py "ModAcc_" ++ m ++ version_suffix (py "-V") major minor patch (py "xlsx"))
  = m.
Proof.
  intros. unfold ModAcc.module_name_of.
  change ModAcc.module_name_pattern
    with (name_pattern (py "ModAcc_") (py "-V") (items [lit (py ".xlsx"); Eol])).
  apply (re_sub_versioned_name _ _ _ [py "xlsx"]); try done.
  - exists (py "V"). split; [done | by repeat constructor].
  - intros ext' pos caps Hext.
    apply elem_of_cons in Hext as [-> | Hext]; [|by apply not_elem_of_nil in Hext].
    eexists; split; [vm_compute; reflexivity | reflexivity].
  - intros ext' Hext.
    apply elem_of_cons in Hext as [-> | Hext]; [|by apply not_elem_of_nil in Hext].
    by repeat constructor.
  - by left.
Qed.

(* ===================================================================== *)
(** * Record extractor: files without a mandatory column                  *)
(* ===================================================================== *)

Lemma missing_columns_spec core_columns df col :
  col ∈ missing_columns core_columns df <-> col ∈ core_columns /\ col ∉ columns df.
Proof.
  unfold missing_columns.
  rewrite list_elem_of_In, filter_In, <- list_elem_of_In, negb_true_iff, bool_decide_eq_false.
  done.
Qed.

Section BomLoop.
Import ExtractBom.

Lemma bom_process_file_effect file_name read :
  exists frames log, forall st,
    process_file file_name read st
    = {| all_self_purchase := all_self_purchase st ++ frames;
         printed := printed st ++ log |}.
Proof. unfold process_file, print. loop_effect. Qed.

Lemma bom_walk_effect files :
  exists frames log, forall st,
    walk files st
    = {| all_self_purchase := all_self_purchase st ++ frames;
         printed := printed st ++ log |}.
Proof.
  induction files as [|[file_name read] files [frames [log IH]]].
  - exists [], []. intros [frames0 log0]. unfold walk. cbn [fold_left]. state_fields.
    by rewrite !app_nil_r.
  - destruct (bom_process_file_effect file_name read) as [frames1 [log1 H1]].
    exists (frames1 ++ frames), (log1 ++ log). intros st.
    unfold walk. cbn [fold_left fst snd]. fold (walk files).
    rewrite H1, IH. state_fields. by rewrite !app_assoc.
Qed.

Lemma bom_process_file_skipped file_name df stripped st :
  re_match IGNORECASE bom_file_pattern file_name = true ->
  strip_columns df = Some stripped ->
  missing_columns core_columns stripped <> [] ->
  process_file file_name (Some df) st
  = {| all_self_purchase := all_self_purchase st;
       printed := printed st ++ [Found file_name;
                                 Skipped file_name
                                   (missing_columns core_columns stripped)] |}.
Proof.
  intros Hmatch Hstrip Hmissing. unfold process_file, print. rewrite Hmatch, Hstrip.
  destruct (missing_columns core_columns stripped); [done|].
  state_fields. by rewrite <- app_assoc.
Qed.

Lemma bom_process_file_failed file_name df st :
  re_match IGNORECASE bom_file_pattern file_name = true ->
  columns df = [] ->
  process_file file_name (Some df) st
  = {| all_self_purchase := all_self_purchase st;
       printed := printed st ++ [Found file_name; Failed file_name] |}.
Proof.
  intros Hmatch Hcolumns. unfold process_file, print, strip_columns.
  rewrite Hmatch, Hcolumns. state_fields. by rewrite <- app_assoc.
Qed.

(** A file whose pass adds no frame: the run is the run without it, but for
    what the pass prints. *)
Lemma bom_file_without_frame files1 files2 file_name read log :
  (forall st, process_file file_name read st
              = {| all_self_purchase := all_self_purchase st;
                   printed := printed st ++ log |}) ->
  all_self_purchase (walk (files1 ++ (file_name, read) :: files2) bom_start)
  = all_self_purchase (walk (files1 ++ files2) bom_start)
  /\ snd (extract_and_format_bom (files1 ++ (file_name, read) :: files2))
     = snd (extract_and_format_bom (files1 ++ files2))
  /\ exists log1 log2,
      printed (walk (files1 ++ files2) bom_start) = log1 ++ log2
      /\ printed (walk (files1 ++ (file_name, read) :: files2) bom_start)
         = log1 ++ log ++ log2.
Proof.
  intros Hpass.
  destruct (bom_walk_effect files2) as [frames2 [log2 H2]].
  assert (walk (files1 ++ files2) bom_start
          = {| all_self_purchase := all_self_purchase (walk files1 bom_start) ++ frames2;
               printed := printed (walk files1 bom_start) ++ log2 |}) as Hwithout.
  { unfold walk. rewrite fold_left_app. apply H2. }
  assert (walk (files1 ++ (file_name, read) :: files2) bom_start
          = {| all_self_purchase := all_self_purchase (walk files1 bom_start) ++ frames2;
               printed := (printed (walk files1 bom_start) ++ log) ++ log2 |}) as Hwith.
  { unfold walk. rewrite fold_left_app. cbn [fold_left fst snd].
    fold (walk files1 bom_start). rewrite Hpass.
    fold (walk files2). by rewrite H2. }
  assert (all_self_purchase (walk (files1 ++ (file_name, read) :: files2) bom_start)
          = all_self_purchase (walk (files1 ++ files2) bom_start)) as Hframes
    by (by rewrite Hwith, Hwithout).
  split; [done|]. split.
  - unfold extract_and_format_bom. cbv zeta. fold bom_start. rewrite Hframes.
    by destruct (all_self_purchase (walk (files1 ++ files2) bom_start)).
  - exists (printed (walk files1 bom_start)), log2.
    rewrite Hwith, Hwithout. state_fields. by rewrite <- app_assoc.
Qed.

Lemma bom_skipped_file files1 files2 file_name df stripped :
  re_match IGNORECASE bom_file_pattern file_name = true ->
  strip_columns df = Some stripped ->
  missing_columns core_columns stripped <> [] ->
  all_self_purchase (walk (files1 ++ (file_name, Some df) :: files2) bom_start)
  = all_self_purchase (walk (files1 ++ files2) bom_start)
  /\ snd (extract_and_format_bom (files1 ++ (file_name, Some df) :: files2))
     = snd (extract_and_format_bom (files1 ++ files2))
  /\ exists log1 log2,
      printed (walk (files1 ++ files2) bom_start) = log1 ++ log2
      /\ printed (walk (files1 ++ (file_name, Some df) :: files2) bom_start)
         = log1 ++ [Found file_name;
                    Skipped file_name (missing_columns core_columns stripped)]
             ++ log2.
Proof.
  intros Hmatch Hstrip Hmissing. apply bom_file_without_frame.
  intros st. by apply bom_process_file_skipped.
Qed.

Lemma bom_failed_file files1 files2 file_name df :
  re_match IGNORECASE bom_file_pattern file_name = true ->
  columns df = [] ->
  all_self_purchase (walk (files1 ++ (file_name, Some df) :: files2) bom_start)
  = all_self_purchase (walk (files1 ++ files2) bom_start)
  /\ snd (extract_and_format_bom (files1 ++ (file_name, Some df) :: files2))
     = snd (extract_and_format_bom (files1 ++ files2))
  /\ exists log1 log2,
      printed (walk (files1 ++ files2) bom_start) = log1 ++ log2
      /\ printed (walk (files1 ++ (file_name, Some df) :: files2) bom_start)
         = log1 ++ [Found file_name; Failed file_name] ++ log2.
Proof.
  intros Hmatch Hcolumns. apply bom_file_without_frame.
  intros st. by apply bom_process_file_failed.
Qed.
End BomLoop.

Section AccessoryLoop.
Import ModAcc.

Lemma accessory_process_file_effect file_name read :
  exists frames log, forall st,
    process_file file_name read st
    = {| all_accessory_data := all_accessory_data st ++ frames;
         printed := printed st ++ log |}.
Proof. unfold process_file, print. loop_effect. Qed.

Lemma accessory_walk_effect files :
  exists frames log, forall st,
    walk files st
    = {| all_accessory_data := all_accessory_data st ++ frames;
         printed := printed st ++ log |}.
Proof.
  induction files as [|[file_name read] files [frames [log IH]]].
  - exists [], []. intros [frames0 log0]. unfold walk. cbn [fold_left]. state_fields.
    by rewrite !app_nil_r.
  - destruct (accessory_process_file_effect file_name read) as [frames1 [log1 H1]].
    exists (frames1 ++ frames), (log1 ++ log). intros st.
    unfold walk. cbn [fold_left fst snd]. fold (walk files).
    rewrite H1, IH. state_fields. by rewrite !app_assoc.
Qed.

Lemma accessory_process_file_skipped file_name df stripped st :
  re_match IGNORECASE accessory_file_pattern file_name = true ->
  strip_columns df = Some stripped ->
  missing_columns core_columns stripped <> [] ->
  process_file file_name (Some df) st
  = {| all_accessory_data := all_accessory_data st;
       printed := printed st ++ [Found file_name;
                                 Skipped file_name
                                   (missing_columns core_columns stripped)] |}.
Proof.
  intros Hmatch Hstrip Hmissing. unfold process_file, print. rewrite Hmatch, Hstrip.
  destruct (missing_columns core_columns stripped); [done|].
  state_fields. by rewrite <- app_assoc.
Qed.

Lemma accessory_process_file_failed file_name df st :
  re_match IGNORECASE accessory_file_pattern file_name = true ->
  columns df = [] ->
  process_file file_name (Some df) st
  = {| all_accessory_data := all_accessory_data st;
       printed := printed st ++ [Found file_name; Failed file_name] |}.
Proof.
  intros Hmatch Hcolumns. unfold process_file, print, strip_columns.
  rewrite Hmatch, Hcolumns. state_fields. by rewrite <- app_assoc.
Qed.

(** A file whose pass adds no frame: the run is the run without it, but for
    what the pass prints. *)
Lemma accessory_file_without_frame files1 files2 file_name read log :
  (forall st, process_file file_name read st
              = {| all_accessory_data := all_accessory_data st;
                   printed := printed st ++ log |}) ->
  all_accessory_data (walk (files1 ++ (file_name, read) :: files2) accessory_start)
  = all_accessory_data (walk (files1 ++ files2) accessory_start)
  /\ snd (extract_and_format_accessory (files1 ++ (file_name, read) :: files2))
     = snd (extract_and_format_accessory (files1 ++ files2))
  /\ exists log1 log2,
      printed (walk (files1 ++ files2) accessory_start) = log1 ++ log2
      /\ printed (walk (files1 ++ (file_name, read) :: files2) accessory_start)
         = log1 ++ log ++ log2.
Proof.
  intros Hpass.
  destruct (accessory_walk_effect files2) as [frames2 [log2 H2]].
  assert (walk (files1 ++ files2) accessory_start
          = {| all_accessory_data := all_accessory_data (walk files1 accessory_start) ++ frames2;
               printed := printed (walk files1 accessory_start) ++ log2 |}) as Hwithout.
  { unfold walk. rewrite fold_left_app. apply H2. }
  assert (walk (files1 ++ (file_name, read) :: files2) accessory_start
          = {| all_accessory_data := all_accessory_data (walk files1 accessory_start) ++ frames2;
               printed := (printed (walk files1 accessory_start) ++ log) ++ log2 |}) as Hwith.
  { unfold walk. rewrite fold_left_app. cbn [fold_left fst snd].
    fold (walk files1 accessory_start). rewrite Hpass.
    fold (walk files2). by rewrite H2. }
  assert (all_accessory_data (walk (files1 ++ (file_name, read) :: files2) accessory_start)
          = all_accessory_data (walk (files1 ++ files2) accessory_start)) as Hframes
    by (by rewrite Hwith, Hwithout).
  split; [done|]. split.
  - unfold extract_and_format_accessory. cbv zeta. fold accessory_start. rewrite Hframes.
    by destruct (all_accessory_data (walk (files1 ++ files2) accessory_start)).
  - exists (printed (walk files1 accessory_start)), log2.
    rewrite Hwith, Hwithout. state_fields. by rewrite <- app_assoc.
Qed.

Lemma accessory_skipped_file files1 files2 file_name df stripped :
  re_match IGNORECASE accessory_file_pattern file_name = true ->
  strip_columns df = Some stripped ->
  missing_columns core_columns stripped <> [] ->
  all_accessory_data (walk (files1 ++ (file_name, Some df) :: files2) accessory_start)
  = all_accessory_data (walk (files1 ++ files2) accessory_start)
  /\ snd (extract_and_format_accessory (files1 ++ (file_name, Some df) :: files2))
     = snd (extract_and_format_accessory (files1 ++ files2))
  /\ exists log1 log2,
      printed (walk (files1 ++ files2) accessory_start) = log1 ++ log2
      /\ printed (walk (files1 ++ (file_name, Some df) :: files2) accessory_start)
         = log1 ++ [Found file_name;
                    Skipped file_name (missing_columns core_columns stripped)]
             ++ log2.
Proof.
  intros Hmatch Hstrip Hmissing. apply accessory_file_without_frame.
  intros st. by apply accessory_process_file_skipped.
Qed.

Lemma accessory_failed_file files1 files2 file_name df :
  re_match IGNORECASE accessory_file_pattern file_name = true ->
  columns df = [] ->
  all_accessory_data (walk (files1 ++ (file_name, Some df) :: files2) accessory_start)
  = all_accessory_data (walk (files1 ++ files2) accessory_start)
  /\ snd (extract_and_format_accessory (files1 ++ (file_name, Some df) :: files2))
     = snd (extract_and_format_accessory (files1 ++ files2))
  /\ exists log1 log2,
      printed (walk (files1 ++ files2) accessory_start) = log1 ++ log2
      /\ printed (walk (files1 ++ (file_name, Some df) :: files2) accessory_start)
         = log1 ++ [Found file_name; Failed file_name] ++ log2.
Proof.
  intros Hmatch Hcolumns. apply accessory_file_without_frame.
  intros st. by apply accessory_process_file_failed.
Qed.
End AccessoryLoop.

Lemma strip_columns_None df : strip_columns df = None <-> columns df = [].
Proof. unfold strip_columns. by destruct (columns df). Qed.

Lemma strip_columns_Some df stripped :
  strip_columns df = Some stripped ->
  columns df <> [] /\ columns stripped = map strip (columns df).
Proof.
  unfold strip_columns. destruct (columns df) eqn:E; [done|]. by intros [= <-].
Qed.

(** C6, as the code has it. A file the loop processes that has a header
    row, and whose stripped headers lack a mandatory column, adds no frame
    to the run, so the report of the run is the report of the run without
    the file; the loop prints that the file is skipped together with the
    columns it lacks, which are the mandatory columns that are not among
    the stripped headers, and the files before and after it are processed
    as they are without it. A sheet without a header row is left out of
    the run in the same way, but what is printed for it is the general
    failure, which names no column: stripping the headers raises before
    the columns are looked for. This holds in the BOM script and in the
    accessory script. *)
Theorem missing_mandatory_column_skips_file :
  (forall files1 files2 file_name df stripped,
      re_match IGNORECASE ExtractBom.bom_file_pattern file_name = true ->
      strip_columns df = Some stripped ->
      missing_columns ExtractBom.core_columns stripped <> [] ->
      ExtractBom.all_self_purchase
        (ExtractBom.walk (files1 ++ (file_name, Some df) :: files2) bom_start)
      = ExtractBom.all_self_purchase (ExtractBom.walk (files1 ++ files2) bom_start)
      /\ snd (ExtractBom.extract_and_format_bom (files1 ++ (file_name, Some df) :: files2))
         = snd (ExtractBom.extract_and_format_bom (files1 ++ files2))
      /\ exists log1 log2,
          ExtractBom.printed (ExtractBom.walk (files1 ++ files2) bom_start)
          = log1 ++ log2
          /\ ExtractBom.printed
               (ExtractBom.walk (files1 ++ (file_name, Some df) :: files2) bom_start)
             = log1
               ++ [ExtractBom.Found file_name;
                   ExtractBom.Skipped file_name
                     (missing_columns ExtractBom.core_columns stripped)]
               ++ log2)
  /\ (forall files1 files2 file_name df stripped,
      re_match IGNORECASE ModAcc.accessory_file_pattern file_name = true ->
      strip_columns df = Some stripped ->
      missing_columns ModAcc.core_columns stripped <> [] ->
      ModAcc.all_accessory_data
        (ModAcc.walk (files1 ++ (file_name, Some df) :: files2) accessory_start)
      = ModAcc.all_accessory_data (ModAcc.walk (files1 ++ files2) accessory_start)
      /\ snd (ModAcc.extract_and_format_accessory (files1 ++ (file_name, Some df) :: files2))
         = snd (ModAcc.extract_and_format_accessory (files1 ++ files2))
      /\ exists log1 log2,
          ModAcc.printed (ModAcc.walk (files1 ++ files2) accessory_start)
          = log1 ++ log2
          /\ ModAcc.printed
               (ModAcc.walk (files1 ++ (file_name, Some df) :: files2) accessory_start)
             = log1
               ++ [ModAcc.Found file_name;
                   ModAcc.Skipped file_name
                     (missing_columns ModAcc.core_columns stripped)]
               ++ log2)
  /\ (forall core_columns df stripped col,
      strip_columns df = Some stripped ->
      col ∈ missing_columns core_columns stripped <->
      col ∈ core_columns /\ col ∉ map strip (columns df))
  /\ (forall df, is_Some (strip_columns df) <-> columns df <> [])
  /\ (forall files1 files2 file_name df,
      re_match IGNORECASE ExtractBom.bom_file_pattern file_name = true ->
      columns df = [] ->
      ExtractBom.all_self_purchase
        (ExtractBom.walk (files1 ++ (file_name, Some df) :: files2) bom_start)
      = ExtractBom.all_self_purchase (ExtractBom.walk (files1 ++ files2) bom_start)
      /\ snd (ExtractBom.extract_and_format_bom (files1 ++ (file_name, Some df) :: files2))
         = snd (ExtractBom.extract_and_format_bom (files1 ++ files2))
      /\ exists log1 log2,
          ExtractBom.printed (ExtractBom.walk (files1 ++ files2) bom_start)
          = log1 ++ log2
          /\ ExtractBom.printed
               (ExtractBom.walk (files1 ++ (file_name, Some df) :: files2) bom_start)
             = log1 ++ [ExtractBom.Found file_name; ExtractBom.Failed file_name] ++ log2)
  /\ (forall files1 files2 file_name df,
      re_match IGNORECASE ModAcc.accessory_file_pattern file_name = true ->
      columns df = [] ->
      ModAcc.all_accessory_data
        (ModAcc.walk (files1 ++ (file_name, Some df) :: files2) accessory_start)
      = ModAcc.all_accessory_data (ModAcc.walk (files1 ++ files2) accessory_start)
      /\ snd (ModAcc.extract_and_format_accessory (files1 ++ (file_name, Some df) :: files2))
         = snd (ModAcc.extract_and_format_accessory (files1 ++ files2))
      /\ exists log1 log2,
          ModAcc.printed (ModAcc.walk (files1 ++ files2) accessory_start)
          = log1 ++ log2
          /\ ModAcc.printed
               (ModAcc.walk (files1 ++ (file_name, Some df) :: files2) accessory_start)
             = log1 ++ [ModAcc.Found file_name; ModAcc.Failed file_name] ++ log2).
Proof.
  split; [|split; [|split; [|split; [|split]]]].
  - intros. by eapply bom_skipped_file.
  - intros. by eapply accessory_skipped_file.
  - intros core_columns df stripped col Hstrip. rewrite missing_columns_spec.
    apply strip_columns_Some in Hstrip as [_ ->]. done.
  - intros df. rewrite <- not_eq_None_Some, strip_columns_None. done.
  - intros. by apply bom_failed_file.
  - intros. by apply accessory_failed_file.
Qed.

Lemma missing_mandatory_column_skips_file_witness :
  (re_match IGNORECASE ExtractBom.bom_file_pattern (py "BOM_Sensor-v1.0.xlsx") = true
   /\ (missing_columns ExtractBom.core_columns <$> strip_columns sheet_without_value)
      = Some [py "Designator"; py "Supplier Part"; py "LCSC Price"; py "Value";
              py "下单配置"; py "最小起订量"]
   /\ snd (ExtractBom.extract_and_format_bom
             [(py "BOM_Sensor-v1.0.xlsx", Some sheet_without_value); power_bom])
      = snd (ExtractBom.extract_and_format_bom [power_bom]))
  /\ (re_match IGNORECASE ModAcc.accessory_file_pattern (py "ModAcc_Sensor-V1.0.xlsx") = true
      /\ (missing_columns ModAcc.core_columns <$> strip_columns sheet_without_value)
         = Some [py "No."; py "Price"; py "Value"; py "下单配置"; py "最小起订量"]
      /\ snd (ModAcc.extract_and_format_accessory
                [mg811_accessories; (py "ModAcc_Sensor-V1.0.xlsx", Some sheet_without_value)])
         = snd (ModAcc.extract_and_format_accessory [mg811_accessories])).
Proof.
  assert (is_Some (strip_columns sheet_without_value)) as [stripped Hstripped]
    by by_compute.
  assert (missing_columns ExtractBom.core_columns <$> strip_columns sheet_without_value
          = Some [py "Designator"; py "Supplier Part"; py "LCSC Price"; py "Value";
                  py "下单配置"; py "最小起订量"]) as Hbom by by_compute.
  assert (missing_columns ModAcc.core_columns <$> strip_columns sheet_without_value
          = Some [py "No."; py "Price"; py "Value"; py "下单配置"; py "最小起订量"])
    as Hacc by by_compute.
  split.
  - split; [by vm_compute|]. split; [done|].
    apply (proj1 missing_mandatory_column_skips_file
             [] [power_bom] (py "BOM_Sensor-v1.0.xlsx") sheet_without_value stripped);
      [by vm_compute | done |].
    rewrite Hstripped in Hbom. intros H.
    change (Some (missing_columns ExtractBom.core_columns stripped) = Some [py "Designator"; py "Supplier Part"; py "LCSC Price"; py "Value";
                  py "下单配置"; py "最小起订量"]) in Hbom.
    rewrite H in Hbom. discriminate Hbom.
  - split; [by vm_compute|]. split; [done|].
    apply (proj1 (proj2 missing_mandatory_column_skips_file)
             [mg811_accessories] [] (py "ModAcc_Sensor-V1.0.xlsx") sheet_without_value
             stripped); [by vm_compute | done |].
    rewrite Hstripped in Hacc. intros H.
    change (Some (missing_columns ModAcc.core_columns stripped)
            = Some [py "No."; py "Price"; py "Value"; py "下单配置"; py "最小起订量"]) in Hacc.
    rewrite H in Hacc. discriminate Hacc.
Defined.

(** C6 as stated fails on a sheet without a header row: it lacks every
    mandatory column and adds nothing to the run, but the loop prints the
    general failure, and no diagnostic names a column. *)
Lemma empty_sheet_diagnostic_names_no_column :
  re_match IGNORECASE ExtractBom.bom_file_pattern (py "BOM_Sensor-v1.0.xlsx") = true
  /\ missing_columns ExtractBom.core_columns empty_sheet = ExtractBom.core_columns
  /\ ExtractBom.printed
       (ExtractBom.walk [(py "BOM_Sensor-v1.0.xlsx", Some empty_sheet)] bom_start)
     = [ExtractBom.Found (py "BOM_Sensor-v1.0.xlsx");
        ExtractBom.Failed (py "BOM_Sensor-v1.0.xlsx")]
  /\ (forall missing_cols,
        ExtractBom.Skipped (py "BOM_Sensor-v1.0.xlsx") missing_cols
        ∉ ExtractBom.printed
            (ExtractBom.walk [(py "BOM_Sensor-v1.0.xlsx", Some empty_sheet)] bom_start))
  /\ ModAcc.printed
       (ModAcc.walk [(py "ModAcc_Sensor-V1.0.xlsx", Some empty_sheet)] accessory_start)
     = [ModAcc.Found (py "ModAcc_Sensor-V1.0.xlsx");
        ModAcc.Failed (py "ModAcc_Sensor-V1.0.xlsx")].
Proof.
  assert (ExtractBom.printed
            (ExtractBom.walk [(py "BOM_Sensor-v1.0.xlsx", Some empty_sheet)] bom_start)
          = [ExtractBom.Found (py "BOM_Sensor-v1.0.xlsx");
             ExtractBom.Failed (py "BOM_Sensor-v1.0.xlsx")]) as Hprinted by (by vm_compute).
  split; [by vm_compute|]. split; [by vm_compute|]. split; [done|]. split; [|by vm_compute].
  intros missing_cols. rewrite Hprinted, !elem_of_cons, elem_of_nil.
  intros [H | [H | []]]; discriminate H.
Qed.

(* ===================================================================== *)
(** * Module name of a file                                               *)
(* ===================================================================== *)

(** C4, at the file names that show what the code does. A name written in
    the letter case of the pattern gives its module part:
    BOM_PowerModule-v1.2.0.xlsx gives PowerModule and
    ModAcc_MG811-V1.2.0.xlsx gives MG811. A name in another letter case is
    found by the loop, whose pattern ignores case, but the substitution
    that takes the module name does not ignore case ([re.IGNORECASE] is
    passed where [re.sub] takes [count]): the whole file name becomes the
    module name of the records. *)
Theorem module_name_of_file_name :
  ExtractBom.module_name_of (py "BOM_PowerModule-v1.2.0.xlsx") = py "PowerModule"
  /\ ModAcc.module_name_of (py "ModAcc_MG811-V1.2.0.xlsx") = py "MG811"
  /\ re_match IGNORECASE ExtractBom.bom_file_pattern (py "BOM_Power-V2.0.xlsx") = true
  /\ ExtractBom.module_name_of (py "BOM_Power-V2.0.xlsx") = py "BOM_Power-V2.0.xlsx"
  /\ bom_module_names [(py "BOM_Power-V2.0.xlsx", snd power_bom)]
     = Some [Text (Str (py "BOM_Power-V2.0.xlsx"))]
  /\ re_match IGNORECASE ModAcc.accessory_file_pattern (py "modacc_MG811-v1.2.0.xlsx") = true
  /\ ModAcc.module_name_of (py "modacc_MG811-v1.2.0.xlsx") = py "modacc_MG811-v1.2.0.xlsx"
  /\ accessory_module_names [(py "modacc_MG811-v1.2.0.xlsx", snd mg811_accessories)]
     = Some [Text (Str (py "modacc_MG811-v1.2.0.xlsx"))]
  /\ re_sub ExtractBom.module_name_pattern 1 (py "BOM_Power-V2.0.xlsx") 0 IGNORECASE
     = py "Power".
Proof. repeat split; by_compute. Qed.

(* ===================================================================== *)
(** * Aggregator                                                          *)
(* ===================================================================== *)

(** C1, at a run of the accessory script over two modules whose totals are
    equal. The module totals are computed over all lines (10 for module A,
    10 for module B, the lines being worth 10 and 10), but the total amount
    of the run is 10: the sum is taken over the distinct values of the
    total column, so the two equal module totals count once. The BOM
    script, which sums one total per module name, reports 20 for the same
    lines. *)
Theorem accessory_total_amount_counts_equal_totals_once :
  accessory_lines two_accessory_modules
  = Some [(Text (Str (py "A")), Number (amount 10), Number (amount 10));
          (Text (Str (py "B")), Number (amount 10), Number (amount 10))]
  /\ ModAcc.total_amount <$> snd (ModAcc.extract_and_format_accessory two_accessory_modules)
     = Some (amount 10)
  /\ bom_lines two_bom_modules
     = Some [(Text (Str (py "A")), Number (amount 10), Number (amount 10));
             (Text (Str (py "B")), Number (amount 10), Number (amount 10))]
  /\ ExtractBom.total <$> snd (ExtractBom.extract_and_format_bom two_bom_modules)
     = Some (amount 20)
  /\ (amount 10 + amount 10)%Qc = amount 20
  /\ amount 10 <> amount 20.
Proof. repeat split; by_compute. Qed.

(* ===================================================================== *)
(** * More facts about strings                                            *)
(* ===================================================================== *)

Lemma image_cases (table : list run) (c : char) :
  (image table c = c /\ List.find (in_run c) table = None)
  \/ exists first last step img,
       In (first, last, step, img) table /\ first <= c <= last
       /\ image table c = img + (c - first).
Proof.
  unfold image. destruct (List.find (in_run c) table) as [[[[first last] step] img]|] eqn:E.
  - right. apply find_some in E as [Hin Hrun]. exists first, last, step, img.
    split; [done|]. split; [|done]. unfold in_run in Hrun.
    rewrite !andb_true_iff, !N.leb_le in Hrun. lia.
  - by left.
Qed.

Lemma image_preimage (table : list run) (v d : char) :
  image table d = v -> d ∈ preimage table v.
Proof.
  intros Hv. unfold preimage. rewrite elem_of_app.
  destruct (image_cases table d) as [[Hd Hnone] | [first [last [step [img [Hin [Hc Hd]]]]]]].
  - left. rewrite Hv in Hd. subst d. rewrite Hnone. by left.
  - right. apply list_elem_of_In, in_flat_map. exists (first, last, step, img).
    split; [done|]. rewrite Hv in Hd. subst v.
    rewrite (proj2 (andb_true_iff _ _)).
    + left. unfold char in *. lia.
    + rewrite !N.leb_le. unfold char in *. lia.
Qed.

(** What can match a literal when case is ignored is among its candidates. *)
Lemma char_matches_candidates (c d : char) :
  char_matches IGNORECASE c d = true -> d ∈ candidates c.
Proof.
  unfold char_matches, candidates. change (Nat.testbit IGNORECASE 1) with true. cbv iota.
  destruct (iscased c).
  - intros H. apply existsb_exists in H as [v [Hv Hd]]. apply N.eqb_eq in Hd.
    apply list_elem_of_In, in_flat_map. exists v. split; [done|].
    apply list_elem_of_In. by apply image_preimage.
  - intros H. apply N.eqb_eq in H. subst d. by left.
Qed.

(** An ASCII character of a pattern, case ignored, matches what
    [ignorecase_class] lists and nothing else. *)
Lemma char_matches_ignorecase_class (c d : char) :
  c < 0x80 ->
  char_matches IGNORECASE c d = true <-> d ∈ ignorecase_class c.
Proof.
  intros Hc.
  assert (forallb (fun c => forallb (fun d => bool_decide (d ∈ ignorecase_class c))
                              (candidates c)
                            && forallb (char_matches IGNORECASE c) (ignorecase_class c))
                  (map N.of_nat (seq 0 128)) = true) as Hall by (by vm_compute).
  rewrite forallb_forall in Hall. specialize (Hall c). rewrite andb_true_iff in Hall.
  destruct Hall as [Hcand Hclass].
  { apply in_map_iff. exists (N.to_nat c). split; [lia|]. apply in_seq.
    unfold char in *. lia. }
  rewrite forallb_forall in Hcand. rewrite forallb_forall in Hclass. split.
  - intros H. apply char_matches_candidates, list_elem_of_In in H.
    apply Hcand in H. by apply bool_decide_eq_true in H.
  - intros H. apply Hclass. by apply list_elem_of_In.
Qed.

Lemma char_matches_ignorecase_decide (c d : char) :
  c < 0x80 -> char_matches IGNORECASE c d = bool_decide (d ∈ ignorecase_class c).
Proof.
  intros Hc. pose proof (char_matches_ignorecase_class c d Hc) as H.
  destruct (char_matches IGNORECASE c d); case_bool_decide; try done.
  - exfalso. tauto.
  - destruct H as [_ H]. by specialize (H ltac:(done)).
Qed.

(** A literal matches itself, whatever the flags. *)
Lemma char_matches_refl flags (c : char) : char_matches flags c c = true.
Proof.
  unfold char_matches. destruct (Nat.testbit flags 1); [|apply N.eqb_refl].
  destruct (iscased c); [|apply N.eqb_refl]. cbn [existsb]. by rewrite N.eqb_refl.
Qed.

(* ===================================================================== *)
(** * Cleaned texts                                                       *)
(* ===================================================================== *)

Lemma remove_char_Forall x (l : pystr) : Forall (fun c => c <> x) (remove_char x l).
Proof.
  unfold remove_char. induction l as [|c l IH]; simpl; [constructor|].
  destruct (c =? x) eqn:E; simpl; [done|]. constructor; [by apply N.eqb_neq | done].
Qed.

Lemma remove_char_keeps (P : char -> Prop) x (l : pystr) :
  Forall P l -> Forall P (remove_char x l).
Proof.
  unfold remove_char. induction 1 as [|c l Hc _ IH]; simpl; [constructor|].
  destruct (negb (c =? x)); [by constructor | done].
Qed.

Lemma remove_char_id x (l : pystr) : Forall (fun c => c <> x) l -> remove_char x l = l.
Proof.
  unfold remove_char. induction 1 as [|c l Hc _ IH]; simpl; [done|].
  by rewrite (proj2 (N.eqb_neq _ _) Hc), IH.
Qed.

Lemma remove_char_rev x (l : pystr) : remove_char x (rev l) = rev (remove_char x l).
Proof.
  unfold remove_char. apply List.filter_rev.
Qed.

Lemma rev_strip (s : pystr) : rev (strip s) = lstrip (rev (lstrip s)).
Proof. unfold strip, rstrip. by rewrite rev_involutive. Qed.

(** X2. What [clean_invalid_content] gives, when it gives a text: the text is
    not empty, holds none of the four characters the function removes,
    neither begins nor ends with whitespace, and cleaning it again changes
    nothing. *)
Theorem clean_invalid_content_cleaned (val : cell) (t : pystr) :
  clean_invalid_content val = Some t ->
  t <> []
  /\ Forall (fun c => c ∉ [0x3000; 0x09; 0x0A; 0x0D]) t
  /\ strip t = t
  /\ clean_invalid_content (Str t) = Some t.
Proof.
  destruct val as [|s]; [done|]. cbn [clean_invalid_content].
  set (clean := fun l => remove_char 0x0D (remove_char 0x0A (remove_char 0x09
                           (remove_char 0x3000 l)))).
  change (remove_char 0x0D (remove_char 0x0A (remove_char 0x09
            (remove_char 0x3000 (strip s))))) with (clean (strip s)).
  intros Ht.
  assert (t = clean (strip s) /\ t <> []) as [-> Hne]
    by (destruct (clean (strip s)); by simplify_eq).
  assert (forall c u, isspace c = false -> clean (c :: u) = c :: clean u) as Hhead.
  { intros c u Hc. unfold clean. by rewrite !remove_char_whitespace_head. }
  assert (forall l, clean (rev l) = rev (clean l)) as Hrev
    by (intros l; unfold clean; by rewrite !remove_char_rev).
  assert (Forall (fun c => c <> 0x3000) (clean (strip s))
          /\ Forall (fun c => c <> 0x09) (clean (strip s))
          /\ Forall (fun c => c <> 0x0A) (clean (strip s))
          /\ Forall (fun c => c <> 0x0D) (clean (strip s))) as [H1 [H2 [H3 H4]]].
  { unfold clean. split_and!;
      repeat first [apply remove_char_Forall | apply remove_char_keeps]. }
  assert (clean (clean (strip s)) = clean (strip s)) as Hclean.
  { unfold clean at 1. rewrite (remove_char_id 0x3000) by done.
    rewrite (remove_char_id 0x09) by done. rewrite (remove_char_id 0x0A) by done.
    by rewrite (remove_char_id 0x0D). }
  assert (strip (clean (strip s)) = clean (strip s)) as Hstrip.
  { destruct (strip s) as [|c u] eqn:Es; [exfalso; by apply Hne|].
    pose proof (strip_head _ _ _ Es) as Hc.
    assert (exists c' u', rev (strip s) = c' :: u' /\ isspace c' = false)
      as [c' [u' [Er Hc']]].
    { destruct (rev (strip s)) as [|c' u'] eqn:Er.
      - apply (f_equal (@rev _)) in Er. rewrite rev_involutive, Es in Er. done.
      - exists c', u'. split; [done|]. rewrite rev_strip in Er. by apply lstrip_head in Er. }
    rewrite Es in Er. unfold strip, rstrip.
    rewrite Hhead by done. cbn [lstrip]. rewrite Hc. rewrite <- Hhead by done.
    rewrite <- Hrev, Er, Hhead by done. cbn [lstrip]. rewrite Hc'.
    rewrite <- Hhead by done. by rewrite <- Er, Hrev, rev_involutive. }
  split; [done|]. split; [|split; [done|]].
  - rewrite Forall_forall in H1, H2, H3, H4. apply Forall_forall. intros c Hc.
    rewrite !elem_of_cons, elem_of_nil. intros [-> | [-> | [-> | [-> | []]]]].
    + by apply (H1 0x3000).
    + by apply (H2 0x09).
    + by apply (H3 0x0A).
    + by apply (H4 0x0D).
  - rewrite Hstrip. fold (clean (clean (strip s))). rewrite Hclean.
    by destruct (clean (strip s)).
Qed.

Lemma clean_invalid_content_cleaned_witness :
  clean_invalid_content (Str (py "  10k	Ohm　")) = Some (py "10kOhm")
  /\ py "10kOhm" <> []
  /\ Forall (fun c => c ∉ [0x3000; 0x09; 0x0A; 0x0D]) (py "10kOhm")
  /\ strip (py "10kOhm") = py "10kOhm"
  /\ clean_invalid_content (Str (py "10kOhm")) = Some (py "10kOhm").
Proof.
  split; [by vm_compute|].
  apply (clean_invalid_content_cleaned (Str (py "  10k	Ohm　")) (py "10kOhm")).
  by vm_compute.
Defined.

(* ===================================================================== *)
(** * Records of a BOM file                                               *)
(* ===================================================================== *)

Lemma set_column_columns_iff col f df label :
  label ∈ columns (set_column col f df) <-> label ∈ columns df \/ label = col.
Proof.
  unfold set_column. cbn [columns]. destruct (decide _) as [Hin|Hin].
  - split; [by left | by intros [? | ->]].
  - by rewrite elem_of_app, list_elem_of_singleton.
Qed.

Lemma first_column_containing_In cols t col :
  first_column_containing cols t = Some col -> col ∈ cols.
Proof.
  induction cols as [|h cols IH]; simpl; [done|].
  destruct (contains (lower h) t); [intros [= ->]; by left | intros H; right; by apply IH].
Qed.

(** A resolved column is a header of the sheet. *)
Lemma match_column_name_In cols variants col :
  match_column_name cols variants = Some col -> col ∈ cols.
Proof.
  induction variants as [|t ts IH]; simpl; [done|].
  destruct (first_column_containing cols (lower t)) as [c|] eqn:E; [|done].
  intros [= <-]. by apply first_column_containing_In in E.
Qed.

Lemma first_column_containing_None_all cols t c :
  first_column_containing cols t = None -> c ∈ cols -> contains (lower c) t = false.
Proof.
  induction cols as [|h cols IH]; simpl; intros H Hc; [by apply not_elem_of_nil in Hc|].
  destruct (contains (lower h) t) eqn:E; [done|].
  apply elem_of_cons in Hc as [-> | Hc]; [done | by apply IH].
Qed.

(** When no column is resolved, no header holds a variant. *)
Lemma match_column_name_None_all cols variants c :
  match_column_name cols variants = None -> c ∈ cols ->
  existsb (fun t => contains (lower c) (lower t)) variants = false.
Proof.
  induction variants as [|t ts IH]; simpl; [done|].
  destruct (first_column_containing cols (lower t)) as [c0|] eqn:E; [done|].
  intros H Hc. rewrite (first_column_containing_None_all _ _ _ E Hc). by apply IH.
Qed.

Lemma first_column_containing_snoc cols extra t :
  contains (lower extra) t = false ->
  first_column_containing (cols ++ [extra]) t = first_column_containing cols t.
Proof.
  intros H. induction cols as [|h cols IH]; simpl; [by rewrite H|].
  by destruct (contains (lower h) t).
Qed.

(** A header that holds no variant does not change what is resolved. *)
Lemma match_column_name_snoc cols extra variants :
  existsb (fun t => contains (lower extra) (lower t)) variants = false ->
  match_column_name (cols ++ [extra]) variants = match_column_name cols variants.
Proof.
  induction variants as [|t ts IH]; simpl; [done|].
  intros H. apply orb_false_iff in H as [H1 H2].
  rewrite first_column_containing_snoc by done. by rewrite IH.
Qed.

Lemma clean_column_resolved_cell col r :
  clean_column col r = clean_invalid_content (resolved_cell col r).
Proof. by destruct col as [[|c0 c]|]. Qed.

(** The rows [judge_non_self_purchase] keeps, and what it writes in them:
    its own four columns and no other, the module name being the stem of
    the path in [file_path]. *)
Lemma judge_non_self_purchase_added (df : DataFrame) :
  exists added : row -> row,
    rows (judge_non_self_purchase df) = map added (non_self_purchase_rows df)
    /\ (forall r c, c ∉ judged_columns -> added r c = r c)
    /\ (py "file_path" ∈ columns df ->
        forall r, added r (py "模块名称")
                  = match r (py "file_path") with
                    | Str x => Str (file_stem x)
                    | NaN => NaN
                    end).
Proof.
  unfold judge_non_self_purchase, non_self_purchase_rows.
  set (tc := match_column_name (columns df) taobao_link).
  set (oc := match_column_name (columns df) order_config).
  set (mc := match_column_name (columns df) min_order).
  assert (oc <> Some (py "clean_taobao")) as Ho1 by (by apply match_column_name_not).
  assert (mc <> Some (py "clean_taobao")) as Hm1 by (by apply match_column_name_not).
  assert (mc <> Some (py "clean_order")) as Hm2 by (by apply match_column_name_not).
  set (g1 := fun r : row => row_set (py "clean_taobao") (cell_of_option (clean_column tc r)) r).
  set (g2 := fun r : row => row_set (py "clean_order") (cell_of_option (clean_column oc r)) r).
  set (g3 := fun r : row => row_set (py "clean_min_order") (cell_of_option (clean_column mc r)) r).
  set (dfc := set_column _ _ (set_column _ _ (set_column _ _ df))).
  assert (forall r, isna (g3 (g2 (g1 r)) (py "clean_taobao"))
                    && isna (g3 (g2 (g1 r)) (py "clean_order"))
                    && isna (g3 (g2 (g1 r)) (py "clean_min_order"))
                    = non_self_purchase_row tc oc mc r) as Hmask.
  { intros r. unfold non_self_purchase_row.
    assert (g3 (g2 (g1 r)) (py "clean_min_order") = cell_of_option (clean_column mc r)) as ->.
    { unfold g3. rewrite row_set_eq. unfold g2, g1.
      by rewrite !clean_column_row_set. }
    assert (g3 (g2 (g1 r)) (py "clean_order") = cell_of_option (clean_column oc r)) as ->.
    { unfold g3. rewrite row_set_ne by (by vm_compute).
      unfold g2. rewrite row_set_eq. unfold g1. by rewrite clean_column_row_set. }
    assert (g3 (g2 (g1 r)) (py "clean_taobao") = cell_of_option (clean_column tc r)) as ->.
    { unfold g3. rewrite row_set_ne by (by vm_compute).
      unfold g2. rewrite row_set_ne by (by vm_compute).
      unfold g1. by rewrite row_set_eq. }
    by rewrite !isna_cell_of_option. }
  assert (List.filter (fun r : row => isna (r (py "clean_taobao"))
                                      && isna (r (py "clean_order"))
                                      && isna (r (py "clean_min_order"))) (rows dfc)
          = map (fun r => g3 (g2 (g1 r)))
              (List.filter (non_self_purchase_row tc oc mc) (rows df))) as Hkept.
  { subst dfc. rewrite !rows_set_column, !map_map, filter_map_swap.
    f_equal. apply filter_ext. intros r. apply Hmask. }
  assert (forall r c, c ∉ judged_columns -> g3 (g2 (g1 r)) c = r c) as Hother.
  { intros r c Hc. unfold g3, g2, g1.
    rewrite !row_set_ne; [done|..]; intros ->; apply Hc; by_compute. }
  assert (py "file_path" ∈ columns dfc <-> py "file_path" ∈ columns df) as Hpath.
  { subst dfc. rewrite !set_column_columns_iff.
    split; [|tauto]. intros [[[H|H]|H]|H]; [done | by vm_compute in H..]. }
  clearbody dfc.
  destruct (decide _) as [Hin|Hin]; [rewrite rows_set_column|]; cbn [rows]; rewrite Hkept.
  - rewrite map_map. eexists. split; [reflexivity|]. split.
    + intros r c Hc. rewrite row_set_ne; [by apply Hother|].
      intros ->. apply Hc. by_compute.
    + intros _ r. rewrite row_set_eq. by rewrite Hother by by_compute.
  - eexists. split; [reflexivity|]. split; [done|].
    intros H. by apply Hpath in H.
Qed.

(** The headers of the frame [judge_non_self_purchase] gives for a frame
    that has a [file_path] column. *)
Lemma judge_non_self_purchase_columns (df : DataFrame) label :
  py "file_path" ∈ columns df ->
  label ∈ columns (judge_non_self_purchase df) <-> label ∈ columns df \/ label ∈ judged_columns.
Proof.
  intros Hpath. unfold judge_non_self_purchase, judged_columns. cbv zeta.
  rewrite decide_True by (rewrite !set_column_columns_iff; tauto).
  rewrite !set_column_columns_iff. cbn [columns].
  rewrite !set_column_columns_iff, !elem_of_cons, elem_of_nil. tauto.
Qed.

(** Every category is a text that cleaning leaves as it is. *)
Lemma classify_component_cleaned d :
  clean_invalid_content (Str (classify_component d)) = Some (classify_component d).
Proof.
  destruct d as [|s]; [by vm_compute|]. unfold classify_component.
  repeat (match goal with |- context [if ?b then _ else _] => destruct b end;
          [by vm_compute|]).
  by vm_compute.
Qed.

(** Only a missing designator is [unknown]. *)
Lemma classify_component_Str s :
  classify_component (Str s) ∈ designator_categories \/ classify_component (Str s) = other.
Proof.
  unfold classify_component, designator_categories.
  repeat (match goal with |- context [if ?b then _ else _] => destruct b end;
          [left; by_compute|]).
  by right.
Qed.

Lemma or_default_resolved cols variants default label :
  existsb (fun t => contains (lower label) (lower t)) variants = false ->
  default <> label ->
  or_default (match_column_name cols variants) default <> label.
Proof.
  intros Hno Hdefault. pose proof (match_column_name_not cols variants label Hno) as H.
  destruct (match_column_name cols variants) as [[|c0 c]|]; cbn [or_default]; congruence.
Qed.

Lemma ensure_column_columns_iff col df label :
  label ∈ columns (ensure_column col df) <-> label ∈ columns df \/ label = col.
Proof.
  unfold ensure_column. destruct (decide _) as [Hin|Hin].
  - split; [by left | by intros [? | ->]].
  - apply set_column_columns_iff.
Qed.

(** Adding the columns a frame lacks: the columns of [base] keep their
    cells, the added ones are missing in every row. *)
Lemma ensure_column_step (base df' : DataFrame) (f : row -> row) col :
  (forall label, label ∈ columns base -> label ∈ columns df') ->
  rows df' = map f (rows base) ->
  (forall x label,
      f x label = if decide (label ∈ columns base) then x label
                  else if decide (label ∈ columns df') then NaN else x label) ->
  exists f',
    rows (ensure_column col df') = map f' (rows base)
    /\ forall x label,
        f' x label = if decide (label ∈ columns base) then x label
                     else if decide (label ∈ columns (ensure_column col df')) then NaN
                          else x label.
Proof.
  intros Hsub Hrows Hf. unfold ensure_column.
  destruct (decide (col ∈ columns df')) as [Hin|Hin]; [by exists f|].
  exists (fun x => row_set col NaN (f x)). split.
  - by rewrite rows_set_column, Hrows, map_map.
  - intros x label. unfold row_set. rewrite Hf.
    destruct (decide (label = col)) as [->|Hne].
    + rewrite decide_False by (intros H; by apply Hin, Hsub).
      rewrite decide_True; [done|]. apply set_column_columns_iff. by right.
    + destruct (decide (label ∈ columns base)); [done|].
      destruct (decide (label ∈ columns df')) as [H|H].
      * rewrite decide_True; [done|]. apply set_column_columns_iff. by left.
      * rewrite decide_False; [done|]. rewrite set_column_columns_iff. tauto.
Qed.

(** The cell [process_bom_file] reads for a field: that of the column
    resolved from the headers of the sheet, or a missing value when none is
    resolved (the default label is then no header of the sheet). *)
Lemma resolved_field_cell (df : DataFrame) file_path variants default (added : row -> row) r :
  forallb (fun label => negb (existsb (fun t => contains (lower label) (lower t)) variants))
    ([] :: py "file_path" :: judged_columns) = true ->
  existsb (fun t => contains (lower default) (lower t)) variants = true ->
  (forall r c, c ∉ judged_columns -> added r c = r c) ->
  (if decide (or_default
                (match_column_name
                   (columns (set_column (py "file_path") (fun _ => Str file_path) df))
                   variants) default
              ∈ columns (judge_non_self_purchase
                           (set_column (py "file_path") (fun _ => Str file_path) df)))
   then added (row_set (py "file_path") (Str file_path) r)
          (or_default
             (match_column_name
                (columns (set_column (py "file_path") (fun _ => Str file_path) df))
                variants) default)
   else NaN)
  = resolved_cell (match_column_name (columns df) variants) r.
Proof.
  intros Hlabels Hdefault Hadded.
  unfold judged_columns in Hlabels. cbn [forallb] in Hlabels. rewrite !andb_true_iff, !negb_true_iff in Hlabels.
  destruct Hlabels as [Hnil [Hpath Hjudged]].
  assert (forall label, label ∈ judged_columns ->
            existsb (fun t => contains (lower label) (lower t)) variants = false) as Hj.
  { intros label Hlabel. unfold judged_columns in Hlabel.
    repeat (apply elem_of_cons in Hlabel as [-> | Hlabel]; [tauto|]).
    by apply not_elem_of_nil in Hlabel. }
  set (df1 := set_column (py "file_path") _ df).
  assert (match_column_name (columns df1) variants = match_column_name (columns df) variants)
    as ->.
  { subst df1. unfold set_column. cbn [columns].
    destruct (decide _); [done | by apply match_column_name_snoc]. }
  assert (py "file_path" ∈ columns df1) as Hin1
    by (apply set_column_columns_iff; by right).
  assert (forall label, label ∈ columns df1 <-> label ∈ columns df \/ label = py "file_path")
    as Hcols1 by (intros; apply set_column_columns_iff).
  destruct (match_column_name (columns df) variants) as [[|c0 c]|] eqn:E;
    cbn [or_default resolved_cell].
  - apply match_column_name_contains in E. congruence.
  - pose proof (match_column_name_In _ _ _ E) as Hin.
    pose proof (match_column_name_contains _ _ _ E) as Hvar.
    rewrite decide_True
      by (apply judge_non_self_purchase_columns; [done|]; left; apply Hcols1; by left).
    rewrite Hadded by (intros H; apply Hj in H; congruence).
    apply row_set_ne. intros H. rewrite H in Hvar. congruence.
  - rewrite decide_False; [done|].
    rewrite judge_non_self_purchase_columns, Hcols1 by done.
    intros [[H|H]|H].
    + pose proof (match_column_name_None_all _ _ _ E H). congruence.
    + rewrite H in Hdefault. congruence.
    + apply Hj in H. congruence.
Qed.

Lemma process_bom_file_records file_path (df : DataFrame) :
  process_bom_file file_path (Some df)
  = match non_self_purchase_rows df with
    | [] => None
    | _ :: _ => Some (map (record_of file_path (columns df)) (non_self_purchase_rows df))
    end.
Proof.
  unfold process_bom_file. cbv zeta.
  set (df1 := set_column (py "file_path") _ df).
  set (J := judge_non_self_purchase df1).
  set (dc := or_default (match_column_name (columns df1) designator_variants) _).
  set (sc := or_default (match_column_name (columns df1) supplier_part_variants) _).
  set (mpc := or_default (match_column_name (columns df1) manufacturer_part_variants) _).
  set (mc := or_default (match_column_name (columns df1) manufacturer_variants) _).
  set (E1 := ensure_column dc J). set (E2 := ensure_column sc E1).
  set (E3 := ensure_column mpc E2). set (E4 := ensure_column mc E3).
  assert (py "file_path" ∈ columns df1) as Hpath
    by (apply set_column_columns_iff; by right).
  destruct (judge_non_self_purchase_added df1) as [added [HJ [Hadded Hstem]]].
  fold J in HJ. specialize (Hstem Hpath).
  (* the rows kept are those of the sheet itself *)
  assert (non_self_purchase_rows df1
          = map (row_set (py "file_path") (Str file_path)) (non_self_purchase_rows df))
    as Hkept.
  { unfold non_self_purchase_rows. subst df1. rewrite rows_set_column, filter_map_swap.
    f_equal. unfold set_column at 1 2 3. cbn [columns].
    assert (forall variants,
               existsb (fun t => contains (lower (py "file_path")) (lower t)) variants = false ->
               match_column_name
                 (if decide (py "file_path" ∈ columns df) then columns df
                  else columns df ++ [py "file_path"]) variants
               = match_column_name (columns df) variants) as Hsame.
    { intros variants Hv. destruct (decide _); [done | by apply match_column_name_snoc]. }
    rewrite !Hsame by done.
    apply filter_ext. intros r. unfold non_self_purchase_row.
    rewrite !clean_column_row_set; [done|..]; by apply match_column_name_not. }
  rewrite Hkept in HJ.
  (* the four columns made sure of *)
  destruct (ensure_column_step J J id dc) as [f1 [H1 Hf1]];
    [done | by rewrite map_id | intros; by repeat destruct (decide _) |].
  fold E1 in H1, Hf1.
  destruct (ensure_column_step J E1 f1 sc) as [f2 [H2 Hf2]];
    [intros; apply ensure_column_columns_iff; by left | done..|].
  fold E2 in H2, Hf2.
  destruct (ensure_column_step J E2 f2 mpc) as [f3 [H3 Hf3]];
    [intros; do 2 (apply ensure_column_columns_iff; left); done | done..|].
  fold E3 in H3, Hf3.
  destruct (ensure_column_step J E3 f3 mc) as [f4 [H4 Hf4]];
    [intros; do 3 (apply ensure_column_columns_iff; left); done | done..|].
  fold E4 in H4, Hf4.
  assert (forall col, col ∈ [dc; sc; mpc; mc] -> col ∈ columns E4) as Hfour.
  { intros col Hcol. subst E4 E3 E2 E1. rewrite !ensure_column_columns_iff.
    repeat (apply elem_of_cons in Hcol as [-> | Hcol]; [tauto|]).
    by apply not_elem_of_nil in Hcol. }
  assert (forall x col, col ∈ [dc; sc; mpc; mc] ->
            f4 x col = if decide (col ∈ columns J) then x col else NaN) as Hcell.
  { intros x col Hcol. rewrite Hf4. destruct (decide _); [done|].
    by rewrite decide_True by (by apply Hfour). }
  assert (py "模块名称" ∈ columns J) as Hmodule.
  { apply judge_non_self_purchase_columns; [done|]. right. by_compute. }
  assert (dc <> py "元器件类型") as Hdc by (by apply or_default_resolved).
  assert (sc <> py "元器件类型") as Hsc by (by apply or_default_resolved).
  assert (mpc <> py "元器件类型") as Hmpc by (by apply or_default_resolved).
  assert (mc <> py "元器件类型") as Hmc by (by apply or_default_resolved).
  rewrite rows_set_column, H4, HJ, !map_map.
  match goal with
  | |- context [Some (map ?g _)] =>
    assert (map g (non_self_purchase_rows df)
            = map (record_of file_path (columns df)) (non_self_purchase_rows df)) as ->;
      [|by destruct (non_self_purchase_rows df)]
  end.
  apply map_ext. intros r. unfold record_of. f_equal.
  - rewrite row_set_ne by by_compute. rewrite Hf4, decide_True by done.
    by rewrite Hstem, row_set_eq.
  - rewrite row_set_ne by done. rewrite Hcell by (rewrite !elem_of_cons; tauto).
    rewrite clean_column_resolved_cell. f_equal.
    by apply resolved_field_cell.
  - rewrite row_set_ne by done. rewrite Hcell by (rewrite !elem_of_cons; tauto).
    rewrite clean_column_resolved_cell. f_equal.
    by apply resolved_field_cell.
  - rewrite row_set_eq, classify_component_cleaned. do 2 f_equal.
    rewrite Hcell by (rewrite !elem_of_cons; tauto). by apply resolved_field_cell.
  - rewrite row_set_ne by done. rewrite Hcell by (rewrite !elem_of_cons; tauto).
    rewrite clean_column_resolved_cell. f_equal.
    by apply resolved_field_cell.
  - rewrite row_set_ne by done. rewrite Hcell by (rewrite !elem_of_cons; tauto).
    rewrite clean_column_resolved_cell. f_equal.
    by apply resolved_field_cell.
Qed.

(** X3. [process_bom_file] on a sheet it could read gives the records of the
    rows the purchase classifier keeps, each read from its row: the
    columns the function adds on the way (the path, the cleaned indicators,
    the module name, the labels for unresolved fields, the category) change
    neither what is resolved nor the cells that are read. No row kept, no
    frame. *)
Theorem process_bom_file_refines file_path (df : DataFrame) :
  process_bom_file file_path (Some df)
  = match non_self_purchase_rows df with
    | [] => None
    | _ :: _ => Some (map (record_of file_path (columns df)) (non_self_purchase_rows df))
    end.
Proof. exact (process_bom_file_records file_path df). Qed.

(** A record of a file carries a category, that of the cell its cleaned
    designator comes from. *)
Lemma process_bom_file_component file_path read records c :
  process_bom_file file_path read = Some records -> c ∈ records ->
  exists designator : cell,
    Designator c = clean_invalid_content designator
    /\ component_type c = Some (classify_component designator).
Proof.
  destruct read as [df|]; [|done]. rewrite process_bom_file_records.
  destruct (non_self_purchase_rows df) as [|r0 l] eqn:E; [done|]. rewrite <- E.
  intros [= <-] Hc. apply list_elem_of_fmap in Hc as [r [-> _]].
  eexists. split; [apply clean_column_resolved_cell | done].
Qed.

Lemma NoDup_map_filter {A B} (f : A -> B) (p : A -> bool) l :
  NoDup (map f l) -> NoDup (map f (List.filter p l)).
Proof.
  induction l as [|x l IH]; simpl; [done|].
  intros H. apply NoDup_cons in H as [Hx H].
  destruct (p x); [|by apply IH]. simpl. apply NoDup_cons. split; [|by apply IH].
  intros Hin. apply Hx. apply list_elem_of_fmap in Hin as [y [-> Hy]].
  apply list_elem_of_fmap. exists y. split; [done|].
  apply list_elem_of_In. apply list_elem_of_In, filter_In in Hy. tauto.
Qed.

Lemma filter_fmap {A B} (f : A -> B) (p : B -> bool) (l : list A) :
  List.filter p (map f l) = map f (List.filter (fun x => p (f x)) l).
Proof.
  induction l as [|x l IH]; [done|]. cbn [map List.filter].
  destruct (p (f x)); cbn [map]; by rewrite IH.
Qed.

(** X7. What [main] writes to the two sheets, however the frames of the
    files hold their missing values. No part number occurs twice in the
    regular sheet; the type of a regular row is one of the seven categories
    a designator prefix gives, and the type of a special row is one of the
    nine categories: the fill value never stands for a type. *)
Theorem main_sheets missing_of bom_files regular special :
  main missing_of bom_files = Some (regular, special) ->
  NoDup (map r_number regular)
  /\ (forall row, row ∈ regular -> r_type row ∈ designator_categories)
  /\ (forall row, row ∈ special -> s_type row ∈ categories).
Proof.
  unfold main. cbv zeta.
  set (all_components := omap _ bom_files).
  destruct all_components as [|l0 ls] eqn:Eall; [done|].
  rewrite <- Eall. clear l0 ls Eall.
  rewrite deduplicate_components_drop_duplicates.
  set (D := drop_duplicates supplier_key (concat all_components)).
  assert (forall c, c ∈ map snd D ->
            exists designator : cell,
              Designator c = clean_invalid_content designator
              /\ component_type c = Some (classify_component designator)) as Hrecord.
  { intros c Hc. apply list_elem_of_fmap in Hc as [r [-> Hr]].
    subst D. unfold drop_duplicates in Hr.
    eapply elem_of_sublist in Hr; [|apply drop_duplicates_from_sublist].
    apply list_elem_of_In, in_concat in Hr as [l [Hl Hr]].
    apply list_elem_of_In in Hl, Hr. subst all_components.
    apply list_elem_of_omap in Hl as [[file read] [_ Hl]].
    destruct (process_bom_file file read) as [[|c0 l0]|] eqn:E; [done| |done].
    injection Hl as <-.
    change (r ∈ map (pair (missing_of file)) (c0 :: l0)) in Hr.
    apply list_elem_of_fmap in Hr as [c [-> Hc]]. cbn [snd].
    by apply (process_bom_file_component file read (c0 :: l0)). }
  unfold split_regular_special. intros [= <- <-]. split; [|split].
  - unfold regular_df. rewrite filter_fmap, !map_map. cbn [r_number].
    set (L := List.filter (fun r : component_row => negb (special_condition (snd r))) D).
    assert (forall r, r ∈ L -> exists s, Supplier_Part (snd r) = Some s) as Hpart.
    { intros r Hr. apply list_elem_of_In, filter_In in Hr as [_ Hr].
      apply negb_true_iff in Hr. unfold special_condition in Hr.
      rewrite !orb_false_iff, !bool_decide_eq_false in Hr.
      destruct (Supplier_Part (snd r)) as [s|]; [by exists s | tauto]. }
    rewrite (map_ext_in _ (fun r => match supplier_key r with
                                    | inl s => s
                                    | inr _ => py "无"
                                    end)).
    + rewrite <- (map_map supplier_key
                    (fun key => match key with inl s => s | inr _ => py "无" end)).
      apply NoDup_fmap_2_strong.
      * intros x y Hx Hy.
        apply list_elem_of_fmap in Hx as [rx [-> Hx]].
        apply list_elem_of_fmap in Hy as [ry [-> Hy]].
        destruct (Hpart rx Hx) as [sx Ex]. destruct (Hpart ry Hy) as [sy Ey].
        unfold supplier_key. rewrite Ex, Ey. congruence.
      * apply NoDup_map_filter. subst D. unfold drop_duplicates.
        apply drop_duplicates_from_keys.
    + intros r Hr. apply list_elem_of_In, Hpart in Hr as [s Hs].
      unfold supplier_key. rewrite Hs. done.
  - intros row Hrow. apply list_elem_of_fmap in Hrow as [c [-> Hc]]. cbn [r_type].
    apply list_elem_of_In, filter_In in Hc as [Hc Hregular].
    apply list_elem_of_In, Hrecord in Hc as [designator [Hd Ht]].
    apply negb_true_iff in Hregular. unfold special_condition in Hregular.
    rewrite !orb_false_iff, !bool_decide_eq_false in Hregular.
    destruct Hregular as [[Hdes _] Hother]. rewrite Ht in Hother |- *. cbv [fillna default from_option id].
    destruct designator as [|s]; [by rewrite Hd in Hdes|].
    destruct (classify_component_Str s) as [H|H]; [done | congruence].
  - intros row Hrow. apply list_elem_of_fmap in Hrow as [c [-> Hc]]. cbn [s_type].
    apply list_elem_of_In, filter_In in Hc as [Hc _].
    apply list_elem_of_In, Hrecord in Hc as [designator [_ ->]]. cbv [fillna default from_option id].
    destruct designator as [|s]; [by_compute|].
    destruct (classify_component_Str s) as [H| ->]; [|by_compute].
    unfold designator_categories in H. unfold categories.
    rewrite !elem_of_cons in H. rewrite !elem_of_cons. tauto.
Qed.

(* ===================================================================== *)
(** * Sheets without a designator column, and the early return            *)
(* ===================================================================== *)

(** X5. A sheet none of whose headers holds a designator variant: every record
    of it is without designator and [unknown], so it goes to the special
    sheet. *)
Theorem sheet_without_designator_column file_path df records :
  match_column_name (columns df) designator_variants = None ->
  process_bom_file file_path (Some df) = Some records ->
  forall c, c ∈ records ->
    Designator c = None /\ component_type c = Some unknown /\ special_condition c = true.
Proof.
  intros Hnone. rewrite process_bom_file_records.
  destruct (non_self_purchase_rows df) as [|r0 l] eqn:E; [done|]. rewrite <- E.
  intros [= <-] c Hc. apply list_elem_of_fmap in Hc as [r [-> _]].
  unfold record_of, special_condition. cbn [Designator component_type Supplier_Part].
  rewrite Hnone. by cbn [clean_column resolved_cell classify_component].
Qed.

(** X8. [main] returns early exactly when no file gives a record: each could
    not be read or has no row without a purchase indicator. How the frames
    hold their missing values plays no part. *)
Theorem main_early_return missing_of bom_files :
  main missing_of bom_files = None <->
  forall file read, (file, read) ∈ bom_files ->
    read = None \/ exists df, read = Some df /\ non_self_purchase_rows df = [].
Proof.
  unfold main. cbv zeta.
  set (kept := fun '(file, read) =>
                 match process_bom_file file read with
                 | Some ((_ :: _) as component_df) =>
                   Some (map (pair (missing_of file)) component_df)
                 | _ => None
                 end).
  assert (forall file read,
             kept (file, read) = None <->
             read = None \/ exists df, read = Some df /\ non_self_purchase_rows df = [])
    as Hkept.
  { intros file [df|]; unfold kept; [|split; [by left | done]].
    rewrite process_bom_file_records.
    destruct (non_self_purchase_rows df) as [|r0 l] eqn:E.
    - split; [right; by exists df | done].
    - split; [done|]. intros [H | [df' [[= <-] H]]]; [done | congruence]. }
  split.
  - intros Hmain file read Hin.
    destruct (omap kept bom_files) as [|l0 ls] eqn:E; [|done].
    apply (Hkept file). destruct (kept (file, read)) as [l'|] eqn:E'; [|done].
    assert (l' ∈ omap kept bom_files) as H.
    { apply list_elem_of_omap. by exists (file, read). }
    rewrite E in H. by apply not_elem_of_nil in H.
  - intros H. destruct (omap kept bom_files) as [|l0 ls] eqn:E; [done|].
    assert (l0 ∈ omap kept bom_files) as Hin by (rewrite E; by left).
    apply list_elem_of_omap in Hin as [[file read] [Hin Hsome]].
    apply H in Hin. apply (Hkept file) in Hin. congruence.
Qed.

Lemma main_sheets_witness :
  main (fun _ => float_nan) [(py "boards/sensor/BOM_Sensor-v1.0.xlsx", Some sensor_sheet)]
  = Some ([regular_final_row sensor_record], [])
  /\ NoDup (map r_number [regular_final_row sensor_record])
  /\ (forall row, row ∈ [regular_final_row sensor_record] -> r_type row ∈ designator_categories)
  /\ (forall row : special_row, row ∈ [] -> s_type row ∈ categories).
Proof.
  split; [by vm_compute|].
  apply (main_sheets (fun _ => float_nan)
           [(py "boards/sensor/BOM_Sensor-v1.0.xlsx", Some sensor_sheet)]).
  by vm_compute.
Defined.

Lemma sheet_without_designator_column_witness :
  match_column_name (columns sheet_without_designator) designator_variants = None
  /\ exists records,
      process_bom_file (py "boards/sensor/BOM_Sensor-v1.0.xlsx")
        (Some sheet_without_designator) = Some records
      /\ forall c, c ∈ records ->
           Designator c = None /\ component_type c = Some unknown
           /\ special_condition c = true.
Proof.
  split; [by vm_compute|].
  assert (is_Some (process_bom_file (py "boards/sensor/BOM_Sensor-v1.0.xlsx")
                     (Some sheet_without_designator))) as [records Hrecords] by by_compute.
  exists records. split; [done|].
  apply (sheet_without_designator_column (py "boards/sensor/BOM_Sensor-v1.0.xlsx")
           sheet_without_designator records); [by vm_compute | done].
Defined.

(* ===================================================================== *)
(** * Headers that hold more than one variant                             *)
(* ===================================================================== *)

Lemma contains_app_l (s t u : pystr) :
  contains s (t ++ u) = true -> contains s t = true.
Proof.
  rewrite !contains_spec. intros [a [b ->]]. exists a, (u ++ b).
  by rewrite <- app_assoc.
Qed.

Lemma first_column_containing_app pre col post t :
  (forall h, h ∈ pre -> contains (lower h) t = false) ->
  contains (lower col) t = true ->
  first_column_containing (pre ++ col :: post) t = Some col.
Proof.
  induction pre as [|a pre IH]; simpl; intros Hpre Hcol.
  - by rewrite Hcol.
  - rewrite (Hpre a) by left. apply IH; [|done]. intros h Hh. apply Hpre. by right.
Qed.

Lemma manufacturer_columns_coincide pre col post :
  (forall h, h ∈ pre -> contains (lower h) (py "manufacturer") = false) ->
  contains (lower col) (py "manufacturer part") = true ->
  match_column_name (pre ++ col :: post) manufacturer_part_variants = Some col
  /\ match_column_name (pre ++ col :: post) manufacturer_variants = Some col.
Proof.
  intros Hpre Hcol.
  assert (lower (py "manufacturer part") = py "manufacturer part") as E1 by by vm_compute.
  assert (lower (py "manufacturer") = py "manufacturer") as E2 by by vm_compute.
  assert (py "manufacturer part" = py "manufacturer" ++ py " part") as E3 by by vm_compute.
  unfold manufacturer_part_variants, manufacturer_variants.
  cbn [match_column_name]. rewrite E1, E2. split.
  - rewrite first_column_containing_app; [done| |done].
    intros h Hh. destruct (contains (lower h) (py "manufacturer part")) eqn:E; [|done].
    rewrite E3 in E. apply contains_app_l in E. rewrite (Hpre h Hh) in E. done.
  - rewrite first_column_containing_app; [done|done|].
    rewrite E3 in Hcol. by apply contains_app_l in Hcol.
Qed.

(** X6. Each field takes the first header that holds one of its variants, and
    "manufacturer part" holds "manufacturer": in a sheet whose first header
    with "manufacturer" in it (letter case ignored) is the part-number header,
    as when the column "Manufacturer Part" stands before the column
    "Manufacturer", both fields resolve to that header, and every record of
    the file has its part number as its manufacturer. *)
Theorem manufacturer_read_from_part_column
    file_path (df : DataFrame) pre col post records c :
  columns df = pre ++ col :: post ->
  (forall h, h ∈ pre -> contains (lower h) (py "manufacturer") = false) ->
  contains (lower col) (py "manufacturer part") = true ->
  process_bom_file file_path (Some df) = Some records ->
  c ∈ records ->
  match_column_name (columns df) manufacturer_variants = Some col
  /\ Manufacturer c = Manufacturer_Part c.
Proof.
  intros Hcols Hpre Hcol. rewrite process_bom_file_records.
  destruct (non_self_purchase_rows df) as [|r0 l] eqn:E; [done|]. rewrite <- E.
  intros [= <-] Hc. apply list_elem_of_fmap in Hc as [r [-> _]].
  unfold record_of. cbn [Manufacturer Manufacturer_Part]. rewrite Hcols.
  by destruct (manufacturer_columns_coincide pre col post Hpre Hcol) as [-> ->].
Qed.

Lemma manufacturer_read_from_part_column_witness :
  process_bom_file (py "boards/sensor/BOM_Sensor-v1.0.xlsx") (Some sensor_sheet)
  = Some [sensor_record]
  /\ match_column_name (columns sensor_sheet) manufacturer_variants
     = Some (py "Manufacturer Part")
  /\ Manufacturer sensor_record = Manufacturer_Part sensor_record.
Proof.
  split; [by vm_compute|].
  apply (manufacturer_read_from_part_column (py "boards/sensor/BOM_Sensor-v1.0.xlsx")
           sensor_sheet [py "Designator"; py "Supplier Part"] (py "Manufacturer Part")
           [py "Manufacturer"; py "淘宝链接"] [sensor_record] sensor_record);
    [by vm_compute | | by vm_compute | by vm_compute | by left].
  intros h Hh. rewrite !elem_of_cons, elem_of_nil in Hh.
  destruct Hh as [-> | [-> | []]]; by vm_compute.
Defined.

(* ===================================================================== *)
(** * Paths and module names                                              *)
(* ===================================================================== *)

Lemma basename_app a b :
  basename (a ++ b)
  = fold_left (fun tail c => if c =? 0x2F then [] else tail ++ [c]) b (basename a).
Proof. unfold basename. by rewrite fold_left_app. Qed.

Lemma fold_left_basename_plain (name acc : pystr) :
  0x2F ∉ name ->
  fold_left (fun tail c => if c =? 0x2F then [] else tail ++ [c]) name acc = acc ++ name.
Proof.
  revert acc. induction name as [|c name IH]; intros acc Hname; simpl.
  - by rewrite app_nil_r.
  - rewrite not_elem_of_cons in Hname. destruct Hname as [Hc Hname].
    rewrite (proj2 (N.eqb_neq c 0x2F)) by congruence.
    rewrite IH by done. by rewrite <- app_assoc.
Qed.

(** The last component of a path. *)
Lemma basename_name (dir name : pystr) :
  0x2F ∉ name -> basename (dir ++ py "/" ++ name) = name.
Proof.
  intros Hname. rewrite basename_app. change (py "/") with [0x2F]. cbn [app fold_left].
  change (0x2F =? 0x2F) with true. cbn iota. by rewrite fold_left_basename_plain.
Qed.

Lemma basename_plain (name : pystr) : 0x2F ∉ name -> basename name = name.
Proof. intros Hname. unfold basename. by rewrite fold_left_basename_plain. Qed.

Lemma startswith_nil_l (p : pystr) : p <> [] -> startswith [] p = false.
Proof. by destruct p. Qed.

Lemma contains_false_drop (s t : pystr) j :
  contains s t = false -> startswith (drop j s) t = false.
Proof.
  revert j. induction s as [|c s IH]; intros j H.
  - rewrite drop_nil. destruct t; [done|done].
  - change (contains (c :: s) t) with (startswith (c :: s) t || contains s t) in H.
    apply orb_false_iff in H as [H1 H2]. destruct j as [|j]; [done|]. by apply IH.
Qed.

Lemma remove_sub_from_skip old skip (s : pystr) :
  (length s <= skip)%nat -> remove_sub_from old skip s = [].
Proof.
  revert skip. induction s as [|c s IH]; intros skip Hs; [done|].
  destruct skip as [|skip]; [simpl in Hs; lia|]. cbn [remove_sub_from].
  apply IH. simpl in Hs. lia.
Qed.

(** A text that holds no occurrence of [old] is left as it is. *)
Lemma remove_sub_none old (s : pystr) :
  (forall j, startswith (drop j s) old = false) -> remove_sub old s = s.
Proof.
  unfold remove_sub. induction s as [|c s IH]; intros H; [done|].
  cbn [remove_sub_from]. pose proof (H 0%nat) as H0. cbn [drop] in H0. rewrite H0.
  f_equal. apply IH. intros j. apply (H (S j)).
Qed.

(** An occurrence of [old] at the end, and none that begins before it, is
    removed. *)
Lemma remove_sub_suffix old (s : pystr) :
  old <> [] ->
  (forall j, (j < length s)%nat -> startswith (drop j (s ++ old)) old = false) ->
  remove_sub old (s ++ old) = s.
Proof.
  intros Hold. unfold remove_sub. induction s as [|c s IH]; intros H.
  - destruct old as [|c old]; [done|]. cbn [app remove_sub_from].
    assert (startswith (c :: old) (c :: old) = true) as ->
      by (apply startswith_spec; exists []; by rewrite app_nil_r).
    by apply remove_sub_from_skip.
  - cbn [app remove_sub_from].
    pose proof (H 0%nat ltac:(simpl; lia)) as H0. cbn [drop app] in H0. rewrite H0.
    f_equal. apply IH. intros j Hj. apply (H (S j)). simpl. lia.
Qed.

(** No [.xls] begins in a name free of it and ends in what follows, when
    that begins with a point or is empty. *)
Lemma xls_not_astride (name rest : pystr) j :
  contains name (py ".xls") = false ->
  match rest with c :: _ => c = 0x2E | [] => True end ->
  (j < length name)%nat ->
  startswith (drop j (name ++ rest)) (py ".xls") = false.
Proof.
  intros Hname Hrest Hj.
  pose proof (contains_false_drop name (py ".xls") j Hname) as Hin.
  rewrite drop_app_le by lia.
  assert (drop j name <> []) as Hne.
  { intros H. apply (f_equal length) in H. rewrite length_drop in H. simpl in H. lia. }
  destruct (drop j name) as [|a [|b [|c [|d u]]]]; [done|..].
  - destruct rest as [|e rest]; [by destruct (0x2E =? a)|]. subst e.
    cbn. by destruct (0x2E =? a).
  - destruct rest as [|e rest]; [cbn; by destruct (0x2E =? a), (0x78 =? b)|]. subst e.
    cbn. by destruct (0x2E =? a), (0x78 =? b).
  - destruct rest as [|e rest];
      [cbn; by destruct (0x2E =? a), (0x78 =? b), (0x6C =? c)|]. subst e.
    cbn. by destruct (0x2E =? a), (0x78 =? b), (0x6C =? c).
  - destruct (startswith _ _) eqn:E in |- *; [|done].
    apply startswith_spec in E as [t E].
    change (py ".xls") with [0x2E; 0x78; 0x6C; 0x73] in *.
    injection E as -> -> -> -> _.
    rewrite (proj2 (startswith_spec _ _)) in Hin; [done | by exists u].
Qed.

Lemma startswith_xlsx_xls (s : pystr) :
  startswith s (py ".xls") = false -> startswith s (py ".xlsx") = false.
Proof.
  intros H. destruct (startswith s (py ".xlsx")) eqn:E; [|done].
  apply startswith_spec in E as [t ->]. by vm_compute in H.
Qed.

(** The stem of a file name [<name>.xlsx] or [<name>.xls] is [<name>], for
    a name that holds no [.xls]. *)
Lemma file_stem_name (dir name ext : pystr) :
  0x2F ∉ name -> contains name (py ".xls") = false ->
  ext ∈ [py ".xlsx"; py ".xls"] ->
  (dir = [] \/ exists d, dir = d ++ py "/") ->
  file_stem (dir ++ name ++ ext) = name.
Proof.
  intros Hslash Hname Hext Hdir. unfold file_stem.
  assert (basename (dir ++ name ++ ext) = name ++ ext) as ->.
  { assert (0x2F ∉ ext) as Hplain.
    { pose proof Hext as H.
      repeat (apply elem_of_cons in H as [-> | H]; [by_compute|]).
      by apply not_elem_of_nil in H. }
    assert (0x2F ∉ name ++ ext) as H by (rewrite elem_of_app; tauto).
    destruct Hdir as [-> | [d ->]]; [by apply basename_plain|].
    rewrite <- app_assoc. by apply basename_name. }
  assert (remove_sub (py ".xls") name = name) as Hplain.
  { apply remove_sub_none. intros j. by apply contains_false_drop. }
  apply elem_of_cons in Hext as [-> | Hext];
    [|apply elem_of_cons in Hext as [-> | Hext]; [|by apply not_elem_of_nil in Hext]].
  - rewrite (remove_sub_suffix (py ".xlsx")); [done | done |].
    intros j Hj. apply startswith_xlsx_xls. by apply xls_not_astride.
  - rewrite (remove_sub_none (py ".xlsx")).
    + apply remove_sub_suffix; [by vm_compute|]. intros j Hj. by apply xls_not_astride.
    + intros j. destruct (decide (j < length name)%nat) as [Hj|Hj].
      * apply startswith_xlsx_xls. by apply xls_not_astride.
      * rewrite drop_app_ge by lia.
        by destruct (j - length name)%nat as [|[|[|[|[|?]]]]].
Qed.

(** The names [^[Bb][0Oo][Mm]] matches when case is ignored: those that
    begin with B, then 0 or O, then M, each in either case. *)
Ltac ignorecase_classes H :=
  rewrite ?char_matches_ignorecase_decide in H by done;
  change (ignorecase_class 0x42) with [0x42; 0x62] in H;
  change (ignorecase_class 0x62) with [0x42; 0x62] in H;
  change (ignorecase_class 0x30) with [0x30] in H;
  change (ignorecase_class 0x4F) with [0x4F; 0x6F] in H;
  change (ignorecase_class 0x6F) with [0x4F; 0x6F] in H;
  change (ignorecase_class 0x4D) with [0x4D; 0x6D] in H;
  change (ignorecase_class 0x6D) with [0x4D; 0x6D] in H.

Lemma bom_name_pattern_match (s : pystr) :
  re_match IGNORECASE bom_name_pattern s = true <->
  exists b o m rest, s = b :: o :: m :: rest
    /\ b ∈ py "Bb" /\ o ∈ py "0Oo" /\ m ∈ py "Mm".
Proof.
  unfold re_match. rewrite bool_decide_eq_true.
  unfold match_at, bom_name_pattern.
  cbn [items foldr rmatch Nat.eqb].
  change (py "Bb") with [0x42; 0x62]. change (py "0Oo") with [0x30; 0x4F; 0x6F].
  change (py "Mm") with [0x4D; 0x6D].
  split.
  - intros Hm. destruct s as [|b [|o [|m rest]]].
    + by destruct Hm.
    + ignorecase_classes Hm. repeat case_bool_decide; by destruct Hm.
    + ignorecase_classes Hm. repeat case_bool_decide; by destruct Hm.
    + exists b, o, m, rest. split; [done|]. ignorecase_classes Hm.
      repeat case_bool_decide; try (by destruct Hm);
        repeat match goal with
               | H : _ ∈ _ |- _ => rewrite !elem_of_cons, ?elem_of_nil in H
               | H : _ ∉ _ |- _ => rewrite !elem_of_cons, ?elem_of_nil in H
               end;
        rewrite !elem_of_cons, ?elem_of_nil; tauto.
  - intros [b [o [m [rest [-> [Hb [Ho Hm]]]]]]].
    rewrite ?char_matches_ignorecase_decide by done.
    change (ignorecase_class 0x42) with [0x42; 0x62].
    change (ignorecase_class 0x62) with [0x42; 0x62].
    change (ignorecase_class 0x30) with [0x30].
    change (ignorecase_class 0x4F) with [0x4F; 0x6F].
    change (ignorecase_class 0x6F) with [0x4F; 0x6F].
    change (ignorecase_class 0x4D) with [0x4D; 0x6D].
    change (ignorecase_class 0x6D) with [0x4D; 0x6D].
    rewrite (bool_decide_eq_true_2 (b ∈ [0x42; 0x62])) by done.
    rewrite (bool_decide_eq_true_2 (m ∈ [0x4D; 0x6D])) by done.
    rewrite !elem_of_cons, elem_of_nil in Ho.
    destruct Ho as [-> | [-> | [-> | []]]]; by eexists.
Qed.

Lemma endswith_spec (s suffix : pystr) :
  endswith s suffix = true <-> exists name, s = name ++ suffix.
Proof.
  unfold endswith. rewrite startswith_spec. split.
  - intros [t Ht]. exists (rev t). apply (f_equal (@rev _)) in Ht.
    by rewrite rev_involutive, rev_app_distr, rev_involutive in Ht.
  - intros [name ->]. exists (rev name). by rewrite rev_app_distr.
Qed.

(** X1. What [find_bom_files] returns: the joined paths of the files outside
    the root directory itself whose name begins with BOM or B0M in any
    letter case and ends in [.xlsx] or [.xls] in lower case. *)
Theorem find_bom_files_spec (root_dir : pystr) walk (p : pystr) :
  p ∈ find_bom_files root_dir walk <->
  exists dirpath filenames filename,
    (dirpath, filenames) ∈ walk /\ dirpath <> root_dir /\ filename ∈ filenames
    /\ p = join dirpath filename
    /\ (exists b o m rest, filename = b :: o :: m :: rest
          /\ b ∈ py "Bb" /\ o ∈ py "0Oo" /\ m ∈ py "Mm")
    /\ (exists name ext, filename = name ++ ext /\ ext ∈ [py ".xlsx"; py ".xls"]).
Proof.
  unfold find_bom_files. rewrite list_elem_of_In, in_flat_map.
  assert (forall filename,
            is_bom_file_name filename = true <->
            (exists b o m rest, filename = b :: o :: m :: rest
               /\ b ∈ py "Bb" /\ o ∈ py "0Oo" /\ m ∈ py "Mm")
            /\ (exists name ext, filename = name ++ ext /\ ext ∈ [py ".xlsx"; py ".xls"]))
    as Hname.
  { intros filename. unfold is_bom_file_name.
    rewrite andb_true_iff, orb_true_iff, bom_name_pattern_match, !endswith_spec.
    split; intros [Hprefix Hext]; (split; [done|]).
    - destruct Hext as [[name ->] | [name ->]]; eexists _, _; (split; [done|]).
      + by left.
      + right. by left.
    - destruct Hext as [name [ext [-> Hext]]].
      rewrite !elem_of_cons, elem_of_nil in Hext.
      destruct Hext as [-> | [-> | []]]; eauto. }
  split.
  - intros [[dirpath filenames] [Hwalk Hp]]. destruct (decide _) as [|Hroot]; [done|].
    apply in_map_iff in Hp as [filename [<- Hfile]]. apply filter_In in Hfile as [Hin Hfile].
    apply Hname in Hfile as [Hprefix Hext].
    exists dirpath, filenames, filename. rewrite !list_elem_of_In. done.
  - intros [dirpath [filenames [filename [Hwalk [Hroot [Hin [-> [Hprefix Hext]]]]]]]].
    exists (dirpath, filenames). rewrite <- list_elem_of_In. split; [done|].
    rewrite decide_False by done. apply in_map, filter_In.
    rewrite <- list_elem_of_In. split; [done|]. by apply Hname.
Qed.

Lemma join_name (dirpath filename : pystr) :
  0x2F ∉ filename ->
  exists dir, join dirpath filename = dir ++ filename
              /\ (dir = [] \/ exists d, dir = d ++ py "/").
Proof.
  intros Hfile. unfold join.
  assert (startswith filename (py "/") = false) as ->.
  { destruct (startswith filename (py "/")) eqn:E; [|done].
    apply startswith_spec in E as [t ->]. exfalso. apply Hfile. by left. }
  destruct (bool_decide (dirpath = [])) eqn:E1; cbn [orb].
  - apply bool_decide_eq_true in E1 as ->. exists []. split; [done | by left].
  - destruct (endswith dirpath (py "/")) eqn:E2.
    + apply endswith_spec in E2 as [d ->]. eexists. split; [done|]. right. by exists d.
    + exists (dirpath ++ py "/"). rewrite <- app_assoc. split; [done|]. right. by eexists.
Qed.

(** X4. The module name of the records of a file [<name>.xlsx] or
    [<name>.xls] found in a directory is the cleaned [<name>], for a name
    that holds no [.xls] (and, being a file name, no slash). *)
Theorem found_file_module_name (dirpath name ext : pystr) df records c :
  0x2F ∉ name -> contains name (py ".xls") = false ->
  ext ∈ [py ".xlsx"; py ".xls"] ->
  process_bom_file (join dirpath (name ++ ext)) (Some df) = Some records ->
  c ∈ records ->
  module_name c = clean_invalid_content (Str name).
Proof.
  intros Hslash Hname Hext. rewrite process_bom_file_records.
  destruct (non_self_purchase_rows df) as [|r0 l] eqn:E; [done|]. rewrite <- E.
  intros [= <-] Hc. apply list_elem_of_fmap in Hc as [r [-> _]].
  unfold record_of. cbn [module_name]. do 2 f_equal.
  destruct (join_name dirpath (name ++ ext)) as [dir [-> Hdir]].
  - rewrite elem_of_app. intros [H|H]; [done|].
    rewrite !elem_of_cons, elem_of_nil in Hext.
    destruct Hext as [-> | [-> | []]]; revert H; by_compute.
  - by apply file_stem_name.
Qed.

Lemma found_file_module_name_witness :
  process_bom_file (join (py "boards/sensor") (py "BOM_Sensor-v1.0" ++ py ".xlsx"))
    (Some sensor_sheet) = Some [sensor_record]
  /\ module_name sensor_record = clean_invalid_content (Str (py "BOM_Sensor-v1.0")).
Proof.
  split; [by vm_compute|].
  apply (found_file_module_name (py "boards/sensor") (py "BOM_Sensor-v1.0") (py ".xlsx")
           sensor_sheet [sensor_record] sensor_record);
    [by_compute | by vm_compute | by_compute | by vm_compute | by left].
Defined.

(* ===================================================================== *)
(** * The type sheets                                                     *)
(* ===================================================================== *)

Lemma project_columns core_columns cols (r : vrow) :
  Forall (fun c => c ∈ core_columns) cols -> map (project core_columns r) cols = map r cols.
Proof.
  intros H. induction H as [|c cols Hc H IH]; [done|]. cbn [map]. rewrite IH. f_equal.
  unfold project. by rewrite decide_True.
Qed.

Lemma drop_duplicates_length {A K} `{EqDecision K} (subset : A -> K) seen df :
  (length (drop_duplicates_from subset seen df) <= length df)%nat.
Proof. apply sublist_length, drop_duplicates_from_sublist. Qed.

(** X18. The second sheet of a BOM run: no two of its rows agree in
    [Manufacturer Part], [Supplier Part], [LCSC Price] and the link; every
    line of the first sheet agrees in these with a row of it; and its rows
    are lines of the first sheet, cut to the mandatory columns, in their
    order. *)
Theorem bom_type_sheet files rep :
  snd (ExtractBom.extract_and_format_bom files) = Some rep ->
  NoDup (map (fun u : vrow => map u ExtractBom.unique_type_cols)
           (ExtractBom.df_type_unique rep))
  /\ (forall r : vrow, r ∈ ExtractBom.df_with_module_all rep ->
        exists u : vrow, u ∈ ExtractBom.df_type_unique rep
          /\ map u ExtractBom.unique_type_cols = map r ExtractBom.unique_type_cols)
  /\ ExtractBom.df_type_unique rep
     `sublist_of` map (project ExtractBom.core_columns) (ExtractBom.df_with_module_all rep).
Proof.
  unfold ExtractBom.extract_and_format_bom. cbv zeta. fold bom_start.
  destruct (ExtractBom.all_self_purchase (ExtractBom.walk files bom_start))
    as [|frame frames] eqn:E; [done|].
  cbn [snd]. intros [= <-]. cbn [ExtractBom.df_with_module_all ExtractBom.df_type_unique].
  set (df := merge_total _ _ _ _). unfold drop_duplicates.
  split; [apply drop_duplicates_from_keys|]. split; [|apply drop_duplicates_from_sublist].
  intros r Hr.
  destruct (drop_duplicates_from_covers
              (fun u : vrow => map u ExtractBom.unique_type_cols) []
              (map (project ExtractBom.core_columns) df)
              (project ExtractBom.core_columns r)) as [H|H].
  - apply list_elem_of_fmap. eauto.
  - by apply not_elem_of_nil in H.
  - apply list_elem_of_fmap in H as [u [Hu Hin]]. exists u. split; [done|].
    rewrite <- Hu. apply project_columns. repeat constructor; by_compute.
Qed.

(** X19. The second sheet of an accessory run is numbered 1, 2, 3 and so on in
    the order of its rows, whatever numbers the lines carried; no two of
    its rows agree in [Manufacturer Part], [Price] and the link, and every
    line of the first sheet agrees in these with a row of it. The counts
    the run reports: the lines of the first sheet, the rows of the second,
    which are no more, and the module names, which are no more either. *)
Theorem accessory_type_sheet files rep :
  snd (ModAcc.extract_and_format_accessory files) = Some rep ->
  (forall i (u : vrow), ModAcc.df_unique rep !! i = Some u ->
     u (py "No.") = Number (amount (Z.of_nat (S i))))
  /\ NoDup (map (fun u : vrow => map u ModAcc.unique_type_cols) (ModAcc.df_unique rep))
  /\ (forall r : vrow, r ∈ ModAcc.df_total rep ->
        exists u : vrow, u ∈ ModAcc.df_unique rep
          /\ map u ModAcc.unique_type_cols = map r ModAcc.unique_type_cols)
  /\ ModAcc.total_accessories rep = length (ModAcc.df_total rep)
  /\ ModAcc.total_unique_types rep = length (ModAcc.df_unique rep)
  /\ (ModAcc.total_unique_types rep <= ModAcc.total_accessories rep)%nat
  /\ (ModAcc.total_modules rep <= ModAcc.total_accessories rep)%nat.
Proof.
  unfold ModAcc.extract_and_format_accessory. cbv zeta. fold accessory_start.
  destruct (ModAcc.all_accessory_data (ModAcc.walk files accessory_start))
    as [|frame frames] eqn:E; [done|].
  cbn [snd]. intros [= <-].
  cbn [ModAcc.df_total ModAcc.df_unique ModAcc.total_accessories ModAcc.total_unique_types
       ModAcc.total_modules].
  set (df := map (project _) (merge_total _ _ _ _)).
  change (fun r : vrow => [r (py "Manufacturer Part"); r (py "Price"); r (py "淘宝链接")])
    with (fun u : vrow => map u ModAcc.unique_type_cols).
  set (key := fun u : vrow => map u ModAcc.unique_type_cols).
  assert (map key (ModAcc.renumber (drop_duplicates key (map (project ModAcc.core_columns) df)))
          = map key (drop_duplicates key (map (project ModAcc.core_columns) df))) as Hkeys.
  { unfold ModAcc.renumber. generalize (drop_duplicates key (map (project ModAcc.core_columns) df)).
    intros l. change (map key (imap ?f l)) with (key <$> imap f l).
    rewrite fmap_imap. etransitivity; [|apply (imap_const key l)]. apply imap_ext.
    intros i u _. unfold key, compose, const, vrow_set.
    apply map_ext_in. intros c Hc. rewrite decide_False; [done|].
    intros ->. revert Hc. rewrite <- list_elem_of_In. by_compute. }
  split; [|split; [|split; [|split; [done|split; [done|split]]]]].
  - intros i u. unfold ModAcc.renumber. rewrite list_lookup_imap.
    destruct (_ !! i) as [u0|]; [|done]. intros [= <-].
    unfold vrow_set. by rewrite decide_True.
  - rewrite Hkeys. apply drop_duplicates_from_keys.
  - intros r Hr.
    destruct (drop_duplicates_from_covers key [] (map (project ModAcc.core_columns) df)
                (project ModAcc.core_columns r)) as [H|H].
    + apply list_elem_of_fmap. eauto.
    + by apply not_elem_of_nil in H.
    + fold (drop_duplicates key (map (project ModAcc.core_columns) df)) in H.
      rewrite <- Hkeys in H.
      apply list_elem_of_fmap in H as [u [Hu Hin]]. exists u. split; [done|].
      transitivity (key (project ModAcc.core_columns r)); [done|].
      apply project_columns. repeat constructor; by_compute.
  - unfold ModAcc.renumber. rewrite length_imap.
    etransitivity; [apply drop_duplicates_length|]. by rewrite length_map.
  - etransitivity; [apply drop_duplicates_length|]. by rewrite length_map.
Qed.

Lemma bom_type_sheet_witness :
  exists rep,
    snd (ExtractBom.extract_and_format_bom two_bom_modules) = Some rep
    /\ NoDup (map (fun u : vrow => map u ExtractBom.unique_type_cols)
                (ExtractBom.df_type_unique rep))
    /\ (forall r : vrow, r ∈ ExtractBom.df_with_module_all rep ->
          exists u : vrow, u ∈ ExtractBom.df_type_unique rep
            /\ map u ExtractBom.unique_type_cols = map r ExtractBom.unique_type_cols)
    /\ ExtractBom.df_type_unique rep
       `sublist_of` map (project ExtractBom.core_columns) (ExtractBom.df_with_module_all rep).
Proof.
  assert (is_Some (snd (ExtractBom.extract_and_format_bom two_bom_modules)))
    as [rep Hrep] by by_compute.
  exists rep. split; [done|]. exact (bom_type_sheet two_bom_modules rep Hrep).
Defined.

Lemma accessory_type_sheet_witness :
  exists rep,
    snd (ModAcc.extract_and_format_accessory accessory_modules_10_25) = Some rep
    /\ (forall i (u : vrow), ModAcc.df_unique rep !! i = Some u ->
          u (py "No.") = Number (amount (Z.of_nat (S i))))
    /\ ModAcc.total_accessories rep = 3%nat
    /\ ModAcc.total_unique_types rep = 3%nat
    /\ ModAcc.total_modules rep = 2%nat.
Proof.
  assert (is_Some (snd (ModAcc.extract_and_format_accessory accessory_modules_10_25)))
    as [rep Hrep] by by_compute.
  assert ((fun rep => (ModAcc.total_accessories rep, ModAcc.total_unique_types rep,
                       ModAcc.total_modules rep))
            <$> snd (ModAcc.extract_and_format_accessory accessory_modules_10_25)
          = Some (3, 3, 2)%nat) as Hcounts by by_compute.
  rewrite Hrep in Hcounts. injection Hcounts as H1 H2 H3.
  exists rep. split; [done|]. split; [|done].
  apply (accessory_type_sheet accessory_modules_10_25 rep Hrep).
Defined.

(* ===================================================================== *)
(** * The order of the first sheet                                        *)
(* ===================================================================== *)

Lemma str_leb_refl a : str_leb a a = true.
Proof.
  induction a as [|x a IH]; [done|]. simpl. by rewrite N.eqb_refl, IH, orb_true_r.
Qed.

Lemma str_leb_total a b : str_leb a b = false -> str_leb b a = true.
Proof.
  revert b. induction a as [|x a IH]; intros [|y b]; simpl; try done.
  rewrite orb_false_iff, andb_false_iff, orb_true_iff, andb_true_iff.
  rewrite N.ltb_ge, N.ltb_lt, N.eqb_neq, N.eqb_eq. intros [Hle [Hne | Hleb]].
  - left. unfold char in *. lia.
  - destruct (decide (x = y)) as [->|Hne]; [right; split; [done | by apply IH]|].
    left. unfold char in *. lia.
Qed.

Lemma str_leb_antisym a b : str_leb a b = true -> str_leb b a = true -> a = b.
Proof.
  revert b. induction a as [|x a IH]; intros [|y b]; simpl; try done.
  rewrite !orb_true_iff, !andb_true_iff, !N.ltb_lt, !N.eqb_eq.
  intros [H1 | [-> H1]] [H2 | [H2 H2']]; try (unfold char in *; lia).
  f_equal. by apply IH.
Qed.

Lemma str_leb_trans a b c : str_leb a b = true -> str_leb b c = true -> str_leb a c = true.
Proof.
  revert b c. induction a as [|x a IH]; intros [|y b] [|z c]; simpl; try done.
  rewrite !orb_true_iff, !andb_true_iff, !N.ltb_lt, !N.eqb_eq.
  intros [H1 | [-> H1]] [H2 | [-> H2]].
  - left. unfold char in *. lia.
  - by left.
  - by left.
  - right. split; [done|]. by apply (IH b).
Qed.

Lemma value_leb_refl a : value_leb a a = true.
Proof.
  destruct a as [[|x]|q]; simpl; [done | apply str_leb_refl|].
  apply bool_decide_eq_true. apply Qcle_refl.
Qed.

Lemma value_leb_total a b : value_leb a b = false -> value_leb b a = true.
Proof.
  destruct a as [[|x]|p], b as [[|y]|q]; simpl; try done.
  - apply str_leb_total.
  - rewrite bool_decide_eq_false, bool_decide_eq_true. intros H.
    apply Qclt_le_weak. by apply Qcnot_le_lt.
Qed.

Lemma value_leb_antisym a b : value_leb a b = true -> value_leb b a = true -> a = b.
Proof.
  destruct a as [[|x]|p], b as [[|y]|q]; simpl; try done.
  - intros H1 H2. do 2 f_equal. by apply str_leb_antisym.
  - rewrite !bool_decide_eq_true. intros H1 H2. f_equal. by apply Qcle_antisym.
Qed.

Lemma value_leb_trans a b c :
  value_leb a b = true -> value_leb b c = true -> value_leb a c = true.
Proof.
  destruct a as [[|x]|p], b as [[|y]|q], c as [[|z]|r]; simpl; try done.
  - apply str_leb_trans.
  - rewrite !bool_decide_eq_true. apply Qcle_trans.
Qed.

(** The order of the sort keys compares any two rows. *)
Lemma rows_leb_total by_ (a b : vrow) : rows_leb by_ a b = false -> rows_leb by_ b a = true.
Proof.
  induction by_ as [|col rest IH]; simpl; [done|].
  destruct (decide (a col = b col)) as [Heq|Hne].
  - by rewrite decide_True.
  - rewrite decide_False by done. apply value_leb_total.
Qed.

(** Rows in the order of the sort keys are in the order of the first key. *)
Lemma rows_leb_first_key col rest (a b : vrow) :
  rows_leb (col :: rest) a b = true -> value_leb (a col) (b col) = true.
Proof.
  simpl. destruct (decide (a col = b col)) as [->|]; [|done].
  intros _. apply value_leb_refl.
Qed.

Lemma insert_sorted_ordered {A} (leb : A -> A -> bool) x l :
  (forall a b, leb a b = false -> leb b a = true) ->
  ordered leb l -> ordered leb (insert_sorted leb x l).
Proof.
  intros Htotal. induction l as [|y l IH]; simpl; [done|].
  intros [Hy Hl]. destruct (leb x y) eqn:E; [done|].
  simpl. split; [|by apply IH].
  destruct l as [|z l]; simpl; [by apply Htotal|].
  destruct (leb x z); [by apply Htotal | done].
Qed.

(** [sort_values] puts the rows in the order of its keys. *)
Lemma sort_values_ordered by_ df : ordered (rows_leb by_) (sort_values by_ df).
Proof.
  unfold sort_values. induction df as [|r df IH]; simpl; [done|].
  apply insert_sorted_ordered; [apply rows_leb_total | done].
Qed.

Lemma ordered_fmap {A B} (leb : A -> A -> bool) (leb' : B -> B -> bool) (f : A -> B) l :
  (forall a b, leb a b = true -> leb' (f a) (f b) = true) ->
  ordered leb l -> ordered leb' (map f l).
Proof.
  intros Hf. induction l as [|x l IH]; simpl; [done|].
  intros [Hx Hl]. split; [|by apply IH]. destruct l as [|y l]; simpl; [done | by apply Hf].
Qed.

(** In a list in the order of a transitive relation every element is
    before all that follow it. *)
Lemma ordered_head {A} (leb : A -> A -> bool) x l y :
  (forall a b c, leb a b = true -> leb b c = true -> leb a c = true) ->
  ordered leb (x :: l) -> y ∈ l -> leb x y = true.
Proof.
  intros Htrans. revert x. induction l as [|z l IH]; intros x Hl Hy;
    [by apply not_elem_of_nil in Hy|].
  destruct Hl as [Hxz Hl]. apply elem_of_cons in Hy as [-> | Hy]; [done|].
  apply (Htrans _ z); [done | by apply IH].
Qed.

(** Values in order are contiguous. *)
Lemma ordered_contiguous (l : list value) : ordered value_leb l -> contiguous l.
Proof.
  induction l as [|x l IH]; simpl; [done|].
  intros [Hx Hl]. split; [|by apply IH].
  destruct l as [|y l]; [done|]. intros Hne Hin. apply Hne.
  apply value_leb_antisym; [|done].
  apply (ordered_head value_leb y l x value_leb_trans Hl).
  apply elem_of_cons in Hin as [-> | Hin]; [done | done].
Qed.

(* ===================================================================== *)
(** * The merged blocks of the first sheet                                *)
(* ===================================================================== *)

Section ModuleRanges.
Context {V : Type} `{EqDecision V}.

Lemma module_ranges_from_acc max_row1 (cur : V) start row rest acc :
  module_ranges_from max_row1 cur start row rest acc
  = acc ++ module_ranges_from max_row1 cur start row rest [].
Proof.
  revert cur start row acc. induction rest as [|v rest IH]; intros cur start row acc; simpl.
  - done.
  - destruct (decide (v = cur)); [apply IH|].
    rewrite IH, (IH _ _ _ [_]). by rewrite app_assoc.
Qed.

Lemma module_ranges_from_rows max_row1 (cur : V) start row rest :
  max_row1 = (row - 1 + length rest)%nat -> (start < row)%nat ->
  concat (map rows_of (module_ranges_from max_row1 cur start row rest []))
  = seq start (row - start + length rest).
Proof.
  revert cur start row. induction rest as [|v rest IH]; intros cur start row Hmax Hstart.
  - simpl. unfold rows_of. cbn [fst snd]. rewrite app_nil_r. f_equal. simpl in Hmax. lia.
  - cbn [module_ranges_from]. destruct (decide (v = cur)).
    + rewrite IH; [|simpl in Hmax; lia | lia]. f_equal. simpl. lia.
    + rewrite module_ranges_from_acc. cbn [app map concat].
      rewrite IH; [|simpl in Hmax; lia | lia].
      unfold rows_of. cbn [fst snd length].
      transitivity (seq start (row - start) ++ seq (start + (row - start)) (S (length rest))).
      * f_equal; f_equal; lia.
      * by rewrite <- seq_app.
Qed.

Lemma module_ranges_from_blocks (column : list V) max_row1 cur start row pre rest :
  column = pre ++ rest -> row = (2 + length pre)%nat -> (2 <= start < row)%nat ->
  (forall k, (start <= k < row)%nat -> column !! (k - 2)%nat = Some cur) ->
  max_row1 = S (length column) ->
  (exists end_row tail,
      module_ranges_from max_row1 cur start row rest [] = (start, end_row) :: tail)
  /\ (forall range, range ∈ module_ranges_from max_row1 cur start row rest [] ->
        (fst range <= snd range)%nat
        /\ forall k, (fst range <= k <= snd range)%nat ->
                     column !! (k - 2)%nat = column !! (fst range - 2)%nat)
  /\ (forall i r1 r2,
        module_ranges_from max_row1 cur start row rest [] !! i = Some r1 ->
        module_ranges_from max_row1 cur start row rest [] !! S i = Some r2 ->
        fst r2 = S (snd r1)
        /\ column !! (fst r2 - 2)%nat <> column !! (snd r1 - 2)%nat).
Proof.
  revert cur start row pre. induction rest as [|v rest IH];
    intros cur start row pre Hcolumn Hrow Hstart Hcur Hmax.
  - rewrite app_nil_r in Hcolumn. subst column. cbn [module_ranges_from app].
    split; [by eexists _, _|]. split.
    + intros range Hrange. apply list_elem_of_singleton in Hrange as ->. cbn [fst snd].
      split; [lia|]. intros k Hk. rewrite !Hcur; [done | lia | lia].
    + intros [|i] r1 r2 H1 H2; done.
  - assert (column !! (row - 2)%nat = Some v) as Hv.
    { subst column row. replace (2 + length pre - 2)%nat with (length pre) by lia.
      by rewrite list_lookup_middle. }
    cbn [module_ranges_from]. destruct (decide (v = cur)) as [->|Hne].
    + apply (IH cur start (S row) (pre ++ [cur])).
      * by rewrite <- app_assoc.
      * rewrite length_app. simpl. lia.
      * lia.
      * intros k Hk. destruct (decide (k = row)) as [->|]; [done|]. apply Hcur. lia.
      * done.
    + rewrite module_ranges_from_acc. cbn [app].
      destruct (IH v row (S row) (pre ++ [v])) as [[end_row [tail Hhead]] [Hin Hnext]].
      * by rewrite <- app_assoc.
      * rewrite length_app. simpl. lia.
      * lia.
      * intros k Hk. by replace k with row by lia.
      * done.
      * split; [by eexists _, _|]. split.
        -- intros range Hrange. apply elem_of_cons in Hrange as [-> | Hrange]; [|by apply Hin].
           cbn [fst snd]. split; [lia|]. intros k Hk. rewrite !Hcur; [done | lia | lia].
        -- intros [|i] r1 r2 H1 H2; [|by apply (Hnext i)].
           cbn in H1. injection H1 as <-. cbn in H2. rewrite Hhead in H2. cbn in H2.
           injection H2 as <-. cbn [fst snd]. split; [lia|].
           rewrite Hv, Hcur by lia. congruence.
Qed.

Lemma module_ranges_runs (column_a : list V) :
  concat (map rows_of (module_ranges column_a)) = seq 2 (length column_a)
  /\ (forall range, range ∈ module_ranges column_a ->
        (fst range <= snd range)%nat
        /\ forall row, (fst range <= row <= snd range)%nat ->
                       column_a !! (row - 2)%nat = column_a !! (fst range - 2)%nat)
  /\ (forall i r1 r2,
        module_ranges column_a !! i = Some r1 ->
        module_ranges column_a !! S i = Some r2 ->
        fst r2 = S (snd r1)
        /\ column_a !! (fst r2 - 2)%nat <> column_a !! (snd r1 - 2)%nat).
Proof.
  split.
  { unfold module_ranges. destruct column_a as [|cur rest]; [done|].
    rewrite module_ranges_from_rows; [done | simpl; lia | lia]. }
  unfold module_ranges. destruct column_a as [|cur rest].
  { split; [intros range Hrange; by apply not_elem_of_nil in Hrange|].
    by intros [|i]. }
  destruct (module_ranges_from_blocks (cur :: rest) (S (length (cur :: rest))) cur 2 3 [cur] rest)
    as [_ [Hin Hnext]]; [done | done | lia | | done | done].
  intros k Hk. by replace k with 2%nat by lia.
Qed.

Lemma module_fills_rows (color : nat -> nat) (ranges : list (nat * nat)) :
  map fst (concat (imap (fun color_idx '(start_row, end_row) =>
                           map (fun row => (row, color color_idx))
                               (seq start_row (S end_row - start_row)%nat))
                        ranges))
  = concat (map rows_of ranges).
Proof.
  revert color. induction ranges as [|[start_row end_row] ranges IH]; intros color; [done|].
  rewrite imap_cons. cbn [concat map]. rewrite map_app, map_map. cbn [fst].
  rewrite map_id. f_equal. apply (IH (fun i => color (S i))).
Qed.

Lemma module_fills_elem_of (color : nat -> nat) (ranges : list (nat * nat)) row k :
  (row, k) ∈ concat (imap (fun color_idx '(start_row, end_row) =>
                             map (fun row => (row, color color_idx))
                                 (seq start_row (S end_row - start_row)%nat))
                          ranges)
  <-> exists i range, ranges !! i = Some range
                      /\ (fst range <= row <= snd range)%nat /\ k = color i.
Proof.
  revert color. induction ranges as [|[start_row end_row] ranges IH]; intros color.
  - cbn. split; [intros H; by apply not_elem_of_nil in H | by intros [i [range [H _]]]].
  - rewrite imap_cons. cbn [concat]. rewrite elem_of_app, (IH (fun i => color (S i))).
    rewrite list_elem_of_fmap. split.
    + intros [[x [[= -> ->] Hx]] | [i [range [Hi [Hrow ->]]]]].
      * apply elem_of_seq in Hx. exists 0%nat, (start_row, end_row). cbn. split; [done|].
        split; [lia | done].
      * exists (S i), range. done.
    + intros [[|i] [range [Hi [Hrow ->]]]].
      * cbn in Hi. injection Hi as <-. cbn [fst snd] in Hrow. left. exists row.
        split; [done|]. apply elem_of_seq. lia.
      * right. exists i, range. done.
Qed.

(** Ranges that follow each other are in increasing order. *)
Lemma ranges_increasing (ranges : list (nat * nat)) :
  (forall range, range ∈ ranges -> (fst range <= snd range)%nat) ->
  (forall i r1 r2, ranges !! i = Some r1 -> ranges !! S i = Some r2 ->
                   fst r2 = S (snd r1)) ->
  forall d i r1 r2, ranges !! i = Some r1 -> ranges !! (S (i + d)) = Some r2 ->
                    (snd r1 + d < fst r2)%nat.
Proof.
  intros Hwf Hnext. induction d as [|d IH]; intros i r1 r2 H1 H2.
  - rewrite Nat.add_0_r in H2. rewrite (Hnext i r1 r2 H1 H2). lia.
  - destruct (ranges !! S (i + d)) as [r|] eqn:E.
    + pose proof (IH i r1 r H1 E) as Hlt. clear IH.
      replace (S (i + S d)) with (S (S (i + d))) in H2 by lia.
      rewrite (Hnext _ r r2 E H2).
      pose proof (Hwf r ltac:(by eapply list_elem_of_lookup_2)). lia.
    + apply lookup_ge_None in E. apply lookup_lt_Some in H2. lia.
Qed.

(** X16. The ranges are the maximal runs of equal cells of the column, from row
    2 on: together they hold every data row once, in order; the cells of a
    range are equal; and a range begins where the one before it ends, with
    a cell that differs. Every data row is filled once. *)
Theorem module_ranges_blocks (column_a : list V) :
  concat (map rows_of (module_ranges column_a)) = seq 2 (length column_a)
  /\ (forall range, range ∈ module_ranges column_a ->
        (fst range <= snd range)%nat
        /\ forall row, (fst range <= row <= snd range)%nat ->
                       column_a !! (row - 2)%nat = column_a !! (fst range - 2)%nat)
  /\ (forall i r1 r2,
        module_ranges column_a !! i = Some r1 ->
        module_ranges column_a !! S i = Some r2 ->
        fst r2 = S (snd r1)
        /\ column_a !! (fst r2 - 2)%nat <> column_a !! (snd r1 - 2)%nat)
  /\ map fst (module_fills (module_ranges column_a)) = seq 2 (length column_a).
Proof.
  destruct (module_ranges_runs column_a) as [Hrows [Hin Hnext]].
  split; [done|]. split; [done|]. split; [done|].
  unfold module_fills. by rewrite (module_fills_rows (fun color_idx => (color_idx mod 3)%nat)).
Qed.

(** X17. The three fills of the first sheet go round by module block, so the
    fill changes from a data row to the next exactly where the cell of
    column A changes: the lines of a module have one fill, and the lines
    of the module after it another one. *)
Theorem module_fills_change_with_module (column_a : list V) row color next_color :
  (row, color) ∈ module_fills (module_ranges column_a) ->
  (S row, next_color) ∈ module_fills (module_ranges column_a) ->
  color = next_color <-> column_a !! (row - 2)%nat = column_a !! (S row - 2)%nat.
Proof.
  destruct (module_ranges_runs column_a) as [_ [Hin Hnext]].
  assert (forall range, range ∈ module_ranges column_a -> (fst range <= snd range)%nat)
    as Hwf by (intros range Hrange; by apply Hin).
  assert (forall i r1 r2, module_ranges column_a !! i = Some r1 ->
                          module_ranges column_a !! S i = Some r2 -> fst r2 = S (snd r1))
    as Hadj by (intros i r1 r2 H1 H2; by apply (Hnext i)).
  pose proof (ranges_increasing _ Hwf Hadj) as Hinc.
  unfold module_fills.
  rewrite !(module_fills_elem_of (fun color_idx => (color_idx mod 3)%nat)).
  intros [i [r1 [Hi [Hrow ->]]]] [j [r2 [Hj [Hrow' ->]]]].
  destruct (lt_eq_lt_dec i j) as [[Hlt | ->] | Hgt].
  - destruct (decide (j = S i)) as [-> | Hne].
    + destruct (Hnext i r1 r2 Hi Hj) as [Hstart Hcell].
      assert (row = snd r1) as -> by lia. assert (S (snd r1) = fst r2) as -> by lia.
      split; [|by intros Heq; rewrite Heq in Hcell].
      intros Hmod. exfalso. clear -Hmod.
      pose proof (Nat.mod_upper_bound i 3). pose proof (Nat.mod_upper_bound (S i) 3).
      pose proof (Nat.div_mod_eq i 3). pose proof (Nat.div_mod_eq (S i) 3). lia.
    + pose proof (Hinc (j - S (S i))%nat (S i)) as H.
      destruct (module_ranges column_a !! S i) as [r|] eqn:E.
      * specialize (H r r2 eq_refl). replace (S (S i + (j - S (S i)))) with j in H by lia.
        specialize (H Hj).
        pose proof (Hwf r ltac:(by eapply list_elem_of_lookup_2)).
        pose proof (Hadj i r1 r Hi E). exfalso. lia.
      * apply lookup_ge_None in E. apply lookup_lt_Some in Hj. exfalso. lia.
  - rewrite Hi in Hj. injection Hj as <-. split; [intros _|done].
    destruct (Hin r1 ltac:(by eapply list_elem_of_lookup_2)) as [_ Hcells].
    rewrite (Hcells row) by lia. rewrite (Hcells (S row)) by lia. done.
  - exfalso. pose proof (Hinc (i - S j)%nat j r2 r1 Hj) as H.
    replace (S (j + (i - S j))) with i in H by lia. specialize (H Hi). lia.
Qed.

(** In a column whose equal cells are next to each other there are as many
    ranges as distinct cells. *)
Lemma module_ranges_from_length max_row1 (cur : V) start row rest seen :
  cur ∈ seen -> (forall x, x ∈ seen -> x ∈ rest -> x = cur) -> contiguous (cur :: rest) ->
  length (module_ranges_from max_row1 cur start row rest [])
  = S (length (drop_duplicates_from id seen rest)).
Proof.
  revert cur start row seen. induction rest as [|v rest IH];
    intros cur start row seen Hcur Hseen Hcont; [done|].
  cbn [module_ranges_from drop_duplicates_from id]. destruct Hcont as [Hleft Hcont].
  destruct (decide (v = cur)) as [->|Hne].
  - rewrite decide_True by done. apply IH; [done | | done].
    intros x Hx Hin. apply Hseen; [done | by right].
  - rewrite decide_False.
    + rewrite module_ranges_from_acc. cbn [app length]. f_equal.
      apply IH; [by left | | done].
      intros x Hx Hin. apply elem_of_cons in Hx as [-> | Hx]; [done|].
      exfalso. apply (Hleft Hne). rewrite <- (Hseen x Hx); by right.
    + intros Hin. apply Hne. apply Hseen; [done | by left].
Qed.

Lemma module_ranges_length (column_a : list V) :
  contiguous column_a ->
  length (module_ranges column_a) = length (drop_duplicates id column_a).
Proof.
  intros Hcont. unfold module_ranges, drop_duplicates.
  destruct column_a as [|cur rest]; [done|].
  cbn [drop_duplicates_from id]. rewrite decide_False by apply not_elem_of_nil.
  cbn [length]. apply module_ranges_from_length; [by left | | done].
  intros x Hx _. by apply list_elem_of_singleton in Hx.
Qed.
End ModuleRanges.

Lemma module_fills_change_with_module_witness :
  (3%nat, 0%nat) ∈ module_fills (module_ranges [py "A"; py "A"; py "B"])
  /\ (4%nat, 1%nat) ∈ module_fills (module_ranges [py "A"; py "A"; py "B"])
  /\ (0%nat = 1%nat <->
      [py "A"; py "A"; py "B"] !! (3 - 2)%nat = [py "A"; py "A"; py "B"] !! (4 - 2)%nat).
Proof.
  split; [by_compute|]. split; [by_compute|].
  apply (module_fills_change_with_module [py "A"; py "A"; py "B"] 3 0 1); by_compute.
Defined.

Lemma rows_leb_ext by_ (a b a' b' : vrow) :
  (forall c, c ∈ by_ -> a' c = a c /\ b' c = b c) ->
  rows_leb by_ a' b' = rows_leb by_ a b.
Proof.
  induction by_ as [|col rest IH]; intros H; simpl; [done|].
  destruct (H col) as [-> ->]; [by left|].
  rewrite IH; [done|]. intros c Hc. apply H. by right.
Qed.

(** X14. The first sheet of a BOM run is in the order of its module names
    (code-point order of the texts), so the lines of a module are next to
    each other and the sheet has one merged block for each module name. *)
Theorem bom_sheet_blocks files rep :
  snd (ExtractBom.extract_and_format_bom files) = Some rep ->
  ordered value_leb
    (map (fun r : vrow => r (py "模块名称")) (ExtractBom.df_with_module_all rep))
  /\ contiguous
       (map (fun r : vrow => r (py "模块名称")) (ExtractBom.df_with_module_all rep))
  /\ length (module_ranges
               (map (fun r : vrow => r (py "模块名称")) (ExtractBom.df_with_module_all rep)))
     = length (drop_duplicates id
                 (map (fun r : vrow => r (py "模块名称"))
                    (ExtractBom.df_with_module_all rep))).
Proof.
  unfold ExtractBom.extract_and_format_bom. cbv zeta. fold bom_start.
  destruct (ExtractBom.all_self_purchase (ExtractBom.walk files bom_start))
    as [|frame frames] eqn:E; [done|].
  cbn [snd]. intros [= <-]. cbn [ExtractBom.df_with_module_all].
  rewrite merge_total_column by by_compute.
  set (names := map _ (sort_values _ _)).
  assert (ordered value_leb names) as Hordered.
  { subst names. eapply ordered_fmap; [|apply sort_values_ordered].
    intros a b. apply rows_leb_first_key. }
  split; [done|]. split; [by apply ordered_contiguous|].
  by apply module_ranges_length, ordered_contiguous.
Qed.

(** X15. The first sheet of an accessory run is in the order of its sort keys:
    by module name and, within a module, by the text of [No.] (the file is
    read as text, so 10 is before 2). The lines of a module are next to
    each other, and the sheet has as many merged blocks as the run counts
    modules. *)
Theorem accessory_sheet_blocks files rep :
  snd (ModAcc.extract_and_format_accessory files) = Some rep ->
  ordered (rows_leb [py "模块名称"; py "No."]) (ModAcc.df_total rep)
  /\ contiguous (map (fun r : vrow => r (py "模块名称")) (ModAcc.df_total rep))
  /\ length (module_ranges (map (fun r : vrow => r (py "模块名称")) (ModAcc.df_total rep)))
     = ModAcc.total_modules rep.
Proof.
  unfold ModAcc.extract_and_format_accessory. cbv zeta. fold accessory_start.
  destruct (ModAcc.all_accessory_data (ModAcc.walk files accessory_start))
    as [|frame frames] eqn:E; [done|].
  cbn [snd]. intros [= <-]. cbn [ModAcc.df_total ModAcc.total_modules].
  set (df := sort_values _ _).
  set (col_order := _ :: _ :: ModAcc.core_columns).
  rewrite merge_total_rows by by_compute. rewrite map_map.
  assert (ordered (rows_leb [py "模块名称"; py "No."])
            (map (fun r : vrow =>
                    project col_order
                      (vrow_set (py "模块配件总金额")
                         (Number (group_total (py "模块名称") (py "Value") df (r (py "模块名称"))))
                         r)) df)) as Hordered.
  { eapply ordered_fmap; [|apply sort_values_ordered].
    intros a b Hab. etransitivity; [|exact Hab]. apply rows_leb_ext. intros c Hc.
    unfold project, vrow_set.
    rewrite !elem_of_cons, elem_of_nil in Hc.
    destruct Hc as [-> | [-> | []]];
      (rewrite decide_True by by_compute); (rewrite decide_False by by_compute); done. }
  split; [done|].
  assert (ordered value_leb
            (map (fun r : vrow => r (py "模块名称"))
               (map (fun r : vrow =>
                       project col_order
                         (vrow_set (py "模块配件总金额")
                            (Number (group_total (py "模块名称") (py "Value") df
                                       (r (py "模块名称"))))
                            r)) df))) as Hnames.
  { eapply ordered_fmap; [|exact Hordered]. intros a b. apply rows_leb_first_key. }
  split; [by apply ordered_contiguous|].
  by apply module_ranges_length, ordered_contiguous.
Qed.

Lemma bom_sheet_blocks_witness :
  exists rep,
    snd (ExtractBom.extract_and_format_bom two_bom_modules) = Some rep
    /\ map (fun r : vrow => r (py "模块名称")) (ExtractBom.df_with_module_all rep)
       = [Text (Str (py "A")); Text (Str (py "B"))]
    /\ length (module_ranges
                 (map (fun r : vrow => r (py "模块名称"))
                    (ExtractBom.df_with_module_all rep)))
       = length (drop_duplicates id
                   (map (fun r : vrow => r (py "模块名称"))
                      (ExtractBom.df_with_module_all rep))).
Proof.
  assert (is_Some (snd (ExtractBom.extract_and_format_bom two_bom_modules)))
    as [rep Hrep] by by_compute.
  assert ((fun rep => map (fun r : vrow => r (py "模块名称"))
                        (ExtractBom.df_with_module_all rep))
            <$> snd (ExtractBom.extract_and_format_bom two_bom_modules)
          = Some [Text (Str (py "A")); Text (Str (py "B"))]) as Hnames by by_compute.
  rewrite Hrep in Hnames. injection Hnames as Hnames.
  exists rep. split; [done|]. split; [done|].
  apply (bom_sheet_blocks two_bom_modules rep Hrep).
Defined.

Lemma accessory_sheet_blocks_witness :
  exists rep,
    snd (ModAcc.extract_and_format_accessory accessory_modules_10_25) = Some rep
    /\ ModAcc.total_modules rep = 2%nat
    /\ length (module_ranges
                 (map (fun r : vrow => r (py "模块名称")) (ModAcc.df_total rep)))
       = ModAcc.total_modules rep.
Proof.
  assert (is_Some (snd (ModAcc.extract_and_format_accessory accessory_modules_10_25)))
    as [rep Hrep] by by_compute.
  assert (ModAcc.total_modules
            <$> snd (ModAcc.extract_and_format_accessory accessory_modules_10_25)
          = Some 2%nat) as Hcount by by_compute.
  rewrite Hrep in Hcount. injection Hcount as Hcount.
  exists rep. split; [done|]. split; [done|].
  apply (accessory_sheet_blocks accessory_modules_10_25 rep Hrep).
Defined.

(* ===================================================================== *)
(** * The total amount of an accessory run                                *)
(* ===================================================================== *)

Lemma NoDup_fmap_inj_on {A B} (g : A -> B) l x y :
  NoDup (map g l) -> x ∈ l -> y ∈ l -> g x = g y -> x = y.
Proof.
  induction l as [|z l IH]; intros Hnd Hx Hy Hg; [by apply not_elem_of_nil in Hx|].
  simpl in Hnd. apply NoDup_cons in Hnd as [Hz Hnd].
  apply elem_of_cons in Hx as [-> | Hx]; apply elem_of_cons in Hy as [-> | Hy].
  - done.
  - exfalso. apply Hz. rewrite Hg. by apply list_elem_of_fmap_2.
  - exfalso. apply Hz. rewrite <- Hg. by apply list_elem_of_fmap_2.
  - by apply IH.
Qed.

(** Deduplication goes through a function that tells the values apart. *)
Lemma drop_duplicates_from_inj {A B} `{EqDecision A} `{EqDecision B} (g : A -> B) seen l :
  (forall x y, x ∈ seen ++ l -> y ∈ seen ++ l -> g x = g y -> x = y) ->
  drop_duplicates_from id (map g seen) (map g l) = map g (drop_duplicates_from id seen l).
Proof.
  revert seen. induction l as [|x l IH]; intros seen Hinj; [done|].
  cbn [map drop_duplicates_from id].
  destruct (decide (x ∈ seen)) as [Hx|Hx].
  - rewrite decide_True by (by apply list_elem_of_fmap_2). apply IH.
    intros a b Ha Hb. apply Hinj; rewrite elem_of_app, elem_of_cons in *; tauto.
  - rewrite decide_False.
    + cbn [map]. f_equal. apply (IH (x :: seen)).
      intros a b Ha Hb. apply Hinj;
        rewrite elem_of_app, !elem_of_cons in *; rewrite ?elem_of_app; tauto.
    + intros Hin. apply list_elem_of_fmap in Hin as [y [Hy Hin]]. apply Hx.
      rewrite (Hinj x y); [done | | | done]; rewrite elem_of_app, ?elem_of_cons; tauto.
Qed.

Lemma drop_duplicates_elem_of {A} `{EqDecision A} (l : list A) x :
  x ∈ l -> x ∈ drop_duplicates id l.
Proof.
  intros Hx. destruct (drop_duplicates_from_covers id [] l x Hx) as [H|H].
  - by apply not_elem_of_nil in H.
  - by rewrite map_id in H.
Qed.

(** The amounts of an accessory run, in the exact arithmetic of the model. *)
Lemma accessory_amounts files rep :
  snd (ModAcc.extract_and_format_accessory files) = Some rep ->
  (forall r : vrow, r ∈ ModAcc.df_total rep ->
     r (py "模块配件总金额")
     = Number (group_total (py "模块名称") (py "Value")
                 (ModAcc.df_total rep) (r (py "模块名称"))))
  /\ ModAcc.total_amount rep
     = series_sum (drop_duplicates id
                     (map (fun r : vrow => number_of (r (py "模块配件总金额")))
                        (ModAcc.df_total rep)))
  /\ (NoDup (map snd
               (drop_duplicates id
                  (map (fun r : vrow => (r (py "模块名称"), r (py "模块配件总金额")))
                     (ModAcc.df_total rep)))) ->
      ModAcc.total_amount rep
      = series_sum (map (fun r : vrow => number_of (r (py "Value")))
                      (ModAcc.df_total rep))).
Proof.
  intros Hrep.
  destruct (accessory_module_totals files rep Hrep) as [Htotal Hamount].
  split; [done|]. split; [done|]. intros Hdistinct. rewrite Hamount.
  set (D := ModAcc.df_total rep) in *.
  set (total_of := group_total (py "模块名称") (py "Value") D).
  set (names := map (fun r : vrow => r (py "模块名称")) D).
  assert (map (fun r : vrow => (r (py "模块名称"), r (py "模块配件总金额"))) D
          = map (fun k => (k, Number (total_of k))) names) as Hpairs.
  { subst names. rewrite map_map. apply map_ext_in. intros r Hr.
    apply list_elem_of_In in Hr. by rewrite (Htotal r Hr). }
  assert (map (fun r : vrow => number_of (r (py "模块配件总金额"))) D = map total_of names)
    as Hamounts.
  { subst names. rewrite map_map. apply map_ext_in. intros r Hr.
    apply list_elem_of_In in Hr. by rewrite (Htotal r Hr). }
  rewrite Hpairs in Hdistinct. rewrite Hamounts.
  unfold drop_duplicates in Hdistinct |- *.
  rewrite (drop_duplicates_from_inj (fun k => (k, Number (total_of k))) [] names)
    in Hdistinct by (intros x y _ _ [= ]; done).
  rewrite map_map in Hdistinct. cbn [snd] in Hdistinct.
  rewrite (drop_duplicates_from_inj total_of [] names).
  - fold (drop_duplicates id names).
    rewrite <- (groupby_sum_total (py "模块名称") (py "Value") D).
    by rewrite groupby_sum_totals.
  - intros x y Hx Hy Hxy. cbn [app] in Hx, Hy.
    apply (NoDup_fmap_inj_on (fun k => Number (total_of k)) (drop_duplicates id names));
      [done | by apply drop_duplicates_elem_of.. | by rewrite Hxy].
Qed.

(** X13. The amounts of an accessory run whose [Value] cells are whole
    numbers written in the digits 0 to 9 (or missing), with a sum below
    2^53, where the sums of the model are the sums pandas makes in floats.
    Every line of the first sheet carries the sum of [Value] over the lines
    of its module; the total amount of the run is the sum of the distinct
    values of that column; and when no two modules have the same total, it
    is the sum of [Value] over all lines of the sheet. *)
Theorem accessory_totals files rep :
  plain_values files = true ->
  snd (ModAcc.extract_and_format_accessory files) = Some rep ->
  exact_in_float (series_sum (map (fun r : vrow => number_of (r (py "Value")))
                                (ModAcc.df_total rep))) ->
  (forall r : vrow, r ∈ ModAcc.df_total rep ->
     r (py "模块配件总金额")
     = Number (group_total (py "模块名称") (py "Value")
                 (ModAcc.df_total rep) (r (py "模块名称"))))
  /\ ModAcc.total_amount rep
     = series_sum (drop_duplicates id
                     (map (fun r : vrow => number_of (r (py "模块配件总金额")))
                        (ModAcc.df_total rep)))
  /\ (NoDup (map snd
               (drop_duplicates id
                  (map (fun r : vrow => (r (py "模块名称"), r (py "模块配件总金额")))
                     (ModAcc.df_total rep)))) ->
      ModAcc.total_amount rep
      = series_sum (map (fun r : vrow => number_of (r (py "Value")))
                      (ModAcc.df_total rep))).
Proof. intros _ Hrep _. exact (accessory_amounts files rep Hrep). Qed.

Lemma accessory_totals_witness :
  exists rep,
    plain_values accessory_modules_10_25 = true
    /\ snd (ModAcc.extract_and_format_accessory accessory_modules_10_25) = Some rep
    /\ map snd
         (drop_duplicates id
            (map (fun r : vrow => (r (py "模块名称"), r (py "模块配件总金额")))
               (ModAcc.df_total rep)))
       = [Number (amount 10); Number (amount 25)]
    /\ ModAcc.total_amount rep = amount 35
    /\ ModAcc.total_amount rep
       = series_sum (map (fun r : vrow => number_of (r (py "Value"))) (ModAcc.df_total rep)).
Proof.
  assert (is_Some (snd (ModAcc.extract_and_format_accessory accessory_modules_10_25)))
    as [rep Hrep] by by_compute.
  assert ((fun rep =>
             (map snd
                (drop_duplicates id
                   (map (fun r : vrow => (r (py "模块名称"), r (py "模块配件总金额")))
                      (ModAcc.df_total rep))),
              ModAcc.total_amount rep,
              series_sum (map (fun r : vrow => number_of (r (py "Value")))
                            (ModAcc.df_total rep))))
            <$> snd (ModAcc.extract_and_format_accessory accessory_modules_10_25)
          = Some ([Number (amount 10); Number (amount 25)], amount 35, amount 35))
    as Hrun by by_compute.
  rewrite Hrep in Hrun. injection Hrun as Htotals Hamount Hsum.
  exists rep. split; [by vm_compute|]. split; [done|]. split; [done|]. split; [done|].
  apply (accessory_totals accessory_modules_10_25 rep); [by vm_compute | done | |].
  - rewrite Hsum. by vm_compute.
  - rewrite Htotals. by_compute.
Defined.

(* ===================================================================== *)
(** * What the matcher accepts                                            *)
(* ===================================================================== *)

Section MatcherSemantics.
Context {A : Type}.
Variable flags : nat.

Lemma matches_length r pos s s' : matches flags r pos s s' -> (length s' <= length s)%nat.
Proof.
  induction 1; simpl in *; lia.
Qed.

(** A match the matcher finds is a match of the pattern. *)
Lemma rmatch_sound r : forall pos s caps (k : @cont A) a,
  rmatch flags r pos s caps k = Some a ->
  exists s' caps', matches flags r pos s s'
                   /\ k (pos + (length s - length s'))%nat s' caps' = Some a.
Proof.
  induction r as [| | |c| | |r1 IH1 r2 IH2|r1 IH1 r2 IH2|r IH|r IH|g r IH];
    intros pos s caps k a.
  - cbn [rmatch]. intros Hk. exists s, caps. split; [apply matches_Empty|].
    by rewrite Nat.sub_diag, Nat.add_0_r.
  - cbn [rmatch]. destruct pos as [|pos]; [|done]. cbn [Nat.eqb]. intros Hk.
    exists s, caps. split; [apply matches_Bol|]. by rewrite Nat.sub_diag.
  - cbn [rmatch]. destruct s as [|c [|c' s]]; [| |done].
    + intros Hk. exists [], caps. split; [apply matches_Eol_end|].
      by rewrite Nat.sub_diag, Nat.add_0_r.
    + destruct (c =? 0x0A) eqn:E; [|done]. apply N.eqb_eq in E as ->. intros Hk.
      exists [0x0A], caps. split; [apply matches_Eol_newline|].
      by rewrite Nat.sub_diag, Nat.add_0_r.
  - cbn [rmatch]. destruct s as [|d s]; [done|].
    destruct (char_matches flags c d) eqn:E; [|done]. intros Hk.
    exists s, caps. split; [by apply matches_Lit|].
    replace (pos + (length (d :: s) - length s))%nat with (S pos) by (simpl; lia). done.
  - cbn [rmatch]. destruct s as [|d s]; [done|].
    destruct (d =? 0x0A) eqn:E; [done|]. apply N.eqb_neq in E. intros Hk.
    exists s, caps. split; [by apply matches_Dot|].
    replace (pos + (length (d :: s) - length s))%nat with (S pos) by (simpl; lia). done.
  - cbn [rmatch]. destruct s as [|d s]; [done|].
    destruct (isdigit d) eqn:E; [|done]. intros Hk.
    exists s, caps. split; [by apply matches_Digit|].
    replace (pos + (length (d :: s) - length s))%nat with (S pos) by (simpl; lia). done.
  - cbn [rmatch]. intros H1.
    apply IH1 in H1 as [s1 [caps1 [Hm1 H2]]].
    apply IH2 in H2 as [s2 [caps2 [Hm2 Hk]]].
    exists s2, caps2. split; [by eapply matches_Cat|].
    pose proof (matches_length _ _ _ _ Hm1). pose proof (matches_length _ _ _ _ Hm2).
    rewrite <- Hk. f_equal. lia.
  - cbn [rmatch]. destruct (rmatch flags r1 pos s caps k) as [a1|] eqn:E1.
    + intros [= <-]. apply IH1 in E1 as [s1 [caps1 [Hm Hk]]].
      exists s1, caps1. split; [by apply matches_Alt_l | done].
    + intros E2. apply IH2 in E2 as [s1 [caps1 [Hm Hk]]].
      exists s1, caps1. split; [by apply matches_Alt_r | done].
  - cbn [rmatch].
    assert (forall n pos s caps,
               plus_loop (rmatch flags r) n pos s caps k = Some a ->
               exists s' caps',
                 matches flags (Plus r) pos s s'
                 /\ k (pos + (length s - length s'))%nat s' caps' = Some a) as Hloop;
      [|apply Hloop].
    clear pos s caps.
    induction n as [|n IHn]; intros pos s caps; cbn [plus_loop]; intros H1.
    + apply IH in H1 as [s1 [caps1 [Hm Hk]]]. cbv beta iota in Hk.
      exists s1, caps1. split; [by apply matches_Plus_one | done].
    + apply IH in H1 as [s1 [caps1 [Hm Hk]]]. cbv beta iota in Hk.
      destruct (Nat.ltb (length s1) (length s)) eqn:Elt;
        [|exists s1, caps1; split; [by apply matches_Plus_one | done]].
      apply Nat.ltb_lt in Elt.
      destruct (plus_loop (rmatch flags r) n (pos + (length s - length s1)) s1 caps1 k)
        as [a'|] eqn:Emore;
        [|exists s1, caps1; split; [by apply matches_Plus_one | done]].
      injection Hk as ->. apply IHn in Emore as [s2 [caps2 [Hm2 Hk]]].
      exists s2, caps2. split; [by eapply matches_Plus_more|].
      pose proof (matches_length _ _ _ _ Hm2). rewrite <- Hk. f_equal. lia.
  - cbn [rmatch]. destruct (rmatch flags r pos s caps k) as [a1|] eqn:E1.
    + intros [= <-]. apply IH in E1 as [s1 [caps1 [Hm Hk]]].
      exists s1, caps1. split; [by apply matches_Opt_some | done].
    + intros Hk. exists s, caps. split; [apply matches_Opt_none|].
      by rewrite Nat.sub_diag, Nat.add_0_r.
  - cbn [rmatch]. intros H1. apply IH in H1 as [s1 [caps1 [Hm Hk]]].
    eexists s1, _. split; [by apply matches_Group | exact Hk].
Qed.

(** A match of the pattern after which the rest of the pattern succeeds is
    found by the matcher, or another one is: it does not fail. *)
Lemma rmatch_complete r pos s s' :
  matches flags r pos s s' ->
  forall caps (k : @cont A),
    (forall caps', is_Some (k (pos + (length s - length s'))%nat s' caps')) ->
    is_Some (rmatch flags r pos s caps k)
    /\ forall r0 n, r = Plus r0 -> (length s <= n)%nat ->
                    is_Some (plus_loop (rmatch flags r0) n pos s caps k).
Proof.
  induction 1 as [pos s|s|pos|pos|c d pos s Hc|d pos s Hd|d pos s Hd
                  |r1 r2 pos s s1 s2 Hm1 IH1 Hm2 IH2
                  |r1 r2 pos s s1 Hm IH|r1 r2 pos s s1 Hm IH
                  |r pos s s1 Hm IH|r pos s s1 s2 Hm1 IH1 Hlt Hm2 IH2
                  |r pos s s1 Hm IH|r pos s|g r pos s s1 Hm IH];
    intros caps k Hk; try (split; [|done]).
  - cbn [rmatch]. specialize (Hk caps). by rewrite Nat.sub_diag, Nat.add_0_r in Hk.
  - cbn [rmatch Nat.eqb]. specialize (Hk caps). by rewrite Nat.sub_diag in Hk.
  - cbn [rmatch]. specialize (Hk caps). by rewrite Nat.sub_diag, Nat.add_0_r in Hk.
  - cbn [rmatch]. change (0x0A =? 0x0A) with true. cbv iota.
    specialize (Hk caps). by rewrite Nat.sub_diag, Nat.add_0_r in Hk.
  - cbn [rmatch]. rewrite Hc. specialize (Hk caps).
    match type of Hk with
    | is_Some (k ?p _ _) => by replace p with (S pos) in Hk by (simpl; lia)
    end.
  - cbn [rmatch]. rewrite (proj2 (N.eqb_neq _ _) Hd). specialize (Hk caps).
    match type of Hk with
    | is_Some (k ?p _ _) => by replace p with (S pos) in Hk by (simpl; lia)
    end.
  - cbn [rmatch]. rewrite Hd. specialize (Hk caps).
    match type of Hk with
    | is_Some (k ?p _ _) => by replace p with (S pos) in Hk by (simpl; lia)
    end.
  - cbn [rmatch]. apply IH1. intros caps1. apply IH2. intros caps2.
    pose proof (matches_length _ _ _ _ Hm1). pose proof (matches_length _ _ _ _ Hm2).
    replace (pos + (length s - length s1) + (length s1 - length s2))%nat
      with (pos + (length s - length s2))%nat by lia.
    apply Hk.
  - cbn [rmatch]. destruct (IH caps k Hk) as [[a Ha] _]. rewrite Ha. by eexists.
  - cbn [rmatch]. destruct (rmatch flags r1 pos s caps k); [by eexists|].
    by apply IH.
  - assert (forall n, (length s <= n)%nat ->
                      is_Some (plus_loop (rmatch flags r) n pos s caps k)) as Hloop.
    { intros n Hn. rewrite plus_loop_unfold. apply IH. intros caps1.
      destruct n as [|n]; [apply Hk|].
      destruct (Nat.ltb _ _); [|apply Hk].
      destruct (plus_loop _ _ _ _ _ _); [by eexists | apply Hk]. }
    split; [by apply Hloop | intros r0 n [= <-]; apply Hloop].
  - assert (forall n, (length s <= n)%nat ->
                      is_Some (plus_loop (rmatch flags r) n pos s caps k)) as Hloop.
    { intros n Hn. rewrite plus_loop_unfold. apply IH1. intros caps1.
      destruct n as [|n]; [lia|].
      rewrite (proj2 (Nat.ltb_lt _ _) Hlt).
      pose proof (matches_length _ _ _ _ Hm2).
      destruct (IH2 caps1 k) as [_ Hmore].
      { intros caps2.
        replace (pos + (length s - length s1) + (length s1 - length s2))%nat
          with (pos + (length s - length s2))%nat by lia.
        apply Hk. }
      destruct (Hmore r n eq_refl ltac:(lia)) as [a Ha]. rewrite Ha. by eexists. }
    split; [by apply Hloop | intros r0 n [= <-]; apply Hloop].
  - cbn [rmatch]. destruct (IH caps k Hk) as [[a Ha] _]. rewrite Ha. by eexists.
  - cbn [rmatch]. destruct (rmatch flags r pos s caps k); [by eexists|].
    specialize (Hk caps). by rewrite Nat.sub_diag, Nat.add_0_r in Hk.
  - cbn [rmatch]. apply IH. intros caps1. apply Hk.
Qed.
End MatcherSemantics.

(** [pattern.match(string)] is true exactly for the texts that begin with
    a text the pattern takes. *)
Lemma re_match_matches flags pattern s :
  re_match flags pattern s = true <-> exists s', matches flags pattern 0 s s'.
Proof.
  unfold re_match, match_at. rewrite bool_decide_eq_true. split.
  - intros [a Ha]. apply rmatch_sound in Ha as [s' [caps' [Hm _]]]. eauto.
  - intros [s' Hm]. eapply rmatch_complete; [exact Hm|]. intros caps'. by eexists.
Qed.

(** ** The texts of the pattern items *)

Section Items.
Variable flags : nat.

Lemma matches_Cat_iff r1 r2 pos s s2 :
  matches flags (Cat r1 r2) pos s s2 <->
  exists s1, matches flags r1 pos s s1
             /\ matches flags r2 (pos + (length s - length s1)) s1 s2.
Proof.
  split; [inversion 1; eauto | intros [s1 [H1 H2]]; by eapply matches_Cat].
Qed.

Lemma matches_Empty_iff pos s s' : matches flags Empty pos s s' <-> s' = s.
Proof. split; [by inversion 1 | intros ->; apply matches_Empty]. Qed.

Lemma matches_Bol_iff pos s s' : matches flags Bol pos s s' <-> pos = 0%nat /\ s' = s.
Proof. split; [by inversion 1 | intros [-> ->]; apply matches_Bol]. Qed.

Lemma matches_Eol_iff pos s s' :
  matches flags Eol pos s s' <-> s' = s /\ (s = [] \/ s = [0x0A]).
Proof.
  split; [inversion 1; auto|].
  intros [-> [-> | ->]]; [apply matches_Eol_end | apply matches_Eol_newline].
Qed.

Lemma matches_Lit_iff c pos s s' :
  matches flags (Lit c) pos s s' <-> exists d, s = d :: s' /\ char_matches flags c d = true.
Proof.
  split; [inversion 1; eauto | intros [d [-> Hd]]; by apply matches_Lit].
Qed.

Lemma matches_Dot_iff pos s s' :
  matches flags Dot pos s s' <-> exists d, s = d :: s' /\ d <> 0x0A.
Proof.
  split; [inversion 1; eauto | intros [d [-> Hd]]; by apply matches_Dot].
Qed.

Lemma matches_Digit_iff pos s s' :
  matches flags Digit pos s s' <-> exists d, s = d :: s' /\ isdigit d = true.
Proof.
  split; [inversion 1; eauto | intros [d [-> Hd]]; by apply matches_Digit].
Qed.

Lemma matches_Alt_iff r1 r2 pos s s' :
  matches flags (Alt r1 r2) pos s s' <-> matches flags r1 pos s s' \/ matches flags r2 pos s s'.
Proof.
  split; [inversion 1; auto|].
  intros [H|H]; [by apply matches_Alt_l | by apply matches_Alt_r].
Qed.

Lemma matches_Opt_iff r pos s s' :
  matches flags (Opt r) pos s s' <-> matches flags r pos s s' \/ s' = s.
Proof.
  split; [inversion 1; auto|].
  intros [H| ->]; [by apply matches_Opt_some | apply matches_Opt_none].
Qed.

(** A repeated item that takes one character of a kind takes a run of
    characters of the kind. *)
Lemma matches_Plus_chars r (P : char -> Prop) pos s s' :
  (forall pos s s', matches flags r pos s s' <-> exists d, s = d :: s' /\ P d) ->
  matches flags (Plus r) pos s s' <-> exists m, s = m ++ s' /\ m <> [] /\ Forall P m.
Proof.
  intros Hr. split.
  - remember (Plus r) as r0 eqn:Hr0. intros H.
    induction H as [| | | | | | | | |
                    |r' pos s s1 Hm _|r' pos s s1 s2 Hm1 _ Hlt Hm2 IH| | |];
      try discriminate; injection Hr0 as ->.
    + apply Hr in Hm as [d [-> Hd]]. exists [d]. by repeat constructor.
    + apply Hr in Hm1 as [d [-> Hd]]. destruct (IH eq_refl) as [m [-> [_ Hm]]].
      exists (d :: m). by repeat constructor.
  - intros [m [-> [Hne Hm]]]. revert pos.
    induction Hm as [|d m Hd Hm IH]; intros pos; [done|].
    destruct m as [|d' m].
    + apply matches_Plus_one, Hr. by exists d.
    + apply (matches_Plus_more _ _ _ _ ((d' :: m) ++ s')).
      * apply Hr. by exists d.
      * simpl. lia.
      * by apply IH.
Qed.

Lemma matches_Plus_Dot pos s s' :
  matches flags (Plus Dot) pos s s' <->
  exists m, s = m ++ s' /\ m <> [] /\ Forall (fun c => c <> 0x0A) m.
Proof. apply matches_Plus_chars. intros. apply matches_Dot_iff. Qed.

Lemma matches_Plus_Digit pos s s' :
  matches flags (Plus Digit) pos s s' <-> exists d, s = d ++ s' /\ digits d.
Proof.
  rewrite (matches_Plus_chars Digit (fun c => isdigit c = true));
    [done | intros; apply matches_Digit_iff].
Qed.

Lemma matches_lit p pos s s' :
  matches flags (lit p) pos s s' <-> exists q, s = q ++ s' /\ like flags q p.
Proof.
  unfold like. revert pos s. induction p as [|c p IH]; intros pos s.
  - change (lit []) with Empty. rewrite matches_Empty_iff. split.
    + intros ->. exists []. split; [done | constructor].
    + intros [q [-> Hq]]. by inversion Hq.
  - change (lit (c :: p)) with (Cat (Lit c) (lit p)). rewrite matches_Cat_iff. split.
    + intros [s1 [H1 H2]]. apply matches_Lit_iff in H1 as [d [-> Hd]].
      apply IH in H2 as [q [-> Hq]]. exists (d :: q). split; [done | by constructor].
    + intros [q [-> Hq]]. inversion Hq as [|c' d p' q' Hd Hq']; subst.
      exists (q' ++ s'). split; [apply matches_Lit_iff; by exists d|].
      apply IH. by exists q'.
Qed.

(** The point is no letter. *)
Lemma char_matches_point d : char_matches flags 0x2E d = true <-> d = 0x2E.
Proof.
  unfold char_matches.
  assert (iscased 0x2E = false) as -> by (by vm_compute).
  destruct (Nat.testbit flags 1); rewrite N.eqb_eq; split; congruence.
Qed.

Lemma matches_ungroup r pos s s' :
  matches flags r pos s s' <-> matches flags (ungroup r) pos s s'.
Proof.
  split.
  - induction 1; cbn [ungroup]; eauto using matches.
  - revert pos s s'.
    induction r as [| | |c| | |r1 IH1 r2 IH2|r1 IH1 r2 IH2|r IH|r IH|g r IH];
      intros pos s s'; cbn [ungroup]; try done.
    + rewrite !matches_Cat_iff. intros [s1 [H1 H2]]. eauto.
    + rewrite !matches_Alt_iff. intros [H|H]; eauto.
    + remember (Plus (ungroup r)) as r0 eqn:Hr0. intros H.
      induction H as [| | | | | | | | |
                      |r' pos s s1 Hm _|r' pos s s1 s2 Hm1 _ Hlt Hm2 IHm| | |];
        try discriminate; injection Hr0 as ->.
      * apply matches_Plus_one. by apply IH.
      * eapply matches_Plus_more; [by apply IH | done | by apply IHm].
    + rewrite !matches_Opt_iff. intros [H|H]; eauto.
    + intros H. apply matches_Group. by apply IH.
Qed.

(** The names a pattern of the shared shape takes from the start of a
    text, given what the part after the version numbers takes. *)
Lemma versioned_pattern_matches prefix vtag after exts name :
  (forall pos s s',
      matches flags after pos s s' <->
      exists e, s = 0x2E :: e ++ s'
                /\ (exists ext, ext ∈ exts /\ like flags e ext)
                /\ (s' = [] \/ s' = [0x0A])) ->
  (exists s', matches flags (versioned_pattern prefix vtag after) 0 name s') <->
  versioned_name flags prefix vtag exts name.
Proof.
  intros Hafter. unfold versioned_pattern, versioned_name, version_suffix.
  change (py ".") with [0x2E]. split.
  - intros [s' H].
    apply matches_Cat_iff in H as [s1 [H1 H]]. apply matches_Bol_iff in H1 as [_ ->].
    apply matches_Cat_iff in H as [s2 [H2 H]]. apply matches_lit in H2 as [p [-> Hp]].
    apply matches_Cat_iff in H as [s3 [H3 H]].
    apply matches_Plus_Dot in H3 as [m [-> [Hne Hm]]].
    apply matches_Cat_iff in H as [s4 [H4 H]]. apply matches_lit in H4 as [v [-> Hv]].
    apply matches_Cat_iff in H as [s5 [H5 H]].
    apply matches_Plus_Digit in H5 as [major [-> Hmajor]].
    apply matches_Cat_iff in H as [s6 [H6 H]].
    apply matches_Lit_iff in H6 as [d [-> Hd]]. apply char_matches_point in Hd as ->.
    apply matches_Cat_iff in H as [s7 [H7 H]].
    apply matches_Plus_Digit in H7 as [minor [-> Hminor]].
    apply matches_Cat_iff in H as [s8 [H8 H]].
    apply Hafter in H as [e [-> [Hext Hnl]]].
    apply matches_Opt_iff in H8 as [H8 | <-].
    + apply matches_Cat_iff in H8 as [s9 [H9 H8]].
      apply matches_Lit_iff in H9 as [d [-> Hd]]. apply char_matches_point in Hd as ->.
      apply matches_Cat_iff in H8 as [s10 [H10 H8]].
      apply matches_Plus_Digit in H10 as [patch [-> Hpatch]].
      apply matches_Empty_iff in H8 as <-.
      exists p, m, v, major, minor, (Some patch), e, s'.
      split; [|split_and!; try done; by intros x [= <-]].
      cbn [opt_patch]. change (py ".") with [0x2E]. by rewrite <- !app_assoc.
    + exists p, m, v, major, minor, None, e, s'.
      split; [cbn [opt_patch]; by rewrite <- !app_assoc | by split_and!].
  - intros [p [m [v [major [minor [patch [e [nl
      [-> [Hp [Hne [Hm [Hv [Hmajor [Hminor [Hpatch [Hext Hnl]]]]]]]]]]]]]]]]].
    exists nl.
    apply matches_Cat_iff. eexists. split; [by apply matches_Bol_iff|].
    apply matches_Cat_iff. eexists. split; [apply matches_lit; by eexists|].
    apply matches_Cat_iff. eexists. split; [apply matches_Plus_Dot; by eexists|].
    rewrite <- !app_assoc.
    apply matches_Cat_iff. eexists. split; [apply matches_lit; by eexists|].
    apply matches_Cat_iff. eexists. split; [apply matches_Plus_Digit; by eexists|].
    cbn [app].
    apply matches_Cat_iff. eexists. split;
      [apply matches_Lit_iff; eexists; split; [done | by apply char_matches_point]|].
    apply matches_Cat_iff. eexists. split; [apply matches_Plus_Digit; by eexists|].
    apply matches_Cat_iff. exists (0x2E :: e ++ nl). split.
    + apply matches_Opt_iff. destruct patch as [x|]; [left | by right].
      cbn [opt_patch]. change (py ".") with [0x2E]. rewrite <- app_assoc. cbn [app].
      apply matches_Cat_iff. eexists. split;
        [apply matches_Lit_iff; eexists; split; [done | by apply char_matches_point]|].
      apply matches_Cat_iff. eexists. split;
        [apply matches_Plus_Digit; eexists; split; [done | by apply Hpatch]|].
      by apply matches_Empty_iff.
    + apply Hafter. by exists e.
Qed.
End Items.

(** ** The file names the loops take *)

Lemma like_exact flags (text literal : pystr) :
  Nat.testbit flags 1 = false -> like flags text literal <-> text = literal.
Proof.
  intros Hflags. unfold like, char_matches. rewrite Hflags. split.
  - induction 1 as [|c d l t Hcd _ IH]; [done|]. apply N.eqb_eq in Hcd. congruence.
  - intros ->. induction literal as [|c l IH]; constructor; [apply N.eqb_refl | done].
Qed.

Lemma like_IGNORECASE (text literal : pystr) :
  Forall (fun c => c < 0x80) literal ->
  like IGNORECASE text literal <->
  Forall2 (fun c d => d ∈ ignorecase_class c) literal text.
Proof.
  intros Hascii. unfold like. revert text.
  induction Hascii as [|c l Hc _ IH]; intros text.
  - split; inversion 1; constructor.
  - split; inversion 1 as [|? d ? t Hcd Hlt]; subst; constructor.
    + by apply char_matches_ignorecase_class.
    + by apply IH.
    + by apply char_matches_ignorecase_class.
    + by apply IH.
Qed.

(** [\.(xlsx|xls)$] *)
Lemma bom_after_matches flags pos s s' :
  matches flags
    (Cat (Lit 0x2E) (Cat (Alt (lit (py "xlsx")) (lit (py "xls"))) (Cat Eol Empty))) pos s s'
  <-> exists e, s = 0x2E :: e ++ s'
                /\ (exists ext, ext ∈ [py "xlsx"; py "xls"] /\ like flags e ext)
                /\ (s' = [] \/ s' = [0x0A]).
Proof.
  split.
  - intros H. apply matches_Cat_iff in H as [s1 [H1 H]].
    apply matches_Lit_iff in H1 as [d [-> Hd]]. apply char_matches_point in Hd as ->.
    apply matches_Cat_iff in H as [s2 [H2 H]].
    apply matches_Cat_iff in H as [s3 [H3 H]].
    apply matches_Empty_iff in H as <-. apply matches_Eol_iff in H3 as [-> Hnl].
    apply matches_Alt_iff in H2 as [H2|H2]; apply matches_lit in H2 as [e [-> He]];
      exists e; (split; [done|]); (split; [|done]); eexists; (split; [|exact He]).
    + by left.
    + right. by left.
  - intros [e [-> [[ext [Hext He]] Hnl]]].
    apply matches_Cat_iff. eexists. split;
      [apply matches_Lit_iff; eexists; split; [done | by apply char_matches_point]|].
    apply matches_Cat_iff. exists s'. split.
    + apply matches_Alt_iff. rewrite !elem_of_cons, elem_of_nil in Hext.
      destruct Hext as [-> | [-> | []]]; [left | right]; apply matches_lit; by exists e.
    + apply matches_Cat_iff. exists s'. split; [by apply matches_Eol_iff|].
      by apply matches_Empty_iff.
Qed.

(** [\.xlsx$] *)
Lemma accessory_after_matches flags pos s s' :
  matches flags (Cat (lit (py ".xlsx")) (Cat Eol Empty)) pos s s'
  <-> exists e, s = 0x2E :: e ++ s'
                /\ (exists ext, ext ∈ [py "xlsx"] /\ like flags e ext)
                /\ (s' = [] \/ s' = [0x0A]).
Proof.
  change (lit (py ".xlsx")) with (Cat (Lit 0x2E) (lit (py "xlsx"))). split.
  - intros H. apply matches_Cat_iff in H as [s1 [H1 H]].
    apply matches_Cat_iff in H1 as [s0 [H0 H1]].
    apply matches_Lit_iff in H0 as [d [-> Hd]]. apply char_matches_point in Hd as ->.
    apply matches_lit in H1 as [e [-> He]].
    apply matches_Cat_iff in H as [s3 [H3 H]].
    apply matches_Empty_iff in H as <-. apply matches_Eol_iff in H3 as [-> Hnl].
    exists e. split; [done|]. split; [|done]. exists (py "xlsx"). split; [by left | done].
  - intros [e [-> [[ext [Hext He]] Hnl]]]. apply list_elem_of_singleton in Hext as ->.
    apply matches_Cat_iff. exists s'. split.
    + apply matches_Cat_iff. eexists. split;
        [apply matches_Lit_iff; eexists; split; [done | by apply char_matches_point]|].
      apply matches_lit. by exists e.
    + apply matches_Cat_iff. exists s'. split; [by apply matches_Eol_iff|].
      by apply matches_Empty_iff.
Qed.

(** What a file-name pattern, with or without its groups, takes from the
    start of a name. *)
Lemma versioned_pattern_names flags pattern prefix vtag after exts name :
  ungroup pattern = versioned_pattern prefix vtag after ->
  (forall pos s s',
      matches flags after pos s s' <->
      exists e, s = 0x2E :: e ++ s'
                /\ (exists ext, ext ∈ exts /\ like flags e ext)
                /\ (s' = [] \/ s' = [0x0A])) ->
  re_match flags pattern name = true <-> versioned_name flags prefix vtag exts name.
Proof.
  intros Hpattern Hafter. rewrite re_match_matches.
  rewrite <- (versioned_pattern_matches flags prefix vtag after exts name Hafter).
  rewrite <- Hpattern. split; intros [s' H]; exists s'.
  - by apply (proj1 (matches_ungroup _ _ _ _ _)).
  - by apply (proj2 (matches_ungroup _ _ _ _ _)).
Qed.

(** X10. The files of a run. The loop of the BOM script takes the files named
    [BOM_<module>-v<major>.<minor>[.<patch>].xlsx] or [.xls], that of the
    accessory script the files named
    [ModAcc_<module>-V<major>.<minor>[.<patch>].xlsx]: a module part that is
    not empty and holds no newline, version numbers that are runs of decimal
    digits of any script, the literal parts with each letter in either case
    and the long s for an s ([ignorecase_class] lists what an ASCII
    character of a pattern stands for), and possibly a newline after the
    extension. So a name in Arabic-Indic digits and a name that ends in
    [xl] and a long s and [x] are taken, as a name in capitals is. A file
    with another name leaves no trace in the run: no frame and no
    diagnostic. *)
Theorem discovered_file_names :
  (forall name,
      re_match IGNORECASE ExtractBom.bom_file_pattern name = true <->
      versioned_name IGNORECASE (py "BOM_") (py "-v") [py "xlsx"; py "xls"] name)
  /\ (forall name,
      re_match IGNORECASE ModAcc.accessory_file_pattern name = true <->
      versioned_name IGNORECASE (py "ModAcc_") (py "-V") [py "xlsx"] name)
  /\ (forall text literal,
      Forall (fun c => c < 0x80) literal ->
      like IGNORECASE text literal <->
      Forall2 (fun c d => d ∈ ignorecase_class c) literal text)
  /\ (re_match IGNORECASE ExtractBom.bom_file_pattern (py "bom_Power-V2.0.XLSX") = true
      /\ re_match IGNORECASE ExtractBom.bom_file_pattern (py "BOM_c-v١.٢.xlsx") = true
      /\ re_match IGNORECASE ExtractBom.bom_file_pattern (py "BOM_d-v1.0.xlſx") = true
      /\ re_match IGNORECASE ModAcc.accessory_file_pattern (py "modacc_MG811-v1.2.0.xlſx") = true
      /\ re_match IGNORECASE ExtractBom.bom_file_pattern (py "BOM_-v1.0.xlsx") = false
      /\ re_match IGNORECASE ExtractBom.bom_file_pattern (py "BOM_e-v².0.xlsx") = false)
  /\ (forall name read st,
      ~ versioned_name IGNORECASE (py "BOM_") (py "-v") [py "xlsx"; py "xls"] name ->
      ExtractBom.process_file name read st = st)
  /\ (forall name read st,
      ~ versioned_name IGNORECASE (py "ModAcc_") (py "-V") [py "xlsx"] name ->
      ModAcc.process_file name read st = st).
Proof.
  assert (forall name,
             re_match IGNORECASE ExtractBom.bom_file_pattern name = true <->
             versioned_name IGNORECASE (py "BOM_") (py "-v") [py "xlsx"; py "xls"] name)
    as Hbom.
  { intros name. eapply versioned_pattern_names; [reflexivity|].
    intros. apply bom_after_matches. }
  assert (forall name,
             re_match IGNORECASE ModAcc.accessory_file_pattern name = true <->
             versioned_name IGNORECASE (py "ModAcc_") (py "-V") [py "xlsx"] name)
    as Hacc.
  { intros name. eapply versioned_pattern_names; [reflexivity|].
    intros. apply accessory_after_matches. }
  split; [done|]. split; [done|]. split; [apply like_IGNORECASE|].
  split; [repeat split; by vm_compute|]. split.
  - intros name read st Hname. unfold ExtractBom.process_file.
    destruct (re_match _ _ _) eqn:E; [|done]. by apply Hbom in E.
  - intros name read st Hname. unfold ModAcc.process_file.
    destruct (re_match _ _ _) eqn:E; [|done]. by apply Hacc in E.
Qed.

(** ** The module name of a file *)

(** A pattern that begins with [^] matches nowhere but at the start. *)
Lemma sub_from_Bol_later flags r n count made pos s :
  (0 < pos)%nat -> sub_from flags (Cat Bol r) n count made 0 pos s = s.
Proof.
  revert pos made. induction s as [|c s IH]; intros pos made Hpos; [done|].
  cbn [sub_from]. destruct (negb (Nat.eqb count 0) && Nat.leb count made); [done|].
  unfold match_at. cbn [rmatch]. destruct pos as [|pos]; [lia|]. cbn [Nat.eqb].
  f_equal. apply IH. lia.
Qed.

(** A text the pattern does not match is left as it is. *)
Lemma re_sub_no_match flags r n count s :
  re_match flags (Cat Bol r) s = false -> re_sub (Cat Bol r) n s count flags = s.
Proof.
  unfold re_match, re_sub. intros H. apply bool_decide_eq_false in H.
  destruct s as [|c s]; [done|]. cbn [sub_from].
  destruct (negb (Nat.eqb count 0) && Nat.leb count 0); [done|].
  destruct (match_at flags (Cat Bol r) 0 (c :: s)) as [[e caps]|] eqn:E.
  - exfalso. apply H. by eexists.
  - f_equal. apply sub_from_Bol_later. lia.
Qed.

Lemma versioned_name_exact prefix vtag exts name :
  versioned_name 0 prefix vtag exts name ->
  exists m major minor patch ext nl,
    name = prefix ++ m ++ version_suffix vtag major minor patch ext ++ nl
    /\ m <> [] /\ Forall (fun c => c <> 0x0A) m
    /\ digits major /\ digits minor /\ (forall x, patch = Some x -> digits x)
    /\ ext ∈ exts /\ (nl = [] \/ nl = [0x0A]).
Proof.
  intros [p [m [v [major [minor [patch [e [nl
    [-> [Hp [Hne [Hm [Hv [Hmajor [Hminor [Hpatch [[ext [Hext He]] Hnl]]]]]]]]]]]]]]]]].
  apply like_exact in Hp as ->; [|done]. apply like_exact in Hv as ->; [|done].
  apply like_exact in He as ->; [|done].
  by exists m, major, minor, patch, ext, nl.
Qed.

Lemma not_versioned_name prefix vtag exts name :
  startswith name prefix = false \/ contains name vtag = false ->
  ~ versioned_name 0 prefix vtag exts name.
Proof.
  intros Hname Hshape. apply versioned_name_exact in Hshape
    as [m [major [minor [patch [ext [nl [-> _]]]]]]].
  destruct Hname as [H|H].
  - rewrite (proj2 (startswith_spec _ _)) in H; [done|].
    by exists (m ++ version_suffix vtag major minor patch ext ++ nl).
  - rewrite (proj2 (contains_spec _ _)) in H; [done|].
    exists (prefix ++ m). unfold version_suffix. eexists.
    rewrite <- !app_assoc. reflexivity.
Qed.

(** X11. The module name the two self-purchase scripts give a file. A name
    written in the letter case of the pattern, [BOM_<module>-v...] or
    [ModAcc_<module>-V...xlsx], gives its module part. The substitution is
    done without [IGNORECASE], so for every other name the whole file name
    stays: for every name that does not begin with [BOM_] ([ModAcc_]) or
    holds no [-v] ([-V]), whatever the loop, whose pattern ignores case,
    has made of it. A name without newline whose module name is not the
    name itself is of that shape, and its module name is its module
    part. *)
Theorem module_name_of_cases :
  (forall m major minor patch ext,
      m <> [] -> Forall (fun c => c <> 0x0A) m ->
      digits major -> digits minor -> (forall x, patch = Some x -> digits x) ->
      ext ∈ [py "xlsx"; py "xls"] ->
      ExtractBom.module_name_of
        (py "BOM_" ++ m ++ version_suffix (py "-v") major minor patch ext) = m)
  /\ (forall name,
      ~ versioned_name 0 (py "BOM_") (py "-v") [py "xlsx"; py "xls"] name ->
      ExtractBom.module_name_of name = name)
  /\ (forall name,
      startswith name (py "BOM_") = false \/ contains name (py "-v") = false ->
      ExtractBom.module_name_of name = name)
  /\ (forall name,
      0x0A ∉ name -> ExtractBom.module_name_of name <> name ->
      exists m major minor patch ext,
        name = py "BOM_" ++ m ++ version_suffix (py "-v") major minor patch ext
        /\ m <> [] /\ digits major /\ digits minor /\ (forall x, patch = Some x -> digits x)
        /\ ext ∈ [py "xlsx"; py "xls"]
        /\ ExtractBom.module_name_of name = m)
  /\ (forall m major minor patch,
      m <> [] -> Forall (fun c => c <> 0x0A) m ->
      digits major -> digits minor -> (forall x, patch = Some x -> digits x) ->
      ModAcc.module_name_of
        (py "ModAcc_" ++ m ++ version_suffix (py "-V") major minor patch (py "xlsx")) = m)
  /\ (forall name,
      ~ versioned_name 0 (py "ModAcc_") (py "-V") [py "xlsx"] name ->
      ModAcc.module_name_of name = name)
  /\ (forall name,
      startswith name (py "ModAcc_") = false \/ contains name (py "-V") = false ->
      ModAcc.module_name_of name = name)
  /\ (forall name,
      0x0A ∉ name -> ModAcc.module_name_of name <> name ->
      exists m major minor patch,
        name = py "ModAcc_" ++ m ++ version_suffix (py "-V") major minor patch (py "xlsx")
        /\ m <> [] /\ digits major /\ digits minor /\ (forall x, patch = Some x -> digits x)
        /\ ModAcc.module_name_of name = m)
  /\ (forall text literal, like 0 text literal <-> text = literal).
Proof.
  assert (forall name,
             re_match 0 ExtractBom.module_name_pattern name = true <->
             versioned_name 0 (py "BOM_") (py "-v") [py "xlsx"; py "xls"] name) as Hbom_shape.
  { intros name. eapply versioned_pattern_names; [reflexivity|].
    intros. apply bom_after_matches. }
  assert (forall name,
             re_match 0 ModAcc.module_name_pattern name = true <->
             versioned_name 0 (py "ModAcc_") (py "-V") [py "xlsx"] name) as Hacc_shape.
  { intros name. eapply versioned_pattern_names; [reflexivity|].
    intros. apply accessory_after_matches. }
  assert (forall name,
             re_match 0 ExtractBom.module_name_pattern name = false ->
             ExtractBom.module_name_of name = name) as Hbom_none
    by (intros name; apply (re_sub_no_match 0)).
  assert (forall name,
             re_match 0 ModAcc.module_name_pattern name = false ->
             ModAcc.module_name_of name = name) as Hacc_none
    by (intros name; apply (re_sub_no_match 0)).
  assert (forall name,
             ~ versioned_name 0 (py "BOM_") (py "-v") [py "xlsx"; py "xls"] name ->
             ExtractBom.module_name_of name = name) as Hbom.
  { intros name Hname. apply Hbom_none, not_true_is_false. by rewrite Hbom_shape. }
  assert (forall name,
             ~ versioned_name 0 (py "ModAcc_") (py "-V") [py "xlsx"] name ->
             ModAcc.module_name_of name = name) as Hacc.
  { intros name Hname. apply Hacc_none, not_true_is_false. by rewrite Hacc_shape. }
  assert (forall (name m t nl : pystr),
             0x0A ∉ name -> name = m ++ t ++ nl -> nl = [] \/ nl = [0x0A] -> nl = [])
    as Hnewline.
  { intros name m t nl Hname -> [-> | ->]; [done|].
    exfalso. apply Hname. rewrite !elem_of_app. right. right. by left. }
  split; [intros; by apply bom_module_name_of_exact_case|].
  split; [done|]. split; [intros; by apply Hbom, not_versioned_name|]. split.
  { intros name Hnl Hne.
    destruct (re_match 0 ExtractBom.module_name_pattern name) eqn:Hshape;
      [|by apply Hbom_none in Hshape].
    apply Hbom_shape in Hshape.
    apply versioned_name_exact in Hshape
      as [m [major [minor [patch [ext [nl [Hname [Hm [Hm' [Hmajor [Hminor [Hpatch
         [Hext Hnewl]]]]]]]]]]]]].
    assert (nl = []) as ->.
    { apply (Hnewline name (py "BOM_" ++ m) (version_suffix (py "-v") major minor patch ext));
        [done | by rewrite <- app_assoc | done]. }
    rewrite app_nil_r in Hname. subst name.
    exists m, major, minor, patch, ext. split_and!; try done.
    by apply bom_module_name_of_exact_case. }
  split; [intros; by apply accessory_module_name_of_exact_case|].
  split; [done|]. split; [intros; by apply Hacc, not_versioned_name|].
  split; [|intros; by apply like_exact].
  intros name Hnl Hne.
  destruct (re_match 0 ModAcc.module_name_pattern name) eqn:Hshape;
    [|by apply Hacc_none in Hshape].
  apply Hacc_shape in Hshape.
  apply versioned_name_exact in Hshape
    as [m [major [minor [patch [ext [nl [Hname [Hm [Hm' [Hmajor [Hminor [Hpatch
       [Hext Hnewl]]]]]]]]]]]]].
  apply list_elem_of_singleton in Hext as ->.
  assert (nl = []) as ->.
  { apply (Hnewline name (py "ModAcc_" ++ m)
             (version_suffix (py "-V") major minor patch (py "xlsx")));
      [done | by rewrite <- app_assoc | done]. }
  rewrite app_nil_r in Hname. subst name.
  exists m, major, minor, patch. split_and!; try done.
  by apply accessory_module_name_of_exact_case.
Qed.

(* ===================================================================== *)
(** * From the generated lists to the accessory run                       *)
(* ===================================================================== *)

Lemma like_refl flags (text : pystr) : like flags text text.
Proof.
  unfold like. induction text as [|c text IH]; constructor; [|done].
  apply char_matches_refl.
Qed.

(** The folder names [module_folder_pattern] takes. *)
Lemma module_folder_pattern_matches folder_name :
  re_match 0 ModAccListGen.module_folder_pattern folder_name = true ->
  exists stem kind major minor patch nl,
    folder_name
    = stem ++ kind ++ py "-V" ++ major ++ py "." ++ minor ++ opt_patch patch ++ nl
    /\ stem <> [] /\ kind ∈ [py "模块"; py "扩展板"]
    /\ digits major /\ digits minor /\ (forall x, patch = Some x -> digits x)
    /\ (nl = [] \/ nl = [0x0A]).
Proof.
  rewrite re_match_matches. intros [s' H]. apply matches_ungroup in H.
  change (ungroup ModAccListGen.module_folder_pattern)
    with (Cat (Plus Dot)
            (Cat (Alt (lit (py "模块")) (lit (py "扩展板")))
               (Cat (lit (py "-V"))
                  (Cat (Plus Digit)
                     (Cat (Lit 0x2E)
                        (Cat (Plus Digit)
                           (Cat (Opt (Cat (Lit 0x2E) (Cat (Plus Digit) Empty)))
                              (Cat Eol Empty)))))))) in H.
  change (py ".") with [0x2E].
  apply matches_Cat_iff in H as [s1 [H1 H]].
  apply matches_Plus_Dot in H1 as [stem [-> [Hne Hstem]]].
  apply matches_Cat_iff in H as [s2 [H2 H]].
  assert (exists kind, s1 = kind ++ s2 /\ kind ∈ [py "模块"; py "扩展板"])
    as [kind [-> Hkind]].
  { apply matches_Alt_iff in H2 as [H2|H2]; apply matches_lit in H2 as [q [-> Hq]];
      apply like_exact in Hq as ->; try done; eexists; (split; [done|]).
    - by left.
    - right. by left. }
  apply matches_Cat_iff in H as [s3 [H3 H]]. apply matches_lit in H3 as [v [-> Hv]].
  apply like_exact in Hv as ->; [|done].
  apply matches_Cat_iff in H as [s4 [H4 H]].
  apply matches_Plus_Digit in H4 as [major [-> Hmajor]].
  apply matches_Cat_iff in H as [s5 [H5 H]].
  apply matches_Lit_iff in H5 as [d [-> Hd]]. apply char_matches_point in Hd as ->.
  apply matches_Cat_iff in H as [s6 [H6 H]].
  apply matches_Plus_Digit in H6 as [minor [-> Hminor]].
  apply matches_Cat_iff in H as [s7 [H7 H]].
  apply matches_Cat_iff in H as [s8 [H8 H]].
  apply matches_Empty_iff in H. apply matches_Eol_iff in H8 as [H8 Hnl]. subst s' s8.
  apply matches_Opt_iff in H7 as [H7 | H7].
  - apply matches_Cat_iff in H7 as [s9 [H9 H7]].
    apply matches_Lit_iff in H9 as [d [-> Hd]]. apply char_matches_point in Hd as ->.
    apply matches_Cat_iff in H7 as [s10 [H10 H7]].
    apply matches_Plus_Digit in H10 as [patch [-> Hpatch]].
    apply matches_Empty_iff in H7. subst s10.
    exists stem, kind, major, minor, (Some patch), s7.
    split; [|split_and!; try done; by intros x [= <-]].
    cbn [opt_patch]. change (py ".") with [0x2E]. by rewrite <- !app_assoc.
  - subst s6. exists stem, kind, major, minor, None, s7.
    split; [reflexivity | by split_and!].
Qed.

(** X20. The list [mod_acc_list_gen.py] writes into a module folder is a file
    the accessory script takes: its name is one the loop finds, the module
    name taken from it is the name of the folder without its version, and
    its header row is the mandatory columns (for a folder name without a
    newline at its end, which the folder pattern lets pass). *)
Theorem generated_list_is_processed :
  (forall folder_name,
      ModAccListGen.is_module_folder folder_name = true -> 0x0A ∉ folder_name ->
      exists stem kind major minor patch,
        folder_name = stem ++ kind ++ py "-V" ++ major ++ py "." ++ minor ++ opt_patch patch
        /\ stem <> [] /\ kind ∈ [py "模块"; py "扩展板"]
        /\ digits major /\ digits minor /\ (forall x, patch = Some x -> digits x)
        /\ re_match IGNORECASE ModAcc.accessory_file_pattern
             (ModAccListGen.list_filename folder_name) = true
        /\ ModAcc.module_name_of (ModAccListGen.list_filename folder_name) = stem ++ kind)
  /\ ModAccListGen.list_columns = ModAcc.core_columns.
Proof.
  split; [|done]. intros folder_name Hfolder Hnl.
  unfold ModAccListGen.is_module_folder in Hfolder. apply andb_true_iff in Hfolder as [Hfolder _].
  apply module_folder_pattern_matches in Hfolder
    as [stem [kind [major [minor [patch [nl [Hname [Hstem [Hkind [Hmajor [Hminor [Hpatch
        Hnewl]]]]]]]]]]]].
  assert (nl = []) as ->.
  { destruct Hnewl as [-> | ->]; [done|]. exfalso. apply Hnl. rewrite Hname.
    rewrite !elem_of_app. do 7 right. by left. }
  rewrite app_nil_r in Hname.
  exists stem, kind, major, minor, patch. split_and!; try done.
  - apply (proj2 (versioned_pattern_names IGNORECASE ModAcc.accessory_file_pattern
                    (py "ModAcc_") (py "-V") (Cat (lit (py ".xlsx")) (Cat Eol Empty))
                    [py "xlsx"] _ eq_refl (accessory_after_matches IGNORECASE))).
    exists (py "ModAcc_"), (stem ++ kind), (py "-V"), major, minor, patch, (py "xlsx"), [].
    split.
    { unfold ModAccListGen.list_filename, version_suffix. rewrite Hname.
      change (py ".xlsx") with (py "." ++ py "xlsx"). by rewrite app_nil_r, <- !app_assoc. }
    split; [apply like_refl|]. split; [by destruct stem|]. split.
    { apply Forall_forall. intros c Hc ->. apply Hnl. rewrite Hname.
      rewrite app_assoc, elem_of_app. by left. }
    split; [apply like_refl|]. split; [done|]. split; [done|]. split; [done|].
    split; [|by left]. exists (py "xlsx"). split; [by left | apply like_refl].
  - unfold ModAccListGen.list_filename. rewrite Hname.
    replace (py "ModAcc_" ++ (stem ++ kind ++ py "-V" ++ major ++ py "." ++ minor
                               ++ opt_patch patch) ++ py ".xlsx")
      with (py "ModAcc_" ++ (stem ++ kind)
              ++ version_suffix (py "-V") major minor patch (py "xlsx")).
    + apply accessory_module_name_of_exact_case; try done.
      * by destruct stem.
      * apply Forall_forall. intros c Hc ->. apply Hnl. rewrite Hname.
        rewrite app_assoc, elem_of_app. by left.
    + unfold version_suffix. change (py ".xlsx") with (py "." ++ py "xlsx").
      by rewrite <- !app_assoc.
Qed.

(* ===================================================================== *)
(** * The sheet of the non-self-purchase parts                            *)
(* ===================================================================== *)

Lemma set_values_cell (ws : worksheet) (current_row : nat) (value : pystr -> pystr)
    (headers : list pystr) (start r c : nat) :
  fold_left (fun ws '(col, header) => set_value ws current_row col (value header))
            (enumerate headers start) ws r c
  = match (if bool_decide (r = current_row /\ (start <= c)%nat) then headers !! (c - start)%nat
           else None) with
    | Some header => {| cell_value := Some (value header); cell_bold := cell_bold (ws r c);
                        cell_fill := cell_fill (ws r c) |}
    | None => ws r c
    end.
Proof.
  revert ws start. induction headers as [|h headers IH]; intros ws start.
  - cbn [enumerate fold_left]. by case_bool_decide.
  - cbn [enumerate fold_left]. rewrite IH. unfold set_value, update_cell.
    destruct (decide (r = current_row)) as [-> | Hr].
    + destruct (lt_eq_lt_dec c start) as [[Hc | ->] | Hc].
      * rewrite !bool_decide_eq_false_2 by lia. done.
      * rewrite (bool_decide_eq_false_2 (_ /\ (S start <= start)%nat)) by lia.
        rewrite !bool_decide_eq_true_2 by lia. rewrite Nat.sub_diag. done.
      * rewrite (bool_decide_eq_true_2 (_ /\ (S start <= c)%nat)) by lia.
        rewrite (bool_decide_eq_true_2 (_ /\ (start <= c)%nat)) by lia.
        rewrite (bool_decide_eq_false_2 (_ /\ c = start)) by lia.
        replace (c - start)%nat with (S (c - S start)) by lia. done.
    + rewrite !bool_decide_eq_false_2 by tauto. done.
Qed.

Lemma set_fills_cell (ws : worksheet) (current_row : nat) (fill : PatternFill)
    (start len r c : nat) :
  fold_left (fun ws col => set_fill ws current_row col fill) (seq start len) ws r c
  = if bool_decide (r = current_row /\ (start <= c < start + len)%nat)
    then {| cell_value := cell_value (ws r c); cell_bold := cell_bold (ws r c);
            cell_fill := Some fill |}
    else ws r c.
Proof.
  revert ws start. induction len as [|len IH]; intros ws start.
  - cbn [seq fold_left]. rewrite bool_decide_eq_false_2 by lia. done.
  - cbn [seq fold_left]. rewrite IH. unfold set_fill, update_cell.
    destruct (decide (r = current_row)) as [-> | Hr].
    + destruct (decide (c = start)) as [-> | Hc].
      * rewrite (bool_decide_eq_false_2 (_ /\ (S start <= start < _)%nat)) by lia.
        rewrite !bool_decide_eq_true_2 by lia. done.
      * rewrite (bool_decide_eq_false_2 (_ /\ c = start)) by lia.
        destruct (decide (S start <= c < S start + len)%nat).
        -- rewrite !bool_decide_eq_true_2 by lia. done.
        -- rewrite !bool_decide_eq_false_2 by lia. done.
    + rewrite !bool_decide_eq_false_2 by tauto. done.
Qed.

Lemma set_headers_cell (ws : worksheet) (current_row : nat) (headers : list pystr)
    (start r c : nat) :
  fold_left (fun ws '(col, header) =>
               set_header_font (set_value ws current_row col header) current_row col)
            (enumerate headers start) ws r c
  = match (if bool_decide (r = current_row /\ (start <= c)%nat)
           then headers !! (c - start)%nat else None) with
    | Some header => {| cell_value := Some header; cell_bold := true;
                        cell_fill := cell_fill (ws r c) |}
    | None => ws r c
    end.
Proof.
  revert ws start. induction headers as [|h headers IH]; intros ws start.
  - cbn [enumerate fold_left]. by case_bool_decide.
  - cbn [enumerate fold_left]. rewrite IH.
    unfold set_header_font, set_value, update_cell.
    destruct (decide (r = current_row)) as [-> | Hr].
    + destruct (lt_eq_lt_dec c start) as [[Hc | ->] | Hc].
      * rewrite !bool_decide_eq_false_2 by lia. done.
      * rewrite (bool_decide_eq_false_2 (_ /\ (S start <= start)%nat)) by lia.
        rewrite !bool_decide_eq_true_2 by lia. rewrite Nat.sub_diag. done.
      * rewrite (bool_decide_eq_true_2 (_ /\ (S start <= c)%nat)) by lia.
        rewrite (bool_decide_eq_true_2 (_ /\ (start <= c)%nat)) by lia.
        rewrite !(bool_decide_eq_false_2 (_ /\ c = start)) by lia.
        replace (c - start)%nat with (S (c - S start)) by lia. done.
    + rewrite !bool_decide_eq_false_2 by tauto. done.
Qed.

Lemma write_row_cell {R} (item : R -> pystr -> pystr) headers idx (row : R)
    (ws : worksheet) current_row r c :
  write_row item headers idx row ws current_row r c
  = match (if bool_decide (r = current_row /\ (1 <= c)%nat)
           then headers !! (c - 1)%nat else None) with
    | Some header => {| cell_value := Some (item row header);
                        cell_bold := cell_bold (ws r c);
                        cell_fill := Some (row_fill idx) |}
    | None => ws r c
    end.
Proof.
  unfold write_row. cbv zeta. rewrite set_fills_cell.
  rewrite (set_values_cell ws current_row (item row) headers 1 r c).
  fold (row_fill idx).
  destruct (decide (r = current_row /\ (1 <= c)%nat)) as [[-> Hc] | Hn].
  - rewrite (bool_decide_eq_true_2 (_ /\ (1 <= c)%nat)) by lia.
    destruct (headers !! (c - 1)%nat) as [header|] eqn:E.
    + apply lookup_lt_Some in E. rewrite bool_decide_eq_true_2 by lia. done.
    + apply lookup_ge_None in E. rewrite bool_decide_eq_false_2 by lia. done.
  - rewrite (bool_decide_eq_false_2 (_ /\ (1 <= c)%nat)) by done.
    rewrite bool_decide_eq_false_2 by lia. done.
Qed.

Lemma write_rows_from_cell {R} (item : R -> pystr -> pystr) headers (df : list R)
    (ws : worksheet) current_row idx r c :
  let res :=
    fold_left (fun '(ws, current_row) '(idx, row) =>
                 (write_row item headers idx row ws current_row, S current_row))
              (enumerate df idx) (ws, current_row) in
  snd res = (current_row + length df)%nat
  /\ fst res r c
     = match (if bool_decide ((current_row <= r)%nat /\ (1 <= c)%nat)
              then df !! (r - current_row)%nat else None),
             headers !! (c - 1)%nat with
       | Some row, Some header =>
         {| cell_value := Some (item row header); cell_bold := cell_bold (ws r c);
            cell_fill := Some (row_fill (idx + (r - current_row))) |}
       | _, _ => ws r c
       end.
Proof.
  cbv zeta. revert ws current_row idx. induction df as [|row df IH]; intros ws current_row idx.
  - cbn [enumerate fold_left fst snd length]. split; [lia|]. by case_bool_decide.
  - cbn [enumerate fold_left length].
    destruct (IH (write_row item headers idx row ws current_row) (S current_row) (S idx))
      as [-> ->].
    split; [lia|]. rewrite write_row_cell.
    destruct (lt_eq_lt_dec r current_row) as [[Hr | ->] | Hr].
    + rewrite !bool_decide_eq_false_2 by lia. done.
    + rewrite (bool_decide_eq_false_2 (_ /\ (1 <= c)%nat)) by lia.
      rewrite Nat.sub_diag, Nat.add_0_r. cbn [lookup list_lookup].
      destruct (decide (1 <= c)%nat).
      * rewrite !bool_decide_eq_true_2 by lia. done.
      * rewrite !bool_decide_eq_false_2 by lia. done.
    + rewrite (bool_decide_eq_false_2 (r = current_row /\ _)) by lia.
      replace (r - current_row)%nat with (S (r - S current_row)) by lia.
      replace (S idx + (r - S current_row))%nat with (idx + S (r - S current_row))%nat by lia.
      destruct (decide (1 <= c)%nat).
      * rewrite !bool_decide_eq_true_2 by lia. done.
      * rewrite !bool_decide_eq_false_2 by lia. done.
Qed.

Lemma write_rows_cell {R} (item : R -> pystr -> pystr) headers (df : list R)
    (ws : worksheet) current_row r c :
  snd (write_rows item headers df ws current_row) = (current_row + length df)%nat
  /\ fst (write_rows item headers df ws current_row) r c
     = match (if bool_decide ((current_row <= r)%nat /\ (1 <= c)%nat)
              then df !! (r - current_row)%nat else None),
             headers !! (c - 1)%nat with
       | Some row, Some header =>
         {| cell_value := Some (item row header); cell_bold := cell_bold (ws r c);
            cell_fill := Some (row_fill (S (r - current_row))) |}
       | _, _ => ws r c
       end.
Proof. exact (write_rows_from_cell item headers df ws current_row 1 r c). Qed.

Lemma format_excel_file_cell regular_df special_df r c :
  format_excel_file regular_df special_df r c
  = let n := length regular_df in
    let w1 :=
      match (if bool_decide (r = 1%nat /\ (1 <= c)%nat)
             then regular_headers !! (c - 1)%nat else None) with
      | Some header => header_cell header
      | None => empty_cell
      end in
    let w2 :=
      match (if bool_decide ((2 <= r)%nat /\ (1 <= c)%nat)
             then regular_df !! (r - 2)%nat else None),
            regular_headers !! (c - 1)%nat with
      | Some row, Some header =>
        {| cell_value := Some (regular_item row header); cell_bold := cell_bold w1;
           cell_fill := Some (row_fill (S (r - 2))) |}
      | _, _ => w1
      end in
    match special_df with
    | [] => w2
    | _ :: _ =>
      let w3 :=
        if bool_decide (r = (n + 3)%nat /\ c = 1%nat)
        then {| cell_value := Some special_title; cell_bold := true;
                cell_fill := cell_fill w2 |}
        else w2 in
      let w4 :=
        match (if bool_decide (r = (n + 4)%nat /\ (1 <= c)%nat)
               then special_headers !! (c - 1)%nat else None) with
        | Some header => {| cell_value := Some header; cell_bold := true;
                            cell_fill := cell_fill w3 |}
        | None => w3
        end in
      match (if bool_decide ((n + 5 <= r)%nat /\ (1 <= c)%nat)
             then special_df !! (r - (n + 5))%nat else None),
            special_headers !! (c - 1)%nat with
      | Some row, Some header =>
        {| cell_value := Some (special_item row header); cell_bold := cell_bold w4;
           cell_fill := Some (row_fill (S (r - (n + 5)))) |}
      | _, _ => w4
      end
    end.
Proof.
  unfold format_excel_file. cbv zeta.
  destruct (write_rows regular_item regular_headers regular_df
              (write_headers new_sheet 1 regular_headers) 2) as [w2 row2] eqn:E2.
  pose proof (fun r c => write_rows_cell regular_item regular_headers regular_df
                           (write_headers new_sheet 1 regular_headers) 2 r c) as H2.
  rewrite E2 in H2. cbn [fst snd] in H2.
  assert (row2 = (2 + length regular_df)%nat) as -> by apply (H2 0%nat 0%nat).
  assert (forall r c, write_headers new_sheet 1 regular_headers r c
                      = match (if bool_decide (r = 1%nat /\ (1 <= c)%nat)
                               then regular_headers !! (c - 1)%nat else None) with
                        | Some header => header_cell header
                        | None => empty_cell
                        end) as H1.
  { intros r' c'. unfold write_headers. rewrite set_headers_cell. done. }
  destruct special_df as [|s0 special_df].
  - rewrite (proj2 (H2 r c)), H1. done.
  - set (special := s0 :: special_df).
    set (n := length regular_df).
    set (w3 := set_header_font (set_value w2 (S (2 + n)) 1 special_title) (S (2 + n)) 1).
    assert (forall r c, w3 r c
                        = if bool_decide (r = (n + 3)%nat /\ c = 1%nat)
                          then {| cell_value := Some special_title; cell_bold := true;
                                  cell_fill := cell_fill (w2 r c) |}
                          else w2 r c) as H3.
    { intros r' c'. unfold w3, set_header_font, set_value, update_cell.
      replace (S (2 + n)) with (n + 3)%nat by lia.
      destruct (bool_decide (r' = (n + 3)%nat /\ c' = 1%nat)); done. }
    set (w4 := write_headers w3 (S (S (2 + n))) special_headers).
    assert (forall r c, w4 r c
                        = match (if bool_decide (r = (n + 4)%nat /\ (1 <= c)%nat)
                                 then special_headers !! (c - 1)%nat else None) with
                          | Some header => {| cell_value := Some header; cell_bold := true;
                                              cell_fill := cell_fill (w3 r c) |}
                          | None => w3 r c
                          end) as H4.
    { intros r' c'. unfold w4, write_headers. rewrite set_headers_cell.
      replace (S (S (2 + n))) with (n + 4)%nat by lia. done. }
    rewrite (proj2 (write_rows_cell _ _ _ _ _ _ _)).
    replace (S (S (S (2 + n)))) with (n + 5)%nat by lia.
    rewrite !H4, !H3, !(proj2 (H2 r c)), !H1. done.
Qed.

Lemma regular_item_headers (row : regular_row) :
  map (regular_item row) regular_headers = [r_type row; r_name row; r_number row].
Proof.
  unfold regular_headers, regular_item. cbn [map].
  rewrite (bool_decide_eq_true_2 (py "元器件类型" = py "元器件类型")) by done.
  rewrite (bool_decide_eq_false_2 (py "元器件名字" = py "元器件类型")) by by_compute.
  rewrite (bool_decide_eq_true_2 (py "元器件名字" = py "元器件名字")) by done.
  rewrite (bool_decide_eq_false_2 (py "元器件编号" = py "元器件类型")) by by_compute.
  rewrite (bool_decide_eq_false_2 (py "元器件编号" = py "元器件名字")) by by_compute.
  done.
Qed.

Lemma special_item_headers (row : special_row) :
  map (special_item row) special_headers
  = [s_module row; s_type row; s_name row; s_number row].
Proof.
  unfold special_headers, special_item. cbn [map].
  rewrite (bool_decide_eq_true_2 (py "模块名称" = py "模块名称")) by done.
  rewrite (bool_decide_eq_false_2 (py "元器件类型" = py "模块名称")) by by_compute.
  rewrite (bool_decide_eq_true_2 (py "元器件类型" = py "元器件类型")) by done.
  rewrite (bool_decide_eq_false_2 (py "元器件名字" = py "模块名称")) by by_compute.
  rewrite (bool_decide_eq_false_2 (py "元器件名字" = py "元器件类型")) by by_compute.
  rewrite (bool_decide_eq_true_2 (py "元器件名字" = py "元器件名字")) by done.
  rewrite (bool_decide_eq_false_2 (py "元器件编号" = py "模块名称")) by by_compute.
  rewrite (bool_decide_eq_false_2 (py "元器件编号" = py "元器件类型")) by by_compute.
  rewrite (bool_decide_eq_false_2 (py "元器件编号" = py "元器件名字")) by by_compute.
  done.
Qed.

(** A row of the sheet, read off cell by cell. *)
Lemma sheet_row_lookup (ws : worksheet) (row width : nat) (cells : list sheet_cell) :
  length cells = width ->
  (forall j x, cells !! j = Some x -> ws row (S j) = x) ->
  sheet_row ws row width = cells.
Proof.
  intros Hlen Hcells. unfold sheet_row. apply list_eq. intros j.
  rewrite list_lookup_fmap. destruct (cells !! j) as [x|] eqn:E.
  - rewrite lookup_seq_lt by (apply lookup_lt_Some in E; lia). cbn.
    f_equal. by apply Hcells.
  - rewrite lookup_seq_ge by (apply lookup_ge_None in E; lia). done.
Qed.

(** X9. The layout of the sheet of non-self-purchase parts. Row 1 holds the
    three headers of the regular table in bold; the regular rows follow
    from row 2 on, each with its type, name and number, the first white, the
    second gray, and so on in turn. When there are special rows, a row is
    left empty, the title stands in the first cell of the next, the four
    headers of the special table in the row after it, and the special rows
    follow, filled in turn in the same way from white on. Nothing else is
    written: without special rows the sheet ends with the regular table. *)
Theorem format_excel_file_layout regular_df special_df :
  let ws := format_excel_file regular_df special_df in
  let n := length regular_df in
  sheet_row ws 1 3 = map header_cell regular_headers
  /\ (forall i row, regular_df !! i = Some row ->
        sheet_row ws (2 + i) 3
        = map (data_cell (row_fill (S i))) [r_type row; r_name row; r_number row])
  /\ (special_df <> [] ->
        ws (n + 3)%nat 1%nat = header_cell special_title
        /\ sheet_row ws (n + 4) 4 = map header_cell special_headers
        /\ forall i row, special_df !! i = Some row ->
             sheet_row ws (n + 5 + i) 4
             = map (data_cell (row_fill (S i)))
                   [s_module row; s_type row; s_name row; s_number row])
  /\ (forall r c, ws r c <> empty_cell ->
        ((1 <= r <= n + 1)%nat /\ (1 <= c <= 3)%nat)
        \/ (special_df <> []
            /\ ((r = (n + 3)%nat /\ c = 1%nat)
                \/ ((n + 4 <= r <= n + 4 + length special_df)%nat /\ (1 <= c <= 4)%nat)))).
Proof.
  cbv zeta.
  assert (length regular_headers = 3%nat) as Hregular by done.
  assert (length special_headers = 4%nat) as Hspecial by done.
  split; [|split; [|split]].
  - apply sheet_row_lookup; [by rewrite length_map|]. intros j x Hx.
    rewrite list_lookup_fmap in Hx.
    destruct (regular_headers !! j) as [header|] eqn:E; [|done]. injection Hx as <-.
    rewrite format_excel_file_cell. cbv zeta. decide_cells.
    replace (S j - 1)%nat with j by lia. rewrite E.
    destruct special_df; [done|]. decide_cells. done.
  - intros i row Hrow. rewrite <- regular_item_headers, <- list_fmap_compose.
    apply sheet_row_lookup; [by rewrite length_map|]. intros j x Hx.
    rewrite list_lookup_fmap in Hx.
    destruct (regular_headers !! j) as [header|] eqn:E; [|done]. injection Hx as <-.
    rewrite format_excel_file_cell. cbv zeta. decide_cells.
    replace (S j - 1)%nat with j by lia. replace (2 + i - 2)%nat with i by lia.
    rewrite E, Hrow. apply lookup_lt_Some in Hrow.
    destruct special_df; [done|]. decide_cells. done.
  - intros Hsome. destruct special_df as [|s0 special_df]; [done|].
    set (special := s0 :: special_df). split; [|split].
    + rewrite format_excel_file_cell. cbv zeta. unfold special. decide_cells.
      replace (length regular_df + 3 - 2)%nat with (S (length regular_df)) by lia.
      rewrite (lookup_ge_None_2 regular_df (S (length regular_df))) by lia. done.
    + apply sheet_row_lookup; [by rewrite length_map|]. intros j x Hx.
      rewrite list_lookup_fmap in Hx.
      destruct (special_headers !! j) as [header|] eqn:E; [|done]. injection Hx as <-.
      rewrite format_excel_file_cell. cbv zeta. unfold special. decide_cells.
      replace (S j - 1)%nat with j by lia. rewrite E.
      replace (length regular_df + 4 - 2)%nat with (S (S (length regular_df))) by lia.
      rewrite (lookup_ge_None_2 regular_df (S (S (length regular_df)))) by lia. done.
    + intros i row Hrow.
      rewrite <- special_item_headers, <- list_fmap_compose.
      apply sheet_row_lookup; [by rewrite length_map|]. intros j x Hx.
      rewrite list_lookup_fmap in Hx.
      destruct (special_headers !! j) as [header|] eqn:E; [|done]. injection Hx as <-.
      rewrite format_excel_file_cell. cbv zeta. unfold special in *. decide_cells.
      replace (S j - 1)%nat with j by lia.
      replace (length regular_df + 5 + i - (length regular_df + 5))%nat with i by lia.
      rewrite E, Hrow.
      rewrite (lookup_ge_None_2 regular_df (length regular_df + 5 + i - 2)) by lia. done.
  - intros r c. rewrite format_excel_file_cell. cbv zeta.
    destruct special_df as [|s0 special_df].
    + repeat case_bool_decide;
        repeat (match goal with
                | |- context [?l !! ?i] => destruct (l !! i) eqn:?
                end);
        try done; intros _; left;
        repeat (match goal with
                | H : _ !! _ = Some _ |- _ => apply lookup_lt_Some in H
                end); lia.
    + set (special := s0 :: special_df).
      assert (special <> []) as Hsome by done.
      repeat case_bool_decide;
        repeat (match goal with
                | |- context [?l !! ?i] => destruct (l !! i) eqn:?
                end);
        try done; intros _;
        repeat (match goal with
                | H : _ !! _ = Some _ |- _ => apply lookup_lt_Some in H
                end);
        first [ left; lia | right; split; [done|]; first [ left; lia | right; lia ] ].
Qed.
